(** * gorest-translatable: request validation, statement assembly and
      HTTP mapping, embedded from the Go sources.

    The repository holds two variants of the same plugin: a locale-aware one
    (tables [translations], fiber handlers, [database.Database]) and a simpler
    one without locales ([net/http] handlers over a [Repository]).  Both are
    embedded, in [Module Locale] and [Module Simple].

    Go values are represented as the code has them: a Go [string] is a byte
    sequence, here [string] (a list of 8-bit [ascii]); a Go [int] is a [Z];
    a nil-able pointer is an [option]; [error] is an inductive with its
    [Error()] text. *)

From Stdlib Require Import String Ascii List ZArith NArith Lia Bool.
From Stdlib Require Import DecimalString.
Import ListNotations.

Local Open Scope string_scope.
Local Open Scope Z_scope.

(** ** The parts of the Go standard library the code calls *)

Module Go.

(** [len(s)] as a Go [int]. *)
Definition len (s : string) : Z := Z.of_nat (String.length s).

Definition byte_of (n : N) : ascii := ascii_of_N n.
Definition code (c : ascii) : N := N_of_ascii c.

Definition nl : string := String (byte_of 10) EmptyString.
Definition tab : string := String (byte_of 9) EmptyString.

(** *** strings.TrimSpace

    White space is [unicode.IsSpace]: the six ASCII bytes of [asciiSpace],
    U+0085, U+00A0, U+1680, U+2000..U+200A, U+2028, U+2029, U+202F, U+205F
    and U+3000.  A Go string is bytes, and the decoder reads an ill-formed
    sequence as U+FFFD (one byte wide, not a space), so the first (last)
    rune is white space exactly when the string starts (ends) with the
    UTF-8 encoding of one of these code points. *)

Definition asciiSpace (c : ascii) : bool :=
  match code c with
  | 9%N | 10%N | 11%N | 12%N | 13%N | 32%N => true
  | _ => false
  end.

(** U+0085 = C2 85, U+00A0 = C2 A0. *)
Definition isSpace2 (c0 c1 : ascii) : bool :=
  match code c0, code c1 with
  | 194%N, 133%N | 194%N, 160%N => true
  | _, _ => false
  end.

(** U+1680 = E1 9A 80; U+2000..U+200A = E2 80 80..8A; U+2028 = E2 80 A8;
    U+2029 = E2 80 A9; U+202F = E2 80 AF; U+205F = E2 81 9F;
    U+3000 = E3 80 80. *)
Definition isSpace3 (c0 c1 c2 : ascii) : bool :=
  match code c0, code c1, code c2 with
  | 225%N, 154%N, 128%N => true
  | 226%N, 128%N, n => ((128 <=? n) && (n <=? 138))%N
                       || (n =? 168)%N || (n =? 169)%N || (n =? 175)%N
  | 226%N, 129%N, 159%N => true
  | 227%N, 128%N, 128%N => true
  | _, _, _ => false
  end.

(** [TrimLeftFunc(s, unicode.IsSpace)]. *)
Fixpoint TrimLeftSpace (s : string) : string :=
  match s with
  | EmptyString => s
  | String c0 r0 =>
      if asciiSpace c0 then TrimLeftSpace r0
      else
        match r0 with
        | EmptyString => s
        | String c1 r1 =>
            if isSpace2 c0 c1 then TrimLeftSpace r1
            else
              match r1 with
              | EmptyString => s
              | String c2 r2 =>
                  if isSpace3 c0 c1 c2 then TrimLeftSpace r2 else s
              end
        end
  end.

(** The same scan from the end, on the reversed byte list: an encoding
    shows up last byte first. *)
Fixpoint dropSpaceRev (l : list ascii) : list ascii :=
  match l with
  | [] => l
  | c0 :: r0 =>
      if asciiSpace c0 then dropSpaceRev r0
      else
        match r0 with
        | [] => l
        | c1 :: r1 =>
            if isSpace2 c1 c0 then dropSpaceRev r1
            else
              match r1 with
              | [] => l
              | c2 :: r2 =>
                  if isSpace3 c2 c1 c0 then dropSpaceRev r2 else l
              end
        end
  end.

(** [TrimRightFunc(s, unicode.IsSpace)]. *)
Definition TrimRightSpace (s : string) : string :=
  string_of_list_ascii
    (List.rev (dropSpaceRev (List.rev (list_ascii_of_string s)))).

Definition TrimSpace (s : string) : string :=
  TrimRightSpace (TrimLeftSpace s).

(** *** html.EscapeString: the replacer of the five bytes
    [&], ['], [<], [>] and the double quote. *)

Definition escapeByte (c : ascii) : string :=
  match code c with
  | 38%N => "&amp;"
  | 39%N => "&#39;"
  | 60%N => "&lt;"
  | 62%N => "&gt;"
  | 34%N => "&#34;"
  | _ => String c EmptyString
  end.

Fixpoint EscapeString (s : string) : string :=
  match s with
  | EmptyString => EmptyString
  | String c r => escapeByte c ++ EscapeString r
  end.

(** *** strings.Contains *)

Fixpoint Contains (s sub : string) : bool :=
  if String.prefix sub s then true
  else match s with
       | EmptyString => false
       | String _ r => Contains r sub
       end.

(** [strings.Repeat] of a one-byte string. *)
Fixpoint Repeat (c : ascii) (n : nat) : string :=
  match n with
  | O => EmptyString
  | S k => String c (Repeat c k)
  end.

(** *** strconv.Itoa and the [%d] verb *)

Definition Itoa (n : Z) : string := NilZero.string_of_int (Z.to_int n).

(** *** strconv.Atoi: an optional sign, then one or more decimal digits;
    a value outside the 64-bit [int] is a range error. *)

Definition digit (c : ascii) : option Z :=
  let n := code c in
  if ((48 <=? n) && (n <=? 57))%N then Some (Z.of_N n - 48) else None.

Fixpoint digits (acc : Z) (s : string) : option Z :=
  match s with
  | EmptyString => Some acc
  | String c r =>
      match digit c with
      | Some d => digits (acc * 10 + d) r
      | None => None
      end
  end.

Definition minInt : Z := - 2 ^ 63.
Definition maxInt : Z := 2 ^ 63 - 1.

Definition Atoi (s : string) : option Z :=
  let '(neg, body) :=
    match s with
    | String c r =>
        if (code c =? 45)%N then (true, r)
        else if (code c =? 43)%N then (false, r)
        else (false, s)
    | EmptyString => (false, s)
    end in
  match body with
  | EmptyString => None
  | _ =>
      match digits 0 body with
      | Some n =>
          let v := if neg then - n else n in
          if (minInt <=? v) && (v <=? maxInt) then Some v else None
      | None => None
      end
  end.

End Go.

(** ** Values shared by both variants *)

(** [uuid.UUID] is a [[16]byte]. *)
Inductive UUID : Type := mkUUID (bytes : string).

Definition UUID_eqb (a b : UUID) : bool :=
  match a, b with mkUUID x, mkUUID y => String.eqb x y end.

(** [time.Time], as an instant on the clock. *)
Definition Time : Type := Z.

(** Go [error] values: [errors.New(msg)] (also [fmt.Errorf] without [%w]),
    the drivers' no-rows sentinels, and [fmt.Errorf] with a [%w] verb closing
    the format ([prefix] is the text before the verb). *)
Inductive error : Type :=
| errors_New (msg : string)
| pgx_ErrNoRows
| sql_ErrNoRows
| fmt_Errorf_w (prefix : string) (inner : error).

(** [err.Error()]. *)
Fixpoint Error (e : error) : string :=
  match e with
  | errors_New msg => msg
  | pgx_ErrNoRows => "no rows in result set"
  | sql_ErrNoRows => "sql: no rows in result set"
  | fmt_Errorf_w prefix inner => prefix ++ Error inner
  end.

(** [errors.Is(err, target)] for a sentinel [target]: identity along the
    [%w] chain. *)
Fixpoint errors_Is (e target : error) : bool :=
  match e, target with
  | pgx_ErrNoRows, pgx_ErrNoRows => true
  | sql_ErrNoRows, sql_ErrNoRows => true
  | fmt_Errorf_w _ inner, _ => errors_Is inner target
  | _, _ => false
  end.

(** The value found under ["user_id"] in the request context: an
    [interface{}], nil when absent. *)
Inductive CtxValue : Type :=
| CtxNil
| CtxUUID (u : UUID)
| CtxString (s : string)
| CtxOther (dyn : Z).

(** A statement argument ([interface{}] in [args ...interface{}]). *)
Inductive Arg : Type :=
| AUUID (u : UUID)
| AOptUUID (u : option UUID)
| AString (s : string)
| AInt (n : Z)
| ATime (t : Time).

(** [database.Result] / [sql.Result]: what [RowsAffected()] returns. *)
Definition Result : Type := (error + Z)%type.

(** [Rows]: the outcome of [Scan] for each row that [Next()] yields, then
    [Err()]. *)
Record Rows (Row : Type) : Type := mkRows {
  rows_scans : list (error + Row);
  rows_Err : option error
}.
Arguments mkRows {Row}.
Arguments rows_scans {Row}.
Arguments rows_Err {Row}.

(** The database handle ([database.Database], [*sql.DB]), an external
    collaborator: a state and the three calls the code makes, each given the
    statement text and its arguments.  [QueryRowScan] is
    [QueryRow(...).Scan(&t.ID, ...)] into a row, [QueryRowScanInt] is
    [QueryRow(...).Scan(&total)]. *)
Record Database (St Row : Type) : Type := mkDatabase {
  Exec : string -> list Arg -> St -> (error + Result) * St;
  QueryRowScan : string -> list Arg -> St -> (error + Row) * St;
  QueryRowScanInt : string -> list Arg -> St -> (error + Z) * St;
  Query : string -> list Arg -> St -> (error + Rows Row) * St
}.
Arguments Exec {St Row}.
Arguments QueryRowScan {St Row}.
Arguments QueryRowScanInt {St Row}.
Arguments Query {St Row}.

(** The clock and the identifier source ([time.Now()], [uuid.New()]). *)
Record Env : Type := mkEnv {
  uuid_New : UUID;
  time_Now : Time
}.

(** The [for rows.Next()] loop: scan each row, stop at the first scan
    error. *)
Fixpoint scanAll {Row : Type} (scans : list (error + Row)) (results : list Row)
  : error + list Row :=
  match scans with
  | [] => inr results
  | inl err :: _ => inl err
  | inr t :: rest => scanAll rest (results ++ [t])%list
  end.

(** ** The locale-aware variant *)

Module Locale.

(** *** config.go *)

Record Config : Type := mkConfig {
  AllowedTypes : list string;
  SupportedLocales : list string;
  DefaultLocale : string;
  PaginationLimit : Z;
  MaxPaginationLimit : Z;
  MaxContentLength : Z
}.

(** [seen[t]] for the [map[string]bool] of the duplicate scan, kept as the
    list of keys set so far. *)
Definition seen_get (seen : list string) (t : string) : bool :=
  existsb (String.eqb t) seen.

(** The [for _, t := range c.AllowedTypes] loop. *)
Fixpoint rangeAllowedTypes (seen : list string) (l : list string)
  : option error :=
  match l with
  | [] => None
  | t :: rest =>
      if (t =? "")%string then
        Some (errors_New "allowed_types cannot contain empty strings")
      else if seen_get seen t then
        Some (errors_New ("duplicate type in allowed_types: " ++ t))
      else rangeAllowedTypes (t :: seen) rest
  end.

Definition validateAllowedTypes (c : Config) : option error :=
  if (Z.of_nat (List.length (AllowedTypes c)) =? 0)%Z then
    Some (errors_New "allowed_types cannot be empty")
  else rangeAllowedTypes [] (AllowedTypes c).

(** The [for _, locale := range c.SupportedLocales] loop. *)
Fixpoint rangeSupportedLocales (seen : list string) (l : list string)
  : option error :=
  match l with
  | [] => None
  | locale :: rest =>
      if (locale =? "")%string then
        Some (errors_New "supported_locales cannot contain empty strings")
      else if seen_get seen locale then
        Some (errors_New
                ("duplicate locale in supported_locales: " ++ locale))
      else rangeSupportedLocales (locale :: seen) rest
  end.

Definition validateSupportedLocales (c : Config) : option error :=
  if (Z.of_nat (List.length (SupportedLocales c)) =? 0)%Z then
    Some (errors_New "supported_locales cannot be empty")
  else rangeSupportedLocales [] (SupportedLocales c).

Fixpoint rangeDefaultLocale (def : string) (l : list string) : option error :=
  match l with
  | [] =>
      Some (errors_New "default_locale must be one of the supported_locales")
  | locale :: rest =>
      if (locale =? def)%string then None else rangeDefaultLocale def rest
  end.

Definition validateDefaultLocale (c : Config) : option error :=
  if (DefaultLocale c =? "")%string then
    Some (errors_New "default_locale cannot be empty")
  else rangeDefaultLocale (DefaultLocale c) (SupportedLocales c).

Definition applyDefaults (c : Config) : Config :=
  let c :=
    if PaginationLimit c <=? 0 then
      mkConfig (AllowedTypes c) (SupportedLocales c) (DefaultLocale c)
               20 (MaxPaginationLimit c) (MaxContentLength c)
    else c in
  let c :=
    if MaxPaginationLimit c <=? 0 then
      mkConfig (AllowedTypes c) (SupportedLocales c) (DefaultLocale c)
               (PaginationLimit c) 100 (MaxContentLength c)
    else c in
  if MaxContentLength c <=? 0 then
    mkConfig (AllowedTypes c) (SupportedLocales c) (DefaultLocale c)
             (PaginationLimit c) (MaxPaginationLimit c) 10240
  else c.

(** [func (c *Config) Validate() error]: the configuration as the call
    leaves it, and the error. *)
Definition Validate (c : Config) : Config * option error :=
  match validateAllowedTypes c with
  | Some err => (c, Some err)
  | None =>
  match validateSupportedLocales c with
  | Some err => (c, Some err)
  | None =>
  match validateDefaultLocale c with
  | Some err => (c, Some err)
  | None =>
      let c := applyDefaults c in
      if (MaxContentLength c <? 1) || (MaxContentLength c >? 1048576) then
        (c, Some (errors_New
                    "max_content_length must be between 1 and 1048576 bytes"))
      else (c, None)
  end end end.

Fixpoint rangeEq (l : list string) (x : string) : bool :=
  match l with
  | [] => false
  | y :: rest => if (y =? x)%string then true else rangeEq rest x
  end.

Definition IsAllowedType (c : Config) (typeName : string) : bool :=
  rangeEq (AllowedTypes c) typeName.

Definition IsSupportedLocale (c : Config) (locale : string) : bool :=
  rangeEq (SupportedLocales c) locale.

Definition DefaultConfig : Config :=
  mkConfig ["post"] ["en"; "fr"; "es"] "en" 20 100 10240.

(** *** models.go *)

Record Translatable : Type := mkTranslatable {
  t_ID : UUID;
  t_UserID : option UUID;
  t_TranslatableID : UUID;
  t_Translatable : string;
  t_Locale : string;
  t_Content : string;
  t_UpdatedAt : option Time;
  t_CreatedAt : Time
}.

Record CreateTranslatableRequest : Type := mkCreate {
  cr_TranslatableID : string;
  cr_Translatable : string;
  cr_Locale : string;
  cr_Content : string
}.

Record UpdateTranslatableRequest : Type := mkUpdate {
  ur_Locale : string;
  ur_Content : string
}.

Record QueryParams : Type := mkQueryParams {
  q_TranslatableID : option UUID;
  q_Translatable : option string;
  q_Locale : option string;
  q_UserID : option UUID;
  q_Limit : Z;
  q_Offset : Z
}.

Definition cr_set_Content (r : CreateTranslatableRequest) (s : string) :=
  mkCreate (cr_TranslatableID r) (cr_Translatable r) (cr_Locale r) s.

Definition ur_set_Content (r : UpdateTranslatableRequest) (s : string) :=
  mkUpdate (ur_Locale r) s.

Definition q_set_Limit (q : QueryParams) (n : Z) :=
  mkQueryParams (q_TranslatableID q) (q_Translatable q) (q_Locale q)
                (q_UserID q) n (q_Offset q).

(** [func (q *QueryParams) Validate(config *Config) error]. *)
Definition QueryParams_Validate (config : Config) (q : QueryParams)
  : QueryParams * option error :=
  let q := if q_Limit q =? 0 then q_set_Limit q (PaginationLimit config)
           else q in
  if (q_Limit q <? 1) || (q_Limit q >? MaxPaginationLimit config) then
    (q, Some (errors_New "limit out of range"))
  else if q_Offset q <? 0 then
    (q, Some (errors_New "offset must be non-negative"))
  else
    match q_Locale q with
    | Some locale =>
        if negb (IsSupportedLocale config locale) then
          (q, Some (errors_New "locale is not supported"))
        else (q, None)
    | None => (q, None)
    end.

(** [func (r *UpdateTranslatableRequest) Validate(config *Config) error]:
    the request as the call leaves it, and the error. *)
Definition Update_Validate (config : Config) (r : UpdateTranslatableRequest)
  : UpdateTranslatableRequest * option error :=
  if negb (IsSupportedLocale config (ur_Locale r)) then
    (r, Some (errors_New "locale is not supported"))
  else
    let r := ur_set_Content r (Go.TrimSpace (ur_Content r)) in
    if (ur_Content r =? "")%string then
      (r, Some (errors_New "content cannot be empty"))
    else if Go.len (ur_Content r) >? MaxContentLength config then
      (r, Some (errors_New "content exceeds maximum length"))
    else
      (ur_set_Content r (Go.EscapeString (ur_Content r)), None).

Section WithUuid.

(** [uuid.Parse] of github.com/google/uuid, an external package. *)
Variable uuid_Parse : string -> error + UUID.

(** [func (r *CreateTranslatableRequest) Validate(config *Config) error]. *)
Definition Create_Validate (config : Config)
           (r : CreateTranslatableRequest)
  : CreateTranslatableRequest * option error :=
  match uuid_Parse (cr_TranslatableID r) with
  | inl _ => (r, Some (errors_New "translatable_id must be a valid UUID"))
  | inr _ =>
      if negb (IsAllowedType config (cr_Translatable r)) then
        (r, Some (errors_New "translatable type is not allowed"))
      else if negb (IsSupportedLocale config (cr_Locale r)) then
        (r, Some (errors_New "locale is not supported"))
      else
        let r := cr_set_Content r (Go.TrimSpace (cr_Content r)) in
        if (cr_Content r =? "")%string then
          (r, Some (errors_New "content cannot be empty"))
        else if Go.len (cr_Content r) >? MaxContentLength config then
          (r, Some (errors_New "content exceeds maximum length"))
        else
          (cr_set_Content r (Go.EscapeString (cr_Content r)), None)
  end.

Definition ToTranslatable (env : Env) (r : CreateTranslatableRequest)
           (userID : option UUID) : error + Translatable :=
  match uuid_Parse (cr_TranslatableID r) with
  | inl err => inl err
  | inr translatableID =>
      inr (mkTranslatable (uuid_New env) userID translatableID
                          (cr_Translatable r) (cr_Locale r)
                          (cr_Content r) None (time_Now env))
  end.

(** *** resource.go: the fiber handlers and their database methods *)

(** What a handler reads from a [*fiber.Ctx]: the [:id] route parameter,
    the query string, the ["user_id"] local, and the outcome of
    [BodyParser] for either request shape. *)
Record Ctx : Type := mkCtx {
  c_Params_id : string;
  c_Query : string -> string;
  c_Locals_user_id : CtxValue;
  c_BodyParser_create : error + CreateTranslatableRequest;
  c_BodyParser_update : error + UpdateTranslatableRequest
}.

(** The JSON payloads the handlers send. *)
Inductive JSON : Type :=
| J_error (msg : string)
| J_translatable (t : Translatable)
| J_collection (totalItems : Z) (member : list Translatable)
| J_message (msg : string).

Record Response : Type := mkResponse {
  Status : Z;
  Payload : JSON
}.

Definition StatusOK : Z := 200.
Definition StatusCreated : Z := 201.
Definition StatusBadRequest : Z := 400.
Definition StatusNotFound : Z := 404.
Definition StatusInternalServerError : Z := 500.

Definition getUserIDFromFiberContext (c : Ctx) : option UUID :=
  match c_Locals_user_id c with
  | CtxNil => None
  | CtxUUID uid => Some uid
  | CtxString uidStr =>
      match uuid_Parse uidStr with
      | inr uid => Some uid
      | inl _ => None
      end
  | CtxOther _ => None
  end.

Section WithDatabase.

Variable St : Type.
Variable db : Database St Translatable.

Definition createQuery : string :=
  Go.nl ++ Go.tab ++ Go.tab ++
  "INSERT INTO translations (id, user_id, translatable_id, translatable, locale, content, created_at)"
  ++ Go.nl ++ Go.tab ++ Go.tab ++
  "VALUES ($1, $2, $3, $4, $5, $6, $7)" ++ Go.nl ++ Go.tab.

Definition createArgs (t : Translatable) : list Arg :=
  [AUUID (t_ID t); AOptUUID (t_UserID t); AUUID (t_TranslatableID t);
   AString (t_Translatable t); AString (t_Locale t);
   AString (t_Content t); ATime (t_CreatedAt t)].

Definition createInDB (t : Translatable) (st : St) : option error * St :=
  let '(r, st) := Exec db createQuery (createArgs t) st in
  (match r with inl err => Some err | inr _ => None end, st).

Definition getByIDQuery : string :=
  Go.nl ++ Go.tab ++ Go.tab ++
  "SELECT id, user_id, translatable_id, translatable, locale, content, updated_at, created_at"
  ++ Go.nl ++ Go.tab ++ Go.tab ++ "FROM translations"
  ++ Go.nl ++ Go.tab ++ Go.tab ++ "WHERE id = $1" ++ Go.nl ++ Go.tab.

Definition getByIDFromDB (id : UUID) (st : St)
  : (error + Translatable) * St :=
  QueryRowScan db getByIDQuery [AUUID id] st.

Definition selectQuery : string :=
  Go.nl ++ Go.tab ++ Go.tab ++
  "SELECT id, user_id, translatable_id, translatable, locale, content, updated_at, created_at"
  ++ Go.nl ++ Go.tab ++ Go.tab ++ "FROM translations"
  ++ Go.nl ++ Go.tab ++ Go.tab ++ "WHERE 1=1" ++ Go.nl ++ Go.tab.

Definition countSelect : string :=
  "SELECT COUNT(*) FROM translations WHERE 1=1".

(** The four filter blocks of [queryFromDB]: the state
    [(query, countQuery, args, argCount)] after them. *)
Definition queryFilters (params : QueryParams)
  : string * string * list Arg * Z :=
  let query := selectQuery in
  let countQuery := countSelect in
  let args : list Arg := [] in
  let argCount := 1 in
  let '(query, countQuery, args, argCount) :=
    match q_TranslatableID params with
    | Some v =>
        let clause := " AND translatable_id = $" ++ Go.Itoa argCount in
        (query ++ clause, countQuery ++ clause,
         (args ++ [AUUID v])%list, argCount + 1)
    | None => (query, countQuery, args, argCount)
    end in
  let '(query, countQuery, args, argCount) :=
    match q_Translatable params with
    | Some v =>
        let clause := " AND translatable = $" ++ Go.Itoa argCount in
        (query ++ clause, countQuery ++ clause,
         (args ++ [AString v])%list, argCount + 1)
    | None => (query, countQuery, args, argCount)
    end in
  let '(query, countQuery, args, argCount) :=
    match q_Locale params with
    | Some v =>
        let clause := " AND locale = $" ++ Go.Itoa argCount in
        (query ++ clause, countQuery ++ clause,
         (args ++ [AString v])%list, argCount + 1)
    | None => (query, countQuery, args, argCount)
    end in
  match q_UserID params with
  | Some v =>
      let clause := " AND user_id = $" ++ Go.Itoa argCount in
      (query ++ clause, countQuery ++ clause,
       (args ++ [AUUID v])%list, argCount + 1)
  | None => (query, countQuery, args, argCount)
  end.

(** The page statement: [query] and [args] once ORDER BY, LIMIT and
    OFFSET are added. *)
Definition queryPage (params : QueryParams) : string * list Arg :=
  let '(query, _, args, argCount) := queryFilters params in
  let query := query ++ " ORDER BY created_at DESC" in
  let query := query ++ (" LIMIT $" ++ Go.Itoa argCount ++ " OFFSET $"
                         ++ Go.Itoa (argCount + 1)) in
  (query, (args ++ [AInt (q_Limit params); AInt (q_Offset params)])%list).

(** The count statement, as it is when [QueryRow] runs it. *)
Definition queryCount (params : QueryParams) : string * list Arg :=
  let '(_, countQuery, args, _) := queryFilters params in
  (countQuery, args).

(** [queryFromDB] returns [(results, total, err)]. *)
Definition queryFromDB (params : QueryParams) (st : St)
  : (list Translatable * Z * option error) * St :=
  let '(countQuery, cargs) := queryCount params in
  let '(r, st) := QueryRowScanInt db countQuery cargs st in
  match r with
  | inl err => (([], 0, Some err), st)
  | inr total =>
      let '(query, args) := queryPage params in
      let '(r, st) := Query db query args st in
      match r with
      | inl err => (([], 0, Some err), st)
      | inr rows =>
          match scanAll (rows_scans rows) [] with
          | inl err => (([], 0, Some err), st)
          | inr results => ((results, total, rows_Err rows), st)
          end
      end
  end.

Definition updateQuery : string :=
  Go.nl ++ Go.tab ++ Go.tab ++ "UPDATE translations"
  ++ Go.nl ++ Go.tab ++ Go.tab ++
  "SET content = $1, locale = $2, updated_at = $3"
  ++ Go.nl ++ Go.tab ++ Go.tab ++ "WHERE id = $4" ++ Go.nl ++ Go.tab.

(** The statement [updateInDB] hands to [Exec]. *)
Definition updateStmt (env : Env) (id : UUID) (content locale : string)
           (userID : option UUID) : string * list Arg :=
  let query := updateQuery in
  let args := [AString content; AString locale; ATime (time_Now env);
               AUUID id] in
  match userID with
  | Some u => (query ++ " AND user_id = $5", (args ++ [AUUID u])%list)
  | None => (query, args)
  end.

Definition updateInDB (env : Env) (id : UUID) (content locale : string)
           (userID : option UUID) (st : St) : option error * St :=
  let '(query, args) := updateStmt env id content locale userID in
  let '(r, st) := Exec db query args st in
  match r with
  | inl err => (Some err, st)
  | inr result =>
      match result with
      | inl err => (Some err, st)
      | inr rowsAffected =>
          if rowsAffected =? 0 then
            match userID with
            | Some _ =>
                (Some (errors_New
                   "translation not found or you don't have permission to update it"),
                 st)
            | None => (Some (errors_New "translation not found"), st)
            end
          else (None, st)
      end
  end.

Definition deleteQuery : string := "DELETE FROM translations WHERE id = $1".

(** The statement [deleteFromDB] hands to [Exec]. *)
Definition deleteStmt (id : UUID) (userID : option UUID)
  : string * list Arg :=
  let query := deleteQuery in
  let args := [AUUID id] in
  match userID with
  | Some u => (query ++ " AND user_id = $2", (args ++ [AUUID u])%list)
  | None => (query, args)
  end.

Definition deleteFromDB (id : UUID) (userID : option UUID) (st : St)
  : option error * St :=
  let '(query, args) := deleteStmt id userID in
  let '(r, st) := Exec db query args st in
  match r with
  | inl err => (Some err, st)
  | inr result =>
      match result with
      | inl err => (Some err, st)
      | inr rowsAffected =>
          if rowsAffected =? 0 then
            match userID with
            | Some _ =>
                (Some (errors_New
                   "translation not found or you don't have permission to delete it"),
                 st)
            | None => (Some (errors_New "translation not found"), st)
            end
          else (None, st)
      end
  end.

Definition respond (status : Z) (payload : JSON) (st : St)
  : Response * St :=
  (mkResponse status payload, st).

(** [func (r *TranslatableResource) Create(c *fiber.Ctx) error]. *)
Definition Create (config : Config) (env : Env) (c : Ctx) (st : St)
  : Response * St :=
  match c_BodyParser_create c with
  | inl _ => respond StatusBadRequest (J_error "Invalid request body") st
  | inr req =>
      match Create_Validate config req with
      | (_, Some err) => respond StatusBadRequest (J_error (Error err)) st
      | (req, None) =>
          let userID := getUserIDFromFiberContext c in
          match ToTranslatable env req userID with
          | inl err => respond StatusBadRequest (J_error (Error err)) st
          | inr translatable =>
              match createInDB translatable st with
              | (Some _, st) =>
                  respond StatusInternalServerError
                          (J_error "Failed to create translation") st
              | (None, st) =>
                  respond StatusCreated (J_translatable translatable) st
              end
          end
      end
  end.

(** [func (r *TranslatableResource) GetByID(c *fiber.Ctx) error]. *)
Definition GetByID (c : Ctx) (st : St) : Response * St :=
  match uuid_Parse (c_Params_id c) with
  | inl _ => respond StatusBadRequest (J_error "Invalid ID") st
  | inr id =>
      match getByIDFromDB id st with
      | (inl err, st) =>
          if errors_Is err pgx_ErrNoRows then
            respond StatusNotFound (J_error "Translation not found") st
          else
            respond StatusInternalServerError
                    (J_error "Failed to get translation") st
      | (inr translatable, st) =>
          respond StatusOK (J_translatable translatable) st
      end
  end.

(** The parsing half of [Query]: the [QueryParams] built from the query
    string, or the 400 response of an unparsable identifier. *)
Definition parseQueryParams (config : Config) (c : Ctx)
  : Response + QueryParams :=
  let params := mkQueryParams None None None None
                              (PaginationLimit config) 0 in
  let translatableIDStr := c_Query c "translatable_id" in
  match
    (if negb (translatableIDStr =? "")%string then
       match uuid_Parse translatableIDStr with
       | inr id =>
           inr (mkQueryParams (Some id) (q_Translatable params)
                  (q_Locale params) (q_UserID params)
                  (q_Limit params) (q_Offset params))
       | inl _ =>
           inl (mkResponse StatusBadRequest
                           (J_error "Invalid translatable_id"))
       end
     else inr params)
  with
  | inl resp => inl resp
  | inr params =>
  let translatable := c_Query c "translatable" in
  let params :=
    if negb (translatable =? "")%string then
      mkQueryParams (q_TranslatableID params) (Some translatable)
        (q_Locale params) (q_UserID params)
        (q_Limit params) (q_Offset params)
    else params in
  let locale := c_Query c "locale" in
  let params :=
    if negb (locale =? "")%string then
      mkQueryParams (q_TranslatableID params) (q_Translatable params)
        (Some locale) (q_UserID params)
        (q_Limit params) (q_Offset params)
    else params in
  let userIDStr := c_Query c "user_id" in
  match
    (if negb (userIDStr =? "")%string then
       match uuid_Parse userIDStr with
       | inr id =>
           inr (mkQueryParams (q_TranslatableID params)
                  (q_Translatable params) (q_Locale params) (Some id)
                  (q_Limit params) (q_Offset params))
       | inl _ =>
           inl (mkResponse StatusBadRequest (J_error "Invalid user_id"))
       end
     else inr params)
  with
  | inl resp => inl resp
  | inr params =>
  let limitStr := c_Query c "limit" in
  let params :=
    if negb (limitStr =? "")%string then
      match Go.Atoi limitStr with
      | Some limit => q_set_Limit params limit
      | None => params
      end
    else params in
  let offsetStr := c_Query c "offset" in
  let params :=
    if negb (offsetStr =? "")%string then
      match Go.Atoi offsetStr with
      | Some offset =>
          mkQueryParams (q_TranslatableID params) (q_Translatable params)
            (q_Locale params) (q_UserID params) (q_Limit params) offset
      | None => params
      end
    else params in
  inr params
  end end.

(** [func (r *TranslatableResource) Query(c *fiber.Ctx) error]. *)
Definition Query (config : Config) (c : Ctx) (st : St) : Response * St :=
  match parseQueryParams config c with
  | inl resp => (resp, st)
  | inr params =>
      match QueryParams_Validate config params with
      | (_, Some err) => respond StatusBadRequest (J_error (Error err)) st
      | (params, None) =>
          match queryFromDB params st with
          | ((_, _, Some _), st) =>
              respond StatusInternalServerError
                      (J_error "Failed to query translations") st
          | ((results, total, None), st) =>
              respond StatusOK (J_collection total results) st
          end
      end
  end.

(** [func (r *TranslatableResource) Update(c *fiber.Ctx) error]. *)
Definition Update (config : Config) (env : Env) (c : Ctx) (st : St)
  : Response * St :=
  match uuid_Parse (c_Params_id c) with
  | inl _ => respond StatusBadRequest (J_error "Invalid ID") st
  | inr id =>
      match c_BodyParser_update c with
      | inl _ =>
          respond StatusBadRequest (J_error "Invalid request body") st
      | inr req =>
          match Update_Validate config req with
          | (_, Some err) =>
              respond StatusBadRequest (J_error (Error err)) st
          | (req, None) =>
              let userID := getUserIDFromFiberContext c in
              match updateInDB env id (ur_Content req) (ur_Locale req)
                               userID st with
              | (Some err, st) =>
                  if (Error err =? "translation not found")%string
                     || (Error err =?
                         "translation not found or you don't have permission to update it")%string
                  then respond StatusNotFound (J_error (Error err)) st
                  else respond StatusInternalServerError
                               (J_error "Failed to update translation") st
              | (None, st) =>
                  match getByIDFromDB id st with
                  | (inl _, st) =>
                      respond StatusInternalServerError
                        (J_error "Failed to get updated translation") st
                  | (inr translatable, st) =>
                      respond StatusOK (J_translatable translatable) st
                  end
              end
          end
      end
  end.

(** [func (r *TranslatableResource) Delete(c *fiber.Ctx) error]. *)
Definition Delete (c : Ctx) (st : St) : Response * St :=
  match uuid_Parse (c_Params_id c) with
  | inl _ => respond StatusBadRequest (J_error "Invalid ID") st
  | inr id =>
      let userID := getUserIDFromFiberContext c in
      match deleteFromDB id userID st with
      | (Some err, st) =>
          if (Error err =? "translation not found")%string
             || (Error err =?
                 "translation not found or you don't have permission to delete it")%string
          then respond StatusNotFound (J_error (Error err)) st
          else respond StatusInternalServerError
                       (J_error "Failed to delete translation") st
      | (None, st) =>
          respond StatusOK
                  (J_message "Translation deleted successfully") st
      end
  end.

End WithDatabase.

End WithUuid.

End Locale.

(** ** The variant without locales *)

Module Simple.

(** *** config.go *)

Record Config : Type := mkConfig {
  AllowedTables : list string;
  MaxContentLength : Z
}.

Definition seen_get (seen : list string) (t : string) : bool :=
  existsb (String.eqb t) seen.

(** The [for _, table := range c.AllowedTables] loop. *)
Fixpoint rangeAllowedTables (seen : list string) (l : list string)
  : option error :=
  match l with
  | [] => None
  | table :: rest =>
      if (table =? "")%string then
        Some (errors_New "allowed_tables cannot contain empty strings")
      else if seen_get seen table then
        Some (errors_New ("duplicate table name in allowed_tables: " ++ table))
      else rangeAllowedTables (table :: seen) rest
  end.

Definition Validate (c : Config) : Config * option error :=
  if (Z.of_nat (List.length (AllowedTables c)) =? 0)%Z then
    (c, Some (errors_New "allowed_tables cannot be empty"))
  else
    match rangeAllowedTables [] (AllowedTables c) with
    | Some err => (c, Some err)
    | None =>
        let c := if MaxContentLength c =? 0
                 then mkConfig (AllowedTables c) 10240 else c in
        if (MaxContentLength c <? 1) || (MaxContentLength c >? 1048576) then
          (c, Some (errors_New
                      "max_content_length must be between 1 and 1048576 bytes"))
        else (c, None)
    end.

Fixpoint rangeEq (l : list string) (x : string) : bool :=
  match l with
  | [] => false
  | y :: rest => if (y =? x)%string then true else rangeEq rest x
  end.

Definition IsAllowedTable (c : Config) (tableName : string) : bool :=
  rangeEq (AllowedTables c) tableName.

Definition DefaultConfig : Config := mkConfig ["posts"; "articles"] 10240.

(** *** models.go *)

Record Translatable : Type := mkTranslatable {
  t_ID : UUID;
  t_UserID : option UUID;
  t_TranslatableID : UUID;
  t_Translatable : string;
  t_Content : string;
  t_UpdatedAt : option Time;
  t_CreatedAt : Time
}.

Record CreateTranslatableRequest : Type := mkCreate {
  cr_TranslatableID : string;
  cr_Translatable : string;
  cr_Content : string
}.

Record UpdateTranslatableRequest : Type := mkUpdate {
  ur_Content : string
}.

Record QueryParams : Type := mkQueryParams {
  q_TranslatableID : option UUID;
  q_Translatable : option string;
  q_UserID : option UUID;
  q_Limit : Z;
  q_Offset : Z
}.

Definition cr_set_Content (r : CreateTranslatableRequest) (s : string) :=
  mkCreate (cr_TranslatableID r) (cr_Translatable r) s.

Definition q_set_Limit (q : QueryParams) (n : Z) :=
  mkQueryParams (q_TranslatableID q) (q_Translatable q) (q_UserID q)
                n (q_Offset q).

(** [func (q *QueryParams) Validate() error]. *)
Definition QueryParams_Validate (q : QueryParams)
  : QueryParams * option error :=
  let q := if q_Limit q =? 0 then q_set_Limit q 20 else q in
  if (q_Limit q <? 1) || (q_Limit q >? 100) then
    (q, Some (errors_New "limit must be between 1 and 100"))
  else if q_Offset q <? 0 then
    (q, Some (errors_New "offset must be non-negative"))
  else (q, None).

(** [func (r *UpdateTranslatableRequest) Validate(config *Config) error]. *)
Definition Update_Validate (config : Config) (r : UpdateTranslatableRequest)
  : UpdateTranslatableRequest * option error :=
  let r := mkUpdate (Go.TrimSpace (ur_Content r)) in
  if (ur_Content r =? "")%string then
    (r, Some (errors_New "content cannot be empty"))
  else if Go.len (ur_Content r) >? MaxContentLength config then
    (r, Some (errors_New "content exceeds maximum length"))
  else (mkUpdate (Go.EscapeString (ur_Content r)), None).

Section WithUuid.

(** [uuid.Parse] of github.com/google/uuid, an external package. *)
Variable uuid_Parse : string -> error + UUID.

(** [func (r *CreateTranslatableRequest) Validate(config *Config) error]. *)
Definition Create_Validate (config : Config)
           (r : CreateTranslatableRequest)
  : CreateTranslatableRequest * option error :=
  match uuid_Parse (cr_TranslatableID r) with
  | inl _ => (r, Some (errors_New "translatable_id must be a valid UUID"))
  | inr _ =>
      if negb (IsAllowedTable config (cr_Translatable r)) then
        (r, Some (errors_New "translatable type is not allowed"))
      else
        let r := cr_set_Content r (Go.TrimSpace (cr_Content r)) in
        if (cr_Content r =? "")%string then
          (r, Some (errors_New "content cannot be empty"))
        else if Go.len (cr_Content r) >? MaxContentLength config then
          (r, Some (errors_New "content exceeds maximum length"))
        else
          (cr_set_Content r (Go.EscapeString (cr_Content r)), None)
  end.

Definition ToTranslatable (env : Env) (r : CreateTranslatableRequest)
           (userID : option UUID) : error + Translatable :=
  match uuid_Parse (cr_TranslatableID r) with
  | inl err => inl err
  | inr translatableID =>
      inr (mkTranslatable (uuid_New env) userID translatableID
                          (cr_Translatable r) (cr_Content r)
                          None (time_Now env))
  end.

(** *** repository.go, over [*sql.DB] *)

Section WithDatabase.

Variable St : Type.
Variable db : Database St Translatable.

Definition createQuery : string :=
  Go.nl ++ Go.tab ++ Go.tab ++
  "INSERT INTO translatable (id, user_id, translatable_id, translatable, content, created_at)"
  ++ Go.nl ++ Go.tab ++ Go.tab ++
  "VALUES ($1, $2, $3, $4, $5, $6)" ++ Go.nl ++ Go.tab.

Definition createArgs (t : Translatable) : list Arg :=
  [AUUID (t_ID t); AOptUUID (t_UserID t); AUUID (t_TranslatableID t);
   AString (t_Translatable t); AString (t_Content t);
   ATime (t_CreatedAt t)].

Definition repository_Create (t : Translatable) (st : St)
  : option error * St :=
  let '(r, st) := Exec db createQuery (createArgs t) st in
  match r with
  | inl err =>
      (Some (fmt_Errorf_w "failed to create translatable: " err), st)
  | inr _ => (None, st)
  end.

Definition getByIDQuery : string :=
  Go.nl ++ Go.tab ++ Go.tab ++
  "SELECT id, user_id, translatable_id, translatable, content, updated_at, created_at"
  ++ Go.nl ++ Go.tab ++ Go.tab ++ "FROM translatable"
  ++ Go.nl ++ Go.tab ++ Go.tab ++ "WHERE id = $1" ++ Go.nl ++ Go.tab.

Definition repository_GetByID (id : UUID) (st : St)
  : (error + Translatable) * St :=
  let '(r, st) := QueryRowScan db getByIDQuery [AUUID id] st in
  match r with
  | inl err =>
      if errors_Is err sql_ErrNoRows then
        (inl (errors_New "translatable not found"), st)
      else (inl (fmt_Errorf_w "failed to get translatable: " err), st)
  | inr t => (inr t, st)
  end.

Definition selectQuery : string :=
  Go.nl ++ Go.tab ++ Go.tab ++
  "SELECT id, user_id, translatable_id, translatable, content, updated_at, created_at"
  ++ Go.nl ++ Go.tab ++ Go.tab ++ "FROM translatable"
  ++ Go.nl ++ Go.tab ++ Go.tab ++ "WHERE 1=1" ++ Go.nl ++ Go.tab.

(** The three filter blocks of [Query]: [(query, args, argCount)]
    after them. *)
Definition queryFilters (params : QueryParams)
  : string * list Arg * Z :=
  let query := selectQuery in
  let args : list Arg := [] in
  let argCount := 1 in
  let '(query, args, argCount) :=
    match q_TranslatableID params with
    | Some v =>
        (query ++ (" AND translatable_id = $" ++ Go.Itoa argCount),
         (args ++ [AUUID v])%list, argCount + 1)
    | None => (query, args, argCount)
    end in
  let '(query, args, argCount) :=
    match q_Translatable params with
    | Some v =>
        (query ++ (" AND translatable = $" ++ Go.Itoa argCount),
         (args ++ [AString v])%list, argCount + 1)
    | None => (query, args, argCount)
    end in
  match q_UserID params with
  | Some v =>
      (query ++ (" AND user_id = $" ++ Go.Itoa argCount),
       (args ++ [AUUID v])%list, argCount + 1)
  | None => (query, args, argCount)
  end.

Definition queryPage (params : QueryParams) : string * list Arg :=
  let '(query, args, argCount) := queryFilters params in
  let query := query ++ " ORDER BY created_at DESC" in
  let query := query ++ (" LIMIT $" ++ Go.Itoa argCount ++ " OFFSET $"
                         ++ Go.Itoa (argCount + 1)) in
  (query, (args ++ [AInt (q_Limit params); AInt (q_Offset params)])%list).

Definition repository_Query (params : QueryParams) (st : St)
  : (error + list Translatable) * St :=
  let '(query, args) := queryPage params in
  let '(r, st) := Query db query args st in
  match r with
  | inl err =>
      (inl (fmt_Errorf_w "failed to query translatable: " err), st)
  | inr rows =>
      match scanAll (rows_scans rows) [] with
      | inl err =>
          (inl (fmt_Errorf_w "failed to scan translatable: " err), st)
      | inr results =>
          match rows_Err rows with
          | Some err =>
              (inl (fmt_Errorf_w "error iterating translatable rows: "
                                 err), st)
          | None => (inr results, st)
          end
      end
  end.

Definition updateQuery : string :=
  Go.nl ++ Go.tab ++ Go.tab ++ "UPDATE translatable"
  ++ Go.nl ++ Go.tab ++ Go.tab ++ "SET content = $1, updated_at = $2"
  ++ Go.nl ++ Go.tab ++ Go.tab ++ "WHERE id = $3" ++ Go.nl ++ Go.tab.

(** The statement [Update] hands to [ExecContext]. *)
Definition updateStmt (env : Env) (id : UUID) (content : string)
           (userID : option UUID) : string * list Arg :=
  let query := updateQuery in
  let args := [AString content; ATime (time_Now env); AUUID id] in
  match userID with
  | Some u => (query ++ " AND user_id = $4", (args ++ [AUUID u])%list)
  | None => (query, args)
  end.

Definition repository_Update (env : Env) (id : UUID) (content : string)
           (userID : option UUID) (st : St) : option error * St :=
  let '(query, args) := updateStmt env id content userID in
  let '(r, st) := Exec db query args st in
  match r with
  | inl err =>
      (Some (fmt_Errorf_w "failed to update translatable: " err), st)
  | inr result =>
      match result with
      | inl err =>
          (Some (fmt_Errorf_w "failed to get rows affected: " err), st)
      | inr rowsAffected =>
          if rowsAffected =? 0 then
            match userID with
            | Some _ =>
                (Some (errors_New
                   "translatable not found or you don't have permission to update it"),
                 st)
            | None => (Some (errors_New "translatable not found"), st)
            end
          else (None, st)
      end
  end.

Definition deleteQuery : string := "DELETE FROM translatable WHERE id = $1".

(** The statement [Delete] hands to [ExecContext]. *)
Definition deleteStmt (id : UUID) (userID : option UUID)
  : string * list Arg :=
  let query := deleteQuery in
  let args := [AUUID id] in
  match userID with
  | Some u => (query ++ " AND user_id = $2", (args ++ [AUUID u])%list)
  | None => (query, args)
  end.

Definition repository_Delete (id : UUID) (userID : option UUID) (st : St)
  : option error * St :=
  let '(query, args) := deleteStmt id userID in
  let '(r, st) := Exec db query args st in
  match r with
  | inl err =>
      (Some (fmt_Errorf_w "failed to delete translatable: " err), st)
  | inr result =>
      match result with
      | inl err =>
          (Some (fmt_Errorf_w "failed to get rows affected: " err), st)
      | inr rowsAffected =>
          if rowsAffected =? 0 then
            match userID with
            | Some _ =>
                (Some (errors_New
                   "translatable not found or you don't have permission to delete it"),
                 st)
            | None => (Some (errors_New "translatable not found"), st)
            end
          else (None, st)
      end
  end.

End WithDatabase.

(** [type Repository interface]; [env] is the clock an implementation
    may read. *)
Record Repository (St : Type) : Type := mkRepository {
  repo_Create : Translatable -> St -> option error * St;
  repo_GetByID : UUID -> St -> (error + Translatable) * St;
  repo_Query : QueryParams -> St -> (error + list Translatable) * St;
  repo_Update : Env -> UUID -> string -> option UUID -> St
                -> option error * St;
  repo_Delete : UUID -> option UUID -> St -> option error * St
}.
Arguments repo_Create {St}.
Arguments repo_GetByID {St}.
Arguments repo_Query {St}.
Arguments repo_Update {St}.
Arguments repo_Delete {St}.

Definition NewRepository {St : Type} (db : Database St Translatable)
  : Repository St :=
  mkRepository St (repository_Create St db) (repository_GetByID St db)
               (repository_Query St db) (repository_Update St db)
               (repository_Delete St db).

(** *** handlers.go, over [net/http] *)

(** What a handler reads from the [*http.Request]: the URL query, the
    [{id}] path value, the ["user_id"] context value, and the outcome of
    decoding the JSON body into either request shape. *)
Record Request : Type := mkRequest {
  r_URL_Query_Get : string -> string;
  r_PathValue_id : string;
  r_Context_user_id : CtxValue;
  r_Decode_create : error + CreateTranslatableRequest;
  r_Decode_update : error + UpdateTranslatableRequest
}.

Inductive JSON : Type :=
| J_error (msg : string)
| J_translatable (t : Translatable)
| J_page (data : list Translatable) (limit offset : Z)
| J_message (msg : string).

Record Response : Type := mkResponse {
  Status : Z;
  Payload : JSON
}.

Definition StatusOK : Z := 200.
Definition StatusCreated : Z := 201.
Definition StatusBadRequest : Z := 400.
Definition StatusNotFound : Z := 404.
Definition StatusInternalServerError : Z := 500.

Definition getUserIDFromContext (r : Request) : option UUID :=
  match r_Context_user_id r with
  | CtxNil => None
  | CtxUUID uid => Some uid
  | CtxString uidStr =>
      match uuid_Parse uidStr with
      | inr uid => Some uid
      | inl _ => None
      end
  | CtxOther _ => None
  end.

Section WithRepository.

Variable St : Type.
Variable repo : Repository St.

Definition respondJSON (status : Z) (data : JSON) (st : St)
  : Response * St :=
  (mkResponse status data, st).

Definition respondError (status : Z) (message : string) (st : St)
  : Response * St :=
  respondJSON status (J_error message) st.

(** [idStr := r.URL.Query().Get("id")], else [r.PathValue("id")]. *)
Definition idStr (r : Request) : string :=
  let idStr := r_URL_Query_Get r "id" in
  if (idStr =? "")%string then r_PathValue_id r else idStr.

(** [func (h *Handler) Create]. *)
Definition Create (config : Config) (env : Env) (r : Request) (st : St)
  : Response * St :=
  match r_Decode_create r with
  | inl _ => respondError StatusBadRequest "Invalid request body" st
  | inr req =>
      match Create_Validate config req with
      | (_, Some err) => respondError StatusBadRequest (Error err) st
      | (req, None) =>
          let userID := getUserIDFromContext r in
          match ToTranslatable env req userID with
          | inl err => respondError StatusBadRequest (Error err) st
          | inr translatable =>
              match repo_Create repo translatable st with
              | (Some _, st) =>
                  respondError StatusInternalServerError
                               "Failed to create translatable" st
              | (None, st) =>
                  respondJSON StatusCreated (J_translatable translatable)
                              st
              end
          end
      end
  end.

(** [func (h *Handler) GetByID]. *)
Definition GetByID (r : Request) (st : St) : Response * St :=
  match uuid_Parse (idStr r) with
  | inl _ => respondError StatusBadRequest "Invalid ID" st
  | inr id =>
      match repo_GetByID repo id st with
      | (inl err, st) =>
          if (Error err =? "translatable not found")%string then
            respondError StatusNotFound (Error err) st
          else
            respondError StatusInternalServerError
                         "Failed to get translatable" st
      | (inr translatable, st) =>
          respondJSON StatusOK (J_translatable translatable) st
      end
  end.

(** The parsing half of [Query]. *)
Definition parseQueryParams (r : Request) : Response + QueryParams :=
  let params := mkQueryParams None None None 20 0 in
  let translatableIDStr := r_URL_Query_Get r "translatable_id" in
  match
    (if negb (translatableIDStr =? "")%string then
       match uuid_Parse translatableIDStr with
       | inr id =>
           inr (mkQueryParams (Some id) (q_Translatable params)
                  (q_UserID params) (q_Limit params) (q_Offset params))
       | inl _ =>
           inl (mkResponse StatusBadRequest
                           (J_error "Invalid translatable_id"))
       end
     else inr params)
  with
  | inl resp => inl resp
  | inr params =>
  let translatable := r_URL_Query_Get r "translatable" in
  let params :=
    if negb (translatable =? "")%string then
      mkQueryParams (q_TranslatableID params) (Some translatable)
        (q_UserID params) (q_Limit params) (q_Offset params)
    else params in
  let userIDStr := r_URL_Query_Get r "user_id" in
  match
    (if negb (userIDStr =? "")%string then
       match uuid_Parse userIDStr with
       | inr id =>
           inr (mkQueryParams (q_TranslatableID params)
                  (q_Translatable params) (Some id)
                  (q_Limit params) (q_Offset params))
       | inl _ =>
           inl (mkResponse StatusBadRequest (J_error "Invalid user_id"))
       end
     else inr params)
  with
  | inl resp => inl resp
  | inr params =>
  let limitStr := r_URL_Query_Get r "limit" in
  let params :=
    if negb (limitStr =? "")%string then
      match Go.Atoi limitStr with
      | Some limit => q_set_Limit params limit
      | None => params
      end
    else params in
  let offsetStr := r_URL_Query_Get r "offset" in
  let params :=
    if negb (offsetStr =? "")%string then
      match Go.Atoi offsetStr with
      | Some offset =>
          mkQueryParams (q_TranslatableID params) (q_Translatable params)
            (q_UserID params) (q_Limit params) offset
      | None => params
      end
    else params in
  inr params
  end end.

(** [func (h *Handler) Query]. *)
Definition Query (r : Request) (st : St) : Response * St :=
  match parseQueryParams r with
  | inl resp => (resp, st)
  | inr params =>
      match QueryParams_Validate params with
      | (_, Some err) => respondError StatusBadRequest (Error err) st
      | (params, None) =>
          match repo_Query repo params st with
          | (inl _, st) =>
              respondError StatusInternalServerError
                           "Failed to query translatable" st
          | (inr results, st) =>
              respondJSON StatusOK
                (J_page results (q_Limit params) (q_Offset params)) st
          end
      end
  end.

(** [func (h *Handler) Update]. *)
Definition Update (config : Config) (env : Env) (r : Request) (st : St)
  : Response * St :=
  match uuid_Parse (idStr r) with
  | inl _ => respondError StatusBadRequest "Invalid ID" st
  | inr id =>
      match r_Decode_update r with
      | inl _ => respondError StatusBadRequest "Invalid request body" st
      | inr req =>
          match Update_Validate config req with
          | (_, Some err) => respondError StatusBadRequest (Error err) st
          | (req, None) =>
              let userID := getUserIDFromContext r in
              match repo_Update repo env id (ur_Content req) userID st
              with
              | (Some err, st) =>
                  if (Error err =? "translatable not found")%string
                     || (Error err =?
                         "translatable not found or you don't have permission to update it")%string
                  then respondError StatusNotFound (Error err) st
                  else respondError StatusInternalServerError
                                    "Failed to update translatable" st
              | (None, st) =>
                  match repo_GetByID repo id st with
                  | (inl _, st) =>
                      respondError StatusInternalServerError
                        "Failed to get updated translatable" st
                  | (inr translatable, st) =>
                      respondJSON StatusOK (J_translatable translatable)
                                  st
                  end
              end
          end
      end
  end.

(** [func (h *Handler) Delete]. *)
Definition Delete (r : Request) (st : St) : Response * St :=
  match uuid_Parse (idStr r) with
  | inl _ => respondError StatusBadRequest "Invalid ID" st
  | inr id =>
      let userID := getUserIDFromContext r in
      match repo_Delete repo id userID st with
      | (Some err, st) =>
          if (Error err =? "translatable not found")%string
             || (Error err =?
                 "translatable not found or you don't have permission to delete it")%string
          then respondError StatusNotFound (Error err) st
          else respondError StatusInternalServerError
                            "Failed to delete translatable" st
      | (None, st) =>
          respondJSON StatusOK
            (J_message "Translatable deleted successfully") st
      end
  end.

End WithRepository.

End WithUuid.

End Simple.

(** ** service.go *)

Module Service.

(** [LocaleInfo] is declared outside the files at hand; its two fields are
    those of the literal [GetLocales] builds. *)
Record LocaleInfo : Type := mkLocaleInfo {
  li_Locale : string;
  li_IsDefault : bool
}.

(** The [for _, locale := range s.config.SupportedLocales] loop, appending
    to [locales]. *)
Fixpoint rangeLocales (DefaultLocale : string) (l : list string)
         (locales : list LocaleInfo) : list LocaleInfo :=
  match l with
  | [] => locales
  | locale :: rest =>
      rangeLocales DefaultLocale rest
        (locales ++ [mkLocaleInfo locale (locale =? DefaultLocale)%string])%list
  end.

(** [func (s *TranslatableService) GetLocales() []LocaleInfo]. *)
Definition GetLocales (config : Locale.Config) : list LocaleInfo :=
  rangeLocales (Locale.DefaultLocale config) (Locale.SupportedLocales config)
               [].

End Service.

(** ** plugin.go of the locale-aware variant *)

Module Plugin.

(** A value of the [map[string]interface{}] handed to [Initialize]: nil
    for a missing key, a string, an int, a [[]interface{}], a
    [database.Database], or a value of any other dynamic type (a float64, a
    [[]string], ...). *)
#[warnings="-register-all"]
Inductive Dyn : Type :=
| DNil
| DString (s : string)
| DInt (n : Z)
| DSlice (l : list Dyn)
| DDatabase
| DOther.

(** The loop [for _, t := range allowedTypes], keeping the strings. *)
Fixpoint rangeStrings (l : list Dyn) (types : list string) : list string :=
  match l with
  | [] => types
  | DString str :: rest => rangeStrings rest (types ++ [str])%list
  | _ :: rest => rangeStrings rest types
  end.

(** The plugin after [Initialize]: its configuration and whether a
    database handle was found. *)
Record TranslatablePlugin : Type := mkPlugin {
  p_config : Locale.Config;
  p_db : bool
}.

(** The six [if ..., ok := config[key].(T); ok] blocks of [Initialize],
    each taking the value found under its key and the configuration so
    far. *)
Definition set_allowed_types (v : Dyn) (c : Locale.Config) : Locale.Config :=
  match v with
  | DSlice allowedTypes =>
      let types := rangeStrings allowedTypes [] in
      if Z.of_nat (List.length types) >? 0 then
        Locale.mkConfig types (Locale.SupportedLocales c)
          (Locale.DefaultLocale c) (Locale.PaginationLimit c)
          (Locale.MaxPaginationLimit c) (Locale.MaxContentLength c)
      else c
  | _ => c
  end.

Definition set_supported_locales (v : Dyn) (c : Locale.Config)
  : Locale.Config :=
  match v with
  | DSlice supportedLocales =>
      let locales := rangeStrings supportedLocales [] in
      if Z.of_nat (List.length locales) >? 0 then
        Locale.mkConfig (Locale.AllowedTypes c) locales
          (Locale.DefaultLocale c) (Locale.PaginationLimit c)
          (Locale.MaxPaginationLimit c) (Locale.MaxContentLength c)
      else c
  | _ => c
  end.

Definition set_default_locale (v : Dyn) (c : Locale.Config) : Locale.Config :=
  match v with
  | DString defaultLocale =>
      Locale.mkConfig (Locale.AllowedTypes c) (Locale.SupportedLocales c)
        defaultLocale (Locale.PaginationLimit c)
        (Locale.MaxPaginationLimit c) (Locale.MaxContentLength c)
  | _ => c
  end.

Definition set_pagination_limit (v : Dyn) (c : Locale.Config)
  : Locale.Config :=
  match v with
  | DInt paginationLimit =>
      Locale.mkConfig (Locale.AllowedTypes c) (Locale.SupportedLocales c)
        (Locale.DefaultLocale c) paginationLimit
        (Locale.MaxPaginationLimit c) (Locale.MaxContentLength c)
  | _ => c
  end.

Definition set_max_pagination_limit (v : Dyn) (c : Locale.Config)
  : Locale.Config :=
  match v with
  | DInt maxPaginationLimit =>
      Locale.mkConfig (Locale.AllowedTypes c) (Locale.SupportedLocales c)
        (Locale.DefaultLocale c) (Locale.PaginationLimit c)
        maxPaginationLimit (Locale.MaxContentLength c)
  | _ => c
  end.

Definition set_max_content_length (v : Dyn) (c : Locale.Config)
  : Locale.Config :=
  match v with
  | DInt maxContentLength =>
      Locale.mkConfig (Locale.AllowedTypes c) (Locale.SupportedLocales c)
        (Locale.DefaultLocale c) (Locale.PaginationLimit c)
        (Locale.MaxPaginationLimit c) maxContentLength
  | _ => c
  end.

(** The configuration as [Initialize] has it just before [Validate]:
    [DefaultConfig()], then the six blocks in their order. *)
Definition merged (config : string -> Dyn) : Locale.Config :=
  let c := Locale.DefaultConfig in
  let c := set_allowed_types (config "allowed_types") c in
  let c := set_supported_locales (config "supported_locales") c in
  let c := set_default_locale (config "default_locale") c in
  let c := set_pagination_limit (config "pagination_limit") c in
  let c := set_max_pagination_limit (config "max_pagination_limit") c in
  set_max_content_length (config "max_content_length") c.

(** [func (p *TranslatablePlugin) Initialize(config map[string]interface{})
    error]: the plugin as the call leaves it, and the error. *)
Definition Initialize (config : string -> Dyn)
  : TranslatablePlugin * option error :=
  let db := match config "database" with
            | DDatabase => true
            | _ => false
            end in
  let '(c, err) := Locale.Validate (merged config) in
  (mkPlugin c db, err).

(** The routes [RegisterTranslatableRoutes] adds, as (method, path). *)
Definition RegisterTranslatableRoutes : list (string * string) :=
  [("POST", "/translations"); ("GET", "/translations/:id");
   ("GET", "/translations"); ("PUT", "/translations/:id");
   ("DELETE", "/translations/:id"); ("GET", "/locales")].

(** [func (p *TranslatablePlugin) SetupEndpoints(app *fiber.App) error]:
    the routes added to the application. *)
Definition SetupEndpoints (p : TranslatablePlugin) : list (string * string) :=
  if negb (p_db p) then [] else RegisterTranslatableRoutes.

Definition MigrationDependencies : list string := ["auth"].

End Plugin.

(** ** plugin.go of the variant without locales *)

Module SimplePlugin.

(** [func NewPlugin(config *Config)], returning the plugin or an error: the
    plugin holds the configuration it was given, as [Validate] left it. *)
Definition NewPlugin (config : Simple.Config) : error + Simple.Config :=
  match Simple.Validate config with
  | (_, Some err) => inl (fmt_Errorf_w "invalid config: " err)
  | (config, None) => inr config
  end.

End SimplePlugin.

(** ** mocks/database_mock.go: the test double of the database *)

Module Mocks.

Record MockResult : Type := mkMockResult {
  rowsAffected : Z;
  lastInsertId : Z;
  err : option error
}.

Definition NewMockResult (rowsAffected : Z) : MockResult :=
  mkMockResult rowsAffected 0 None.

Definition RowsAffected (m : MockResult) : Z * option error :=
  (rowsAffected m, err m).

Definition LastInsertId (m : MockResult) : Z * option error :=
  (lastInsertId m, err m).

Record MockRows : Type := mkMockRows {
  closed : bool;
  closeErr : option error;
  scanErr : option error;
  nextCount : Z;
  maxNext : Z
}.

Definition NewMockRows (maxNext : Z) : MockRows :=
  mkMockRows false None None 0 maxNext.

(** [n++] on an [int]. *)
Definition incr (n : Z) : Z :=
  if n =? Go.maxInt then Go.minInt else n + 1.

Definition Next (m : MockRows) : bool * MockRows :=
  if nextCount m <? maxNext m then
    (true, mkMockRows (closed m) (closeErr m) (scanErr m)
                      (incr (nextCount m)) (maxNext m))
  else (false, m).

(** [Scan] writes nothing to its destinations. *)
Definition Scan (m : MockRows) : option error :=
  match scanErr m with
  | Some e => Some e
  | None => None
  end.

Definition Close (m : MockRows) : option error * MockRows :=
  (closeErr m,
   mkMockRows true (closeErr m) (scanErr m) (nextCount m) (maxNext m)).

Definition Err (m : MockRows) : option error := None.

(** A [for rows.Next() { ... rows.Scan(...) ... }] loop that is not left
    early, run for at most [fuel] rounds: what each [Scan] returned, and
    the rows value at the end. *)
Fixpoint iterate (fuel : nat) (m : MockRows) : list (option error) * MockRows :=
  match fuel with
  | O => ([], m)
  | S fuel =>
      let '(more, m) := Next m in
      if more then
        let scanned := Scan m in
        let '(l, m) := iterate fuel m in
        (scanned :: l, m)
      else ([], m)
  end.

Section WithRow.

Variable Row : Type.

(** What a [ScanFunc] does with the two shapes of destination the code
    scans into: the columns of a row, or the count. *)
Record Scanned : Type := mkScanned {
  into_row : error + Row;
  into_count : error + Z
}.

Record MockRow : Type := mkMockRow {
  ScanFunc : option Scanned
}.

Definition MockRow_Scan_row (m : MockRow) : error + Row :=
  match ScanFunc m with
  | Some f => into_row f
  | None => inl (errors_New "no rows")
  end.

Definition MockRow_Scan_count (m : MockRow) : error + Z :=
  match ScanFunc m with
  | Some f => into_count f
  | None => inl (errors_New "no rows")
  end.

(** The function fields are nil or a function of the statement and its
    arguments. *)
Record MockDatabase : Type := mkMockDatabase {
  ExecFunc : option (string -> list Arg -> error + MockResult);
  QueryFunc : option (string -> list Arg -> error + MockRows);
  QueryRowFunc : option (string -> list Arg -> MockRow)
}.

Definition MockDatabase_Exec (m : MockDatabase) (query : string)
           (args : list Arg) : error + MockResult :=
  match ExecFunc m with
  | Some f => f query args
  | None => inr (mkMockResult 1 0 None)
  end.

Definition MockDatabase_Query (m : MockDatabase) (query : string)
           (args : list Arg) : error + MockRows :=
  match QueryFunc m with
  | Some f => f query args
  | None => inr (mkMockRows false None None 0 0)
  end.

Definition MockDatabase_QueryRow (m : MockDatabase) (query : string)
           (args : list Arg) : MockRow :=
  match QueryRowFunc m with
  | Some f => f query args
  | None => mkMockRow None
  end.

Definition Begin (m : MockDatabase) : error :=
  errors_New "not implemented".

Definition DriverName (m : MockDatabase) : string := "mock".

(** The mock as the handlers see it.  [zero] is the row a [Scan] that
    writes nothing leaves in a fresh [var t Translatable]. *)
Variable zero : Row.

Definition to_Result (res : MockResult) : Result :=
  match RowsAffected res with
  | (_, Some e) => inl e
  | (n, None) => inr n
  end.

Definition to_Rows (rows : MockRows) : Rows Row :=
  mkRows
    (map (fun scanned => match scanned with
                         | Some e => inl e
                         | None => inr zero
                         end)
         (fst (iterate (S (Z.to_nat (maxNext rows - nextCount rows))) rows)))
    (Err rows).

Definition as_Database (m : MockDatabase) : Database unit Row :=
  mkDatabase unit Row
    (fun q args st =>
       (match MockDatabase_Exec m q args with
        | inl e => inl e
        | inr res => inr (to_Result res)
        end, st))
    (fun q args st => (MockRow_Scan_row (MockDatabase_QueryRow m q args), st))
    (fun q args st =>
       (MockRow_Scan_count (MockDatabase_QueryRow m q args), st))
    (fun q args st =>
       (match MockDatabase_Query m q args with
        | inl e => inl e
        | inr rows => inr (to_Rows rows)
        end, st)).

End WithRow.

End Mocks.

(** ** Instances of the external collaborators, to run the model *)

(** An instance of [uuid.Parse]: it decodes the canonical 36-byte text
    [xxxxxxxx-xxxx-xxxx-xxxx-xxxxxxxxxxxx] and rejects every other string.
    google/uuid also reads the [urn:uuid:], braced and 32-digit spellings;
    the examples below use none of them. *)
Module UuidText.

Definition hexval (c : ascii) : option N :=
  let n := Go.code c in
  if ((48 <=? n) && (n <=? 57))%N then Some (n - 48)%N
  else if ((97 <=? n) && (n <=? 102))%N then Some (n - 87)%N
  else if ((65 <=? n) && (n <=? 70))%N then Some (n - 55)%N
  else None.

Fixpoint hexBytes (s : string) : option string :=
  match s with
  | EmptyString => Some EmptyString
  | String a (String b r) =>
      match hexval a, hexval b, hexBytes r with
      | Some x, Some y, Some t => Some (String (Go.byte_of (16 * x + y)) t)
      | _, _, _ => None
      end
  | String _ EmptyString => None
  end.

Definition isHyphen (s : string) (i : nat) : bool :=
  match String.get i s with
  | Some c => (Go.code c =? 45)%N
  | None => false
  end.

Definition Parse (s : string) : error + UUID :=
  if (Go.len s =? 36)%Z then
    if isHyphen s 8 && isHyphen s 13 && isHyphen s 18 && isHyphen s 23 then
      match hexBytes (substring 0 8 s ++ substring 9 4 s ++ substring 14 4 s
                      ++ substring 19 4 s ++ substring 24 12 s) with
      | Some b => inr (mkUUID b)
      | None => inl (errors_New "invalid UUID format")
      end
    else inl (errors_New "invalid UUID format")
  else inl (errors_New ("invalid UUID length: " ++ Go.Itoa (Go.len s))).

End UuidText.

(** A table in memory standing for the [translations] table: it carries out
    the statements of [Locale]'s database methods, with the meaning SQL
    gives them (a NULL [user_id] equals no identifier), and refuses any
    other statement. *)
Module LocaleMem.
Import Locale.

Definition Table : Type := list Translatable.

Definition owned (userID : option UUID) (t : Translatable) : bool :=
  match userID with
  | None => true
  | Some u =>
      match t_UserID t with
      | Some v => UUID_eqb v u
      | None => false
      end
  end.

(** The WHERE clause [id = $n], with [AND user_id = $m] when an owner is
    given. *)
Definition hit (id : UUID) (userID : option UUID) (t : Translatable) : bool :=
  UUID_eqb (t_ID t) id && owned userID t.

Definition set_row (content locale : string) (now : Time) (t : Translatable)
  : Translatable :=
  mkTranslatable (t_ID t) (t_UserID t) (t_TranslatableID t)
                 (t_Translatable t) locale content (Some now) (t_CreatedAt t).

Definition update_rows (id : UUID) (userID : option UUID)
           (content locale : string) (now : Time) (tbl : Table) : Table :=
  map (fun t => if hit id userID t then set_row content locale now t else t)
      tbl.

Definition count_rows (id : UUID) (userID : option UUID) (tbl : Table) : Z :=
  Z.of_nat (List.length (filter (hit id userID) tbl)).

Definition delete_rows (id : UUID) (userID : option UUID) (tbl : Table)
  : Table :=
  filter (fun t => negb (hit id userID t)) tbl.

Definition refused : error := errors_New "statement not supported".

Definition mem_Exec (q : string) (args : list Arg) (tbl : Table)
  : (error + Result) * Table :=
  if (q =? createQuery)%string then
    match args with
    | [AUUID id; AOptUUID uid; AUUID tid; AString tr; AString loc;
       AString content; ATime created] =>
        if existsb (fun t => UUID_eqb (t_ID t) id) tbl then
          (inl (errors_New "duplicate key value violates unique constraint"),
           tbl)
        else
          (inr (inr 1),
           (tbl ++ [mkTranslatable id uid tid tr loc content None created])%list)
    | _ => (inl refused, tbl)
    end
  else if (q =? updateQuery)%string then
    match args with
    | [AString content; AString locale; ATime now; AUUID id] =>
        (inr (inr (count_rows id None tbl)),
         update_rows id None content locale now tbl)
    | _ => (inl refused, tbl)
    end
  else if (q =? updateQuery ++ " AND user_id = $5")%string then
    match args with
    | [AString content; AString locale; ATime now; AUUID id; AUUID u] =>
        (inr (inr (count_rows id (Some u) tbl)),
         update_rows id (Some u) content locale now tbl)
    | _ => (inl refused, tbl)
    end
  else if (q =? deleteQuery)%string then
    match args with
    | [AUUID id] =>
        (inr (inr (count_rows id None tbl)), delete_rows id None tbl)
    | _ => (inl refused, tbl)
    end
  else if (q =? deleteQuery ++ " AND user_id = $2")%string then
    match args with
    | [AUUID id; AUUID u] =>
        (inr (inr (count_rows id (Some u) tbl)), delete_rows id (Some u) tbl)
    | _ => (inl refused, tbl)
    end
  else (inl refused, tbl).

Definition mem_QueryRowScan (q : string) (args : list Arg) (tbl : Table)
  : (error + Translatable) * Table :=
  if (q =? getByIDQuery)%string then
    match args with
    | [AUUID id] =>
        match find (fun t => UUID_eqb (t_ID t) id) tbl with
        | Some t => (inr t, tbl)
        | None => (inl pgx_ErrNoRows, tbl)
        end
    | _ => (inl refused, tbl)
    end
  else (inl refused, tbl).

(** The WHERE clause of the list and count statements. *)
Definition matches (params : QueryParams) (t : Translatable) : bool :=
  match q_TranslatableID params with
  | Some v => UUID_eqb (t_TranslatableID t) v
  | None => true
  end
  && match q_Translatable params with
     | Some v => (t_Translatable t =? v)%string
     | None => true
     end
  && match q_Locale params with
     | Some v => (t_Locale t =? v)%string
     | None => true
     end
  && match q_UserID params with
     | Some v =>
         match t_UserID t with
         | Some u => UUID_eqb u v
         | None => false
         end
     | None => true
     end.

Definition take_uuid (set : bool) (args : list Arg)
  : option (option UUID * list Arg) :=
  if set then
    match args with
    | AUUID v :: rest => Some (Some v, rest)
    | _ => None
    end
  else Some (None, args).

Definition take_string (set : bool) (args : list Arg)
  : option (option string * list Arg) :=
  if set then
    match args with
    | AString v :: rest => Some (Some v, rest)
    | _ => None
    end
  else Some (None, args).

(** The filters read back from the arguments, for one choice of which
    filters are set, and the arguments left over. *)
Definition read_filters (m : bool * bool * bool * bool) (args : list Arg)
  : option (QueryParams * list Arg) :=
  let '(m1, m2, m3, m4) := m in
  match take_uuid m1 args with
  | None => None
  | Some (tid, args) =>
  match take_string m2 args with
  | None => None
  | Some (tr, args) =>
  match take_string m3 args with
  | None => None
  | Some (loc, args) =>
  match take_uuid m4 args with
  | None => None
  | Some (uid, args) => Some (mkQueryParams tid tr loc uid 0 0, args)
  end end end end.

Definition masks : list (bool * bool * bool * bool) :=
  flat_map (fun a => flat_map (fun b => flat_map (fun c =>
    [(a, b, c, true); (a, b, c, false)]) [true; false]) [true; false])
    [true; false].

Fixpoint first_some {A B : Type} (f : A -> option B) (l : list A) : option B :=
  match l with
  | [] => None
  | x :: rest =>
      match f x with
      | Some y => Some y
      | None => first_some f rest
      end
  end.

(** The query parameters a count statement was built from, if it is one. *)
Definition decode_count (q : string) (args : list Arg) : option QueryParams :=
  first_some
    (fun m =>
       match read_filters m args with
       | Some (p, []) =>
           if (fst (queryCount p) =? q)%string then Some p else None
       | _ => None
       end) masks.

(** The query parameters a page statement was built from, if it is one. *)
Definition decode_page (q : string) (args : list Arg) : option QueryParams :=
  first_some
    (fun m =>
       match read_filters m args with
       | Some (p, [AInt limit; AInt offset]) =>
           let p := mkQueryParams (q_TranslatableID p) (q_Translatable p)
                                  (q_Locale p) (q_UserID p) limit offset in
           if (fst (queryPage p) =? q)%string then Some p else None
       | _ => None
       end) masks.

(** ORDER BY created_at DESC. *)
Fixpoint insert_desc (t : Translatable) (l : list Translatable)
  : list Translatable :=
  match l with
  | [] => [t]
  | x :: rest =>
      if t_CreatedAt x <? t_CreatedAt t then t :: l
      else x :: insert_desc t rest
  end.

Definition order_desc (l : list Translatable) : list Translatable :=
  fold_right insert_desc [] l.

Definition mem_QueryRowScanInt (q : string) (args : list Arg) (tbl : Table)
  : (error + Z) * Table :=
  match decode_count q args with
  | Some p => (inr (Z.of_nat (List.length (filter (matches p) tbl))), tbl)
  | None => (inl refused, tbl)
  end.

Definition mem_Query (q : string) (args : list Arg) (tbl : Table)
  : (error + Rows Translatable) * Table :=
  match decode_page q args with
  | Some p =>
      (inr (mkRows
              (map inr
                   (firstn (Z.to_nat (q_Limit p))
                      (skipn (Z.to_nat (q_Offset p))
                             (order_desc (filter (matches p) tbl)))))
              None),
       tbl)
  | None => (inl refused, tbl)
  end.

Definition db : Database Table Translatable :=
  mkDatabase Table Translatable mem_Exec mem_QueryRowScan
             mem_QueryRowScanInt mem_Query.

End LocaleMem.

(** The same for the [translatable] table of [Simple]'s repository: the
    INSERT, UPDATE, DELETE and select-by-id statements. *)
Module SimpleMem.
Import Simple.

Definition Table : Type := list Translatable.

Definition owned (userID : option UUID) (t : Translatable) : bool :=
  match userID with
  | None => true
  | Some u =>
      match t_UserID t with
      | Some v => UUID_eqb v u
      | None => false
      end
  end.

Definition hit (id : UUID) (userID : option UUID) (t : Translatable) : bool :=
  UUID_eqb (t_ID t) id && owned userID t.

Definition set_row (content : string) (now : Time) (t : Translatable)
  : Translatable :=
  mkTranslatable (t_ID t) (t_UserID t) (t_TranslatableID t)
                 (t_Translatable t) content (Some now) (t_CreatedAt t).

Definition update_rows (id : UUID) (userID : option UUID)
           (content : string) (now : Time) (tbl : Table) : Table :=
  map (fun t => if hit id userID t then set_row content now t else t) tbl.

Definition count_rows (id : UUID) (userID : option UUID) (tbl : Table) : Z :=
  Z.of_nat (List.length (filter (hit id userID) tbl)).

Definition delete_rows (id : UUID) (userID : option UUID) (tbl : Table)
  : Table :=
  filter (fun t => negb (hit id userID t)) tbl.

Definition refused : error := errors_New "statement not supported".

Definition mem_Exec (q : string) (args : list Arg) (tbl : Table)
  : (error + Result) * Table :=
  if (q =? createQuery)%string then
    match args with
    | [AUUID id; AOptUUID uid; AUUID tid; AString tr; AString content;
       ATime created] =>
        if existsb (fun t => UUID_eqb (t_ID t) id) tbl then
          (inl (errors_New "duplicate key value violates unique constraint"),
           tbl)
        else
          (inr (inr 1),
           (tbl ++ [mkTranslatable id uid tid tr content None created])%list)
    | _ => (inl refused, tbl)
    end
  else if (q =? updateQuery)%string then
    match args with
    | [AString content; ATime now; AUUID id] =>
        (inr (inr (count_rows id None tbl)),
         update_rows id None content now tbl)
    | _ => (inl refused, tbl)
    end
  else if (q =? updateQuery ++ " AND user_id = $4")%string then
    match args with
    | [AString content; ATime now; AUUID id; AUUID u] =>
        (inr (inr (count_rows id (Some u) tbl)),
         update_rows id (Some u) content now tbl)
    | _ => (inl refused, tbl)
    end
  else if (q =? deleteQuery)%string then
    match args with
    | [AUUID id] =>
        (inr (inr (count_rows id None tbl)), delete_rows id None tbl)
    | _ => (inl refused, tbl)
    end
  else if (q =? deleteQuery ++ " AND user_id = $2")%string then
    match args with
    | [AUUID id; AUUID u] =>
        (inr (inr (count_rows id (Some u) tbl)), delete_rows id (Some u) tbl)
    | _ => (inl refused, tbl)
    end
  else (inl refused, tbl).

Definition mem_QueryRowScan (q : string) (args : list Arg) (tbl : Table)
  : (error + Translatable) * Table :=
  if (q =? getByIDQuery)%string then
    match args with
    | [AUUID id] =>
        match find (fun t => UUID_eqb (t_ID t) id) tbl with
        | Some t => (inr t, tbl)
        | None => (inl sql_ErrNoRows, tbl)
        end
    | _ => (inl refused, tbl)
    end
  else (inl refused, tbl).

Definition db : Database Table Translatable :=
  mkDatabase Table Translatable mem_Exec mem_QueryRowScan
             (fun _ _ tbl => (inl refused, tbl))
             (fun _ _ tbl => (inl refused, tbl)).

End SimpleMem.

(** A database that also keeps the list of the calls made on it, oldest
    first: what reached the persistence layer during a handler run. *)
Inductive Call : Type :=
| CallExec (q : string) (args : list Arg)
| CallQueryRow (q : string) (args : list Arg)
| CallQuery (q : string) (args : list Arg).

Definition logged {St Row : Type} (db : Database St Row)
  : Database (St * list Call) Row :=
  mkDatabase (St * list Call) Row
    (fun q args s =>
       let '(r, st) := Exec db q args (fst s) in
       (r, (st, (snd s ++ [CallExec q args])%list)))
    (fun q args s =>
       let '(r, st) := QueryRowScan db q args (fst s) in
       (r, (st, (snd s ++ [CallQueryRow q args])%list)))
    (fun q args s =>
       let '(r, st) := QueryRowScanInt db q args (fst s) in
       (r, (st, (snd s ++ [CallQueryRow q args])%list)))
    (fun q args s =>
       let '(r, st) := Query db q args (fst s) in
       (r, (st, (snd s ++ [CallQuery q args])%list))).

(** The calls a handler run made, starting from an empty list. *)
Definition calls {St A : Type} (run : St * list Call -> A * (St * list Call))
           (st : St) : list Call :=
  snd (snd (run (st, []))).

(** The [Exec] calls among them. *)
Definition execs (l : list Call) : list (string * list Arg) :=
  flat_map (fun c => match c with
                     | CallExec q args => [(q, args)]
                     | _ => []
                     end) l.

(** ** Concrete requests, to run the handlers on *)

Module Sample.

Definition uuid_of (s : string) : UUID :=
  match UuidText.Parse s with
  | inr u => u
  | inl _ => mkUUID EmptyString
  end.

Definition row_id_text : string := "650e8400-e29b-41d4-a716-446655440000".
Definition row_id : UUID := uuid_of row_id_text.
Definition host_id_text : string := "550e8400-e29b-41d4-a716-446655440000".
Definition owner : UUID := uuid_of "750e8400-e29b-41d4-a716-446655440000".
Definition stranger : UUID := uuid_of "850e8400-e29b-41d4-a716-446655440000".

Definition env : Env := mkEnv row_id 1700000000.

Definition config : Locale.Config :=
  Locale.mkConfig ["posts"; "articles"] ["en"; "fr"] "en" 20 100 10240.

(** No query parameter is set. *)
Definition no_query (key : string) : string := "".

Definition no_body {A : Type} : error + A :=
  inl (errors_New "unexpected end of JSON input").

(** POST /translations with a script element as content. *)
Definition post_script : Locale.Ctx :=
  Locale.mkCtx "" no_query CtxNil
    (inr (Locale.mkCreate host_id_text "posts" "en"
                          "<script>alert(1)</script>"))
    no_body.

(** GET /translations/{row_id}. *)
Definition get_row : Locale.Ctx :=
  Locale.mkCtx row_id_text no_query CtxNil no_body no_body.

(** A stored row owned by [owner]. *)
Definition stored_row : Locale.Translatable :=
  Locale.mkTranslatable row_id (Some owner) (uuid_of host_id_text)
                        "posts" "en" "Hello" None 1600000000.

Definition simple_row : Simple.Translatable :=
  Simple.mkTranslatable row_id (Some owner) (uuid_of host_id_text)
                        "posts" "Hello" None 1600000000.

(** PUT /translations/{row_id} by [stranger]. *)
Definition put_by_stranger : Locale.Ctx :=
  Locale.mkCtx row_id_text no_query (CtxUUID stranger) no_body
               (inr (Locale.mkUpdate "en" "Changed")).

(** PUT /translations/{row_id} with a ["user_id"] that is no UUID. *)
Definition put_by_garbage : Locale.Ctx :=
  Locale.mkCtx row_id_text no_query (CtxString "not-a-uuid") no_body
               (inr (Locale.mkUpdate "en" "Changed")).

(** GET /translations?limit=abc. *)
Definition list_limit_abc : Locale.Ctx :=
  Locale.mkCtx ""
    (fun key => if (key =? "limit")%string then "abc" else "")
    CtxNil no_body no_body.

(** GET /translations?offset=x1. *)
Definition list_offset_x1 : Locale.Ctx :=
  Locale.mkCtx ""
    (fun key => if (key =? "offset")%string then "x1" else "")
    CtxNil no_body no_body.

(** GET /translations?limit=101. *)
Definition list_limit_101 : Locale.Ctx :=
  Locale.mkCtx ""
    (fun key => if (key =? "limit")%string then "101" else "")
    CtxNil no_body no_body.

(** GET /translations?translatable_id=not-a-uuid. *)
Definition list_bad_id : Locale.Ctx :=
  Locale.mkCtx ""
    (fun key => if (key =? "translatable_id")%string then "not-a-uuid" else "")
    CtxNil no_body no_body.

End Sample.

(** ** Predicates the properties are stated with *)

(** The byte [c] occurs in [s]. *)
Fixpoint hasByte (c : ascii) (s : string) : bool :=
  match s with
  | EmptyString => false
  | String d r => Ascii.eqb d c || hasByte c r
  end.

(** A name list a configuration may not carry: empty, holding the empty
    string, or holding a name twice. *)
Definition bad_list (l : list string) : Prop :=
  l = [] \/ In "" l \/ ~ NoDup l.

(** The value a numeric field has after [applyDefaults]. *)
Definition defaulted (dflt v : Z) : Z := if v <=? 0 then dflt else v.

(** [Validate] reports an error. *)
Definition fails {A : Type} (r : A * option error) : Prop := snd r <> None.

(** The specification's reading of a request [Validate]: the checks in
    their order, each with the message it fails with; the first check that
    does not hold decides the error, and there is none when all hold. *)
Fixpoint first_failure (checks : list (bool * string)) : option error :=
  match checks with
  | [] => None
  | (holds, msg) :: rest =>
      if holds then first_failure rest else Some (errors_New msg)
  end.

Definition parses {A : Type} (r : error + A) : bool :=
  match r with inr _ => true | inl _ => false end.

(** Checks (1) and (2), and (3) where a locale is modelled. *)
Definition Locale_create_head (uuid_Parse : string -> error + UUID)
           (config : Locale.Config) (r : Locale.CreateTranslatableRequest)
  : list (bool * string) :=
  [ (parses (uuid_Parse (Locale.cr_TranslatableID r)),
     "translatable_id must be a valid UUID");
    (Locale.IsAllowedType config (Locale.cr_Translatable r),
     "translatable type is not allowed");
    (Locale.IsSupportedLocale config (Locale.cr_Locale r),
     "locale is not supported") ].

Definition Locale_update_head (config : Locale.Config)
           (r : Locale.UpdateTranslatableRequest) : list (bool * string) :=
  [ (Locale.IsSupportedLocale config (Locale.ur_Locale r),
     "locale is not supported") ].

Definition Simple_create_head (uuid_Parse : string -> error + UUID)
           (config : Simple.Config) (r : Simple.CreateTranslatableRequest)
  : list (bool * string) :=
  [ (parses (uuid_Parse (Simple.cr_TranslatableID r)),
     "translatable_id must be a valid UUID");
    (Simple.IsAllowedTable config (Simple.cr_Translatable r),
     "translatable type is not allowed") ].

(** Checks (4) and (5), on the content as submitted: trimmed it is not
    empty, and its trimmed length, before any escaping, is at most [max]. *)
Definition content_checks (max : Z) (content : string) : list (bool * string) :=
  [ (negb (Go.TrimSpace content =? "")%string, "content cannot be empty");
    (Go.len (Go.TrimSpace content) <=? max,
     "content exceeds maximum length") ].

(** The content a [Validate] call leaves in the request: untouched when a
    check before the content checks fails, trimmed when a content check
    fails, trimmed and escaped when every check holds. *)
Definition content_after (head : list (bool * string)) (max : Z)
           (content : string) : string :=
  match first_failure head with
  | Some _ => content
  | None =>
      match first_failure (content_checks max content) with
      | Some _ => Go.TrimSpace content
      | None => Go.EscapeString (Go.TrimSpace content)
      end
  end.

(** The filters of a query that are set, as (column, argument) pairs in the
    fixed column order. *)
Definition set_filter {A : Type} (column : string) (arg : A -> Arg)
           (v : option A) : list (string * Arg) :=
  match v with
  | Some x => [(column, arg x)]
  | None => []
  end.

Definition Locale_filters (params : Locale.QueryParams) : list (string * Arg) :=
  (set_filter "translatable_id" AUUID (Locale.q_TranslatableID params)
   ++ set_filter "translatable" AString (Locale.q_Translatable params)
   ++ set_filter "locale" AString (Locale.q_Locale params)
   ++ set_filter "user_id" AUUID (Locale.q_UserID params))%list.

Definition Simple_filters (params : Simple.QueryParams) : list (string * Arg) :=
  (set_filter "translatable_id" AUUID (Simple.q_TranslatableID params)
   ++ set_filter "translatable" AString (Simple.q_Translatable params)
   ++ set_filter "user_id" AUUID (Simple.q_UserID params))%list.

(** The predicates for a list of columns, with placeholders numbered
    consecutively from [n]. *)
Fixpoint clauses (n : Z) (columns : list string) : string :=
  match columns with
  | [] => EmptyString
  | column :: rest =>
      " AND " ++ column ++ " = $" ++ Go.Itoa n ++ clauses (n + 1) rest
  end.

(** The page clause after [n] filters. *)
Definition page_clause (n : Z) : string :=
  " ORDER BY created_at DESC LIMIT $" ++ Go.Itoa (n + 1)
  ++ " OFFSET $" ++ Go.Itoa (n + 2).

(** The two zero-row errors of an update or delete: without an owner
    identifier, and with one. *)
Definition not_found_text (what verb : string) (userID : option UUID)
  : string :=
  match userID with
  | Some _ =>
      what ++ " not found or you don't have permission to " ++ verb ++ " it"
  | None => what ++ " not found"
  end.

(** How the list handlers read a query string: an identifier filter is
    absent when its text is empty and must parse otherwise; a text filter is
    absent when empty; a number keeps its default when its text is empty or
    is not read by [strconv.Atoi]. *)
Definition id_filter (uuid_Parse : string -> error + UUID) (text : string)
  : error + option UUID :=
  if (text =? "")%string then inr None
  else match uuid_Parse text with
       | inr id => inr (Some id)
       | inl err => inl err
       end.

Definition text_filter (text : string) : option string :=
  if (text =? "")%string then None else Some text.

Definition number_or (default : Z) (text : string) : Z :=
  if (text =? "")%string then default
  else match Go.Atoi text with
       | Some n => n
       | None => default
       end.

(** A request context with one query parameter replaced. *)
Definition with_query (c : Locale.Ctx) (key value : string) : Locale.Ctx :=
  Locale.mkCtx (Locale.c_Params_id c)
    (fun k => if (k =? key)%string then value else Locale.c_Query c k)
    (Locale.c_Locals_user_id c) (Locale.c_BodyParser_create c)
    (Locale.c_BodyParser_update c).

Definition with_url_query (r : Simple.Request) (key value : string)
  : Simple.Request :=
  Simple.mkRequest
    (fun k => if (k =? key)%string then value else Simple.r_URL_Query_Get r k)
    (Simple.r_PathValue_id r) (Simple.r_Context_user_id r)
    (Simple.r_Decode_create r) (Simple.r_Decode_update r).

(** A ["user_id"] context value that is present but is neither a UUID nor
    a string that parses as one. *)
Definition garbage (uuid_Parse : string -> error + UUID) (v : CtxValue)
  : Prop :=
  match v with
  | CtxNil => False
  | CtxUUID _ => False
  | CtxString s => parses (uuid_Parse s) = false
  | CtxOther _ => True
  end.

(** A request context with the ["user_id"] value replaced. *)
Definition with_user_id (c : Locale.Ctx) (v : CtxValue) : Locale.Ctx :=
  Locale.mkCtx (Locale.c_Params_id c) (Locale.c_Query c) v
               (Locale.c_BodyParser_create c) (Locale.c_BodyParser_update c).

Definition with_context_user_id (r : Simple.Request) (v : CtxValue)
  : Simple.Request :=
  Simple.mkRequest (Simple.r_URL_Query_Get r) (Simple.r_PathValue_id r) v
                   (Simple.r_Decode_create r) (Simple.r_Decode_update r).

(** What a duplicate scan accepts: no empty name, no repetition, nothing
    already seen. *)
Definition scan_ok (seen l : list string) : Prop :=
  ~ In "" l /\ NoDup l /\ (forall x, In x l -> ~ In x seen).

(** The value [MaxContentLength] has after the simple variant's default. *)
Definition defaulted0 (dflt v : Z) : Z := if v =? 0 then dflt else v.

(** The four bytes that open or close markup or an attribute value. *)
Definition markup_byte (c : ascii) : bool :=
  match Go.code c with
  | 60%N | 62%N | 34%N | 39%N => true
  | _ => false
  end.

(** The row [Create] builds from a request that passed [Validate]. *)
Definition Locale_new_row (uuid_Parse : string -> error + UUID)
           (env : Env) (c : Locale.Ctx)
           (req : Locale.CreateTranslatableRequest) (tid : UUID)
  : Locale.Translatable :=
  Locale.mkTranslatable (uuid_New env)
    (Locale.getUserIDFromFiberContext uuid_Parse c) tid
    (Locale.cr_Translatable req) (Locale.cr_Locale req)
    (Go.EscapeString (Go.TrimSpace (Locale.cr_Content req)))
    None (time_Now env).

(** What [Config.Validate] establishes: name lists that are not empty and
    hold neither an empty string nor a duplicate, a default locale that is a
    supported one, and numeric fields within their bounds. *)
Definition valid_config (c : Locale.Config) : Prop :=
  ~ bad_list (Locale.AllowedTypes c)
  /\ ~ bad_list (Locale.SupportedLocales c)
  /\ Locale.DefaultLocale c <> ""
  /\ In (Locale.DefaultLocale c) (Locale.SupportedLocales c)
  /\ 1 <= Locale.PaginationLimit c
  /\ 1 <= Locale.MaxPaginationLimit c
  /\ 1 <= Locale.MaxContentLength c <= 1048576.

Definition valid_simple_config (c : Simple.Config) : Prop :=
  ~ bad_list (Simple.AllowedTables c)
  /\ 1 <= Simple.MaxContentLength c <= 1048576.

(** The five bytes [html.EscapeString] replaces. *)
Definition special_byte (c : ascii) : bool :=
  match Go.code c with
  | 38%N | 39%N | 60%N | 62%N | 34%N => true
  | _ => false
  end.

(** No byte of [s] is one of the five. *)
Fixpoint special_free (s : string) : bool :=
  match s with
  | EmptyString => true
  | String c r => negb (special_byte c) && special_free r
  end.

(** Two optional values are both set or both unset. *)
Definition same_presence {A B : Type} (a : option A) (b : option B) : Prop :=
  match a, b with
  | Some _, Some _ => True
  | None, None => True
  | _, _ => False
  end.

(** The type [Initialize] expects under each key it reads; a value of any
    other type, and any other key, is passed over. *)
Definition expected (key : string) (v : Plugin.Dyn) : bool :=
  if ((key =? "allowed_types") || (key =? "supported_locales"))%string then
    match v with Plugin.DSlice _ => true | _ => false end
  else if (key =? "default_locale")%string then
    match v with Plugin.DString _ => true | _ => false end
  else if ((key =? "pagination_limit") || (key =? "max_pagination_limit")
           || (key =? "max_content_length"))%string then
    match v with Plugin.DInt _ => true | _ => false end
  else if (key =? "database")%string then
    match v with Plugin.DDatabase => true | _ => false end
  else false.

(** A configuration map with the value under one key replaced. *)
Definition with_key (config : string -> Plugin.Dyn) (key : string)
           (v : Plugin.Dyn) : string -> Plugin.Dyn :=
  fun k => if (k =? key)%string then v else config k.

(** A request with another [{id}] path value. *)
Definition with_path_id (r : Simple.Request) (id : string) : Simple.Request :=
  Simple.mkRequest (Simple.r_URL_Query_Get r) id (Simple.r_Context_user_id r)
                   (Simple.r_Decode_create r) (Simple.r_Decode_update r).

(** A response that reports a failure: an error payload under one of the
    given statuses. *)
Definition Locale_failure (codes : list Z) (r : Locale.Response) : Prop :=
  In (Locale.Status r) codes
  /\ exists msg, Locale.Payload r = Locale.J_error msg.

Definition Simple_failure (codes : list Z) (r : Simple.Response) : Prop :=
  In (Simple.Status r) codes
  /\ exists msg, Simple.Payload r = Simple.J_error msg.

(** A handler run answers 400 exactly when it made no call on the
    database, and it then hands the database state back as it got it. *)
Definition rejects_unseen {St Resp : Type} (status : Resp -> Z)
           (run : St * list Call -> Resp * (St * list Call)) (st : St)
  : Prop :=
  (status (fst (run (st, []))) = 400 <-> calls run st = [])
  /\ (calls run st = [] -> fst (snd (run (st, []))) = st).

(** The error of an [Exec] that yields no row count: the driver's own, or
    the one [RowsAffected] returns. *)
Definition exec_error (res : error + Result) : option error :=
  match res with
  | inl err => Some err
  | inr (inl err) => Some err
  | inr (inr _) => None
  end.

(** A database on which every call fails with [err]. *)
Definition broken {Row : Type} (err : error) : Database unit Row :=
  mkDatabase unit Row
    (fun _ _ st => (inl err, st)) (fun _ _ st => (inl err, st))
    (fun _ _ st => (inl err, st)) (fun _ _ st => (inl err, st)).

(** The zero value of [Translatable], as [var t Translatable] leaves it:
    nil identifiers are sixteen zero bytes, and the zero instant is written
    0. *)
Definition zero_row : Locale.Translatable :=
  Locale.mkTranslatable (mkUUID (Go.Repeat (Go.byte_of 0) 16)) None
                        (mkUUID (Go.Repeat (Go.byte_of 0) 16))
                        EmptyString EmptyString EmptyString None 0.

(** Rows in the order of [ORDER BY created_at DESC]: no row is newer than
    one before it. *)
Fixpoint newest_first (l : list Locale.Translatable) : Prop :=
  match l with
  | [] => True
  | x :: rest =>
      (forall y, In y rest -> Locale.t_CreatedAt y <= Locale.t_CreatedAt x)
      /\ newest_first rest
  end.

(** [&mocks.MockDatabase{}]: the mock with no function set. *)
Definition mock_unset : Mocks.MockDatabase Locale.Translatable :=
  Mocks.mkMockDatabase Locale.Translatable None None None.

(** A mock whose count is [total] and whose listing is [NewMockRows(k)]. *)
Definition mock_listing (total k : Z) (e : error)
  : Mocks.MockDatabase Locale.Translatable :=
  Mocks.mkMockDatabase Locale.Translatable None
    (Some (fun _ _ => inr (Mocks.NewMockRows k)))
    (Some (fun _ _ =>
             Mocks.mkMockRow Locale.Translatable
               (Some (Mocks.mkScanned Locale.Translatable
                        (inl e) (inr total))))).

(** ** Properties *)

Example TrimSpace_ascii :
  Go.TrimSpace ("  Hello " ++ Go.tab ++ Go.nl) = "Hello".
Proof. reflexivity. Qed.

Example TrimSpace_nbsp :
  Go.TrimSpace (String (Go.byte_of 194) (String (Go.byte_of 160) "a b"))
  = "a b".
Proof. reflexivity. Qed.

Example EscapeString_script :
  Go.EscapeString "<script>alert(1)</script>"
  = "&lt;script&gt;alert(1)&lt;/script&gt;".
Proof. reflexivity. Qed.

Example Itoa_12 : Go.Itoa 12 = "12".
Proof. reflexivity. Qed.

Example Atoi_examples :
  Go.Atoi "101" = Some 101 /\ Go.Atoi "-1" = Some (-1) /\ Go.Atoi "abc" = None
  /\ Go.Atoi "" = None /\ Go.Atoi "99999999999999999999" = None.
Proof. repeat split; reflexivity. Qed.

Example Parse_examples :
  parses (UuidText.Parse "550e8400-e29b-41d4-a716-446655440000") = true
  /\ UuidText.Parse "not-a-uuid" = inl (errors_New "invalid UUID length: 10")
  /\ parses (UuidText.Parse "550e8400-e29b-41d4-a716-44665544000g") = false.
Proof. repeat split. Qed.

(** *** Membership and name lists *)

Lemma seen_get_In (seen : list string) (t : string) :
  existsb (String.eqb t) seen = true <-> In t seen.
Proof.
  rewrite existsb_exists. split.
  - intros (x & Hx & E). apply String.eqb_eq in E. now subst.
  - intros H. exists t. split; [assumption | apply String.eqb_refl].
Qed.

Lemma seen_get_false (seen : list string) (t : string) :
  existsb (String.eqb t) seen = false <-> ~ In t seen.
Proof.
  rewrite <- seen_get_In. destruct (existsb _ seen); split; intros H;
    try discriminate; try reflexivity; try (intros K; discriminate).
  exfalso. now apply H.
Qed.

Lemma scan_ok_nil (seen : list string) : scan_ok seen [].
Proof.
  repeat split; [intros [] | constructor | intros x []].
Qed.

Lemma scan_ok_cons (seen : list string) (t : string) (rest : list string) :
  scan_ok seen (t :: rest) <->
  t <> "" /\ ~ In t seen /\ scan_ok (t :: seen) rest.
Proof.
  unfold scan_ok. split.
  - intros (He & Hd & Hs). inversion Hd as [| ? ? Hn Hd']; subst.
    repeat split.
    + intros E. apply He. left. now symmetry.
    + apply Hs. now left.
    + intros K. apply He. now right.
    + assumption.
    + intros x Hx [E | K].
      * subst. contradiction.
      * apply (Hs x); [now right | assumption].
  - intros (Ht & Hn & He & Hd & Hs). repeat split.
    + intros [E | K]; [now apply Ht | now apply He].
    + constructor; [| assumption]. intros K. apply (Hs t K). now left.
    + intros x [E | K] Hin.
      * subst. contradiction.
      * apply (Hs x K). now right.
Qed.

Ltac scan_tac range_fn :=
  let l := fresh "l" in
  let IH := fresh "IH" in
  intros l; induction l as [| t rest IH]; intros seen; simpl;
  [ split; [ intros _; apply scan_ok_nil | reflexivity ]
  | rewrite scan_ok_cons;
    destruct (String.eqb_spec t "") as [E | E];
    [ split; [ discriminate | intros (K & _); contradiction ]
    | unfold Locale.seen_get, Simple.seen_get;
      destruct (existsb (String.eqb t) seen) eqn:Hs;
      [ split; [ discriminate
               | intros (_ & K & _); apply seen_get_In in Hs; contradiction ]
      | rewrite IH; apply seen_get_false in Hs; tauto ] ] ].

Lemma rangeAllowedTypes_ok :
  forall l seen, Locale.rangeAllowedTypes seen l = None <-> scan_ok seen l.
Proof. scan_tac Locale.rangeAllowedTypes. Qed.

Lemma rangeSupportedLocales_ok :
  forall l seen, Locale.rangeSupportedLocales seen l = None <-> scan_ok seen l.
Proof. scan_tac Locale.rangeSupportedLocales. Qed.

Lemma rangeAllowedTables_ok :
  forall l seen, Simple.rangeAllowedTables seen l = None <-> scan_ok seen l.
Proof. scan_tac Simple.rangeAllowedTables. Qed.

Lemma NoDup_string_dec (l : list string) : {NoDup l} + {~ NoDup l}.
Proof.
  induction l as [| t rest IH].
  - left. constructor.
  - destruct (in_dec string_dec t rest) as [Hin | Hin].
    + right. intros K. inversion K. contradiction.
    + destruct IH as [Hd | Hd].
      * left. now constructor.
      * right. intros K. inversion K. contradiction.
Qed.

Lemma good_or_bad (l : list string) :
  l <> [] -> (~ scan_ok [] l <-> bad_list l).
Proof.
  intros Hne. unfold scan_ok, bad_list. split.
  - intros H.
    destruct (in_dec string_dec "" l) as [He | He]; [now (right; left) |].
    destruct (NoDup_string_dec l) as [Hd | Hd]; [| now (right; right)].
    exfalso. apply H. repeat split; try assumption. intros x _ [].
  - intros [E | [He | Hd]] (H1 & H2 & _); contradiction.
Qed.

Lemma length_zero_nil {A : Type} (l : list A) :
  (Z.of_nat (List.length l) =? 0) = true <-> l = [].
Proof.
  destruct l; simpl; split; intros H; try reflexivity; try discriminate.
Qed.

Lemma validateAllowedTypes_fails (c : Locale.Config) :
  Locale.validateAllowedTypes c <> None <-> bad_list (Locale.AllowedTypes c).
Proof.
  unfold Locale.validateAllowedTypes.
  destruct (Z.of_nat (List.length (Locale.AllowedTypes c)) =? 0) eqn:E.
  - apply length_zero_nil in E. split; [intros _; now left | discriminate].
  - assert (Hne : Locale.AllowedTypes c <> []).
    { intros K. apply length_zero_nil in K. congruence. }
    rewrite <- (good_or_bad _ Hne), <- rangeAllowedTypes_ok. tauto.
Qed.

Lemma validateSupportedLocales_fails (c : Locale.Config) :
  Locale.validateSupportedLocales c <> None
  <-> bad_list (Locale.SupportedLocales c).
Proof.
  unfold Locale.validateSupportedLocales.
  destruct (Z.of_nat (List.length (Locale.SupportedLocales c)) =? 0) eqn:E.
  - apply length_zero_nil in E. split; [intros _; now left | discriminate].
  - assert (Hne : Locale.SupportedLocales c <> []).
    { intros K. apply length_zero_nil in K. congruence. }
    rewrite <- (good_or_bad _ Hne), <- rangeSupportedLocales_ok. tauto.
Qed.

Lemma Locale_rangeEq_In (l : list string) (x : string) :
  Locale.rangeEq l x = true <-> In x l.
Proof.
  induction l as [| y rest IH]; simpl.
  - split; [discriminate | intros []].
  - destruct (String.eqb_spec y x) as [E | E].
    + split; [intros _; now left | reflexivity].
    + rewrite IH. split; [now right | intros [K | K]; [contradiction | assumption]].
Qed.

Lemma Simple_rangeEq_In (l : list string) (x : string) :
  Simple.rangeEq l x = true <-> In x l.
Proof.
  induction l as [| y rest IH]; simpl.
  - split; [discriminate | intros []].
  - destruct (String.eqb_spec y x) as [E | E].
    + split; [intros _; now left | reflexivity].
    + rewrite IH. split; [now right | intros [K | K]; [contradiction | assumption]].
Qed.

Lemma rangeDefaultLocale_ok (def : string) (l : list string) :
  Locale.rangeDefaultLocale def l = None <-> In def l.
Proof.
  induction l as [| y rest IH]; simpl.
  - split; [discriminate | intros []].
  - destruct (String.eqb_spec y def) as [E | E].
    + split; [intros _; now left | reflexivity].
    + rewrite IH. split; [now right | intros [K | K]; [contradiction | assumption]].
Qed.

Lemma applyDefaults_eq (c : Locale.Config) :
  Locale.applyDefaults c =
  Locale.mkConfig (Locale.AllowedTypes c) (Locale.SupportedLocales c)
                  (Locale.DefaultLocale c)
                  (defaulted 20 (Locale.PaginationLimit c))
                  (defaulted 100 (Locale.MaxPaginationLimit c))
                  (defaulted 10240 (Locale.MaxContentLength c)).
Proof.
  destruct c as [a s d p m x]. unfold Locale.applyDefaults, defaulted. simpl.
  destruct (p <=? 0); simpl; destruct (m <=? 0); simpl; destruct (x <=? 0);
    reflexivity.
Qed.

Lemma validateDefaultLocale_fails (c : Locale.Config) :
  Locale.validateDefaultLocale c <> None <->
  Locale.DefaultLocale c = "" \/
  ~ In (Locale.DefaultLocale c) (Locale.SupportedLocales c).
Proof.
  unfold Locale.validateDefaultLocale.
  destruct (String.eqb_spec (Locale.DefaultLocale c) "") as [E | E].
  - split; [intros _; now left | discriminate].
  - rewrite <- rangeDefaultLocale_ok. tauto.
Qed.

Lemma out_of_range_iff (m : Z) :
  ((m <? 1) || (m >? 1048576)) = true <-> ~ (1 <= m <= 1048576).
Proof.
  rewrite orb_true_iff, Z.ltb_lt, Z.gtb_gt. lia.
Qed.

Lemma Locale_Validate_fails (c : Locale.Config) :
  fails (Locale.Validate c) <->
  bad_list (Locale.AllowedTypes c) \/ bad_list (Locale.SupportedLocales c) \/
  Locale.DefaultLocale c = "" \/
  ~ In (Locale.DefaultLocale c) (Locale.SupportedLocales c) \/
  ~ (1 <= defaulted 10240 (Locale.MaxContentLength c) <= 1048576).
Proof.
  pose proof (validateAllowedTypes_fails c) as Ha.
  pose proof (validateSupportedLocales_fails c) as Hs.
  pose proof (validateDefaultLocale_fails c) as Hd.
  unfold fails, Locale.Validate.
  destruct (Locale.validateAllowedTypes c) as [ea |]; simpl.
  { split; [intros _; left; apply Ha; discriminate | discriminate]. }
  destruct (Locale.validateSupportedLocales c) as [es |]; simpl.
  { split; [intros _; right; left; apply Hs; discriminate | discriminate]. }
  destruct (Locale.validateDefaultLocale c) as [ed |]; simpl.
  { split; [intros _ | discriminate].
    assert (K : Locale.DefaultLocale c = "" \/
                ~ In (Locale.DefaultLocale c) (Locale.SupportedLocales c))
      by (apply Hd; discriminate).
    tauto. }
  rewrite applyDefaults_eq. simpl.
  pose proof (out_of_range_iff (defaulted 10240 (Locale.MaxContentLength c)))
    as Hr.
  destruct ((defaulted 10240 (Locale.MaxContentLength c) <? 1)
            || (defaulted 10240 (Locale.MaxContentLength c) >? 1048576));
    simpl.
  - split; [intros _ | discriminate]. do 4 right. now apply Hr.
  - split; [congruence |].
    intros [K | [K | [K | [K | K]]]].
    + apply Ha in K. congruence.
    + apply Hs in K. congruence.
    + assert (N : @None error <> None) by (apply Hd; tauto). congruence.
    + assert (N : @None error <> None) by (apply Hd; tauto). congruence.
    + apply Hr in K. discriminate.
Qed.

Ltac absurd_fail :=
  let H := fresh "H" in
  intros H; exfalso; apply H; discriminate.

Lemma Locale_Validate_leaves (c : Locale.Config) :
  ~ fails (Locale.Validate c) ->
  fst (Locale.Validate c) = Locale.applyDefaults c.
Proof.
  unfold fails, Locale.Validate.
  destruct (Locale.validateAllowedTypes c); simpl; [absurd_fail |].
  destruct (Locale.validateSupportedLocales c); simpl; [absurd_fail |].
  destruct (Locale.validateDefaultLocale c); simpl; [absurd_fail |].
  destruct ((Locale.MaxContentLength (Locale.applyDefaults c) <? 1)
            || (Locale.MaxContentLength (Locale.applyDefaults c) >? 1048576));
    simpl; [absurd_fail | reflexivity].
Qed.

Lemma Simple_Validate_fails (c : Simple.Config) :
  fails (Simple.Validate c) <->
  bad_list (Simple.AllowedTables c) \/
  ~ (1 <= defaulted0 10240 (Simple.MaxContentLength c) <= 1048576).
Proof.
  unfold fails, Simple.Validate.
  destruct (Z.of_nat (List.length (Simple.AllowedTables c)) =? 0) eqn:E; simpl.
  { apply length_zero_nil in E.
    split; [intros _; left; now left | discriminate]. }
  assert (Hne : Simple.AllowedTables c <> []).
  { intros K. apply length_zero_nil in K. congruence. }
  pose proof (rangeAllowedTables_ok (Simple.AllowedTables c) []) as Hr.
  pose proof (good_or_bad _ Hne) as Hg.
  destruct (Simple.rangeAllowedTables [] (Simple.AllowedTables c)) as [e |];
    simpl.
  { split; [intros _; left; apply Hg; intros K; apply Hr in K; discriminate
           | discriminate]. }
  assert (Hm : Simple.MaxContentLength
                 (if Simple.MaxContentLength c =? 0
                  then Simple.mkConfig (Simple.AllowedTables c) 10240 else c)
               = defaulted0 10240 (Simple.MaxContentLength c)).
  { unfold defaulted0. destruct (Simple.MaxContentLength c =? 0); reflexivity. }
  rewrite Hm.
  pose proof (out_of_range_iff (defaulted0 10240 (Simple.MaxContentLength c)))
    as Ho.
  destruct ((defaulted0 10240 (Simple.MaxContentLength c) <? 1)
            || (defaulted0 10240 (Simple.MaxContentLength c) >? 1048576));
    simpl.
  - split; [intros _; right; now apply Ho | discriminate].
  - split; [congruence |]. intros [K | K].
    + apply Hg in K. exfalso. apply K. now apply Hr.
    + apply Ho in K. discriminate.
Qed.

Lemma Simple_Validate_leaves (c : Simple.Config) :
  ~ fails (Simple.Validate c) ->
  fst (Simple.Validate c) =
  Simple.mkConfig (Simple.AllowedTables c)
                  (defaulted0 10240 (Simple.MaxContentLength c)).
Proof.
  unfold fails, Simple.Validate, defaulted0.
  destruct (Z.of_nat (List.length (Simple.AllowedTables c)) =? 0); simpl;
    [absurd_fail |].
  destruct (Simple.rangeAllowedTables [] (Simple.AllowedTables c)); simpl;
    [absurd_fail |].
  destruct c as [a m]; simpl.
  destruct (m =? 0) eqn:E; simpl.
  - intros _. reflexivity.
  - destruct ((m <? 1) || (m >? 1048576)); simpl; [absurd_fail | reflexivity].
Qed.

(** C3. [Config.Validate()] fails exactly when the allowed-type list is
    empty, holds an empty string or holds a duplicate, or the supported-locale
    list does, or the default locale is empty or not a supported locale, or
    the content-length limit, once defaulted, lies outside [1, 1048576]; the
    two list checks taken alone fail exactly on an empty list, an empty
    string or a duplicate.  Defaults are 20, 100 and 10240, and a successful
    call changes nothing but the defaulted numeric fields.  The variant
    without locales behaves the same over its one list and its one numeric
    field. *)
Theorem C3_config_validate (c : Locale.Config) (sc : Simple.Config) :
  (Locale.validateAllowedTypes c <> None <-> bad_list (Locale.AllowedTypes c))
  /\ (Locale.validateSupportedLocales c <> None
      <-> bad_list (Locale.SupportedLocales c))
  /\ (fails (Locale.Validate c) <->
      bad_list (Locale.AllowedTypes c) \/ bad_list (Locale.SupportedLocales c)
      \/ Locale.DefaultLocale c = ""
      \/ ~ In (Locale.DefaultLocale c) (Locale.SupportedLocales c)
      \/ ~ (1 <= defaulted 10240 (Locale.MaxContentLength c) <= 1048576))
  /\ (~ fails (Locale.Validate c) ->
      fst (Locale.Validate c) =
      Locale.mkConfig (Locale.AllowedTypes c) (Locale.SupportedLocales c)
                      (Locale.DefaultLocale c)
                      (defaulted 20 (Locale.PaginationLimit c))
                      (defaulted 100 (Locale.MaxPaginationLimit c))
                      (defaulted 10240 (Locale.MaxContentLength c)))
  /\ (defaulted 20 0 = 20 /\ defaulted 100 0 = 100 /\ defaulted 10240 0 = 10240)
  /\ (fails (Simple.Validate sc) <->
      bad_list (Simple.AllowedTables sc)
      \/ ~ (1 <= defaulted0 10240 (Simple.MaxContentLength sc) <= 1048576))
  /\ (~ fails (Simple.Validate sc) ->
      fst (Simple.Validate sc) =
      Simple.mkConfig (Simple.AllowedTables sc)
                      (defaulted0 10240 (Simple.MaxContentLength sc))).
Proof.
  split; [apply validateAllowedTypes_fails |].
  split; [apply validateSupportedLocales_fails |].
  split; [apply Locale_Validate_fails |].
  split.
  { intros H. rewrite (Locale_Validate_leaves c H). apply applyDefaults_eq. }
  split; [repeat split |].
  split; [apply Simple_Validate_fails | apply Simple_Validate_leaves].
Qed.

Lemma C3_config_validate_witness :
  fst (Locale.Validate (Locale.mkConfig ["posts"; "articles"] ["en"; "fr"]
                                        "en" 0 0 0))
  = Locale.mkConfig ["posts"; "articles"] ["en"; "fr"] "en" 20 100 10240
  /\ fst (Simple.Validate (Simple.mkConfig ["posts"] 0))
     = Simple.mkConfig ["posts"] 10240.
Proof.
  destruct (C3_config_validate
              (Locale.mkConfig ["posts"; "articles"] ["en"; "fr"] "en" 0 0 0)
              (Simple.mkConfig ["posts"] 0))
    as (_ & _ & _ & HL & _ & _ & HS).
  split.
  - apply HL. intros K. apply K. reflexivity.
  - apply HS. intros K. apply K. reflexivity.
Defined.

(** C4. [IsAllowedType] is true exactly on the elements of the allowed-type
    list and [IsSupportedLocale] exactly on the elements of the
    supported-locale list, byte for byte; on a configuration that passed
    [Validate] both are false on the empty string; with only ["posts"]
    allowed, ["Posts"] is not.  [IsAllowedTable] of the variant without
    locales is the same predicate over its list. *)
Theorem C4_membership_exact :
  (forall c name,
      Locale.IsAllowedType c name = true <-> In name (Locale.AllowedTypes c))
  /\ (forall c code,
      Locale.IsSupportedLocale c code = true
      <-> In code (Locale.SupportedLocales c))
  /\ (forall c, ~ fails (Locale.Validate c) ->
      Locale.IsAllowedType (fst (Locale.Validate c)) "" = false
      /\ Locale.IsSupportedLocale (fst (Locale.Validate c)) "" = false)
  /\ (forall c, Locale.AllowedTypes c = ["posts"] ->
      Locale.IsAllowedType c "Posts" = false
      /\ Locale.IsAllowedType c "posts" = true)
  /\ (forall c name,
      Simple.IsAllowedTable c name = true <-> In name (Simple.AllowedTables c))
  /\ (forall c, ~ fails (Simple.Validate c) ->
      Simple.IsAllowedTable (fst (Simple.Validate c)) "" = false).
Proof.
  split; [intros c name; apply Locale_rangeEq_In |].
  split; [intros c code; apply Locale_rangeEq_In |].
  split.
  { intros c Hok.
    assert (Hn : ~ (bad_list (Locale.AllowedTypes c)
                    \/ bad_list (Locale.SupportedLocales c)
                    \/ Locale.DefaultLocale c = ""
                    \/ ~ In (Locale.DefaultLocale c) (Locale.SupportedLocales c)
                    \/ ~ (1 <= defaulted 10240 (Locale.MaxContentLength c)
                          <= 1048576))).
    { intros K. apply Hok. now apply Locale_Validate_fails. }
    rewrite (Locale_Validate_leaves c Hok), applyDefaults_eq.
    unfold Locale.IsAllowedType, Locale.IsSupportedLocale. simpl.
    split.
    - destruct (Locale.rangeEq (Locale.AllowedTypes c) "") eqn:E;
        [| reflexivity].
      apply Locale_rangeEq_In in E. exfalso. apply Hn. left. right. now left.
    - destruct (Locale.rangeEq (Locale.SupportedLocales c) "") eqn:E;
        [| reflexivity].
      apply Locale_rangeEq_In in E. exfalso. apply Hn. right. left. right.
      now left. }
  split.
  { intros c H. unfold Locale.IsAllowedType. rewrite H. split; reflexivity. }
  split; [intros c name; apply Simple_rangeEq_In |].
  intros c Hok.
  assert (Hn : ~ (bad_list (Simple.AllowedTables c)
                  \/ ~ (1 <= defaulted0 10240 (Simple.MaxContentLength c)
                        <= 1048576))).
  { intros K. apply Hok. now apply Simple_Validate_fails. }
  rewrite (Simple_Validate_leaves c Hok).
  unfold Simple.IsAllowedTable. simpl.
  destruct (Simple.rangeEq (Simple.AllowedTables c) "") eqn:E; [| reflexivity].
  apply Simple_rangeEq_In in E. exfalso. apply Hn. left. right. now left.
Qed.

Lemma C4_membership_exact_witness :
  (Locale.IsAllowedType (fst (Locale.Validate Locale.DefaultConfig)) "" = false
   /\ Locale.IsSupportedLocale (fst (Locale.Validate Locale.DefaultConfig)) ""
      = false)
  /\ (Locale.IsAllowedType
        (Locale.mkConfig ["posts"] ["en"] "en" 20 100 10240) "Posts" = false
      /\ Locale.IsAllowedType
           (Locale.mkConfig ["posts"] ["en"] "en" 20 100 10240) "posts" = true)
  /\ Simple.IsAllowedTable (fst (Simple.Validate Simple.DefaultConfig)) ""
     = false.
Proof.
  destruct C4_membership_exact as (_ & _ & HV & HP & _ & HS).
  split; [| split].
  - apply HV. intros K. apply K. reflexivity.
  - apply HP. reflexivity.
  - apply HS. intros K. apply K. reflexivity.
Defined.


(** *** Request validation *)

Lemma gtb_leb (a b : Z) : (a >? b) = negb (a <=? b).
Proof.
  rewrite Z.gtb_ltb, Z.leb_antisym. symmetry. apply negb_involutive.
Qed.

Lemma Locale_Create_Validate_spec (uuid_Parse : string -> error + UUID)
      (config : Locale.Config) (r : Locale.CreateTranslatableRequest) :
  Locale.Create_Validate uuid_Parse config r =
  (Locale.cr_set_Content r
     (content_after (Locale_create_head uuid_Parse config r)
                    (Locale.MaxContentLength config) (Locale.cr_Content r)),
   first_failure (Locale_create_head uuid_Parse config r
                  ++ content_checks (Locale.MaxContentLength config)
                                    (Locale.cr_Content r))%list).
Proof.
  destruct r as [tid tr loc content].
  unfold Locale.Create_Validate, content_after, Locale_create_head,
    content_checks, Locale.cr_set_Content. simpl.
  destruct (uuid_Parse tid); simpl; [reflexivity |].
  destruct (Locale.IsAllowedType config tr); simpl; [| reflexivity].
  destruct (Locale.IsSupportedLocale config loc); simpl; [| reflexivity].
  destruct (Go.TrimSpace content =? "")%string; simpl; [reflexivity |].
  rewrite gtb_leb.
  destruct (Go.len (Go.TrimSpace content) <=? Locale.MaxContentLength config);
    reflexivity.
Qed.

Lemma Locale_Update_Validate_spec
      (config : Locale.Config) (r : Locale.UpdateTranslatableRequest) :
  Locale.Update_Validate config r =
  (Locale.ur_set_Content r
     (content_after (Locale_update_head config r)
                    (Locale.MaxContentLength config) (Locale.ur_Content r)),
   first_failure (Locale_update_head config r
                  ++ content_checks (Locale.MaxContentLength config)
                                    (Locale.ur_Content r))%list).
Proof.
  destruct r as [loc content].
  unfold Locale.Update_Validate, content_after, Locale_update_head,
    content_checks, Locale.ur_set_Content. simpl.
  destruct (Locale.IsSupportedLocale config loc); simpl; [| reflexivity].
  destruct (Go.TrimSpace content =? "")%string; simpl; [reflexivity |].
  rewrite gtb_leb.
  destruct (Go.len (Go.TrimSpace content) <=? Locale.MaxContentLength config);
    reflexivity.
Qed.

Lemma Simple_Create_Validate_spec (uuid_Parse : string -> error + UUID)
      (config : Simple.Config) (r : Simple.CreateTranslatableRequest) :
  Simple.Create_Validate uuid_Parse config r =
  (Simple.cr_set_Content r
     (content_after (Simple_create_head uuid_Parse config r)
                    (Simple.MaxContentLength config) (Simple.cr_Content r)),
   first_failure (Simple_create_head uuid_Parse config r
                  ++ content_checks (Simple.MaxContentLength config)
                                    (Simple.cr_Content r))%list).
Proof.
  destruct r as [tid tr content].
  unfold Simple.Create_Validate, content_after, Simple_create_head,
    content_checks, Simple.cr_set_Content. simpl.
  destruct (uuid_Parse tid); simpl; [reflexivity |].
  destruct (Simple.IsAllowedTable config tr); simpl; [| reflexivity].
  destruct (Go.TrimSpace content =? "")%string; simpl; [reflexivity |].
  rewrite gtb_leb.
  destruct (Go.len (Go.TrimSpace content) <=? Simple.MaxContentLength config);
    reflexivity.
Qed.

Lemma Simple_Update_Validate_spec
      (config : Simple.Config) (r : Simple.UpdateTranslatableRequest) :
  Simple.Update_Validate config r =
  (Simple.mkUpdate
     (content_after [] (Simple.MaxContentLength config) (Simple.ur_Content r)),
   first_failure (content_checks (Simple.MaxContentLength config)
                                 (Simple.ur_Content r))).
Proof.
  destruct r as [content].
  unfold Simple.Update_Validate, content_after, content_checks. simpl.
  destruct (Go.TrimSpace content =? "")%string; simpl; [reflexivity |].
  rewrite gtb_leb.
  destruct (Go.len (Go.TrimSpace content) <=? Simple.MaxContentLength config);
    reflexivity.
Qed.

(** The length check is inclusive: a non-empty trimmed content of exactly
    [max] bytes passes both content checks, one of [max + 1] bytes fails the
    second. *)
Lemma content_checks_boundary (max : Z) (content : string) :
  Go.TrimSpace content <> "" ->
  (Go.len (Go.TrimSpace content) = max ->
   first_failure (content_checks max content) = None)
  /\ (Go.len (Go.TrimSpace content) = max + 1 ->
      first_failure (content_checks max content)
      = Some (errors_New "content exceeds maximum length")).
Proof.
  intros Hne. unfold content_checks. simpl.
  destruct (String.eqb_spec (Go.TrimSpace content) "") as [E | _];
    [contradiction |]. simpl.
  split; intros H.
  - assert (L : (Go.len (Go.TrimSpace content) <=? max) = true)
      by (apply Z.leb_le; lia).
    rewrite L. reflexivity.
  - assert (L : (Go.len (Go.TrimSpace content) <=? max) = false)
      by (apply Z.leb_gt; lia).
    rewrite L. reflexivity.
Qed.

Lemma first_failure_None (checks : list (bool * string)) :
  first_failure checks = None <-> forallb fst checks = true.
Proof.
  induction checks as [| [holds msg] rest IH]; simpl.
  - split; reflexivity.
  - destruct holds; simpl; [exact IH | split; discriminate].
Qed.

(** C1. [Validate] of a Create or Update request reports the error of the
    first check that fails, in the order: (1) [translatableId] parses as a
    UUID (Create), (2) [translatable] is an allowed type (Create), (3) the
    locale is supported (where modelled), (4) the trimmed content is not
    empty, (5) the trimmed, unescaped content is at most [MaxContentLength]
    bytes long; it succeeds exactly when all hold.  The request is changed
    in place: its content is untouched when one of (1)-(3) fails, trimmed
    when (4) or (5) fails, and trimmed then escaped only on success.  The
    bound is inclusive: exactly [MaxContentLength] bytes pass, one more is
    rejected. *)
Theorem C1_validate_order
        (uuid_Parse : string -> error + UUID)
        (lc : Locale.Config) (sc : Simple.Config)
        (lcr : Locale.CreateTranslatableRequest)
        (lur : Locale.UpdateTranslatableRequest)
        (scr : Simple.CreateTranslatableRequest)
        (sur : Simple.UpdateTranslatableRequest) :
  let lcreate := (Locale_create_head uuid_Parse lc lcr
                  ++ content_checks (Locale.MaxContentLength lc)
                                    (Locale.cr_Content lcr))%list in
  let lupdate := (Locale_update_head lc lur
                  ++ content_checks (Locale.MaxContentLength lc)
                                    (Locale.ur_Content lur))%list in
  let screate := (Simple_create_head uuid_Parse sc scr
                  ++ content_checks (Simple.MaxContentLength sc)
                                    (Simple.cr_Content scr))%list in
  let supdate := content_checks (Simple.MaxContentLength sc)
                                (Simple.ur_Content sur) in
  (Locale.Create_Validate uuid_Parse lc lcr =
   (Locale.cr_set_Content lcr
      (content_after (Locale_create_head uuid_Parse lc lcr)
                     (Locale.MaxContentLength lc) (Locale.cr_Content lcr)),
    first_failure lcreate)
   /\ (snd (Locale.Create_Validate uuid_Parse lc lcr) = None
       <-> forallb fst lcreate = true))
  /\ (Locale.Update_Validate lc lur =
      (Locale.ur_set_Content lur
         (content_after (Locale_update_head lc lur)
                        (Locale.MaxContentLength lc) (Locale.ur_Content lur)),
       first_failure lupdate)
      /\ (snd (Locale.Update_Validate lc lur) = None
          <-> forallb fst lupdate = true))
  /\ (Simple.Create_Validate uuid_Parse sc scr =
      (Simple.cr_set_Content scr
         (content_after (Simple_create_head uuid_Parse sc scr)
                        (Simple.MaxContentLength sc) (Simple.cr_Content scr)),
       first_failure screate)
      /\ (snd (Simple.Create_Validate uuid_Parse sc scr) = None
          <-> forallb fst screate = true))
  /\ (Simple.Update_Validate sc sur =
      (Simple.mkUpdate
         (content_after [] (Simple.MaxContentLength sc)
                        (Simple.ur_Content sur)),
       first_failure supdate)
      /\ (snd (Simple.Update_Validate sc sur) = None
          <-> forallb fst supdate = true))
  /\ (forall max content,
      Go.TrimSpace content <> "" ->
      (Go.len (Go.TrimSpace content) = max ->
       first_failure (content_checks max content) = None)
      /\ (Go.len (Go.TrimSpace content) = max + 1 ->
          first_failure (content_checks max content)
          = Some (errors_New "content exceeds maximum length"))).
Proof.
  intros lcreate lupdate screate supdate.
  split.
  { rewrite Locale_Create_Validate_spec. split; [reflexivity |].
    apply first_failure_None. }
  split.
  { rewrite Locale_Update_Validate_spec. split; [reflexivity |].
    apply first_failure_None. }
  split.
  { rewrite Simple_Create_Validate_spec. split; [reflexivity |].
    apply first_failure_None. }
  split.
  { rewrite Simple_Update_Validate_spec. split; [reflexivity |].
    apply first_failure_None. }
  intros max content. apply content_checks_boundary.
Qed.

Lemma C1_validate_order_witness :
  first_failure (content_checks 5 "  hello ") = None
  /\ first_failure (content_checks 4 "  hello ")
     = Some (errors_New "content exceeds maximum length").
Proof.
  destruct (C1_validate_order UuidText.Parse Locale.DefaultConfig
              Simple.DefaultConfig
              (Locale.mkCreate "" "" "" "") (Locale.mkUpdate "" "")
              (Simple.mkCreate "" "" "") (Simple.mkUpdate ""))
    as (_ & _ & _ & _ & H).
  split.
  - apply (H 5 "  hello "); [discriminate | reflexivity].
  - apply (H 4 "  hello "); [discriminate | reflexivity].
Defined.

Example Create_Validate_order :
  let cfg := Locale.mkConfig ["posts"; "articles"] ["en"; "fr"] "en" 20 100 100
  in
  let id := "550e8400-e29b-41d4-a716-446655440000" in
  snd (Locale.Create_Validate UuidText.Parse cfg
         (Locale.mkCreate "not-a-uuid" "categories" "de" "   "))
  = Some (errors_New "translatable_id must be a valid UUID")
  /\ snd (Locale.Create_Validate UuidText.Parse cfg
            (Locale.mkCreate id "categories" "de" "   "))
     = Some (errors_New "translatable type is not allowed")
  /\ snd (Locale.Create_Validate UuidText.Parse cfg
            (Locale.mkCreate id "posts" "de" "   "))
     = Some (errors_New "locale is not supported")
  /\ Locale.Create_Validate UuidText.Parse cfg
       (Locale.mkCreate id "posts" "en" "   ")
     = (Locale.mkCreate id "posts" "en" "",
        Some (errors_New "content cannot be empty"))
  /\ snd (Locale.Create_Validate UuidText.Parse cfg
            (Locale.mkCreate id "posts" "en" (Go.Repeat "a" 101)))
     = Some (errors_New "content exceeds maximum length")
  /\ snd (Locale.Create_Validate UuidText.Parse cfg
            (Locale.mkCreate id "posts" "en" (Go.Repeat "a" 100)))
     = None
  /\ Locale.Create_Validate UuidText.Parse cfg
       (Locale.mkCreate id "posts" "en" " <b>Hi</b> ")
     = (Locale.mkCreate id "posts" "en" "&lt;b&gt;Hi&lt;/b&gt;", None).
Proof. vm_compute. repeat split. Qed.

(** *** Escaping *)

Lemma hasByte_app (c : ascii) (s t : string) :
  hasByte c (s ++ t) = hasByte c s || hasByte c t.
Proof.
  induction s as [| d r IH]; simpl; [reflexivity |].
  rewrite IH. apply orb_assoc.
Qed.

Lemma escapeByte_clean (c d : ascii) :
  markup_byte c = true -> hasByte c (Go.escapeByte d) = false.
Proof.
  destruct c as [c0 c1 c2 c3 c4 c5 c6 c7].
  destruct c0, c1, c2, c3, c4, c5, c6, c7; try discriminate; intros _;
    destruct d as [d0 d1 d2 d3 d4 d5 d6 d7];
    destruct d0, d1, d2, d3, d4, d5, d6, d7; reflexivity.
Qed.

Lemma EscapeString_clean (c : ascii) (s : string) :
  markup_byte c = true -> hasByte c (Go.EscapeString s) = false.
Proof.
  intros Hc. induction s as [| d r IH]; simpl; [reflexivity |].
  rewrite hasByte_app, IH, (escapeByte_clean c d Hc). reflexivity.
Qed.

Lemma Contains_hasByte (c : ascii) (sub s : string) :
  Go.Contains s (String c sub) = true -> hasByte c s = true.
Proof.
  induction s as [| d r IH]; simpl.
  - discriminate.
  - destruct (ascii_dec c d) as [E | E].
    + subst. rewrite Ascii.eqb_refl. reflexivity.
    + intros H. rewrite (IH H). apply orb_true_r.
Qed.

Lemma EscapeString_no_script (s : string) :
  Go.Contains (Go.EscapeString s) "<script>" = false.
Proof.
  destruct (Go.Contains (Go.EscapeString s) "<script>") eqn:E; [| reflexivity].
  apply Contains_hasByte in E.
  rewrite EscapeString_clean in E; [discriminate | reflexivity].
Qed.

(** Every byte is replaced on its own: the five special bytes by their
    entities, any other byte by itself. *)
Lemma EscapeString_bytes (c : ascii) (s : string) :
  Go.EscapeString (String c s) = Go.escapeByte c ++ Go.EscapeString s
  /\ Go.escapeByte "<" = "&lt;" /\ Go.escapeByte ">" = "&gt;"
  /\ Go.escapeByte "&" = "&amp;" /\ Go.escapeByte "'" = "&#39;"
  /\ Go.escapeByte (Go.byte_of 34) = "&#34;".
Proof. repeat split. Qed.

(** *** What the handlers hand to the database *)

Section Handed.

Variable uuid_Parse : string -> error + UUID.

Lemma Locale_Create_Validate_ok (config : Locale.Config)
      (req : Locale.CreateTranslatableRequest) :
  snd (Locale.Create_Validate uuid_Parse config req) = None ->
  Locale.Create_Validate uuid_Parse config req =
  (Locale.cr_set_Content req
     (Go.EscapeString (Go.TrimSpace (Locale.cr_Content req))), None)
  /\ exists tid, uuid_Parse (Locale.cr_TranslatableID req) = inr tid.
Proof.
  rewrite Locale_Create_Validate_spec. simpl. intros H.
  unfold content_after.
  unfold Locale_create_head in *. simpl in *.
  destruct (uuid_Parse (Locale.cr_TranslatableID req)) as [e | tid];
    simpl in *; [discriminate |].
  destruct (Locale.IsAllowedType config (Locale.cr_Translatable req));
    simpl in *; [| discriminate].
  destruct (Locale.IsSupportedLocale config (Locale.cr_Locale req));
    simpl in *; [| discriminate].
  rewrite H. split; [reflexivity | now exists tid].
Qed.

Lemma Locale_Update_Validate_ok (config : Locale.Config)
      (req : Locale.UpdateTranslatableRequest) :
  snd (Locale.Update_Validate config req) = None ->
  Locale.Update_Validate config req =
  (Locale.ur_set_Content req
     (Go.EscapeString (Go.TrimSpace (Locale.ur_Content req))), None).
Proof.
  rewrite Locale_Update_Validate_spec. simpl. intros H.
  unfold content_after.
  unfold Locale_update_head in *. simpl in *.
  destruct (Locale.IsSupportedLocale config (Locale.ur_Locale req));
    simpl in *; [| discriminate].
  rewrite H. reflexivity.
Qed.

Lemma Simple_Create_Validate_ok (config : Simple.Config)
      (req : Simple.CreateTranslatableRequest) :
  snd (Simple.Create_Validate uuid_Parse config req) = None ->
  Simple.Create_Validate uuid_Parse config req =
  (Simple.cr_set_Content req
     (Go.EscapeString (Go.TrimSpace (Simple.cr_Content req))), None)
  /\ exists tid, uuid_Parse (Simple.cr_TranslatableID req) = inr tid.
Proof.
  rewrite Simple_Create_Validate_spec. simpl. intros H.
  unfold content_after.
  unfold Simple_create_head in *. simpl in *.
  destruct (uuid_Parse (Simple.cr_TranslatableID req)) as [e | tid];
    simpl in *; [discriminate |].
  destruct (Simple.IsAllowedTable config (Simple.cr_Translatable req));
    simpl in *; [| discriminate].
  rewrite H. split; [reflexivity | now exists tid].
Qed.

Lemma Simple_Update_Validate_ok (config : Simple.Config)
      (req : Simple.UpdateTranslatableRequest) :
  snd (Simple.Update_Validate config req) = None ->
  Simple.Update_Validate config req =
  (Simple.mkUpdate (Go.EscapeString (Go.TrimSpace (Simple.ur_Content req))),
   None).
Proof.
  rewrite Simple_Update_Validate_spec. simpl. intros H.
  unfold content_after. simpl. rewrite H. reflexivity.
Qed.

Lemma Locale_Create_run (St : Type) (db : Database St Locale.Translatable)
      (config : Locale.Config) (env : Env) (c : Locale.Ctx) (st : St)
      (req : Locale.CreateTranslatableRequest) :
  Locale.c_BodyParser_create c = inr req ->
  snd (Locale.Create_Validate uuid_Parse config req) = None ->
  exists tid,
    uuid_Parse (Locale.cr_TranslatableID req) = inr tid
    /\ Locale.Create uuid_Parse St db config env c st =
       match Exec db Locale.createQuery
                  (Locale.createArgs (Locale_new_row uuid_Parse env c req tid)) st with
       | (inl _, st') =>
           (Locale.mkResponse 500 (Locale.J_error "Failed to create translation"),
            st')
       | (inr _, st') =>
           (Locale.mkResponse 201
              (Locale.J_translatable (Locale_new_row uuid_Parse env c req tid)), st')
       end.
Proof.
  intros Hb Hv.
  destruct (Locale_Create_Validate_ok config req Hv) as (Hv' & tid & Hp).
  exists tid. split; [assumption |].
  unfold Locale.Create. rewrite Hb, Hv'.
  unfold Locale.ToTranslatable. simpl. rewrite Hp.
  unfold Locale.createInDB.
  fold (Locale_new_row uuid_Parse env c req tid).
  destruct (Exec db Locale.createQuery
                 (Locale.createArgs (Locale_new_row uuid_Parse env c req tid)) st)
    as [[e | r] st']; reflexivity.
Qed.

End Handed.

Lemma logged_Exec {St Row : Type} (db : Database St Row)
      (q : string) (args : list Arg) (st : St) (log : list Call) :
  Exec (logged db) q args (st, log) =
  (fst (Exec db q args st),
   (snd (Exec db q args st), (log ++ [CallExec q args])%list)).
Proof.
  simpl. destruct (Exec db q args st); reflexivity.
Qed.

Lemma logged_QueryRowScan {St Row : Type} (db : Database St Row)
      (q : string) (args : list Arg) (st : St) (log : list Call) :
  QueryRowScan (logged db) q args (st, log) =
  (fst (QueryRowScan db q args st),
   (snd (QueryRowScan db q args st), (log ++ [CallQueryRow q args])%list)).
Proof.
  simpl. destruct (QueryRowScan db q args st); reflexivity.
Qed.

Section HandedCalls.

Variable uuid_Parse : string -> error + UUID.
Variable St : Type.
Variable db : Database St Locale.Translatable.

Lemma Locale_Create_execs (config : Locale.Config) (env : Env)
      (c : Locale.Ctx) (st : St) (q : string) (args : list Arg) :
  In (q, args)
     (execs (calls (Locale.Create uuid_Parse _ (logged db) config env c) st)) ->
  exists req tid,
    Locale.c_BodyParser_create c = inr req
    /\ uuid_Parse (Locale.cr_TranslatableID req) = inr tid
    /\ q = Locale.createQuery
    /\ args = Locale.createArgs (Locale_new_row uuid_Parse env c req tid).
Proof.
  unfold calls.
  destruct (Locale.c_BodyParser_create c) as [e | req] eqn:Hb.
  { unfold Locale.Create. rewrite Hb. simpl. intros []. }
  destruct (snd (Locale.Create_Validate uuid_Parse config req)) as [e |] eqn:Hv.
  { unfold Locale.Create. rewrite Hb.
    destruct (Locale.Create_Validate uuid_Parse config req) as [r' o].
    simpl in Hv. subst o. simpl. intros []. }
  destruct (Locale_Create_run uuid_Parse _ (logged db) config env c (st, [])
                              req Hb Hv) as (tid & Hp & Hrun).
  rewrite Hrun, logged_Exec. intros H.
  exists req, tid. repeat split; try assumption.
  - destruct (fst (Exec db Locale.createQuery
                (Locale.createArgs (Locale_new_row uuid_Parse env c req tid))
                st)); simpl in H; destruct H as [H | []]; congruence.
  - destruct (fst (Exec db Locale.createQuery
                (Locale.createArgs (Locale_new_row uuid_Parse env c req tid))
                st)); simpl in H; destruct H as [H | []]; congruence.
Qed.

Lemma Locale_Update_execs (config : Locale.Config) (env : Env)
      (c : Locale.Ctx) (st : St) (q : string) (args : list Arg) :
  In (q, args)
     (execs (calls (Locale.Update uuid_Parse _ (logged db) config env c) st)) ->
  exists req id,
    Locale.c_BodyParser_update c = inr req
    /\ uuid_Parse (Locale.c_Params_id c) = inr id
    /\ (q, args) =
       Locale.updateStmt env id
         (Go.EscapeString (Go.TrimSpace (Locale.ur_Content req)))
         (Locale.ur_Locale req)
         (Locale.getUserIDFromFiberContext uuid_Parse c).
Proof.
  unfold calls, Locale.Update.
  destruct (uuid_Parse (Locale.c_Params_id c)) as [e | id] eqn:Hp;
    [simpl; intros [] |].
  destruct (Locale.c_BodyParser_update c) as [e | req] eqn:Hb;
    [simpl; intros [] |].
  destruct (snd (Locale.Update_Validate config req)) as [e |] eqn:Hv.
  { destruct (Locale.Update_Validate config req) as [r' o].
    simpl in Hv. subst o. simpl. intros []. }
  rewrite (Locale_Update_Validate_ok config req Hv).
  unfold Locale.updateInDB, Locale.getByIDFromDB. simpl Locale.ur_Content.
  simpl Locale.ur_Locale.
  destruct (Locale.updateStmt env id
              (Go.EscapeString (Go.TrimSpace (Locale.ur_Content req)))
              (Locale.ur_Locale req)
              (Locale.getUserIDFromFiberContext uuid_Parse c))
    as [query uargs] eqn:Hs.
  rewrite logged_Exec.
  intros H. exists req, id. repeat split.
  destruct (fst (Exec db query uargs st)) as [e | [e | n]].
  - destruct ((Error e =? "translation not found")%string
              || (Error e =?
                  "translation not found or you don't have permission to update it")%string);
      simpl in H; destruct H as [H | []]; congruence.
  - destruct ((Error e =? "translation not found")%string
              || (Error e =?
                  "translation not found or you don't have permission to update it")%string);
      simpl in H; destruct H as [H | []]; congruence.
  - destruct (n =? 0).
    + destruct (Locale.getUserIDFromFiberContext uuid_Parse c);
        simpl in H; destruct H as [H | []]; congruence.
    + rewrite logged_QueryRowScan in H.
      destruct (fst (QueryRowScan db Locale.getByIDQuery [AUUID id]
                       (snd (Exec db query uargs st))));
        simpl in H; destruct H as [H | []]; congruence.
Qed.

End HandedCalls.

(** *** Creating a row and reading it back, on the table in memory *)

Lemma UUID_eqb_refl (u : UUID) : UUID_eqb u u = true.
Proof. destruct u as [b]. simpl. apply String.eqb_refl. Qed.

Lemma UUID_eqb_eq (u v : UUID) : UUID_eqb u v = true <-> u = v.
Proof.
  destruct u as [a], v as [b]. simpl. rewrite String.eqb_eq.
  split; intros H; [now subst | now inversion H].
Qed.

Lemma find_app_new {A : Type} (f : A -> bool) (l : list A) (x : A) :
  existsb f l = false -> f x = true -> find f (l ++ [x]) = Some x.
Proof.
  induction l as [| y rest IH]; simpl; intros He Hx.
  - rewrite Hx. reflexivity.
  - apply orb_false_iff in He. destruct He as (Hy & Hr).
    rewrite Hy. now apply IH.
Qed.

Section RoundTrip.

Variable uuid_Parse : string -> error + UUID.

Lemma Locale_Create_201 (config : Locale.Config) (env : Env) (c : Locale.Ctx)
      (tbl : LocaleMem.Table) :
  Locale.Status
    (fst (Locale.Create uuid_Parse _ LocaleMem.db config env c tbl)) = 201 ->
  exists req tid,
    Locale.c_BodyParser_create c = inr req
    /\ snd (Locale.Create_Validate uuid_Parse config req) = None
    /\ existsb (fun t => UUID_eqb (Locale.t_ID t) (uuid_New env)) tbl = false
    /\ Locale.Create uuid_Parse _ LocaleMem.db config env c tbl =
       (Locale.mkResponse 201
          (Locale.J_translatable (Locale_new_row uuid_Parse env c req tid)),
        (tbl ++ [Locale_new_row uuid_Parse env c req tid])%list).
Proof.
  destruct (Locale.c_BodyParser_create c) as [e | req] eqn:Hb.
  { unfold Locale.Create. rewrite Hb. simpl. discriminate. }
  destruct (snd (Locale.Create_Validate uuid_Parse config req)) as [e |] eqn:Hv.
  { unfold Locale.Create. rewrite Hb.
    destruct (Locale.Create_Validate uuid_Parse config req) as [r' o].
    simpl in Hv. subst o. simpl. discriminate. }
  destruct (Locale_Create_run uuid_Parse _ LocaleMem.db config env c tbl
                              req Hb Hv) as (tid & Hp & Hrun).
  rewrite Hrun. intros H. exists req, tid.
  change (Exec LocaleMem.db) with LocaleMem.mem_Exec in *.
  unfold LocaleMem.mem_Exec in *. rewrite String.eqb_refl in *.
  unfold Locale.createArgs in *. simpl Locale.t_ID in *.
  destruct (existsb (fun t => UUID_eqb (Locale.t_ID t) (uuid_New env)) tbl)
    eqn:He.
  - simpl in H. discriminate.
  - repeat split; try assumption.
Qed.

Lemma Locale_read_back (config : Locale.Config) (env : Env)
      (c c' : Locale.Ctx) (tbl : LocaleMem.Table) :
  Locale.Status
    (fst (Locale.Create uuid_Parse _ LocaleMem.db config env c tbl)) = 201 ->
  uuid_Parse (Locale.c_Params_id c') = inr (uuid_New env) ->
  exists req t,
    Locale.c_BodyParser_create c = inr req
    /\ fst (Locale.GetByID uuid_Parse _ LocaleMem.db c'
              (snd (Locale.Create uuid_Parse _ LocaleMem.db config env c tbl)))
       = Locale.mkResponse 200 (Locale.J_translatable t)
    /\ Locale.t_Content t
       = Go.EscapeString (Go.TrimSpace (Locale.cr_Content req)).
Proof.
  intros H201 Hp.
  destruct (Locale_Create_201 config env c tbl H201)
    as (req & tid & Hb & Hv & He & Hrun).
  exists req, (Locale_new_row uuid_Parse env c req tid).
  split; [assumption |]. split; [| reflexivity].
  rewrite Hrun. simpl snd.
  unfold Locale.GetByID. rewrite Hp.
  unfold Locale.getByIDFromDB.
  change (QueryRowScan LocaleMem.db) with LocaleMem.mem_QueryRowScan.
  unfold LocaleMem.mem_QueryRowScan. rewrite String.eqb_refl.
  rewrite (find_app_new _ tbl _ He); [reflexivity |].
  apply UUID_eqb_refl.
Qed.

End RoundTrip.


(** C2. When [Validate] succeeds the request's content is the HTML-escaped
    form of the trimmed input, for Create and Update in both variants; the
    escaped form holds none of the bytes [<], [>], double quote and single
    quote (each special byte, [&] included, is replaced by its entity), so it
    never contains ["<script>"].  The only statements [Create] and [Update]
    execute are the insert and the update carrying that escaped content, and
    on the table in memory a created row read back by its id has exactly
    that content. *)
Theorem C2_escaped_content (uuid_Parse : string -> error + UUID) :
  (forall config req,
      snd (Locale.Create_Validate uuid_Parse config req) = None ->
      Locale.cr_Content (fst (Locale.Create_Validate uuid_Parse config req))
      = Go.EscapeString (Go.TrimSpace (Locale.cr_Content req)))
  /\ (forall config req,
      snd (Locale.Update_Validate config req) = None ->
      Locale.ur_Content (fst (Locale.Update_Validate config req))
      = Go.EscapeString (Go.TrimSpace (Locale.ur_Content req)))
  /\ (forall config req,
      snd (Simple.Create_Validate uuid_Parse config req) = None ->
      Simple.cr_Content (fst (Simple.Create_Validate uuid_Parse config req))
      = Go.EscapeString (Go.TrimSpace (Simple.cr_Content req)))
  /\ (forall config req,
      snd (Simple.Update_Validate config req) = None ->
      Simple.ur_Content (fst (Simple.Update_Validate config req))
      = Go.EscapeString (Go.TrimSpace (Simple.ur_Content req)))
  /\ (forall s c, markup_byte c = true -> hasByte c (Go.EscapeString s) = false)
  /\ (forall s, Go.Contains (Go.EscapeString s) "<script>" = false)
  /\ (forall c s,
      Go.EscapeString (String c s) = Go.escapeByte c ++ Go.EscapeString s
      /\ Go.escapeByte "<" = "&lt;" /\ Go.escapeByte ">" = "&gt;"
      /\ Go.escapeByte "&" = "&amp;" /\ Go.escapeByte "'" = "&#39;"
      /\ Go.escapeByte (Go.byte_of 34) = "&#34;")
  /\ (forall St (db : Database St Locale.Translatable) config env c st q args,
      In (q, args)
         (execs (calls (Locale.Create uuid_Parse _ (logged db) config env c)
                       st)) ->
      exists req tid,
        Locale.c_BodyParser_create c = inr req
        /\ q = Locale.createQuery
        /\ args = [AUUID (uuid_New env);
                   AOptUUID (Locale.getUserIDFromFiberContext uuid_Parse c);
                   AUUID tid; AString (Locale.cr_Translatable req);
                   AString (Locale.cr_Locale req);
                   AString (Go.EscapeString
                              (Go.TrimSpace (Locale.cr_Content req)));
                   ATime (time_Now env)])
  /\ (forall St (db : Database St Locale.Translatable) config env c st q args,
      In (q, args)
         (execs (calls (Locale.Update uuid_Parse _ (logged db) config env c)
                       st)) ->
      exists req id,
        Locale.c_BodyParser_update c = inr req
        /\ (q, args) =
           Locale.updateStmt env id
             (Go.EscapeString (Go.TrimSpace (Locale.ur_Content req)))
             (Locale.ur_Locale req)
             (Locale.getUserIDFromFiberContext uuid_Parse c))
  /\ (forall config env c c' tbl,
      Locale.Status
        (fst (Locale.Create uuid_Parse _ LocaleMem.db config env c tbl)) = 201 ->
      uuid_Parse (Locale.c_Params_id c') = inr (uuid_New env) ->
      exists req t,
        Locale.c_BodyParser_create c = inr req
        /\ fst (Locale.GetByID uuid_Parse _ LocaleMem.db c'
                  (snd (Locale.Create uuid_Parse _ LocaleMem.db config env c
                                      tbl)))
           = Locale.mkResponse 200 (Locale.J_translatable t)
        /\ Locale.t_Content t
           = Go.EscapeString (Go.TrimSpace (Locale.cr_Content req))
        /\ Go.Contains (Locale.t_Content t) "<script>" = false).
Proof.
  split.
  { intros config req H.
    destruct (Locale_Create_Validate_ok uuid_Parse config req H) as (E & _).
    rewrite E. reflexivity. }
  split.
  { intros config req H.
    rewrite (Locale_Update_Validate_ok config req H). reflexivity. }
  split.
  { intros config req H.
    destruct (Simple_Create_Validate_ok uuid_Parse config req H) as (E & _).
    rewrite E. reflexivity. }
  split.
  { intros config req H.
    rewrite (Simple_Update_Validate_ok config req H). reflexivity. }
  split; [intros s c; apply EscapeString_clean |].
  split; [apply EscapeString_no_script |].
  split; [intros c s; apply EscapeString_bytes |].
  split.
  { intros St db config env c st q args Hin.
    destruct (Locale_Create_execs uuid_Parse St db config env c st q args Hin)
      as (req & tid & Hb & Hp & Hq & Ha).
    exists req, tid. repeat split; assumption. }
  split.
  { intros St db config env c st q args Hin.
    destruct (Locale_Update_execs uuid_Parse St db config env c st q args Hin)
      as (req & id & Hb & Hp & Hs).
    exists req, id. split; assumption. }
  intros config env c c' tbl H201 Hp.
  destruct (Locale_read_back uuid_Parse config env c c' tbl H201 Hp)
    as (req & t & Hb & Hg & Hc).
  exists req, t. repeat split; try assumption.
  rewrite Hc. apply EscapeString_no_script.
Qed.

Lemma C2_escaped_content_witness :
  exists t,
    fst (Locale.GetByID UuidText.Parse _ LocaleMem.db Sample.get_row
           (snd (Locale.Create UuidText.Parse _ LocaleMem.db Sample.config
                               Sample.env Sample.post_script [])))
    = Locale.mkResponse 200 (Locale.J_translatable t)
    /\ Go.Contains (Locale.t_Content t) "<script>" = false.
Proof.
  destruct (C2_escaped_content UuidText.Parse)
    as (_ & _ & _ & _ & _ & _ & _ & _ & _ & H).
  destruct (H Sample.config Sample.env Sample.post_script Sample.get_row []
              eq_refl eq_refl)
    as (req & t & Hb & Hg & Hc & Hn).
  exists t. split; assumption.
Defined.

Example script_round_trip :
  fst (Locale.GetByID UuidText.Parse _ LocaleMem.db Sample.get_row
         (snd (Locale.Create UuidText.Parse _ LocaleMem.db Sample.config
                             Sample.env Sample.post_script [])))
  = Locale.mkResponse 200
      (Locale.J_translatable
         (Locale.mkTranslatable Sample.row_id None
            (Sample.uuid_of Sample.host_id_text) "posts" "en"
            "&lt;script&gt;alert(1)&lt;/script&gt;" None 1700000000)).
Proof. reflexivity. Qed.


(** *** Query parameters *)

Lemma Locale_QueryParams_Validate_spec (config : Locale.Config)
      (q : Locale.QueryParams) :
  let limit := if Locale.q_Limit q =? 0 then Locale.PaginationLimit config
               else Locale.q_Limit q in
  fst (Locale.QueryParams_Validate config q) = Locale.q_set_Limit q limit
  /\ snd (Locale.QueryParams_Validate config q) =
     if (limit <? 1) || (limit >? Locale.MaxPaginationLimit config) then
       Some (errors_New "limit out of range")
     else if Locale.q_Offset q <? 0 then
       Some (errors_New "offset must be non-negative")
     else
       match Locale.q_Locale q with
       | Some locale =>
           if Locale.IsSupportedLocale config locale then None
           else Some (errors_New "locale is not supported")
       | None => None
       end.
Proof.
  destruct q as [tid tr loc uid limit offset].
  unfold Locale.QueryParams_Validate, Locale.q_set_Limit. simpl.
  destruct (limit =? 0) eqn:E0; simpl.
  - destruct ((Locale.PaginationLimit config <? 1)
              || (Locale.PaginationLimit config
                  >? Locale.MaxPaginationLimit config)); simpl;
      [split; reflexivity |].
    destruct (offset <? 0); simpl; [split; reflexivity |].
    destruct loc as [l |]; simpl; [| split; reflexivity].
    destruct (Locale.IsSupportedLocale config l); split; reflexivity.
  - apply Z.eqb_neq in E0.
    destruct ((limit <? 1) || (limit >? Locale.MaxPaginationLimit config));
      simpl; [split; reflexivity |].
    destruct (offset <? 0); simpl; [split; reflexivity |].
    destruct loc as [l |]; simpl; [| split; reflexivity].
    destruct (Locale.IsSupportedLocale config l); split; reflexivity.
Qed.

(** C5, as the code has it.  When the limit is zero [QueryParams.Validate]
    puts the configured pagination default in its place (a non-zero limit
    and every other field are left as they are); the call then fails with
    "limit out of range" when the limit in effect lies outside
    [1, MaxPaginationLimit], fails whenever the offset is negative, fails
    when a locale filter is present and not supported, and succeeds
    otherwise.  So a zero limit succeeds when the configured default itself
    lies within [1, MaxPaginationLimit] and the other fields are valid.  In
    the variant without locales the default is 20 and the maximum 100, and
    a zero limit with a non-negative offset always succeeds. *)
Theorem C5_query_params_validate
        (config : Locale.Config) (q : Locale.QueryParams)
        (sq : Simple.QueryParams) :
  let r := Locale.QueryParams_Validate config q in
  let limit := if Locale.q_Limit q =? 0 then Locale.PaginationLimit config
               else Locale.q_Limit q in
  let locale_ok := match Locale.q_Locale q with
                   | Some l => Locale.IsSupportedLocale config l = true
                   | None => True
                   end in
  fst r = Locale.q_set_Limit q limit
  /\ (~ (1 <= limit <= Locale.MaxPaginationLimit config) ->
      snd r = Some (errors_New "limit out of range"))
  /\ (Locale.q_Offset q < 0 -> fails r)
  /\ (~ locale_ok -> fails r)
  /\ (snd r = None <->
      1 <= limit <= Locale.MaxPaginationLimit config
      /\ 0 <= Locale.q_Offset q /\ locale_ok)
  /\ (Simple.q_Limit sq = 0 ->
      Simple.q_Limit (fst (Simple.QueryParams_Validate sq)) = 20
      /\ (snd (Simple.QueryParams_Validate sq) = None
          <-> 0 <= Simple.q_Offset sq))
  /\ (~ (1 <= Simple.q_Limit sq <= 100) -> Simple.q_Limit sq <> 0 ->
      snd (Simple.QueryParams_Validate sq)
      = Some (errors_New "limit must be between 1 and 100"))
  /\ (Simple.q_Offset sq < 0 -> fails (Simple.QueryParams_Validate sq)).
Proof.
  intros r limit locale_ok.
  destruct (Locale_QueryParams_Validate_spec config q) as (Hf & Hs).
  fold limit in Hf, Hs. fold r in Hf, Hs.
  assert (Hrange : ((limit <? 1) || (limit >? Locale.MaxPaginationLimit config))
                   = true
                   <-> ~ (1 <= limit <= Locale.MaxPaginationLimit config)).
  { rewrite orb_true_iff, Z.ltb_lt, Z.gtb_gt. lia. }
  split; [exact Hf |].
  split.
  { intros H. apply Hrange in H. rewrite Hs, H. reflexivity. }
  split.
  { intros H. unfold fails. rewrite Hs.
    destruct ((limit <? 1) || (limit >? Locale.MaxPaginationLimit config));
      [discriminate |].
    apply Z.ltb_lt in H. rewrite H. discriminate. }
  split.
  { intros H. unfold fails. rewrite Hs.
    destruct ((limit <? 1) || (limit >? Locale.MaxPaginationLimit config));
      [discriminate |].
    destruct (Locale.q_Offset q <? 0); [discriminate |].
    unfold locale_ok in H. destruct (Locale.q_Locale q) as [l |].
    - destruct (Locale.IsSupportedLocale config l);
        [exfalso; now apply H | discriminate].
    - exfalso. now apply H. }
  split.
  { rewrite Hs.
    destruct ((limit <? 1) || (limit >? Locale.MaxPaginationLimit config))
      eqn:Er.
    { apply orb_true_iff in Er. rewrite Z.ltb_lt, Z.gtb_gt in Er.
      split; [discriminate | lia]. }
    assert (Hin : 1 <= limit <= Locale.MaxPaginationLimit config).
    { apply orb_false_iff in Er. destruct Er as (E1 & E2).
      apply Z.ltb_ge in E1. rewrite Z.gtb_ltb in E2. apply Z.ltb_ge in E2.
      lia. }
    destruct (Locale.q_Offset q <? 0) eqn:Eo.
    { apply Z.ltb_lt in Eo. split; [discriminate | lia]. }
    apply Z.ltb_ge in Eo.
    unfold locale_ok. destruct (Locale.q_Locale q) as [l |].
    - destruct (Locale.IsSupportedLocale config l).
      + split; [intros _; repeat split; try lia | reflexivity].
      + split; [discriminate | intros (_ & _ & K); discriminate].
    - split; [intros _; repeat split; try lia | reflexivity]. }
  destruct sq as [tid tr uid slimit soffset].
  unfold Simple.QueryParams_Validate, fails. simpl.
  split.
  { intros E. subst slimit. simpl.
    destruct (soffset <? 0) eqn:Eo; simpl; (split; [reflexivity |]).
    - apply Z.ltb_lt in Eo. split; [discriminate | lia].
    - apply Z.ltb_ge in Eo. split; [intros _; assumption | reflexivity]. }
  split.
  { intros Hout Hnz. apply Z.eqb_neq in Hnz. rewrite Hnz. simpl.
    assert (E : ((slimit <? 1) || (slimit >? 100)) = true).
    { rewrite orb_true_iff, Z.ltb_lt, Z.gtb_gt. lia. }
    rewrite E. reflexivity. }
  intros Ho. apply Z.ltb_lt in Ho.
  destruct (slimit =? 0); simpl.
  - rewrite Ho. discriminate.
  - destruct ((slimit <? 1) || (slimit >? 100)); simpl; [discriminate |].
    rewrite Ho. discriminate.
Qed.

Lemma C5_query_params_validate_witness :
  Locale.QueryParams_Validate Sample.config
    (Locale.mkQueryParams None None (Some "en") None 0 0)
  = (Locale.mkQueryParams None None (Some "en") None 20 0, None)
  /\ snd (Locale.QueryParams_Validate Sample.config
            (Locale.mkQueryParams None None None None 101 0))
     = Some (errors_New "limit out of range")
  /\ fails (Locale.QueryParams_Validate Sample.config
              (Locale.mkQueryParams None None None None 20 (-1)))
  /\ fails (Locale.QueryParams_Validate Sample.config
              (Locale.mkQueryParams None None (Some "de") None 20 0)).
Proof.
  split; [| split; [| split]].
  - destruct (C5_query_params_validate Sample.config
                (Locale.mkQueryParams None None (Some "en") None 0 0)
                (Simple.mkQueryParams None None None 0 0))
      as (Hf & _ & _ & _ & Hs & _).
    apply injective_projections; [exact Hf |].
    apply Hs. simpl. repeat split; lia.
  - destruct (C5_query_params_validate Sample.config
                (Locale.mkQueryParams None None None None 101 0)
                (Simple.mkQueryParams None None None 0 0))
      as (_ & Hr & _).
    apply Hr. simpl. lia.
  - destruct (C5_query_params_validate Sample.config
                (Locale.mkQueryParams None None None None 20 (-1))
                (Simple.mkQueryParams None None None 0 0))
      as (_ & _ & Ho & _).
    apply Ho. simpl. lia.
  - destruct (C5_query_params_validate Sample.config
                (Locale.mkQueryParams None None (Some "de") None 20 0)
                (Simple.mkQueryParams None None None 0 0))
      as (_ & _ & _ & Hl & _).
    apply Hl. simpl. discriminate.
Defined.

(** A configuration that [Config.Validate] accepts, with a pagination
    default above the pagination maximum: a zero limit is replaced by the
    default and then rejected, all other fields being valid. *)
Lemma C5_zero_limit_counterexample :
  let config := Locale.mkConfig ["posts"] ["en"] "en" 200 100 10240 in
  let q := Locale.mkQueryParams None None None None 0 0 in
  Locale.Validate config = (config, None)
  /\ Locale.q_Limit q = 0
  /\ Locale.QueryParams_Validate config q
     = (Locale.mkQueryParams None None None None 200 0,
        Some (errors_New "limit out of range")).
Proof. repeat split. Qed.

(** *** Statement assembly *)

Lemma Locale_queryFilters_spec (params : Locale.QueryParams) :
  let fs := Locale_filters params in
  let n := Z.of_nat (List.length fs) in
  Locale.queryFilters params =
  (Locale.selectQuery ++ clauses 1 (map fst fs),
   Locale.countSelect ++ clauses 1 (map fst fs),
   map snd fs, n + 1).
Proof.
  destruct params as [[tid |] [tr |] [loc |] [uid |] limit offset];
    reflexivity.
Qed.

Lemma Simple_queryFilters_spec (params : Simple.QueryParams) :
  let fs := Simple_filters params in
  let n := Z.of_nat (List.length fs) in
  Simple.queryFilters params =
  (Simple.selectQuery ++ clauses 1 (map fst fs), map snd fs, n + 1).
Proof.
  destruct params as [[tid |] [tr |] [uid |] limit offset]; reflexivity.
Qed.

(** C6. The page statement of [queryFromDB] is the SELECT ... WHERE 1=1
    text, then one [AND column = $k] predicate for each filter that is set,
    in the order translatable_id, translatable, locale, user_id and numbered
    from 1 without gaps, then ORDER BY created_at DESC with LIMIT and OFFSET
    on the next two placeholders; its arguments are the filter values in
    the same order, then the limit, then the offset.  The count statement is
    the COUNT select with the same predicates and the filter values alone.
    [Query] of the variant without locales builds the same page statement
    over its three filters. *)
Theorem C6_query_statement (params : Locale.QueryParams)
        (sparams : Simple.QueryParams) :
  let fs := Locale_filters params in
  let n := Z.of_nat (List.length fs) in
  let sfs := Simple_filters sparams in
  let sn := Z.of_nat (List.length sfs) in
  Locale.queryPage params =
  (Locale.selectQuery ++ clauses 1 (map fst fs) ++ page_clause n,
   (map snd fs
    ++ [AInt (Locale.q_Limit params); AInt (Locale.q_Offset params)])%list)
  /\ Locale.queryCount params =
     (Locale.countSelect ++ clauses 1 (map fst fs), map snd fs)
  /\ Simple.queryPage sparams =
     (Simple.selectQuery ++ clauses 1 (map fst sfs) ++ page_clause sn,
      (map snd sfs
       ++ [AInt (Simple.q_Limit sparams); AInt (Simple.q_Offset sparams)])%list)
  /\ (forall k column rest,
      clauses k (column :: rest)
      = " AND " ++ column ++ " = $" ++ Go.Itoa k ++ clauses (k + 1) rest)
  /\ (forall k,
      page_clause k = " ORDER BY created_at DESC LIMIT $" ++ Go.Itoa (k + 1)
                      ++ " OFFSET $" ++ Go.Itoa (k + 2))
  /\ (forall St (db : Database St Locale.Translatable) st q args,
      In (CallQueryRow q args)
         (calls (Locale.queryFromDB _ (logged db) params) st)
      -> (q, args) = Locale.queryCount params)
  /\ (forall St (db : Database St Locale.Translatable) st q args,
      In (CallQuery q args)
         (calls (Locale.queryFromDB _ (logged db) params) st)
      -> (q, args) = Locale.queryPage params).
Proof.
  intros fs n sfs sn.
  split.
  { destruct params as [[tid |] [tr |] [loc |] [uid |] limit offset];
      reflexivity. }
  split.
  { destruct params as [[tid |] [tr |] [loc |] [uid |] limit offset];
      reflexivity. }
  split.
  { destruct sparams as [[tid |] [tr |] [uid |] limit offset]; reflexivity. }
  split; [intros; reflexivity |].
  split; [intros; reflexivity |].
  split.
  - intros St db st q args. unfold calls, Locale.queryFromDB.
    destruct (Locale.queryCount params) as [cq cargs].
    destruct (Locale.queryPage params) as [pq pargs].
    simpl.
    destruct (QueryRowScanInt db cq cargs st) as [[e | total] st1]; simpl.
    + intros [H | []]. congruence.
    + destruct (Query db pq pargs st1) as [[e | rows] st2]; simpl.
      * intros [H | [H | []]]; congruence.
      * destruct (scanAll (rows_scans rows) []); simpl;
          intros [H | [H | []]]; congruence.
  - intros St db st q args. unfold calls, Locale.queryFromDB.
    destruct (Locale.queryCount params) as [cq cargs].
    destruct (Locale.queryPage params) as [pq pargs].
    simpl.
    destruct (QueryRowScanInt db cq cargs st) as [[e | total] st1]; simpl.
    + intros [H | []]. congruence.
    + destruct (Query db pq pargs st1) as [[e | rows] st2]; simpl.
      * intros [H | [H | []]]; congruence.
      * destruct (scanAll (rows_scans rows) []); simpl;
          intros [H | [H | []]]; congruence.
Qed.

Example queryPage_two_filters :
  Locale.queryPage
    (Locale.mkQueryParams None (Some "posts") None (Some Sample.owner) 20 40)
  = (Locale.selectQuery
     ++ " AND translatable = $1 AND user_id = $2"
     ++ " ORDER BY created_at DESC LIMIT $3 OFFSET $4",
     [AString "posts"; AUUID Sample.owner; AInt 20; AInt 40])
  /\ Locale.queryCount
       (Locale.mkQueryParams None (Some "posts") None (Some Sample.owner) 20 40)
     = ("SELECT COUNT(*) FROM translations WHERE 1=1"
        ++ " AND translatable = $1 AND user_id = $2",
        [AString "posts"; AUUID Sample.owner]).
Proof. split; reflexivity. Qed.

(** *** Updates and deletes that touch no row *)

Section ZeroRows.

Variable uuid_Parse : string -> error + UUID.

Lemma Locale_updateInDB_zero (St : Type) (db : Database St Locale.Translatable)
      (env : Env) (id : UUID) (content locale : string)
      (userID : option UUID) (st st' : St) :
  Exec db (fst (Locale.updateStmt env id content locale userID))
       (snd (Locale.updateStmt env id content locale userID)) st
  = (inr (inr 0), st') ->
  Locale.updateInDB _ db env id content locale userID st =
  (Some (errors_New
           match userID with
           | Some _ =>
               "translation not found or you don't have permission to update it"
           | None => "translation not found"
           end), st').
Proof.
  unfold Locale.updateInDB.
  destruct (Locale.updateStmt env id content locale userID) as [q args].
  simpl. intros H. rewrite H. simpl. destruct userID; reflexivity.
Qed.

Lemma Locale_deleteFromDB_zero (St : Type) (db : Database St Locale.Translatable)
      (id : UUID) (userID : option UUID) (st st' : St) :
  Exec db (fst (Locale.deleteStmt id userID))
       (snd (Locale.deleteStmt id userID)) st
  = (inr (inr 0), st') ->
  Locale.deleteFromDB _ db id userID st =
  (Some (errors_New
           match userID with
           | Some _ =>
               "translation not found or you don't have permission to delete it"
           | None => "translation not found"
           end), st').
Proof.
  unfold Locale.deleteFromDB.
  destruct (Locale.deleteStmt id userID) as [q args].
  simpl. intros H. rewrite H. simpl. destruct userID; reflexivity.
Qed.

Lemma Simple_repository_Update_zero (St : Type)
      (db : Database St Simple.Translatable)
      (env : Env) (id : UUID) (content : string)
      (userID : option UUID) (st st' : St) :
  Exec db (fst (Simple.updateStmt env id content userID))
       (snd (Simple.updateStmt env id content userID)) st
  = (inr (inr 0), st') ->
  Simple.repository_Update _ db env id content userID st =
  (Some (errors_New
           match userID with
           | Some _ =>
               "translatable not found or you don't have permission to update it"
           | None => "translatable not found"
           end), st').
Proof.
  unfold Simple.repository_Update.
  destruct (Simple.updateStmt env id content userID) as [q args].
  simpl. intros H. rewrite H. simpl. destruct userID; reflexivity.
Qed.

Lemma Simple_repository_Delete_zero (St : Type)
      (db : Database St Simple.Translatable)
      (id : UUID) (userID : option UUID) (st st' : St) :
  Exec db (fst (Simple.deleteStmt id userID))
       (snd (Simple.deleteStmt id userID)) st
  = (inr (inr 0), st') ->
  Simple.repository_Delete _ db id userID st =
  (Some (errors_New
           match userID with
           | Some _ =>
               "translatable not found or you don't have permission to delete it"
           | None => "translatable not found"
           end), st').
Proof.
  unfold Simple.repository_Delete.
  destruct (Simple.deleteStmt id userID) as [q args].
  simpl. intros H. rewrite H. simpl. destruct userID; reflexivity.
Qed.

Lemma Locale_Update_404 (St : Type) (db : Database St Locale.Translatable)
      (config : Locale.Config) (env : Env) (c : Locale.Ctx) (st st' : St)
      (id : UUID) (req : Locale.UpdateTranslatableRequest) :
  uuid_Parse (Locale.c_Params_id c) = inr id ->
  Locale.c_BodyParser_update c = inr req ->
  snd (Locale.Update_Validate config req) = None ->
  let userID := Locale.getUserIDFromFiberContext uuid_Parse c in
  let stmt := Locale.updateStmt env id
                (Go.EscapeString (Go.TrimSpace (Locale.ur_Content req)))
                (Locale.ur_Locale req) userID in
  Exec db (fst stmt) (snd stmt) st = (inr (inr 0), st') ->
  Locale.Update uuid_Parse _ db config env c st =
  (Locale.mkResponse 404
     (Locale.J_error
        match userID with
        | Some _ =>
            "translation not found or you don't have permission to update it"
        | None => "translation not found"
        end), st').
Proof.
  intros Hp Hb Hv userID stmt He.
  unfold Locale.Update. rewrite Hp, Hb.
  rewrite (Locale_Update_Validate_ok config req Hv).
  simpl Locale.ur_Content. simpl Locale.ur_Locale.
  fold userID.
  rewrite (Locale_updateInDB_zero _ db env id _ _ userID st st' He).
  destruct userID; reflexivity.
Qed.

Lemma Locale_Delete_404 (St : Type) (db : Database St Locale.Translatable)
      (c : Locale.Ctx) (st st' : St) (id : UUID) :
  uuid_Parse (Locale.c_Params_id c) = inr id ->
  let userID := Locale.getUserIDFromFiberContext uuid_Parse c in
  let stmt := Locale.deleteStmt id userID in
  Exec db (fst stmt) (snd stmt) st = (inr (inr 0), st') ->
  Locale.Delete uuid_Parse _ db c st =
  (Locale.mkResponse 404
     (Locale.J_error
        match userID with
        | Some _ =>
            "translation not found or you don't have permission to delete it"
        | None => "translation not found"
        end), st').
Proof.
  intros Hp userID stmt He.
  unfold Locale.Delete. rewrite Hp. fold userID.
  rewrite (Locale_deleteFromDB_zero _ db id userID st st' He).
  destruct userID; reflexivity.
Qed.

Lemma Simple_Update_404 (St : Type) (db : Database St Simple.Translatable)
      (config : Simple.Config) (env : Env) (r : Simple.Request) (st st' : St)
      (id : UUID) (req : Simple.UpdateTranslatableRequest) :
  uuid_Parse (Simple.idStr r) = inr id ->
  Simple.r_Decode_update r = inr req ->
  snd (Simple.Update_Validate config req) = None ->
  let userID := Simple.getUserIDFromContext uuid_Parse r in
  let stmt := Simple.updateStmt env id
                (Go.EscapeString (Go.TrimSpace (Simple.ur_Content req)))
                userID in
  Exec db (fst stmt) (snd stmt) st = (inr (inr 0), st') ->
  Simple.Update uuid_Parse _ (Simple.NewRepository db) config env r st =
  (Simple.mkResponse 404
     (Simple.J_error
        match userID with
        | Some _ =>
            "translatable not found or you don't have permission to update it"
        | None => "translatable not found"
        end), st').
Proof.
  intros Hp Hb Hv userID stmt He.
  unfold Simple.Update. rewrite Hp, Hb.
  rewrite (Simple_Update_Validate_ok config req Hv).
  simpl Simple.ur_Content. fold userID.
  unfold Simple.NewRepository. simpl Simple.repo_Update.
  rewrite (Simple_repository_Update_zero _ db env id _ userID st st' He).
  destruct userID; reflexivity.
Qed.

Lemma Simple_Delete_404 (St : Type) (db : Database St Simple.Translatable)
      (r : Simple.Request) (st st' : St) (id : UUID) :
  uuid_Parse (Simple.idStr r) = inr id ->
  let userID := Simple.getUserIDFromContext uuid_Parse r in
  let stmt := Simple.deleteStmt id userID in
  Exec db (fst stmt) (snd stmt) st = (inr (inr 0), st') ->
  Simple.Delete uuid_Parse _ (Simple.NewRepository db) r st =
  (Simple.mkResponse 404
     (Simple.J_error
        match userID with
        | Some _ =>
            "translatable not found or you don't have permission to delete it"
        | None => "translatable not found"
        end), st').
Proof.
  intros Hp userID stmt He.
  unfold Simple.Delete. rewrite Hp. fold userID.
  unfold Simple.NewRepository. simpl Simple.repo_Delete.
  rewrite (Simple_repository_Delete_zero _ db id userID st st' He).
  destruct userID; reflexivity.
Qed.

End ZeroRows.

(** *** One statement per update or delete *)

Section OneStatement.

Variable uuid_Parse : string -> error + UUID.
Variable St : Type.

Lemma Locale_Update_one_exec (db : Database St Locale.Translatable)
      (config : Locale.Config) (env : Env) (c : Locale.Ctx) (st : St) :
  (List.length
     (execs (calls (Locale.Update uuid_Parse _ (logged db) config env c) st))
   <= 1)%nat.
Proof.
  unfold calls, Locale.Update.
  destruct (uuid_Parse (Locale.c_Params_id c)) as [e | id];
    [simpl; lia |].
  destruct (Locale.c_BodyParser_update c) as [e | req]; [simpl; lia |].
  destruct (Locale.Update_Validate config req) as [req' [e |]];
    [simpl; lia |].
  unfold Locale.updateInDB, Locale.getByIDFromDB.
  destruct (Locale.updateStmt env id (Locale.ur_Content req')
              (Locale.ur_Locale req')
              (Locale.getUserIDFromFiberContext uuid_Parse c)) as [q args].
  rewrite logged_Exec.
  destruct (fst (Exec db q args st)) as [e | [e | n]].
  - destruct ((Error e =? "translation not found")%string
              || (Error e =?
                  "translation not found or you don't have permission to update it")%string);
      simpl; lia.
  - destruct ((Error e =? "translation not found")%string
              || (Error e =?
                  "translation not found or you don't have permission to update it")%string);
      simpl; lia.
  - destruct (n =? 0).
    + destruct (Locale.getUserIDFromFiberContext uuid_Parse c); simpl; lia.
    + rewrite logged_QueryRowScan.
      destruct (fst (QueryRowScan db Locale.getByIDQuery [AUUID id]
                       (snd (Exec db q args st)))); simpl; lia.
Qed.

Lemma Locale_Delete_execs (db : Database St Locale.Translatable)
      (c : Locale.Ctx) (st : St) :
  let l := execs (calls (Locale.Delete uuid_Parse _ (logged db) c) st) in
  l = [] \/
  exists id,
    uuid_Parse (Locale.c_Params_id c) = inr id
    /\ l = [Locale.deleteStmt id
              (Locale.getUserIDFromFiberContext uuid_Parse c)].
Proof.
  unfold calls, Locale.Delete, Locale.deleteFromDB.
  destruct (uuid_Parse (Locale.c_Params_id c)) as [e | id] eqn:Hp;
    [left; reflexivity |].
  right. exists id. split; [reflexivity |].
  destruct (Locale.deleteStmt id
              (Locale.getUserIDFromFiberContext uuid_Parse c)) as [q args].
  rewrite logged_Exec.
  destruct (fst (Exec db q args st)) as [e | [e | n]].
  - destruct ((Error e =? "translation not found")%string
              || (Error e =?
                  "translation not found or you don't have permission to delete it")%string);
      reflexivity.
  - destruct ((Error e =? "translation not found")%string
              || (Error e =?
                  "translation not found or you don't have permission to delete it")%string);
      reflexivity.
  - destruct (n =? 0); [| reflexivity].
    destruct (Locale.getUserIDFromFiberContext uuid_Parse c); reflexivity.
Qed.

Lemma Simple_Update_execs (db : Database St Simple.Translatable)
      (config : Simple.Config) (env : Env) (r : Simple.Request) (st : St) :
  let l := execs (calls (Simple.Update uuid_Parse _
                           (Simple.NewRepository (logged db)) config env r)
                        st) in
  l = [] \/
  exists id req,
    uuid_Parse (Simple.idStr r) = inr id
    /\ Simple.r_Decode_update r = inr req
    /\ l = [Simple.updateStmt env id
              (Go.EscapeString (Go.TrimSpace (Simple.ur_Content req)))
              (Simple.getUserIDFromContext uuid_Parse r)].
Proof.
  unfold calls, Simple.Update.
  destruct (uuid_Parse (Simple.idStr r)) as [e | id] eqn:Hp;
    [left; reflexivity |].
  destruct (Simple.r_Decode_update r) as [e | req] eqn:Hb;
    [left; reflexivity |].
  destruct (snd (Simple.Update_Validate config req)) as [e |] eqn:Hv.
  { destruct (Simple.Update_Validate config req) as [r' o].
    simpl in Hv. subst o. left. reflexivity. }
  rewrite (Simple_Update_Validate_ok config req Hv).
  right. exists id, req. split; [reflexivity |]. split; [reflexivity |].
  unfold Simple.NewRepository.
  simpl Simple.repo_Update. simpl Simple.repo_GetByID.
  unfold Simple.repository_Update, Simple.repository_GetByID.
  simpl Simple.ur_Content.
  destruct (Simple.updateStmt env id
              (Go.EscapeString (Go.TrimSpace (Simple.ur_Content req)))
              (Simple.getUserIDFromContext uuid_Parse r)) as [q args].
  rewrite logged_Exec.
  destruct (fst (Exec db q args st)) as [e | [e | n]].
  - match goal with
    | |- context [if ?b then _ else _] => destruct b
    end; reflexivity.
  - match goal with
    | |- context [if ?b then _ else _] => destruct b
    end; reflexivity.
  - destruct (n =? 0).
    + destruct (Simple.getUserIDFromContext uuid_Parse r); reflexivity.
    + rewrite logged_QueryRowScan.
      destruct (fst (QueryRowScan db Simple.getByIDQuery [AUUID id]
                       (snd (Exec db q args st)))) as [e | t];
        [| reflexivity].
      destruct (errors_Is e sql_ErrNoRows); reflexivity.
Qed.

Lemma Simple_Delete_execs (db : Database St Simple.Translatable)
      (r : Simple.Request) (st : St) :
  let l := execs (calls (Simple.Delete uuid_Parse _
                           (Simple.NewRepository (logged db)) r) st) in
  l = [] \/
  exists id,
    uuid_Parse (Simple.idStr r) = inr id
    /\ l = [Simple.deleteStmt id (Simple.getUserIDFromContext uuid_Parse r)].
Proof.
  unfold calls, Simple.Delete.
  destruct (uuid_Parse (Simple.idStr r)) as [e | id] eqn:Hp;
    [left; reflexivity |].
  right. exists id. split; [reflexivity |].
  unfold Simple.NewRepository. simpl Simple.repo_Delete.
  unfold Simple.repository_Delete.
  destruct (Simple.deleteStmt id (Simple.getUserIDFromContext uuid_Parse r))
    as [q args].
  rewrite logged_Exec.
  destruct (fst (Exec db q args st)) as [e | [e | n]].
  - match goal with
    | |- context [if ?b then _ else _] => destruct b
    end; reflexivity.
  - match goal with
    | |- context [if ?b then _ else _] => destruct b
    end; reflexivity.
  - destruct (n =? 0); [| reflexivity].
    destruct (Simple.getUserIDFromContext uuid_Parse r); reflexivity.
Qed.

Lemma Locale_Update_execs_shape (db : Database St Locale.Translatable)
      (config : Locale.Config) (env : Env) (c : Locale.Ctx) (st : St) :
  let l := execs (calls (Locale.Update uuid_Parse _ (logged db) config env c)
                        st) in
  l = [] \/
  exists id req,
    uuid_Parse (Locale.c_Params_id c) = inr id
    /\ Locale.c_BodyParser_update c = inr req
    /\ l = [Locale.updateStmt env id
              (Go.EscapeString (Go.TrimSpace (Locale.ur_Content req)))
              (Locale.ur_Locale req)
              (Locale.getUserIDFromFiberContext uuid_Parse c)].
Proof.
  intros l.
  pose proof (Locale_Update_one_exec db config env c st) as Hlen.
  pose proof (Locale_Update_execs uuid_Parse St db config env c st) as Hin.
  fold l in Hlen, Hin.
  destruct l as [| [q args] rest]; [now left |].
  right.
  destruct (Hin q args (or_introl eq_refl)) as (req & id & Hb & Hp & Hs).
  exists id, req. split; [assumption |]. split; [assumption |].
  destruct rest; [| simpl in Hlen; lia].
  rewrite Hs. reflexivity.
Qed.

End OneStatement.

(** *** A caller who does not own the row, on the table in memory *)

Lemma filter_none {A : Type} (f : A -> bool) (l : list A) :
  (forall x, In x l -> f x = false) -> filter f l = [].
Proof.
  induction l as [| y rest IH]; simpl; intros H; [reflexivity |].
  rewrite (H y (or_introl eq_refl)). apply IH.
  intros x Hx. apply H. now right.
Qed.

Lemma map_if_none {A : Type} (f : A -> bool) (g : A -> A) (l : list A) :
  (forall x, In x l -> f x = false) ->
  map (fun x => if f x then g x else x) l = l.
Proof.
  induction l as [| y rest IH]; simpl; intros H; [reflexivity |].
  rewrite (H y (or_introl eq_refl)). f_equal. apply IH.
  intros x Hx. apply H. now right.
Qed.

Lemma LocaleMem_stranger (tbl : LocaleMem.Table) (id u : UUID) :
  (forall t, In t tbl -> Locale.t_ID t = id -> Locale.t_UserID t <> Some u) ->
  forall t, In t tbl -> LocaleMem.hit id (Some u) t = false.
Proof.
  intros H t Hin. unfold LocaleMem.hit, LocaleMem.owned.
  destruct (UUID_eqb (Locale.t_ID t) id) eqn:E; [| reflexivity].
  apply UUID_eqb_eq in E. specialize (H t Hin E). simpl.
  destruct (Locale.t_UserID t) as [v |]; [| reflexivity].
  destruct (UUID_eqb v u) eqn:Ev; [| reflexivity].
  apply UUID_eqb_eq in Ev. subst. congruence.
Qed.

Lemma SimpleMem_stranger (tbl : SimpleMem.Table) (id u : UUID) :
  (forall t, In t tbl -> Simple.t_ID t = id -> Simple.t_UserID t <> Some u) ->
  forall t, In t tbl -> SimpleMem.hit id (Some u) t = false.
Proof.
  intros H t Hin. unfold SimpleMem.hit, SimpleMem.owned.
  destruct (UUID_eqb (Simple.t_ID t) id) eqn:E; [| reflexivity].
  apply UUID_eqb_eq in E. specialize (H t Hin E). simpl.
  destruct (Simple.t_UserID t) as [v |]; [| reflexivity].
  destruct (UUID_eqb v u) eqn:Ev; [| reflexivity].
  apply UUID_eqb_eq in Ev. subst. congruence.
Qed.

Lemma LocaleMem_update_stranger (tbl : LocaleMem.Table) (env : Env)
      (id u : UUID) (content locale : string) :
  (forall t, In t tbl -> Locale.t_ID t = id -> Locale.t_UserID t <> Some u) ->
  Exec LocaleMem.db
       (fst (Locale.updateStmt env id content locale (Some u)))
       (snd (Locale.updateStmt env id content locale (Some u))) tbl
  = (inr (inr 0), tbl).
Proof.
  intros H. pose proof (LocaleMem_stranger tbl id u H) as Hh.
  change (Exec LocaleMem.db
            (fst (Locale.updateStmt env id content locale (Some u)))
            (snd (Locale.updateStmt env id content locale (Some u))) tbl)
    with (@inr error Result (inr (LocaleMem.count_rows id (Some u) tbl)),
          LocaleMem.update_rows id (Some u) content locale (time_Now env) tbl).
  unfold LocaleMem.count_rows, LocaleMem.update_rows.
  rewrite (filter_none _ tbl Hh), (map_if_none _ _ tbl Hh). reflexivity.
Qed.

Lemma LocaleMem_delete_stranger (tbl : LocaleMem.Table) (id u : UUID) :
  (forall t, In t tbl -> Locale.t_ID t = id -> Locale.t_UserID t <> Some u) ->
  Exec LocaleMem.db
       (fst (Locale.deleteStmt id (Some u)))
       (snd (Locale.deleteStmt id (Some u))) tbl
  = (inr (inr 0), tbl).
Proof.
  intros H. pose proof (LocaleMem_stranger tbl id u H) as Hh.
  change (Exec LocaleMem.db
            (fst (Locale.deleteStmt id (Some u)))
            (snd (Locale.deleteStmt id (Some u))) tbl)
    with (@inr error Result (inr (LocaleMem.count_rows id (Some u) tbl)),
          LocaleMem.delete_rows id (Some u) tbl).
  unfold LocaleMem.count_rows, LocaleMem.delete_rows.
  rewrite (filter_none _ tbl Hh). simpl. f_equal.
  induction tbl as [| t rest IH]; simpl; [reflexivity |].
  rewrite (Hh t (or_introl eq_refl)). simpl. f_equal. apply IH.
  - intros x Hx. apply H. now right.
  - intros x Hx. apply Hh. now right.
Qed.

Lemma SimpleMem_update_stranger (tbl : SimpleMem.Table) (env : Env)
      (id u : UUID) (content : string) :
  (forall t, In t tbl -> Simple.t_ID t = id -> Simple.t_UserID t <> Some u) ->
  Exec SimpleMem.db
       (fst (Simple.updateStmt env id content (Some u)))
       (snd (Simple.updateStmt env id content (Some u))) tbl
  = (inr (inr 0), tbl).
Proof.
  intros H. pose proof (SimpleMem_stranger tbl id u H) as Hh.
  change (Exec SimpleMem.db
            (fst (Simple.updateStmt env id content (Some u)))
            (snd (Simple.updateStmt env id content (Some u))) tbl)
    with (@inr error Result (inr (SimpleMem.count_rows id (Some u) tbl)),
          SimpleMem.update_rows id (Some u) content (time_Now env) tbl).
  unfold SimpleMem.count_rows, SimpleMem.update_rows.
  rewrite (filter_none _ tbl Hh), (map_if_none _ _ tbl Hh). reflexivity.
Qed.


Lemma length_append (s t : string) :
  String.length (s ++ t) = (String.length s + String.length t)%nat.
Proof.
  induction s as [| c r IH]; simpl; [reflexivity | now rewrite IH].
Qed.

(** C7. When the statement of an update or delete touches no row, the
    repository returns "not found" if no owner identifier was supplied and
    "not found or you don't have permission" if one was, two different
    errors, and the handler answers 404 with either; an update or delete by
    a caller who does not own an existing row therefore gets 404 (on the
    table in memory, which is left as it was).  With an owner the single
    statement carries [AND user_id = $n] and the owner as its last argument,
    and a handler run executes no other statement. *)
Theorem C7_zero_rows_not_found (uuid_Parse : string -> error + UUID) :
  (forall St (db : Database St Locale.Translatable) env id content locale
          userID st st',
      Exec db (fst (Locale.updateStmt env id content locale userID))
           (snd (Locale.updateStmt env id content locale userID)) st
      = (inr (inr 0), st') ->
      Locale.updateInDB _ db env id content locale userID st
      = (Some (errors_New (not_found_text "translation" "update" userID)), st'))
  /\ (forall St (db : Database St Locale.Translatable) id userID st st',
      Exec db (fst (Locale.deleteStmt id userID))
           (snd (Locale.deleteStmt id userID)) st
      = (inr (inr 0), st') ->
      Locale.deleteFromDB _ db id userID st
      = (Some (errors_New (not_found_text "translation" "delete" userID)), st'))
  /\ (forall St (db : Database St Simple.Translatable) env id content
             userID st st',
      Exec db (fst (Simple.updateStmt env id content userID))
           (snd (Simple.updateStmt env id content userID)) st
      = (inr (inr 0), st') ->
      Simple.repository_Update _ db env id content userID st
      = (Some (errors_New (not_found_text "translatable" "update" userID)),
         st'))
  /\ (forall St (db : Database St Simple.Translatable) id userID st st',
      Exec db (fst (Simple.deleteStmt id userID))
           (snd (Simple.deleteStmt id userID)) st
      = (inr (inr 0), st') ->
      Simple.repository_Delete _ db id userID st
      = (Some (errors_New (not_found_text "translatable" "delete" userID)),
         st'))
  /\ (forall what verb u,
      not_found_text what verb None <> not_found_text what verb (Some u))
  /\ (forall St (db : Database St Locale.Translatable) config env c st st'
             id req,
      uuid_Parse (Locale.c_Params_id c) = inr id ->
      Locale.c_BodyParser_update c = inr req ->
      snd (Locale.Update_Validate config req) = None ->
      let userID := Locale.getUserIDFromFiberContext uuid_Parse c in
      let stmt := Locale.updateStmt env id
                    (Go.EscapeString (Go.TrimSpace (Locale.ur_Content req)))
                    (Locale.ur_Locale req) userID in
      Exec db (fst stmt) (snd stmt) st = (inr (inr 0), st') ->
      Locale.Update uuid_Parse _ db config env c st =
      (Locale.mkResponse 404
         (Locale.J_error (not_found_text "translation" "update" userID)), st'))
  /\ (forall St (db : Database St Locale.Translatable) c st st' id,
      uuid_Parse (Locale.c_Params_id c) = inr id ->
      let userID := Locale.getUserIDFromFiberContext uuid_Parse c in
      let stmt := Locale.deleteStmt id userID in
      Exec db (fst stmt) (snd stmt) st = (inr (inr 0), st') ->
      Locale.Delete uuid_Parse _ db c st =
      (Locale.mkResponse 404
         (Locale.J_error (not_found_text "translation" "delete" userID)), st'))
  /\ (forall St (db : Database St Simple.Translatable) config env r st st'
             id req,
      uuid_Parse (Simple.idStr r) = inr id ->
      Simple.r_Decode_update r = inr req ->
      snd (Simple.Update_Validate config req) = None ->
      let userID := Simple.getUserIDFromContext uuid_Parse r in
      let stmt := Simple.updateStmt env id
                    (Go.EscapeString (Go.TrimSpace (Simple.ur_Content req)))
                    userID in
      Exec db (fst stmt) (snd stmt) st = (inr (inr 0), st') ->
      Simple.Update uuid_Parse _ (Simple.NewRepository db) config env r st =
      (Simple.mkResponse 404
         (Simple.J_error (not_found_text "translatable" "update" userID)), st'))
  /\ (forall St (db : Database St Simple.Translatable) r st st' id,
      uuid_Parse (Simple.idStr r) = inr id ->
      let userID := Simple.getUserIDFromContext uuid_Parse r in
      let stmt := Simple.deleteStmt id userID in
      Exec db (fst stmt) (snd stmt) st = (inr (inr 0), st') ->
      Simple.Delete uuid_Parse _ (Simple.NewRepository db) r st =
      (Simple.mkResponse 404
         (Simple.J_error (not_found_text "translatable" "delete" userID)), st'))
  /\ (forall config env c tbl id req u,
      uuid_Parse (Locale.c_Params_id c) = inr id ->
      Locale.c_BodyParser_update c = inr req ->
      snd (Locale.Update_Validate config req) = None ->
      Locale.getUserIDFromFiberContext uuid_Parse c = Some u ->
      (exists t, In t tbl /\ Locale.t_ID t = id) ->
      (forall t, In t tbl -> Locale.t_ID t = id ->
                 Locale.t_UserID t <> Some u) ->
      Locale.Update uuid_Parse _ LocaleMem.db config env c tbl =
      (Locale.mkResponse 404
         (Locale.J_error
            "translation not found or you don't have permission to update it"),
       tbl))
  /\ (forall config env r tbl id req u,
      uuid_Parse (Simple.idStr r) = inr id ->
      Simple.r_Decode_update r = inr req ->
      snd (Simple.Update_Validate config req) = None ->
      Simple.getUserIDFromContext uuid_Parse r = Some u ->
      (exists t, In t tbl /\ Simple.t_ID t = id) ->
      (forall t, In t tbl -> Simple.t_ID t = id ->
                 Simple.t_UserID t <> Some u) ->
      Simple.Update uuid_Parse _ (Simple.NewRepository SimpleMem.db)
                    config env r tbl =
      (Simple.mkResponse 404
         (Simple.J_error
            "translatable not found or you don't have permission to update it"),
       tbl))
  /\ (forall c tbl id u,
      uuid_Parse (Locale.c_Params_id c) = inr id ->
      Locale.getUserIDFromFiberContext uuid_Parse c = Some u ->
      (exists t, In t tbl /\ Locale.t_ID t = id) ->
      (forall t, In t tbl -> Locale.t_ID t = id ->
                 Locale.t_UserID t <> Some u) ->
      Locale.Delete uuid_Parse _ LocaleMem.db c tbl =
      (Locale.mkResponse 404
         (Locale.J_error
            "translation not found or you don't have permission to delete it"),
       tbl))
  /\ (forall env id content locale u,
      Locale.updateStmt env id content locale (Some u) =
      (Locale.updateQuery ++ " AND user_id = $5",
       [AString content; AString locale; ATime (time_Now env); AUUID id;
        AUUID u])
      /\ Simple.updateStmt env id content (Some u) =
         (Simple.updateQuery ++ " AND user_id = $4",
          [AString content; ATime (time_Now env); AUUID id; AUUID u])
      /\ Locale.deleteStmt id (Some u) =
         (Locale.deleteQuery ++ " AND user_id = $2", [AUUID id; AUUID u])
      /\ Simple.deleteStmt id (Some u) =
         (Simple.deleteQuery ++ " AND user_id = $2", [AUUID id; AUUID u]))
  /\ (forall St (db : Database St Locale.Translatable) config env c st,
      let l := execs (calls (Locale.Update uuid_Parse _ (logged db) config
                                           env c) st) in
      l = [] \/
      exists id req,
        uuid_Parse (Locale.c_Params_id c) = inr id
        /\ Locale.c_BodyParser_update c = inr req
        /\ l = [Locale.updateStmt env id
                  (Go.EscapeString (Go.TrimSpace (Locale.ur_Content req)))
                  (Locale.ur_Locale req)
                  (Locale.getUserIDFromFiberContext uuid_Parse c)])
  /\ (forall St (db : Database St Simple.Translatable) config env r st,
      let l := execs (calls (Simple.Update uuid_Parse _
                               (Simple.NewRepository (logged db)) config env r)
                            st) in
      l = [] \/
      exists id req,
        uuid_Parse (Simple.idStr r) = inr id
        /\ Simple.r_Decode_update r = inr req
        /\ l = [Simple.updateStmt env id
                  (Go.EscapeString (Go.TrimSpace (Simple.ur_Content req)))
                  (Simple.getUserIDFromContext uuid_Parse r)]).
Proof.
  split.
  { intros St db env id content locale userID st st' H.
    rewrite (Locale_updateInDB_zero _ db env id content locale userID st st' H).
    destruct userID; reflexivity. }
  split.
  { intros St db id userID st st' H.
    rewrite (Locale_deleteFromDB_zero _ db id userID st st' H).
    destruct userID; reflexivity. }
  split.
  { intros St db env id content userID st st' H.
    rewrite (Simple_repository_Update_zero _ db env id content userID st st' H).
    destruct userID; reflexivity. }
  split.
  { intros St db id userID st st' H.
    rewrite (Simple_repository_Delete_zero _ db id userID st st' H).
    destruct userID; reflexivity. }
  split.
  { intros what verb u H. unfold not_found_text in H.
    assert (L : String.length (what ++ " not found")
                = String.length
                    (what ++ " not found or you don't have permission to "
                          ++ verb ++ " it")) by (rewrite H; reflexivity).
    rewrite !length_append in L. simpl in L. lia. }
  split.
  { intros St db config env c st st' id req Hp Hb Hv userID stmt He.
    rewrite (Locale_Update_404 uuid_Parse _ db config env c st st' id req
                               Hp Hb Hv He).
    fold userID. destruct userID; reflexivity. }
  split.
  { intros St db c st st' id Hp userID stmt He.
    rewrite (Locale_Delete_404 uuid_Parse _ db c st st' id Hp He).
    fold userID. destruct userID; reflexivity. }
  split.
  { intros St db config env r st st' id req Hp Hb Hv userID stmt He.
    rewrite (Simple_Update_404 uuid_Parse _ db config env r st st' id req
                               Hp Hb Hv He).
    fold userID. destruct userID; reflexivity. }
  split.
  { intros St db r st st' id Hp userID stmt He.
    rewrite (Simple_Delete_404 uuid_Parse _ db r st st' id Hp He).
    fold userID. destruct userID; reflexivity. }
  split.
  { intros config env c tbl id req u Hp Hb Hv Hu _ Hown.
    rewrite (Locale_Update_404 uuid_Parse _ LocaleMem.db config env c tbl tbl
                               id req Hp Hb Hv).
    - rewrite Hu. reflexivity.
    - rewrite Hu. now apply LocaleMem_update_stranger. }
  split.
  { intros config env r tbl id req u Hp Hb Hv Hu _ Hown.
    rewrite (Simple_Update_404 uuid_Parse _ SimpleMem.db config env r tbl tbl
                               id req Hp Hb Hv).
    - rewrite Hu. reflexivity.
    - rewrite Hu. now apply SimpleMem_update_stranger. }
  split.
  { intros c tbl id u Hp Hu _ Hown.
    rewrite (Locale_Delete_404 uuid_Parse _ LocaleMem.db c tbl tbl id Hp).
    - rewrite Hu. reflexivity.
    - rewrite Hu. now apply LocaleMem_delete_stranger. }
  split; [intros; repeat split |].
  split.
  { intros St db config env c st.
    apply Locale_Update_execs_shape. }
  intros St db config env r st. apply Simple_Update_execs.
Qed.


(** *** The list handlers *)

Section ListHandlers.

Variable uuid_Parse : string -> error + UUID.

Lemma Locale_parseQueryParams_spec (config : Locale.Config) (c : Locale.Ctx) :
  Locale.parseQueryParams uuid_Parse config c =
  match id_filter uuid_Parse (Locale.c_Query c "translatable_id") with
  | inl _ =>
      inl (Locale.mkResponse 400 (Locale.J_error "Invalid translatable_id"))
  | inr tid =>
      match id_filter uuid_Parse (Locale.c_Query c "user_id") with
      | inl _ => inl (Locale.mkResponse 400 (Locale.J_error "Invalid user_id"))
      | inr uid =>
          inr (Locale.mkQueryParams tid
                 (text_filter (Locale.c_Query c "translatable"))
                 (text_filter (Locale.c_Query c "locale")) uid
                 (number_or (Locale.PaginationLimit config)
                            (Locale.c_Query c "limit"))
                 (number_or 0 (Locale.c_Query c "offset")))
      end
  end.
Proof.
  unfold Locale.parseQueryParams, id_filter, text_filter, number_or.
  destruct (Locale.c_Query c "translatable_id" =? "")%string; simpl.
  - destruct (Locale.c_Query c "translatable" =? "")%string;
      destruct (Locale.c_Query c "locale" =? "")%string;
      destruct (Locale.c_Query c "user_id" =? "")%string; simpl;
      try destruct (uuid_Parse (Locale.c_Query c "user_id")); simpl;
      try reflexivity;
      destruct (Locale.c_Query c "limit" =? "")%string;
      destruct (Locale.c_Query c "offset" =? "")%string; simpl;
      try destruct (Go.Atoi (Locale.c_Query c "limit"));
      try destruct (Go.Atoi (Locale.c_Query c "offset")); reflexivity.
  - destruct (uuid_Parse (Locale.c_Query c "translatable_id")); simpl;
      [reflexivity |].
    destruct (Locale.c_Query c "translatable" =? "")%string;
      destruct (Locale.c_Query c "locale" =? "")%string;
      destruct (Locale.c_Query c "user_id" =? "")%string; simpl;
      try destruct (uuid_Parse (Locale.c_Query c "user_id")); simpl;
      try reflexivity;
      destruct (Locale.c_Query c "limit" =? "")%string;
      destruct (Locale.c_Query c "offset" =? "")%string; simpl;
      try destruct (Go.Atoi (Locale.c_Query c "limit"));
      try destruct (Go.Atoi (Locale.c_Query c "offset")); reflexivity.
Qed.

Lemma Simple_parseQueryParams_spec (r : Simple.Request) :
  Simple.parseQueryParams uuid_Parse r =
  match id_filter uuid_Parse (Simple.r_URL_Query_Get r "translatable_id") with
  | inl _ =>
      inl (Simple.mkResponse 400 (Simple.J_error "Invalid translatable_id"))
  | inr tid =>
      match id_filter uuid_Parse (Simple.r_URL_Query_Get r "user_id") with
      | inl _ => inl (Simple.mkResponse 400 (Simple.J_error "Invalid user_id"))
      | inr uid =>
          inr (Simple.mkQueryParams tid
                 (text_filter (Simple.r_URL_Query_Get r "translatable")) uid
                 (number_or 20 (Simple.r_URL_Query_Get r "limit"))
                 (number_or 0 (Simple.r_URL_Query_Get r "offset")))
      end
  end.
Proof.
  unfold Simple.parseQueryParams, id_filter, text_filter, number_or.
  destruct (Simple.r_URL_Query_Get r "translatable_id" =? "")%string; simpl.
  - destruct (Simple.r_URL_Query_Get r "translatable" =? "")%string;
      destruct (Simple.r_URL_Query_Get r "user_id" =? "")%string; simpl;
      try destruct (uuid_Parse (Simple.r_URL_Query_Get r "user_id")); simpl;
      try reflexivity;
      destruct (Simple.r_URL_Query_Get r "limit" =? "")%string;
      destruct (Simple.r_URL_Query_Get r "offset" =? "")%string; simpl;
      try destruct (Go.Atoi (Simple.r_URL_Query_Get r "limit"));
      try destruct (Go.Atoi (Simple.r_URL_Query_Get r "offset")); reflexivity.
  - destruct (uuid_Parse (Simple.r_URL_Query_Get r "translatable_id")); simpl;
      [reflexivity |].
    destruct (Simple.r_URL_Query_Get r "translatable" =? "")%string;
      destruct (Simple.r_URL_Query_Get r "user_id" =? "")%string; simpl;
      try destruct (uuid_Parse (Simple.r_URL_Query_Get r "user_id")); simpl;
      try reflexivity;
      destruct (Simple.r_URL_Query_Get r "limit" =? "")%string;
      destruct (Simple.r_URL_Query_Get r "offset" =? "")%string; simpl;
      try destruct (Go.Atoi (Simple.r_URL_Query_Get r "limit"));
      try destruct (Go.Atoi (Simple.r_URL_Query_Get r "offset")); reflexivity.
Qed.

End ListHandlers.

Section ListResponses.

Variable uuid_Parse : string -> error + UUID.

Lemma id_filter_bad (text : string) :
  text <> "" -> parses (uuid_Parse text) = false ->
  exists e, id_filter uuid_Parse text = inl e.
Proof.
  intros Hne Hp. unfold id_filter.
  destruct (String.eqb_spec text "") as [E | _]; [contradiction |].
  destruct (uuid_Parse text) as [e | id]; [now exists e | discriminate].
Qed.

Lemma number_or_ignored (default : Z) (text : string) :
  Go.Atoi text = None -> number_or default text = default.
Proof.
  intros H. unfold number_or. rewrite H.
  destruct (text =? "")%string; reflexivity.
Qed.

Lemma number_or_read (default : Z) (text : string) (n : Z) :
  Go.Atoi text = Some n -> number_or default text = n.
Proof.
  intros H. unfold number_or. rewrite H.
  destruct (String.eqb_spec text "") as [E | _]; [| reflexivity].
  subst. discriminate.
Qed.

Lemma Locale_Query_400_untouched (St : Type)
      (db : Database St Locale.Translatable) (config : Locale.Config)
      (c : Locale.Ctx) (st : St) :
  Locale.Status (fst (Locale.Query uuid_Parse _ db config c st)) = 400 ->
  snd (Locale.Query uuid_Parse _ db config c st) = st
  /\ (Locale.parseQueryParams uuid_Parse config c =
      inl (fst (Locale.Query uuid_Parse _ db config c st))
      \/ exists params,
          Locale.parseQueryParams uuid_Parse config c = inr params
          /\ fails (Locale.QueryParams_Validate config params)).
Proof.
  unfold Locale.Query.
  destruct (Locale.parseQueryParams uuid_Parse config c) as [resp | params];
    simpl.
  - intros _. split; [reflexivity | now left].
  - destruct (Locale.QueryParams_Validate config params) as [params' [e |]]
      eqn:Ev; simpl.
    + intros _. split; [reflexivity |]. right. exists params.
      split; [reflexivity |]. unfold fails. rewrite Ev. discriminate.
    + destruct (Locale.queryFromDB St db params' st) as [[[res total] [e |]] st'];
        simpl; discriminate.
Qed.

Lemma Simple_Query_400_untouched (St : Type) (repo : Simple.Repository St)
      (r : Simple.Request) (st : St) :
  Simple.Status (fst (Simple.Query uuid_Parse _ repo r st)) = 400 ->
  snd (Simple.Query uuid_Parse _ repo r st) = st.
Proof.
  unfold Simple.Query.
  destruct (Simple.parseQueryParams uuid_Parse r) as [resp | params]; simpl.
  - reflexivity.
  - destruct (Simple.QueryParams_Validate params) as [params' [e |]]; simpl.
    + reflexivity.
    + destruct (Simple.repo_Query _ repo params' st) as [[e | res] st'];
        simpl; discriminate.
Qed.

Lemma Locale_with_query_limit (config : Locale.Config) (c : Locale.Ctx) :
  Go.Atoi (Locale.c_Query c "limit") = None ->
  Locale.parseQueryParams uuid_Parse config (with_query c "limit" "")
  = Locale.parseQueryParams uuid_Parse config c.
Proof.
  intros H. rewrite !Locale_parseQueryParams_spec. simpl.
  rewrite (number_or_ignored _ _ H). reflexivity.
Qed.

Lemma Locale_with_query_offset (config : Locale.Config) (c : Locale.Ctx) :
  Go.Atoi (Locale.c_Query c "offset") = None ->
  Locale.parseQueryParams uuid_Parse config (with_query c "offset" "")
  = Locale.parseQueryParams uuid_Parse config c.
Proof.
  intros H. rewrite !Locale_parseQueryParams_spec. simpl.
  rewrite (number_or_ignored _ _ H). reflexivity.
Qed.

Lemma Simple_with_query_limit (r : Simple.Request) :
  Go.Atoi (Simple.r_URL_Query_Get r "limit") = None ->
  Simple.parseQueryParams uuid_Parse (with_url_query r "limit" "")
  = Simple.parseQueryParams uuid_Parse r.
Proof.
  intros H. rewrite !Simple_parseQueryParams_spec. simpl.
  rewrite (number_or_ignored _ _ H). reflexivity.
Qed.

Lemma Simple_with_query_offset (r : Simple.Request) :
  Go.Atoi (Simple.r_URL_Query_Get r "offset") = None ->
  Simple.parseQueryParams uuid_Parse (with_url_query r "offset" "")
  = Simple.parseQueryParams uuid_Parse r.
Proof.
  intros H. rewrite !Simple_parseQueryParams_spec. simpl.
  rewrite (number_or_ignored _ _ H). reflexivity.
Qed.

End ListResponses.

Section ListNumbers.

Variable uuid_Parse : string -> error + UUID.

Lemma Locale_parsed_numbers (config : Locale.Config) (c : Locale.Ctx)
      (params : Locale.QueryParams) :
  Locale.parseQueryParams uuid_Parse config c = inr params ->
  Locale.q_Limit params
  = number_or (Locale.PaginationLimit config) (Locale.c_Query c "limit")
  /\ Locale.q_Offset params = number_or 0 (Locale.c_Query c "offset")
  /\ Locale.q_Locale params = text_filter (Locale.c_Query c "locale").
Proof.
  rewrite Locale_parseQueryParams_spec.
  destruct (id_filter uuid_Parse (Locale.c_Query c "translatable_id"));
    [discriminate |].
  destruct (id_filter uuid_Parse (Locale.c_Query c "user_id"));
    [discriminate |].
  intros H. injection H as H. subst params. repeat split.
Qed.

Lemma Locale_Query_limit_400 (St : Type) (db : Database St Locale.Translatable)
      (config : Locale.Config) (c : Locale.Ctx) (st : St)
      (params : Locale.QueryParams) (n : Z) :
  Locale.parseQueryParams uuid_Parse config c = inr params ->
  Go.Atoi (Locale.c_Query c "limit") = Some n ->
  n <> 0 -> ~ (1 <= n <= Locale.MaxPaginationLimit config) ->
  Locale.Query uuid_Parse _ db config c st =
  (Locale.mkResponse 400 (Locale.J_error "limit out of range"), st).
Proof.
  intros Hp Ha Hnz Hout.
  destruct (Locale_parsed_numbers config c params Hp) as (Hl & _ & _).
  rewrite (number_or_read _ _ n Ha) in Hl.
  destruct (Locale_QueryParams_Validate_spec config params) as (_ & Hs).
  rewrite Hl in Hs. apply Z.eqb_neq in Hnz. rewrite Hnz in Hs.
  assert (E : ((n <? 1) || (n >? Locale.MaxPaginationLimit config)) = true).
  { rewrite orb_true_iff, Z.ltb_lt, Z.gtb_gt. lia. }
  rewrite E in Hs.
  unfold Locale.Query. rewrite Hp.
  destruct (Locale.QueryParams_Validate config params) as [params' o].
  simpl in Hs. subst o. reflexivity.
Qed.

Lemma Locale_Query_offset_400 (St : Type) (db : Database St Locale.Translatable)
      (config : Locale.Config) (c : Locale.Ctx) (st : St)
      (params : Locale.QueryParams) (m : Z) :
  Locale.parseQueryParams uuid_Parse config c = inr params ->
  Go.Atoi (Locale.c_Query c "offset") = Some m ->
  m < 0 ->
  Locale.Status (fst (Locale.Query uuid_Parse _ db config c st)) = 400
  /\ snd (Locale.Query uuid_Parse _ db config c st) = st.
Proof.
  intros Hp Ha Hneg.
  destruct (Locale_parsed_numbers config c params Hp) as (_ & Ho & _).
  rewrite (number_or_read _ _ m Ha) in Ho.
  destruct (Locale_QueryParams_Validate_spec config params) as (_ & Hs).
  rewrite Ho in Hs. apply Z.ltb_lt in Hneg. rewrite Hneg in Hs.
  unfold Locale.Query. rewrite Hp.
  destruct (Locale.QueryParams_Validate config params) as [params' o].
  simpl in Hs. subst o.
  match goal with
  | |- context [if ?b then _ else _] => destruct b
  end; split; reflexivity.
Qed.

Lemma Locale_Query_locale_400 (St : Type) (db : Database St Locale.Translatable)
      (config : Locale.Config) (c : Locale.Ctx) (st : St)
      (params : Locale.QueryParams) :
  Locale.parseQueryParams uuid_Parse config c = inr params ->
  Locale.c_Query c "locale" <> "" ->
  Locale.IsSupportedLocale config (Locale.c_Query c "locale") = false ->
  Locale.Status (fst (Locale.Query uuid_Parse _ db config c st)) = 400
  /\ snd (Locale.Query uuid_Parse _ db config c st) = st.
Proof.
  intros Hp Hne Hun.
  destruct (Locale_parsed_numbers config c params Hp) as (_ & _ & Hl).
  unfold text_filter in Hl.
  destruct (String.eqb_spec (Locale.c_Query c "locale") "") as [E | _];
    [contradiction |].
  destruct (Locale_QueryParams_Validate_spec config params) as (_ & Hs).
  rewrite Hl, Hun in Hs.
  unfold Locale.Query. rewrite Hp.
  destruct (Locale.QueryParams_Validate config params) as [params' o].
  simpl in Hs. subst o.
  repeat match goal with
         | |- context [if ?b then _ else _] => destruct b
         end; split; reflexivity.
Qed.

End ListNumbers.


(** C8, as the code has it.  A list request whose [translatable_id] or
    [user_id] is present and does not parse as a UUID gets 400; so does one
    whose [limit] reads as a number other than zero outside
    [1, MaxPaginationLimit], whose [offset] reads as a negative number, or
    (where modelled) whose locale filter is not supported; a 400 leaves the
    database untouched, no statement having run.  A [limit] or [offset] that
    [strconv.Atoi] does not read is ignored: the request is handled as if
    the parameter were absent.  A request that passes gets 200 with the page
    when the query succeeds. *)
Theorem C8_list_bad_filters (uuid_Parse : string -> error + UUID) :
  (forall St (db : Database St Locale.Translatable) config c st,
      Locale.c_Query c "translatable_id" <> "" ->
      parses (uuid_Parse (Locale.c_Query c "translatable_id")) = false ->
      Locale.Query uuid_Parse _ db config c st =
      (Locale.mkResponse 400 (Locale.J_error "Invalid translatable_id"), st))
  /\ (forall St (db : Database St Locale.Translatable) config c st tid,
      id_filter uuid_Parse (Locale.c_Query c "translatable_id") = inr tid ->
      Locale.c_Query c "user_id" <> "" ->
      parses (uuid_Parse (Locale.c_Query c "user_id")) = false ->
      Locale.Query uuid_Parse _ db config c st =
      (Locale.mkResponse 400 (Locale.J_error "Invalid user_id"), st))
  /\ (forall St (db : Database St Locale.Translatable) config c st params n,
      Locale.parseQueryParams uuid_Parse config c = inr params ->
      Go.Atoi (Locale.c_Query c "limit") = Some n ->
      n <> 0 -> ~ (1 <= n <= Locale.MaxPaginationLimit config) ->
      Locale.Query uuid_Parse _ db config c st =
      (Locale.mkResponse 400 (Locale.J_error "limit out of range"), st))
  /\ (forall St (db : Database St Locale.Translatable) config c st params m,
      Locale.parseQueryParams uuid_Parse config c = inr params ->
      Go.Atoi (Locale.c_Query c "offset") = Some m ->
      m < 0 ->
      Locale.Status (fst (Locale.Query uuid_Parse _ db config c st)) = 400
      /\ snd (Locale.Query uuid_Parse _ db config c st) = st)
  /\ (forall St (db : Database St Locale.Translatable) config c st params,
      Locale.parseQueryParams uuid_Parse config c = inr params ->
      Locale.c_Query c "locale" <> "" ->
      Locale.IsSupportedLocale config (Locale.c_Query c "locale") = false ->
      Locale.Status (fst (Locale.Query uuid_Parse _ db config c st)) = 400
      /\ snd (Locale.Query uuid_Parse _ db config c st) = st)
  /\ (forall St (db : Database St Locale.Translatable) config c st,
      Locale.Status
        (fst (Locale.Query uuid_Parse _ (logged db) config c (st, []))) = 400 ->
      snd (Locale.Query uuid_Parse _ (logged db) config c (st, [])) = (st, []))
  /\ (forall St (db : Database St Locale.Translatable) config c st,
      (Go.Atoi (Locale.c_Query c "limit") = None ->
       Locale.Query uuid_Parse _ db config (with_query c "limit" "") st
       = Locale.Query uuid_Parse _ db config c st)
      /\ (Go.Atoi (Locale.c_Query c "offset") = None ->
          Locale.Query uuid_Parse _ db config (with_query c "offset" "") st
          = Locale.Query uuid_Parse _ db config c st))
  /\ (forall St (db : Database St Locale.Translatable) config c st params
             params' results total st',
      Locale.parseQueryParams uuid_Parse config c = inr params ->
      Locale.QueryParams_Validate config params = (params', None) ->
      Locale.queryFromDB _ db params' st = ((results, total, None), st') ->
      Locale.Query uuid_Parse _ db config c st =
      (Locale.mkResponse 200 (Locale.J_collection total results), st'))
  /\ (forall St (repo : Simple.Repository St) r st,
      Simple.r_URL_Query_Get r "translatable_id" <> "" ->
      parses (uuid_Parse (Simple.r_URL_Query_Get r "translatable_id")) = false ->
      Simple.Query uuid_Parse _ repo r st =
      (Simple.mkResponse 400 (Simple.J_error "Invalid translatable_id"), st))
  /\ (forall St (repo : Simple.Repository St) r st,
      Simple.Status (fst (Simple.Query uuid_Parse _ repo r st)) = 400 ->
      snd (Simple.Query uuid_Parse _ repo r st) = st)
  /\ (forall St (repo : Simple.Repository St) r st,
      (Go.Atoi (Simple.r_URL_Query_Get r "limit") = None ->
       Simple.Query uuid_Parse _ repo (with_url_query r "limit" "") st
       = Simple.Query uuid_Parse _ repo r st)
      /\ (Go.Atoi (Simple.r_URL_Query_Get r "offset") = None ->
          Simple.Query uuid_Parse _ repo (with_url_query r "offset" "") st
          = Simple.Query uuid_Parse _ repo r st)).
Proof.
  split.
  { intros St db config c st Hne Hp.
    destruct (id_filter_bad uuid_Parse _ Hne Hp) as (e & He).
    unfold Locale.Query. rewrite Locale_parseQueryParams_spec, He.
    reflexivity. }
  split.
  { intros St db config c st tid Ht Hne Hp.
    destruct (id_filter_bad uuid_Parse _ Hne Hp) as (e & He).
    unfold Locale.Query. rewrite Locale_parseQueryParams_spec, Ht, He.
    reflexivity. }
  split.
  { intros St db config c st params n.
    apply Locale_Query_limit_400. }
  split.
  { intros St db config c st params m.
    apply Locale_Query_offset_400. }
  split.
  { intros St db config c st params.
    apply Locale_Query_locale_400. }
  split.
  { intros St db config c st H.
    now destruct (Locale_Query_400_untouched uuid_Parse _ (logged db) config c
                                             (st, []) H). }
  split.
  { intros St db config c st. split; intros H; unfold Locale.Query.
    - now rewrite (Locale_with_query_limit uuid_Parse config c H).
    - now rewrite (Locale_with_query_offset uuid_Parse config c H). }
  split.
  { intros St db config c st params params' results total st' Hp Hv Hq.
    unfold Locale.Query. rewrite Hp, Hv, Hq. reflexivity. }
  split.
  { intros St repo r st Hne Hp.
    destruct (id_filter_bad uuid_Parse _ Hne Hp) as (e & He).
    unfold Simple.Query. rewrite Simple_parseQueryParams_spec, He.
    reflexivity. }
  split.
  { intros St repo r st. apply Simple_Query_400_untouched. }
  intros St repo r st. split; intros H; unfold Simple.Query.
  - now rewrite (Simple_with_query_limit uuid_Parse r H).
  - now rewrite (Simple_with_query_offset uuid_Parse r H).
Qed.

Lemma C8_list_bad_filters_witness :
  Locale.Query UuidText.Parse _ LocaleMem.db Sample.config Sample.list_bad_id
               [Sample.stored_row]
  = (Locale.mkResponse 400 (Locale.J_error "Invalid translatable_id"),
     [Sample.stored_row])
  /\ Locale.Query UuidText.Parse _ LocaleMem.db Sample.config
                  Sample.list_limit_101 [Sample.stored_row]
     = (Locale.mkResponse 400 (Locale.J_error "limit out of range"),
        [Sample.stored_row])
  /\ Locale.Query UuidText.Parse _ LocaleMem.db Sample.config
                  (with_query Sample.list_limit_abc "limit" "")
                  [Sample.stored_row]
     = Locale.Query UuidText.Parse _ LocaleMem.db Sample.config
                    Sample.list_limit_abc [Sample.stored_row].
Proof.
  destruct (C8_list_bad_filters UuidText.Parse)
    as (Hid & _ & Hlimit & _ & _ & _ & Hign & _).
  split; [| split].
  - apply Hid; [discriminate | reflexivity].
  - apply (Hlimit _ LocaleMem.db Sample.config Sample.list_limit_101
                  [Sample.stored_row]
                  (Locale.mkQueryParams None None None None 101 0) 101).
    + reflexivity.
    + reflexivity.
    + discriminate.
    + simpl. lia.
  - apply (Hign _ LocaleMem.db Sample.config Sample.list_limit_abc).
    reflexivity.
Defined.

(** GET /translations?limit=abc and GET /translations?offset=x1 do not get
    400: the text is not a number, the default is kept, the query runs and
    the answer is 200 with the page. *)
Lemma C8_non_numeric_counterexample :
  Go.Atoi "abc" = None /\ Go.Atoi "x1" = None
  /\ Locale.Query UuidText.Parse _ (logged LocaleMem.db) Sample.config
                  Sample.list_limit_abc ([Sample.stored_row], [])
     = (Locale.mkResponse 200 (Locale.J_collection 1 [Sample.stored_row]),
        ([Sample.stored_row],
         [CallQueryRow "SELECT COUNT(*) FROM translations WHERE 1=1" [];
          CallQuery (Locale.selectQuery
                     ++ " ORDER BY created_at DESC LIMIT $1 OFFSET $2")
                    [AInt 20; AInt 0]]))
  /\ Locale.Query UuidText.Parse _ LocaleMem.db Sample.config
                  Sample.list_offset_x1 [Sample.stored_row]
     = (Locale.mkResponse 200 (Locale.J_collection 1 [Sample.stored_row]),
        [Sample.stored_row]).
Proof. repeat split. Qed.

(** *** Escaping after the length check *)

Lemma TrimLeftSpace_lt (r : string) :
  Go.TrimLeftSpace (String "<" r) = String "<" r.
Proof.
  destruct r as [| c1 [| c2 r2]]; reflexivity.
Qed.

Lemma dropSpaceRev_lt (l : list ascii) :
  Go.dropSpaceRev ("<"%char :: l) = "<"%char :: l.
Proof.
  destruct l as [| c1 [| c2 l2]]; try reflexivity.
  - simpl. destruct c1 as [[] [] [] [] [] [] [] []]; reflexivity.
  - simpl. destruct c1 as [[] [] [] [] [] [] [] []]; try reflexivity;
      destruct c2 as [[] [] [] [] [] [] [] []]; reflexivity.
Qed.

Lemma list_of_Repeat (c : ascii) (n : nat) :
  list_ascii_of_string (Go.Repeat c n) = List.repeat c n.
Proof.
  induction n as [| k IH]; simpl; [reflexivity | now rewrite IH].
Qed.

Lemma rev_repeat_same {A : Type} (x : A) (n : nat) :
  List.rev (List.repeat x n) = List.repeat x n.
Proof.
  induction n as [| k IH]; simpl; [reflexivity |].
  rewrite IH. clear IH.
  induction k as [| j IH]; simpl; [reflexivity | now rewrite IH].
Qed.

Lemma TrimSpace_Repeat_lt (n : nat) :
  Go.TrimSpace (Go.Repeat "<" n) = Go.Repeat "<" n.
Proof.
  unfold Go.TrimSpace.
  assert (L : Go.TrimLeftSpace (Go.Repeat "<" n) = Go.Repeat "<" n).
  { destruct n; [reflexivity | apply TrimLeftSpace_lt]. }
  rewrite L. unfold Go.TrimRightSpace.
  rewrite list_of_Repeat, rev_repeat_same.
  destruct n as [| k].
  - reflexivity.
  - change (List.repeat "<"%char (S k))
      with ("<"%char :: List.repeat "<"%char k).
    rewrite dropSpaceRev_lt.
    change ("<"%char :: List.repeat "<"%char k)
      with (List.repeat "<"%char (S k)).
    rewrite rev_repeat_same, <- list_of_Repeat.
    apply string_of_list_ascii_of_string.
Qed.

Lemma length_Repeat (c : ascii) (n : nat) : String.length (Go.Repeat c n) = n.
Proof.
  induction n as [| k IH]; simpl; [reflexivity | now rewrite IH].
Qed.

Lemma length_Escape_Repeat_lt (n : nat) :
  String.length (Go.EscapeString (Go.Repeat "<" n)) = (4 * n)%nat.
Proof.
  induction n as [| k IH]; [reflexivity |].
  change (Go.EscapeString (Go.Repeat "<" (S k)))
    with ("&lt;" ++ Go.EscapeString (Go.Repeat "<" k)).
  rewrite length_append, IH. simpl. lia.
Qed.

Lemma content_checks_Repeat_lt (n : nat) :
  (1 <= n)%nat ->
  first_failure (content_checks (Z.of_nat n) (Go.Repeat "<" n)) = None.
Proof.
  intros Hn. unfold content_checks. rewrite TrimSpace_Repeat_lt.
  unfold Go.len. rewrite length_Repeat. simpl.
  destruct n as [| k]; [lia |]. simpl.
  rewrite Z.leb_refl. reflexivity.
Qed.

Lemma content_after_Repeat_lt (head : list (bool * string)) (n : nat) :
  (1 <= n)%nat ->
  first_failure head = None ->
  content_after head (Z.of_nat n) (Go.Repeat "<" n)
  = Go.EscapeString (Go.Repeat "<" n)
  /\ Go.len (Go.EscapeString (Go.Repeat "<" n)) = 4 * Z.of_nat n.
Proof.
  intros Hn Hh. unfold content_after.
  rewrite Hh, (content_checks_Repeat_lt n Hn), TrimSpace_Repeat_lt.
  split; [reflexivity |].
  unfold Go.len. rewrite length_Escape_Repeat_lt. lia.
Qed.

Lemma first_failure_app (a b : list (bool * string)) :
  first_failure a = None -> first_failure (a ++ b)%list = first_failure b.
Proof.
  induction a as [| [holds msg] rest IH]; simpl; [reflexivity |].
  destruct holds; [exact IH | discriminate].
Qed.

(** C9. The stored content is not bounded by [MaxContentLength]: for every
    limit [n >= 1], a request whose content is [n] bytes [<] and whose other
    fields pass their checks is accepted by [Validate], Create or Update in
    either variant, and leaves a content of [4 * n] bytes, more than the
    limit; [Create] inserts a row with that content. *)
Theorem C9_stored_longer_than_max
        (uuid_Parse : string -> error + UUID) (n : nat) :
  (1 <= n)%nat ->
  let content := Go.Repeat "<" n in
  let max := Z.of_nat n in
  (forall config req,
      Locale.MaxContentLength config = max ->
      Locale.cr_Content req = content ->
      first_failure (Locale_create_head uuid_Parse config req) = None ->
      snd (Locale.Create_Validate uuid_Parse config req) = None
      /\ Go.len (Locale.cr_Content
                   (fst (Locale.Create_Validate uuid_Parse config req)))
         = 4 * max
      /\ Go.len (Locale.cr_Content
                   (fst (Locale.Create_Validate uuid_Parse config req)))
         > Locale.MaxContentLength config)
  /\ (forall config req,
      Locale.MaxContentLength config = max ->
      Locale.ur_Content req = content ->
      first_failure (Locale_update_head config req) = None ->
      snd (Locale.Update_Validate config req) = None
      /\ Go.len (Locale.ur_Content (fst (Locale.Update_Validate config req)))
         > Locale.MaxContentLength config)
  /\ (forall config req,
      Simple.MaxContentLength config = max ->
      Simple.cr_Content req = content ->
      first_failure (Simple_create_head uuid_Parse config req) = None ->
      snd (Simple.Create_Validate uuid_Parse config req) = None
      /\ Go.len (Simple.cr_Content
                   (fst (Simple.Create_Validate uuid_Parse config req)))
         > Simple.MaxContentLength config)
  /\ (forall config req,
      Simple.MaxContentLength config = max ->
      Simple.ur_Content req = content ->
      snd (Simple.Update_Validate config req) = None
      /\ Go.len (Simple.ur_Content (fst (Simple.Update_Validate config req)))
         > Simple.MaxContentLength config)
  /\ (forall config env c tbl req,
      Locale.MaxContentLength config = max ->
      Locale.c_BodyParser_create c = inr req ->
      Locale.cr_Content req = content ->
      Locale.Status
        (fst (Locale.Create uuid_Parse _ LocaleMem.db config env c tbl)) = 201 ->
      exists t,
        In t (snd (Locale.Create uuid_Parse _ LocaleMem.db config env c tbl))
        /\ Locale.t_ID t = uuid_New env
        /\ Go.len (Locale.t_Content t) > Locale.MaxContentLength config).
Proof.
  intros Hn content max.
  split.
  { intros config req Hm Hc Hh.
    rewrite Locale_Create_Validate_spec. cbn [fst snd].
    unfold Locale.cr_set_Content. cbn [Locale.cr_Content].
    rewrite Hm, Hc, (first_failure_app _ _ Hh).
    destruct (content_after_Repeat_lt _ n Hn Hh) as (Ea & El).
    fold content max in Ea, El. rewrite Ea, El.
    split; [now apply content_checks_Repeat_lt |]. split; lia. }
  split.
  { intros config req Hm Hc Hh.
    rewrite Locale_Update_Validate_spec. cbn [fst snd].
    unfold Locale.ur_set_Content. cbn [Locale.ur_Content].
    rewrite Hm, Hc, (first_failure_app _ _ Hh).
    destruct (content_after_Repeat_lt _ n Hn Hh) as (Ea & El).
    fold content max in Ea, El. rewrite Ea, El.
    split; [now apply content_checks_Repeat_lt | lia]. }
  split.
  { intros config req Hm Hc Hh.
    rewrite Simple_Create_Validate_spec. cbn [fst snd].
    unfold Simple.cr_set_Content. cbn [Simple.cr_Content].
    rewrite Hm, Hc, (first_failure_app _ _ Hh).
    destruct (content_after_Repeat_lt _ n Hn Hh) as (Ea & El).
    fold content max in Ea, El. rewrite Ea, El.
    split; [now apply content_checks_Repeat_lt | lia]. }
  split.
  { intros config req Hm Hc.
    rewrite Simple_Update_Validate_spec. cbn [fst snd Simple.ur_Content].
    rewrite Hm, Hc.
    destruct (content_after_Repeat_lt [] n Hn eq_refl) as (Ea & El).
    fold content max in Ea, El. rewrite Ea, El.
    split; [now apply content_checks_Repeat_lt | lia]. }
  intros config env c tbl req Hm Hb Hc H201.
  destruct (Locale_Create_201 uuid_Parse config env c tbl H201)
    as (req' & tid & Hb' & Hv & He & Hrun).
  rewrite Hb in Hb'. injection Hb' as Hb'. subst req'.
  exists (Locale_new_row uuid_Parse env c req tid).
  rewrite Hrun. simpl snd.
  split; [apply in_or_app; right; now left |].
  split; [reflexivity |].
  unfold Locale_new_row. simpl Locale.t_Content.
  rewrite Hc, Hm. fold content. unfold content.
  rewrite TrimSpace_Repeat_lt.
  unfold Go.len. rewrite length_Escape_Repeat_lt. fold max. lia.
Qed.


(** *** A caller identity that cannot be read *)

Section Garbage.

Variable uuid_Parse : string -> error + UUID.

Lemma Locale_garbage_nil (c : Locale.Ctx) :
  garbage uuid_Parse (Locale.c_Locals_user_id c) ->
  Locale.getUserIDFromFiberContext uuid_Parse c = None.
Proof.
  unfold garbage, Locale.getUserIDFromFiberContext.
  destruct (Locale.c_Locals_user_id c) as [| u | s | d]; try contradiction.
  - destruct (uuid_Parse s); [reflexivity | discriminate].
  - reflexivity.
Qed.

Lemma Simple_garbage_nil (r : Simple.Request) :
  garbage uuid_Parse (Simple.r_Context_user_id r) ->
  Simple.getUserIDFromContext uuid_Parse r = None.
Proof.
  unfold garbage, Simple.getUserIDFromContext.
  destruct (Simple.r_Context_user_id r) as [| u | s | d]; try contradiction.
  - destruct (uuid_Parse s); [reflexivity | discriminate].
  - reflexivity.
Qed.

Lemma Locale_Update_garbage (St : Type) (db : Database St Locale.Translatable)
      (config : Locale.Config) (env : Env) (c : Locale.Ctx) (st : St) :
  garbage uuid_Parse (Locale.c_Locals_user_id c) ->
  Locale.Update uuid_Parse _ db config env c st
  = Locale.Update uuid_Parse _ db config env (with_user_id c CtxNil) st.
Proof.
  intros H. unfold Locale.Update.
  rewrite (Locale_garbage_nil c H). reflexivity.
Qed.

Lemma Locale_Delete_garbage (St : Type) (db : Database St Locale.Translatable)
      (c : Locale.Ctx) (st : St) :
  garbage uuid_Parse (Locale.c_Locals_user_id c) ->
  Locale.Delete uuid_Parse _ db c st
  = Locale.Delete uuid_Parse _ db (with_user_id c CtxNil) st.
Proof.
  intros H. unfold Locale.Delete.
  rewrite (Locale_garbage_nil c H). reflexivity.
Qed.

Lemma Simple_Update_garbage (St : Type) (repo : Simple.Repository St)
      (config : Simple.Config) (env : Env) (r : Simple.Request) (st : St) :
  garbage uuid_Parse (Simple.r_Context_user_id r) ->
  Simple.Update uuid_Parse _ repo config env r st
  = Simple.Update uuid_Parse _ repo config env
                  (with_context_user_id r CtxNil) st.
Proof.
  intros H. unfold Simple.Update.
  rewrite (Simple_garbage_nil r H). reflexivity.
Qed.

Lemma Simple_Delete_garbage (St : Type) (repo : Simple.Repository St)
      (r : Simple.Request) (st : St) :
  garbage uuid_Parse (Simple.r_Context_user_id r) ->
  Simple.Delete uuid_Parse _ repo r st
  = Simple.Delete uuid_Parse _ repo (with_context_user_id r CtxNil) st.
Proof.
  intros H. unfold Simple.Delete.
  rewrite (Simple_garbage_nil r H). reflexivity.
Qed.

End Garbage.

(** C10. When the ["user_id"] context value is present but is neither a
    UUID nor a string that parses as one, the caller identity read from it
    is nil; Update and Delete then behave exactly as for a request without
    any ["user_id"], and the one statement they may execute is the plain
    one, with [WHERE id = $n] only and no owner argument: no error is
    raised for the unreadable identity. *)
Theorem C10_garbage_identity_unscoped (uuid_Parse : string -> error + UUID) :
  (forall c, garbage uuid_Parse (Locale.c_Locals_user_id c) ->
             Locale.getUserIDFromFiberContext uuid_Parse c = None)
  /\ (forall r, garbage uuid_Parse (Simple.r_Context_user_id r) ->
                Simple.getUserIDFromContext uuid_Parse r = None)
  /\ (forall St (db : Database St Locale.Translatable) config env c st,
      garbage uuid_Parse (Locale.c_Locals_user_id c) ->
      Locale.Update uuid_Parse _ db config env c st
      = Locale.Update uuid_Parse _ db config env (with_user_id c CtxNil) st
      /\ Locale.Delete uuid_Parse _ db c st
         = Locale.Delete uuid_Parse _ db (with_user_id c CtxNil) st)
  /\ (forall St (repo : Simple.Repository St) config env r st,
      garbage uuid_Parse (Simple.r_Context_user_id r) ->
      Simple.Update uuid_Parse _ repo config env r st
      = Simple.Update uuid_Parse _ repo config env
                      (with_context_user_id r CtxNil) st
      /\ Simple.Delete uuid_Parse _ repo r st
         = Simple.Delete uuid_Parse _ repo (with_context_user_id r CtxNil) st)
  /\ (forall St (db : Database St Locale.Translatable) config env c st,
      garbage uuid_Parse (Locale.c_Locals_user_id c) ->
      let l := execs (calls (Locale.Update uuid_Parse _ (logged db) config
                                           env c) st) in
      l = [] \/
      exists id req,
        uuid_Parse (Locale.c_Params_id c) = inr id
        /\ Locale.c_BodyParser_update c = inr req
        /\ l = [(Locale.updateQuery,
                 [AString (Go.EscapeString
                             (Go.TrimSpace (Locale.ur_Content req)));
                  AString (Locale.ur_Locale req); ATime (time_Now env);
                  AUUID id])])
  /\ (forall St (db : Database St Locale.Translatable) c st,
      garbage uuid_Parse (Locale.c_Locals_user_id c) ->
      let l := execs (calls (Locale.Delete uuid_Parse _ (logged db) c) st) in
      l = [] \/
      exists id,
        uuid_Parse (Locale.c_Params_id c) = inr id
        /\ l = [(Locale.deleteQuery, [AUUID id])])
  /\ (forall St (db : Database St Simple.Translatable) config env r st,
      garbage uuid_Parse (Simple.r_Context_user_id r) ->
      let l := execs (calls (Simple.Update uuid_Parse _
                               (Simple.NewRepository (logged db)) config env r)
                            st) in
      l = [] \/
      exists id req,
        uuid_Parse (Simple.idStr r) = inr id
        /\ Simple.r_Decode_update r = inr req
        /\ l = [(Simple.updateQuery,
                 [AString (Go.EscapeString
                             (Go.TrimSpace (Simple.ur_Content req)));
                  ATime (time_Now env); AUUID id])])
  /\ (forall St (db : Database St Simple.Translatable) r st,
      garbage uuid_Parse (Simple.r_Context_user_id r) ->
      let l := execs (calls (Simple.Delete uuid_Parse _
                               (Simple.NewRepository (logged db)) r) st) in
      l = [] \/
      exists id,
        uuid_Parse (Simple.idStr r) = inr id
        /\ l = [(Simple.deleteQuery, [AUUID id])]).
Proof.
  split; [apply Locale_garbage_nil |].
  split; [apply Simple_garbage_nil |].
  split.
  { intros St db config env c st H. split.
    - now apply Locale_Update_garbage.
    - now apply Locale_Delete_garbage. }
  split.
  { intros St repo config env r st H. split.
    - now apply Simple_Update_garbage.
    - now apply Simple_Delete_garbage. }
  split.
  { intros St db config env c st H l.
    destruct (Locale_Update_execs_shape uuid_Parse St db config env c st)
      as [E | (id & req & Hp & Hb & E)]; [now left |].
    right. exists id, req. split; [assumption |]. split; [assumption |].
    unfold l. rewrite E, (Locale_garbage_nil uuid_Parse c H). reflexivity. }
  split.
  { intros St db c st H l.
    destruct (Locale_Delete_execs uuid_Parse St db c st)
      as [E | (id & Hp & E)]; [now left |].
    right. exists id. split; [assumption |].
    unfold l. rewrite E, (Locale_garbage_nil uuid_Parse c H). reflexivity. }
  split.
  { intros St db config env r st H l.
    destruct (Simple_Update_execs uuid_Parse St db config env r st)
      as [E | (id & req & Hp & Hb & E)]; [now left |].
    right. exists id, req. split; [assumption |]. split; [assumption |].
    unfold l. rewrite E, (Simple_garbage_nil uuid_Parse r H). reflexivity. }
  intros St db r st H l.
  destruct (Simple_Delete_execs uuid_Parse St db r st)
    as [E | (id & Hp & E)]; [now left |].
  right. exists id. split; [assumption |].
  unfold l. rewrite E, (Simple_garbage_nil uuid_Parse r H). reflexivity.
Qed.

(** *** The properties on concrete requests *)

Lemma C6_query_statement_witness :
  (Locale.selectQuery ++ " AND translatable = $1"
   ++ " ORDER BY created_at DESC LIMIT $2 OFFSET $3",
   [AString "posts"; AInt 20; AInt 0])
  = Locale.queryPage (Locale.mkQueryParams None (Some "posts") None None 20 0)
  /\ ("SELECT COUNT(*) FROM translations WHERE 1=1 AND translatable = $1",
      [AString "posts"])
     = Locale.queryCount
         (Locale.mkQueryParams None (Some "posts") None None 20 0).
Proof.
  destruct (C6_query_statement
              (Locale.mkQueryParams None (Some "posts") None None 20 0)
              (Simple.mkQueryParams None None None 20 0))
    as (_ & _ & _ & _ & _ & Hcount & Hpage).
  split.
  - apply (Hpage _ LocaleMem.db [Sample.stored_row]).
    right. left. reflexivity.
  - apply (Hcount _ LocaleMem.db [Sample.stored_row]).
    left. reflexivity.
Defined.

Lemma C7_zero_rows_not_found_witness :
  Locale.Update UuidText.Parse _ LocaleMem.db Sample.config Sample.env
                Sample.put_by_stranger [Sample.stored_row]
  = (Locale.mkResponse 404
       (Locale.J_error
          "translation not found or you don't have permission to update it"),
     [Sample.stored_row]).
Proof.
  destruct (C7_zero_rows_not_found UuidText.Parse)
    as (_ & _ & _ & _ & _ & _ & _ & _ & _ & H & _).
  apply (H Sample.config Sample.env Sample.put_by_stranger [Sample.stored_row]
           Sample.row_id (Locale.mkUpdate "en" "Changed") Sample.stranger).
  - reflexivity.
  - reflexivity.
  - reflexivity.
  - reflexivity.
  - exists Sample.stored_row. split; [now left | reflexivity].
  - intros t [E | []] _ K. subst t. vm_compute in K. discriminate K.
Defined.

Lemma C9_stored_longer_than_max_witness :
  let config := Locale.mkConfig ["posts"] ["en"] "en" 20 100 3 in
  let req := Locale.mkCreate Sample.host_id_text "posts" "en" "<<<" in
  snd (Locale.Create_Validate UuidText.Parse config req) = None
  /\ Go.len (Locale.cr_Content
               (fst (Locale.Create_Validate UuidText.Parse config req)))
     = 12
  /\ Go.len (Locale.cr_Content
               (fst (Locale.Create_Validate UuidText.Parse config req)))
     > 3.
Proof.
  intros config req.
  destruct (C9_stored_longer_than_max UuidText.Parse 3) as (H & _).
  - lia.
  - apply (H config req); reflexivity.
Defined.

Lemma C10_garbage_identity_unscoped_witness :
  Locale.getUserIDFromFiberContext UuidText.Parse Sample.put_by_garbage = None
  /\ Locale.Update UuidText.Parse _ LocaleMem.db Sample.config Sample.env
                   Sample.put_by_garbage [Sample.stored_row]
     = Locale.Update UuidText.Parse _ LocaleMem.db Sample.config Sample.env
                     (with_user_id Sample.put_by_garbage CtxNil)
                     [Sample.stored_row].
Proof.
  destruct (C10_garbage_identity_unscoped UuidText.Parse)
    as (Hnil & _ & Hsame & _).
  split.
  - apply Hnil. reflexivity.
  - apply (Hsame _ LocaleMem.db Sample.config Sample.env Sample.put_by_garbage
                 [Sample.stored_row]).
    reflexivity.
Defined.

(** The row of [owner] is rewritten by a request whose ["user_id"] is not a
    UUID, and left alone by one from [stranger]. *)
Example garbage_overwrites_stranger_does_not :
  Locale.Update UuidText.Parse _ LocaleMem.db Sample.config Sample.env
                Sample.put_by_garbage [Sample.stored_row]
  = (Locale.mkResponse 200
       (Locale.J_translatable
          (Locale.mkTranslatable Sample.row_id (Some Sample.owner)
             (Sample.uuid_of Sample.host_id_text) "posts" "en" "Changed"
             (Some 1700000000) 1600000000)),
     [Locale.mkTranslatable Sample.row_id (Some Sample.owner)
        (Sample.uuid_of Sample.host_id_text) "posts" "en" "Changed"
        (Some 1700000000) 1600000000])
  /\ Locale.Status
       (fst (Locale.Update UuidText.Parse _ LocaleMem.db Sample.config
                           Sample.env Sample.put_by_stranger
                           [Sample.stored_row])) = 404.
Proof. split; reflexivity. Qed.


(** * Further properties of the code *)

(** *** Configurations that passed validation *)

Lemma not_fails_None {A : Type} (r : A * option error) :
  ~ fails r <-> snd r = None.
Proof.
  unfold fails. destruct (snd r) as [e |]; split; intros H.
  - exfalso. apply H. discriminate.
  - discriminate.
  - reflexivity.
  - intros K. now apply K.
Qed.

Lemma defaulted_ge (dflt v : Z) : 1 <= dflt -> 1 <= defaulted dflt v.
Proof.
  intros H. unfold defaulted. destruct (v <=? 0) eqn:E; [assumption |].
  apply Z.leb_gt in E. lia.
Qed.

Lemma defaulted_id (dflt v : Z) : 1 <= v -> defaulted dflt v = v.
Proof.
  intros H. unfold defaulted.
  destruct (v <=? 0) eqn:E; [apply Z.leb_le in E; lia | reflexivity].
Qed.

Lemma valid_config_fixed (c : Locale.Config) :
  valid_config c -> Locale.Validate c = (c, None).
Proof.
  intros (Ha & Hs & Hd & Hi & Hp & Hm & Hx).
  assert (Hok : ~ fails (Locale.Validate c)).
  { intros K. apply Locale_Validate_fails in K.
    rewrite (defaulted_id _ _ (proj1 Hx)) in K. tauto. }
  apply injective_projections.
  - rewrite (Locale_Validate_leaves c Hok), applyDefaults_eq.
    rewrite (defaulted_id _ _ Hp), (defaulted_id _ _ Hm),
      (defaulted_id _ _ (proj1 Hx)).
    destruct c; reflexivity.
  - now apply not_fails_None.
Qed.

Lemma Validate_valid_config (c : Locale.Config) :
  ~ fails (Locale.Validate c) -> valid_config (fst (Locale.Validate c)).
Proof.
  intros Hok.
  assert (Hn : ~ (bad_list (Locale.AllowedTypes c)
                  \/ bad_list (Locale.SupportedLocales c)
                  \/ Locale.DefaultLocale c = ""
                  \/ ~ In (Locale.DefaultLocale c) (Locale.SupportedLocales c)
                  \/ ~ (1 <= defaulted 10240 (Locale.MaxContentLength c)
                        <= 1048576))).
  { intros K. apply Hok. now apply Locale_Validate_fails. }
  rewrite (Locale_Validate_leaves c Hok), applyDefaults_eq.
  unfold valid_config. simpl.
  repeat split; try tauto.
  - destruct (in_dec string_dec (Locale.DefaultLocale c)
                     (Locale.SupportedLocales c)); tauto.
  - apply defaulted_ge. lia.
  - apply defaulted_ge. lia.
  - destruct (Z_le_dec 1 (defaulted 10240 (Locale.MaxContentLength c)));
      [assumption | exfalso; apply Hn; do 4 right; lia].
  - destruct (Z_le_dec (defaulted 10240 (Locale.MaxContentLength c)) 1048576);
      [assumption | exfalso; apply Hn; do 4 right; lia].
Qed.

(** X1. A configuration that [Config.Validate] accepts comes out with name
    lists that are neither empty nor hold an empty string or a duplicate, a
    default locale among the supported ones, pagination fields of at least 1
    and a content limit in [1, 1048576]; validating it again changes nothing
    and succeeds, and so does every configuration that already has these
    properties. *)
Theorem X1_validate_establishes_and_keeps (c : Locale.Config) :
  (~ fails (Locale.Validate c) ->
   valid_config (fst (Locale.Validate c))
   /\ Locale.Validate (fst (Locale.Validate c))
      = (fst (Locale.Validate c), None))
  /\ (valid_config c -> Locale.Validate c = (c, None)).
Proof.
  split.
  - intros Hok. pose proof (Validate_valid_config c Hok) as Hv.
    split; [assumption | now apply valid_config_fixed].
  - apply valid_config_fixed.
Qed.

Lemma X1_validate_establishes_and_keeps_witness :
  let c := Locale.mkConfig ["posts"; "articles"] ["en"; "fr"] "fr" 0 (-3) 0 in
  valid_config (fst (Locale.Validate c))
  /\ Locale.Validate (fst (Locale.Validate c)) = (fst (Locale.Validate c), None).
Proof.
  intros c.
  destruct (X1_validate_establishes_and_keeps c) as (H & _).
  apply H. intros K. apply K. reflexivity.
Defined.

Lemma defaulted0_id (v : Z) : 1 <= v -> defaulted0 10240 v = v.
Proof.
  intros H. unfold defaulted0.
  destruct (v =? 0) eqn:E; [apply Z.eqb_eq in E; lia | reflexivity].
Qed.

Lemma valid_simple_config_fixed (c : Simple.Config) :
  valid_simple_config c -> Simple.Validate c = (c, None).
Proof.
  intros (Ha & Hx).
  assert (Hok : ~ fails (Simple.Validate c)).
  { intros K. apply Simple_Validate_fails in K.
    rewrite (defaulted0_id _ (proj1 Hx)) in K. tauto. }
  apply injective_projections.
  - rewrite (Simple_Validate_leaves c Hok), (defaulted0_id _ (proj1 Hx)).
    destruct c; reflexivity.
  - now apply not_fails_None.
Qed.

Lemma Validate_valid_simple_config (c : Simple.Config) :
  ~ fails (Simple.Validate c) -> valid_simple_config (fst (Simple.Validate c)).
Proof.
  intros Hok.
  assert (Hn : ~ (bad_list (Simple.AllowedTables c)
                  \/ ~ (1 <= defaulted0 10240 (Simple.MaxContentLength c)
                        <= 1048576))).
  { intros K. apply Hok. now apply Simple_Validate_fails. }
  rewrite (Simple_Validate_leaves c Hok). unfold valid_simple_config. simpl.
  split; [tauto |].
  destruct (Z_le_dec 1 (defaulted0 10240 (Simple.MaxContentLength c)));
    destruct (Z_le_dec (defaulted0 10240 (Simple.MaxContentLength c)) 1048576);
    try lia; exfalso; apply Hn; right; lia.
Qed.

(** X2. [NewPlugin] of the variant without locales returns a plugin exactly
    when [Config.Validate] accepts the configuration, and the plugin then
    holds a configuration with a table list that is not empty and free of
    empty strings and duplicates and a content limit in [1, 1048576], from
    which a plugin can be built again unchanged; otherwise the error is
    Validate's, prefixed with "invalid config: ". *)
Theorem X2_new_plugin_valid (config : Simple.Config) :
  (forall c, SimplePlugin.NewPlugin config = inr c ->
             ~ fails (Simple.Validate config)
             /\ c = fst (Simple.Validate config)
             /\ valid_simple_config c
             /\ SimplePlugin.NewPlugin c = inr c)
  /\ (forall e, SimplePlugin.NewPlugin config = inl e ->
                exists err,
                  snd (Simple.Validate config) = Some err
                  /\ Error e = "invalid config: " ++ Error err)
  /\ (~ fails (Simple.Validate config) ->
      exists c, SimplePlugin.NewPlugin config = inr c).
Proof.
  unfold SimplePlugin.NewPlugin.
  destruct (Simple.Validate config) as [c' [err |]] eqn:Ev.
  - split; [intros c K; discriminate |].
    split.
    + intros e K. injection K as K. subst e. exists err. split; reflexivity.
    + intros K. exfalso. apply K. unfold fails. simpl. discriminate.
  - assert (Hok : ~ fails (Simple.Validate config)).
    { apply not_fails_None. rewrite Ev. reflexivity. }
    pose proof (Validate_valid_simple_config config Hok) as Hv.
    rewrite Ev in Hv. simpl in Hv.
    split.
    + intros c K. injection K as K. subst c'.
      split; [rewrite <- Ev; assumption |].
      split; [reflexivity |]. split; [assumption |].
      rewrite (valid_simple_config_fixed c Hv). reflexivity.
    + split; [intros e K; discriminate |].
      intros _. now exists c'.
Qed.

Lemma X2_new_plugin_valid_witness :
  exists c, SimplePlugin.NewPlugin (Simple.mkConfig ["posts"; "articles"] 0)
            = inr c.
Proof.
  destruct (X2_new_plugin_valid (Simple.mkConfig ["posts"; "articles"] 0))
    as (_ & _ & H).
  apply H. intros K. apply K. reflexivity.
Defined.

(** *** The locale list of the service *)

Lemma rangeLocales_eq (def : string) (l : list string)
      (locales : list Service.LocaleInfo) :
  Service.rangeLocales def l locales =
  (locales
   ++ map (fun x => Service.mkLocaleInfo x (x =? def)%string) l)%list.
Proof.
  revert locales. induction l as [| x rest IH]; intros locales; simpl.
  - now rewrite app_nil_r.
  - rewrite IH, <- app_assoc. reflexivity.
Qed.

Lemma count_default (def : string) (l : list string) :
  NoDup l ->
  List.length
    (filter Service.li_IsDefault
            (map (fun x => Service.mkLocaleInfo x (x =? def)%string) l))
  = if in_dec string_dec def l then 1%nat else 0%nat.
Proof.
  induction l as [| x rest IH]; intros Hd; [reflexivity |].
  inversion Hd as [| ? ? Hn Hd']; subst. specialize (IH Hd'). simpl.
  destruct (String.eqb_spec x def) as [E | E]; simpl.
  - subst x. rewrite IH.
    destruct (string_dec def def) as [K | K]; [| contradiction].
    destruct (in_dec string_dec def rest); [contradiction | reflexivity].
  - rewrite IH. destruct (string_dec x def) as [K | K]; [contradiction |].
    destruct (in_dec string_dec def rest); reflexivity.
Qed.

(** X3. [GetLocales] lists the supported locales in their configured order,
    one entry each, and flags an entry as default exactly when its locale
    equals the default locale; for a configuration that passed
    validation exactly one entry is flagged. *)
Theorem X3_get_locales (c : Locale.Config) :
  map Service.li_Locale (Service.GetLocales c) = Locale.SupportedLocales c
  /\ (forall info, In info (Service.GetLocales c) ->
                   (Service.li_IsDefault info = true
                    <-> Service.li_Locale info = Locale.DefaultLocale c))
  /\ (valid_config c ->
      List.length (filter Service.li_IsDefault (Service.GetLocales c)) = 1%nat).
Proof.
  unfold Service.GetLocales. rewrite rangeLocales_eq. simpl.
  split.
  { rewrite map_map. simpl. apply map_id. }
  split.
  { intros info Hin. apply in_map_iff in Hin.
    destruct Hin as (x & E & _). subst info. simpl. apply String.eqb_eq. }
  intros (_ & Hs & _ & Hi & _).
  assert (Hd : NoDup (Locale.SupportedLocales c)).
  { destruct (NoDup_string_dec (Locale.SupportedLocales c)) as [K | K];
      [assumption |].
    exfalso. apply Hs. right. now right. }
  rewrite (count_default _ _ Hd).
  destruct (in_dec string_dec (Locale.DefaultLocale c)
                   (Locale.SupportedLocales c)); [reflexivity | contradiction].
Qed.

Lemma X3_get_locales_witness :
  List.length
    (filter Service.li_IsDefault
            (Service.GetLocales
               (Locale.mkConfig ["posts"] ["en"; "fr"; "de"] "fr" 20 100 10240)))
  = 1%nat.
Proof.
  destruct (X3_get_locales
              (Locale.mkConfig ["posts"] ["en"; "fr"; "de"] "fr" 20 100 10240))
    as (_ & _ & H).
  apply H. apply (Validate_valid_config
                    (Locale.mkConfig ["posts"] ["en"; "fr"; "de"] "fr"
                                     20 100 10240)).
  intros K. apply K. reflexivity.
Defined.

(** *** Initialising the plugin from a configuration map *)

Lemma Validate_keeps_lists (c : Locale.Config) :
  Locale.AllowedTypes (fst (Locale.Validate c)) = Locale.AllowedTypes c
  /\ Locale.SupportedLocales (fst (Locale.Validate c))
     = Locale.SupportedLocales c
  /\ Locale.DefaultLocale (fst (Locale.Validate c)) = Locale.DefaultLocale c.
Proof.
  unfold Locale.Validate.
  destruct (Locale.validateAllowedTypes c); [repeat split |].
  destruct (Locale.validateSupportedLocales c); [repeat split |].
  destruct (Locale.validateDefaultLocale c); [repeat split |].
  destruct ((Locale.MaxContentLength (Locale.applyDefaults c) <? 1)
            || (Locale.MaxContentLength (Locale.applyDefaults c) >? 1048576));
    simpl; rewrite applyDefaults_eq; repeat split.
Qed.

Ltac step_keeps :=
  intros v c; destruct v as [| ? | ? | l | |]; simpl; try (split; reflexivity);
  destruct (Z.of_nat (List.length (Plugin.rangeStrings l [])) >? 0);
  split; reflexivity.

Lemma set_default_locale_lists :
  forall v c,
    Locale.AllowedTypes (Plugin.set_default_locale v c) = Locale.AllowedTypes c
    /\ Locale.SupportedLocales (Plugin.set_default_locale v c)
       = Locale.SupportedLocales c.
Proof. step_keeps. Qed.

Lemma set_pagination_limit_lists :
  forall v c,
    Locale.AllowedTypes (Plugin.set_pagination_limit v c)
    = Locale.AllowedTypes c
    /\ Locale.SupportedLocales (Plugin.set_pagination_limit v c)
       = Locale.SupportedLocales c.
Proof. step_keeps. Qed.

Lemma set_max_pagination_limit_lists :
  forall v c,
    Locale.AllowedTypes (Plugin.set_max_pagination_limit v c)
    = Locale.AllowedTypes c
    /\ Locale.SupportedLocales (Plugin.set_max_pagination_limit v c)
       = Locale.SupportedLocales c.
Proof. step_keeps. Qed.

Lemma set_max_content_length_lists :
  forall v c,
    Locale.AllowedTypes (Plugin.set_max_content_length v c)
    = Locale.AllowedTypes c
    /\ Locale.SupportedLocales (Plugin.set_max_content_length v c)
       = Locale.SupportedLocales c.
Proof. step_keeps. Qed.

Lemma set_supported_locales_types :
  forall v c,
    Locale.AllowedTypes (Plugin.set_supported_locales v c)
    = Locale.AllowedTypes c
    /\ Locale.DefaultLocale (Plugin.set_supported_locales v c)
       = Locale.DefaultLocale c.
Proof. step_keeps. Qed.

Lemma set_allowed_types_locales :
  forall v c,
    Locale.SupportedLocales (Plugin.set_allowed_types v c)
    = Locale.SupportedLocales c
    /\ Locale.DefaultLocale (Plugin.set_allowed_types v c)
       = Locale.DefaultLocale c.
Proof. step_keeps. Qed.

Lemma merged_lists (config : string -> Plugin.Dyn) :
  Locale.AllowedTypes (Plugin.merged config)
  = Locale.AllowedTypes
      (Plugin.set_allowed_types (config "allowed_types") Locale.DefaultConfig)
  /\ Locale.SupportedLocales (Plugin.merged config)
     = Locale.SupportedLocales
         (Plugin.set_supported_locales (config "supported_locales")
                                       Locale.DefaultConfig).
Proof.
  unfold Plugin.merged. cbv zeta.
  split.
  - rewrite (proj1 (set_max_content_length_lists _ _)),
      (proj1 (set_max_pagination_limit_lists _ _)),
      (proj1 (set_pagination_limit_lists _ _)),
      (proj1 (set_default_locale_lists _ _)),
      (proj1 (set_supported_locales_types _ _)).
    reflexivity.
  - rewrite (proj2 (set_max_content_length_lists _ _)),
      (proj2 (set_max_pagination_limit_lists _ _)),
      (proj2 (set_pagination_limit_lists _ _)),
      (proj2 (set_default_locale_lists _ _)).
    destruct (config "supported_locales") as [| | | l | |]; simpl;
      try apply set_allowed_types_locales.
    destruct (Z.of_nat (List.length (Plugin.rangeStrings l [])) >? 0);
      [reflexivity | apply set_allowed_types_locales].
Qed.

Lemma merged_lists_not_empty (config : string -> Plugin.Dyn) :
  Locale.AllowedTypes (Plugin.merged config) <> []
  /\ Locale.SupportedLocales (Plugin.merged config) <> [].
Proof.
  destruct (merged_lists config) as (Ea & Es). rewrite Ea, Es.
  split.
  - destruct (config "allowed_types") as [| | | l | |]; simpl;
      try discriminate.
    destruct (Plugin.rangeStrings l []) eqn:E; simpl; discriminate.
  - destruct (config "supported_locales") as [| | | l | |]; simpl;
      try discriminate.
    destruct (Plugin.rangeStrings l []) eqn:E; simpl; discriminate.
Qed.

Lemma with_key_step {A : Type} (f : Plugin.Dyn -> A -> A)
      (config : string -> Plugin.Dyn) (key k : string) (v : Plugin.Dyn) :
  (forall x a, expected k x = false -> f x a = a) ->
  expected key (config key) = false -> expected key v = false ->
  forall a, f (with_key config key v k) a = f (config k) a.
Proof.
  intros Hf Hc Hv a. unfold with_key.
  destruct (String.eqb_spec k key) as [E | E]; [| reflexivity].
  subst k. rewrite (Hf v a Hv), (Hf (config key) a Hc). reflexivity.
Qed.

Ltac unexpected_step :=
  let x := fresh "x" in
  let a := fresh "a" in
  intros x a; destruct x; simpl; intros; try discriminate; reflexivity.

Lemma Initialize_ignores (config : string -> Plugin.Dyn) (key : string)
      (v : Plugin.Dyn) :
  expected key (config key) = false -> expected key v = false ->
  Plugin.Initialize (with_key config key v) = Plugin.Initialize config.
Proof.
  intros Hc Hv. unfold Plugin.Initialize, Plugin.merged. cbv zeta.
  rewrite (with_key_step Plugin.set_allowed_types config key "allowed_types" v)
    by (try unexpected_step; assumption).
  rewrite (with_key_step Plugin.set_supported_locales config key
                         "supported_locales" v)
    by (try unexpected_step; assumption).
  rewrite (with_key_step Plugin.set_default_locale config key
                         "default_locale" v)
    by (try unexpected_step; assumption).
  rewrite (with_key_step Plugin.set_pagination_limit config key
                         "pagination_limit" v)
    by (try unexpected_step; assumption).
  rewrite (with_key_step Plugin.set_max_pagination_limit config key
                         "max_pagination_limit" v)
    by (try unexpected_step; assumption).
  rewrite (with_key_step Plugin.set_max_content_length config key
                         "max_content_length" v)
    by (try unexpected_step; assumption).
  pose proof (with_key_step
                (fun x (a : bool) =>
                   match x with Plugin.DDatabase => true | _ => a end)
                config key "database" v ltac:(unexpected_step) Hc Hv false)
    as Hdb.
  cbv beta in Hdb. rewrite Hdb. reflexivity.
Qed.

Lemma Initialize_proj (config : string -> Plugin.Dyn) :
  Plugin.p_config (fst (Plugin.Initialize config))
  = fst (Locale.Validate (Plugin.merged config))
  /\ snd (Plugin.Initialize config)
     = snd (Locale.Validate (Plugin.merged config)).
Proof.
  unfold Plugin.Initialize.
  destruct (Locale.Validate (Plugin.merged config)); split; reflexivity.
Qed.

(** X4. [Initialize] starts from the default configuration and takes a
    value from the map only when it has the expected dynamic type: a value
    of another type, or a key it does not read, changes nothing.  A list
    without any string leaves the default types in place, so the two name
    lists of the plugin are never empty.  When [Initialize] returns no
    error, the plugin's configuration has the properties validation
    establishes. *)
Theorem X4_initialize_config_map (config : string -> Plugin.Dyn) :
  (Locale.AllowedTypes (Plugin.p_config (fst (Plugin.Initialize config))) <> []
   /\ Locale.SupportedLocales (Plugin.p_config (fst (Plugin.Initialize config)))
      <> [])
  /\ (forall l, config "allowed_types" = Plugin.DSlice l ->
                Plugin.rangeStrings l [] = [] ->
                Locale.AllowedTypes
                  (Plugin.p_config (fst (Plugin.Initialize config)))
                = ["post"])
  /\ (forall key v,
      expected key (config key) = false -> expected key v = false ->
      Plugin.Initialize (with_key config key v) = Plugin.Initialize config)
  /\ (snd (Plugin.Initialize config) = None ->
      valid_config (Plugin.p_config (fst (Plugin.Initialize config)))).
Proof.
  destruct (Initialize_proj config) as (Ec & Ee). rewrite Ec, Ee.
  destruct (Validate_keeps_lists (Plugin.merged config)) as (Ka & Ks & _).
  rewrite Ka, Ks.
  split; [apply merged_lists_not_empty |].
  split.
  { intros l Hl Hr. rewrite (proj1 (merged_lists config)), Hl. simpl.
    rewrite Hr. reflexivity. }
  split; [intros key v; apply Initialize_ignores |].
  intros H. apply Validate_valid_config. now apply not_fails_None.
Qed.

Lemma X4_initialize_config_map_witness :
  let config := fun key : string =>
                  if (key =? "allowed_types")%string
                  then Plugin.DSlice [Plugin.DInt 1; Plugin.DOther]
                  else if (key =? "pagination_limit")%string
                       then Plugin.DString "20"
                       else Plugin.DNil in
  Locale.AllowedTypes (Plugin.p_config (fst (Plugin.Initialize config)))
  = ["post"]
  /\ Plugin.Initialize (with_key config "pagination_limit" Plugin.DNil)
     = Plugin.Initialize config
  /\ valid_config (Plugin.p_config (fst (Plugin.Initialize config))).
Proof.
  intros config.
  destruct (X4_initialize_config_map config) as (_ & Hd & Hi & Hv).
  split; [| split].
  - apply (Hd [Plugin.DInt 1; Plugin.DOther]); reflexivity.
  - apply Hi; reflexivity.
  - apply Hv. reflexivity.
Defined.

(** *** From a validated request to a row *)

Lemma Simple_Create_run (uuid_Parse : string -> error + UUID)
      (config : Simple.Config) (env : Env)
      (req : Simple.CreateTranslatableRequest) (userID : option UUID) :
  snd (Simple.Create_Validate uuid_Parse config req) = None ->
  exists tid,
    uuid_Parse (Simple.cr_TranslatableID req) = inr tid
    /\ Simple.ToTranslatable uuid_Parse env
         (fst (Simple.Create_Validate uuid_Parse config req)) userID
       = inr (Simple.mkTranslatable (uuid_New env) userID tid
                (Simple.cr_Translatable req)
                (Go.EscapeString (Go.TrimSpace (Simple.cr_Content req)))
                None (time_Now env)).
Proof.
  intros Hv.
  destruct (Simple_Create_Validate_ok uuid_Parse config req Hv)
    as (E & tid & Hp).
  exists tid. split; [assumption |].
  rewrite E. unfold Simple.ToTranslatable. simpl. rewrite Hp. reflexivity.
Qed.

(** X5. A Create request that passed [Validate] always converts:
    [ToTranslatable] returns the row with the fresh id, the caller as
    owner, the parsed host id, the type (and locale) as sent, the trimmed
    and escaped content, the current time as [CreatedAt] and no
    [UpdatedAt]; it fails only when the host id does not parse, with the
    parser's error.  So the Create handler answers 400 to a decoded body
    exactly when [Validate] rejects it. *)
Theorem X5_validated_request_converts (uuid_Parse : string -> error + UUID) :
  (forall config env req userID,
      snd (Locale.Create_Validate uuid_Parse config req) = None ->
      exists tid,
        uuid_Parse (Locale.cr_TranslatableID req) = inr tid
        /\ Locale.ToTranslatable uuid_Parse env
             (fst (Locale.Create_Validate uuid_Parse config req)) userID
           = inr (Locale.mkTranslatable (uuid_New env) userID tid
                    (Locale.cr_Translatable req) (Locale.cr_Locale req)
                    (Go.EscapeString (Go.TrimSpace (Locale.cr_Content req)))
                    None (time_Now env)))
  /\ (forall config env req userID,
      snd (Simple.Create_Validate uuid_Parse config req) = None ->
      exists tid,
        uuid_Parse (Simple.cr_TranslatableID req) = inr tid
        /\ Simple.ToTranslatable uuid_Parse env
             (fst (Simple.Create_Validate uuid_Parse config req)) userID
           = inr (Simple.mkTranslatable (uuid_New env) userID tid
                    (Simple.cr_Translatable req)
                    (Go.EscapeString (Go.TrimSpace (Simple.cr_Content req)))
                    None (time_Now env)))
  /\ (forall env req userID e,
      uuid_Parse (Locale.cr_TranslatableID req) = inl e ->
      Locale.ToTranslatable uuid_Parse env req userID = inl e)
  /\ (forall St (db : Database St Locale.Translatable) config env c st req,
      Locale.c_BodyParser_create c = inr req ->
      (Locale.Status (fst (Locale.Create uuid_Parse _ db config env c st)) = 400
       <-> fails (Locale.Create_Validate uuid_Parse config req))).
Proof.
  split.
  { intros config env req userID Hv.
    destruct (Locale_Create_Validate_ok uuid_Parse config req Hv)
      as (E & tid & Hp).
    exists tid. split; [assumption |].
    rewrite E. unfold Locale.ToTranslatable. simpl. rewrite Hp. reflexivity. }
  split; [intros config env req userID; apply Simple_Create_run |].
  split.
  { intros env req userID e Hp. unfold Locale.ToTranslatable.
    rewrite Hp. reflexivity. }
  intros St db config env c st req Hb.
  destruct (snd (Locale.Create_Validate uuid_Parse config req)) as [e |] eqn:Hv.
  - split.
    + intros _. unfold fails. rewrite Hv. discriminate.
    + intros _. unfold Locale.Create. rewrite Hb.
      destruct (Locale.Create_Validate uuid_Parse config req) as [r' o].
      simpl in Hv. subst o. reflexivity.
  - destruct (Locale_Create_run uuid_Parse St db config env c st req Hb Hv)
      as (tid & Hp & Hrun).
    rewrite Hrun. split.
    + destruct (Exec db Locale.createQuery
                  (Locale.createArgs
                     (Locale_new_row uuid_Parse env c req tid)) st)
        as [[e | r] st']; simpl; discriminate.
    + intros K. exfalso. apply K. exact Hv.
Qed.

Lemma X5_validated_request_converts_witness :
  exists tid,
    UuidText.Parse Sample.host_id_text = inr tid
    /\ Locale.ToTranslatable UuidText.Parse Sample.env
         (fst (Locale.Create_Validate UuidText.Parse Sample.config
                 (Locale.mkCreate Sample.host_id_text "posts" "en" " Hello ")))
         (Some Sample.owner)
       = inr (Locale.mkTranslatable Sample.row_id (Some Sample.owner) tid
                "posts" "en" "Hello" None 1700000000).
Proof.
  destruct (X5_validated_request_converts UuidText.Parse) as (H & _).
  apply (H Sample.config Sample.env
           (Locale.mkCreate Sample.host_id_text "posts" "en" " Hello ")
           (Some Sample.owner)).
  reflexivity.
Defined.

(** *** The size and shape of the stored content *)

Lemma escapeByte_cases (c : ascii) :
  (special_byte c = false /\ Go.escapeByte c = String c EmptyString)
  \/ (special_byte c = true
      /\ (4 <= String.length (Go.escapeByte c) <= 5)%nat).
Proof.
  destruct c as [[] [] [] [] [] [] [] []];
    first [ left; split; reflexivity
          | right; split; [reflexivity | simpl; lia] ].
Qed.

Lemma length_EscapeString (s : string) :
  (String.length s <= String.length (Go.EscapeString s)
   <= 5 * String.length s)%nat.
Proof.
  induction s as [| c r IH]; simpl; [lia |].
  rewrite length_append.
  destruct (escapeByte_cases c) as [(_ & E) | (_ & L)].
  - rewrite E. simpl. lia.
  - lia.
Qed.

Lemma EscapeString_fixed (s : string) :
  Go.EscapeString s = s <-> special_free s = true.
Proof.
  induction s as [| c r IH]; simpl; [split; reflexivity |].
  destruct (escapeByte_cases c) as [(Hs & E) | (Hs & L)]; rewrite Hs; simpl.
  - rewrite E. simpl. rewrite <- IH. split; intros H.
    + now injection H.
    + now rewrite H.
  - split; [| discriminate]. intros H.
    assert (K : String.length (Go.escapeByte c ++ Go.EscapeString r)
                = String.length (String c r)) by (rewrite H; reflexivity).
    rewrite length_append in K. simpl in K.
    pose proof (length_EscapeString r). lia.
Qed.

Lemma content_checks_ok (max : Z) (content : string) :
  first_failure (content_checks max content) = None ->
  Go.TrimSpace content <> "" /\ Go.len (Go.TrimSpace content) <= max.
Proof.
  unfold content_checks. simpl.
  destruct (String.eqb_spec (Go.TrimSpace content) "") as [E | E]; simpl;
    [discriminate |].
  destruct (Go.len (Go.TrimSpace content) <=? max) eqn:L; [| discriminate].
  intros _. split; [assumption | now apply Z.leb_le].
Qed.

Lemma first_failure_app_None (a b : list (bool * string)) :
  first_failure (a ++ b)%list = None ->
  first_failure a = None /\ first_failure b = None.
Proof.
  induction a as [| [holds msg] rest IH]; simpl; [now split |].
  destruct holds; [exact IH | discriminate].
Qed.

(** What a successful content check says about the content that is left:
    it is not empty, at least as long as the trimmed input, at most five
    times the limit, and equal to the trimmed input exactly when that holds
    none of the five special bytes. *)
Lemma escaped_content_shape (max : Z) (content : string) :
  first_failure (content_checks max content) = None ->
  let stored := Go.EscapeString (Go.TrimSpace content) in
  1 <= Go.len stored
  /\ Go.len (Go.TrimSpace content) <= Go.len stored <= 5 * max
  /\ (stored = Go.TrimSpace content
      <-> special_free (Go.TrimSpace content) = true).
Proof.
  intros H stored. destruct (content_checks_ok max content H) as (Hne & Hle).
  pose proof (length_EscapeString (Go.TrimSpace content)) as L.
  unfold Go.len in *. fold stored in L.
  assert (1 <= String.length (Go.TrimSpace content))%nat.
  { destruct (Go.TrimSpace content); [contradiction | simpl; lia]. }
  split; [lia |]. split; [lia |].
  apply EscapeString_fixed.
Qed.

Section StoredContent.

Variable uuid_Parse : string -> error + UUID.

Lemma Locale_Create_checks (config : Locale.Config)
      (r : Locale.CreateTranslatableRequest) :
  snd (Locale.Create_Validate uuid_Parse config r) = None ->
  Locale.cr_Content (fst (Locale.Create_Validate uuid_Parse config r))
  = Go.EscapeString (Go.TrimSpace (Locale.cr_Content r))
  /\ first_failure (content_checks (Locale.MaxContentLength config)
                                   (Locale.cr_Content r)) = None.
Proof.
  intros H. split.
  - destruct (Locale_Create_Validate_ok uuid_Parse config r H) as (E & _).
    rewrite E. reflexivity.
  - rewrite Locale_Create_Validate_spec in H. cbn [snd] in H.
    now apply first_failure_app_None in H.
Qed.

Lemma Locale_Update_checks (config : Locale.Config)
      (r : Locale.UpdateTranslatableRequest) :
  snd (Locale.Update_Validate config r) = None ->
  Locale.ur_Content (fst (Locale.Update_Validate config r))
  = Go.EscapeString (Go.TrimSpace (Locale.ur_Content r))
  /\ first_failure (content_checks (Locale.MaxContentLength config)
                                   (Locale.ur_Content r)) = None.
Proof.
  intros H. split.
  - rewrite (Locale_Update_Validate_ok config r H). reflexivity.
  - rewrite Locale_Update_Validate_spec in H. cbn [snd] in H.
    now apply first_failure_app_None in H.
Qed.

Lemma Simple_Create_checks (config : Simple.Config)
      (r : Simple.CreateTranslatableRequest) :
  snd (Simple.Create_Validate uuid_Parse config r) = None ->
  Simple.cr_Content (fst (Simple.Create_Validate uuid_Parse config r))
  = Go.EscapeString (Go.TrimSpace (Simple.cr_Content r))
  /\ first_failure (content_checks (Simple.MaxContentLength config)
                                   (Simple.cr_Content r)) = None.
Proof.
  intros H. split.
  - destruct (Simple_Create_Validate_ok uuid_Parse config r H) as (E & _).
    rewrite E. reflexivity.
  - rewrite Simple_Create_Validate_spec in H. cbn [snd] in H.
    now apply first_failure_app_None in H.
Qed.

Lemma Simple_Update_checks (config : Simple.Config)
      (r : Simple.UpdateTranslatableRequest) :
  snd (Simple.Update_Validate config r) = None ->
  Simple.ur_Content (fst (Simple.Update_Validate config r))
  = Go.EscapeString (Go.TrimSpace (Simple.ur_Content r))
  /\ first_failure (content_checks (Simple.MaxContentLength config)
                                   (Simple.ur_Content r)) = None.
Proof.
  intros H. split.
  - rewrite (Simple_Update_Validate_ok config r H). reflexivity.
  - rewrite Simple_Update_Validate_spec in H. exact H.
Qed.

End StoredContent.

(** X6. The content a successful [Validate] leaves in the request, Create
    or Update in either variant, is never empty and is at most five times
    [MaxContentLength] bytes long: the length check bounds the trimmed text
    and escaping replaces one byte by at most five. *)
Theorem X6_stored_content_bounds (uuid_Parse : string -> error + UUID) :
  (forall config r,
      snd (Locale.Create_Validate uuid_Parse config r) = None ->
      1 <= Go.len (Locale.cr_Content
                     (fst (Locale.Create_Validate uuid_Parse config r)))
        <= 5 * Locale.MaxContentLength config)
  /\ (forall config r,
      snd (Locale.Update_Validate config r) = None ->
      1 <= Go.len (Locale.ur_Content (fst (Locale.Update_Validate config r)))
        <= 5 * Locale.MaxContentLength config)
  /\ (forall config r,
      snd (Simple.Create_Validate uuid_Parse config r) = None ->
      1 <= Go.len (Simple.cr_Content
                     (fst (Simple.Create_Validate uuid_Parse config r)))
        <= 5 * Simple.MaxContentLength config)
  /\ (forall config r,
      snd (Simple.Update_Validate config r) = None ->
      1 <= Go.len (Simple.ur_Content (fst (Simple.Update_Validate config r)))
        <= 5 * Simple.MaxContentLength config).
Proof.
  split; [| split; [| split]]; intros config r H.
  - destruct (Locale_Create_checks uuid_Parse config r H) as (E & Hc).
    rewrite E. destruct (escaped_content_shape _ _ Hc) as (H1 & H2 & _). lia.
  - destruct (Locale_Update_checks config r H) as (E & Hc).
    rewrite E. destruct (escaped_content_shape _ _ Hc) as (H1 & H2 & _). lia.
  - destruct (Simple_Create_checks uuid_Parse config r H) as (E & Hc).
    rewrite E. destruct (escaped_content_shape _ _ Hc) as (H1 & H2 & _). lia.
  - destruct (Simple_Update_checks config r H) as (E & Hc).
    rewrite E. destruct (escaped_content_shape _ _ Hc) as (H1 & H2 & _). lia.
Qed.

Lemma X6_stored_content_bounds_witness :
  let config := Locale.mkConfig ["posts"] ["en"] "en" 20 100 3 in
  1 <= Go.len (Locale.ur_Content
                 (fst (Locale.Update_Validate config
                         (Locale.mkUpdate "en" " &'& "))))
    <= 5 * 3.
Proof.
  intros config.
  destruct (X6_stored_content_bounds UuidText.Parse) as (_ & H & _).
  apply (H config (Locale.mkUpdate "en" " &'& ")). reflexivity.
Defined.

(** X7. A successful [Validate] leaves exactly the trimmed input as content
    when, and only when, the trimmed input holds none of the five bytes
    [&], ['], [<], [>] and the double quote: plain text is stored as sent,
    apart from surrounding white space. *)
Theorem X7_plain_content_verbatim (uuid_Parse : string -> error + UUID) :
  (forall config r,
      snd (Locale.Create_Validate uuid_Parse config r) = None ->
      (Locale.cr_Content (fst (Locale.Create_Validate uuid_Parse config r))
       = Go.TrimSpace (Locale.cr_Content r)
       <-> special_free (Go.TrimSpace (Locale.cr_Content r)) = true))
  /\ (forall config r,
      snd (Locale.Update_Validate config r) = None ->
      (Locale.ur_Content (fst (Locale.Update_Validate config r))
       = Go.TrimSpace (Locale.ur_Content r)
       <-> special_free (Go.TrimSpace (Locale.ur_Content r)) = true))
  /\ (forall config r,
      snd (Simple.Create_Validate uuid_Parse config r) = None ->
      (Simple.cr_Content (fst (Simple.Create_Validate uuid_Parse config r))
       = Go.TrimSpace (Simple.cr_Content r)
       <-> special_free (Go.TrimSpace (Simple.cr_Content r)) = true))
  /\ (forall config r,
      snd (Simple.Update_Validate config r) = None ->
      (Simple.ur_Content (fst (Simple.Update_Validate config r))
       = Go.TrimSpace (Simple.ur_Content r)
       <-> special_free (Go.TrimSpace (Simple.ur_Content r)) = true)).
Proof.
  split; [| split; [| split]]; intros config r H.
  - destruct (Locale_Create_checks uuid_Parse config r H) as (E & _).
    rewrite E. apply EscapeString_fixed.
  - destruct (Locale_Update_checks config r H) as (E & _).
    rewrite E. apply EscapeString_fixed.
  - destruct (Simple_Create_checks uuid_Parse config r H) as (E & _).
    rewrite E. apply EscapeString_fixed.
  - destruct (Simple_Update_checks config r H) as (E & _).
    rewrite E. apply EscapeString_fixed.
Qed.

Lemma X7_plain_content_verbatim_witness :
  Simple.ur_Content
    (fst (Simple.Update_Validate Simple.DefaultConfig
            (Simple.mkUpdate "  Hello, world  ")))
  = Go.TrimSpace "  Hello, world  ".
Proof.
  destruct (X7_plain_content_verbatim UuidText.Parse) as (_ & _ & _ & H).
  apply (H Simple.DefaultConfig (Simple.mkUpdate "  Hello, world  "));
    reflexivity.
Defined.

(** *** Query parameters that passed validation *)

Lemma Locale_QueryParams_validated (config : Locale.Config)
      (q : Locale.QueryParams) :
  snd (Locale.QueryParams_Validate config q) = None ->
  let q' := fst (Locale.QueryParams_Validate config q) in
  1 <= Locale.q_Limit q' <= Locale.MaxPaginationLimit config
  /\ 0 <= Locale.q_Offset q'
  /\ q' = Locale.q_set_Limit q (Locale.q_Limit q')
  /\ Locale.QueryParams_Validate config q' = (q', None).
Proof.
  intros H q'.
  destruct (Locale_QueryParams_Validate_spec config q) as (Hf & Hs).
  rewrite H in Hs. fold q' in Hf.
  set (limit := if Locale.q_Limit q =? 0 then Locale.PaginationLimit config
                else Locale.q_Limit q) in *.
  destruct ((limit <? 1) || (limit >? Locale.MaxPaginationLimit config))
    eqn:Er; [discriminate |].
  destruct (Locale.q_Offset q <? 0) eqn:Eo; [discriminate |].
  assert (Hin : 1 <= limit <= Locale.MaxPaginationLimit config).
  { apply orb_false_iff in Er. destruct Er as (E1 & E2).
    apply Z.ltb_ge in E1. rewrite Z.gtb_ltb in E2. apply Z.ltb_ge in E2.
    lia. }
  apply Z.ltb_ge in Eo.
  assert (Hl : Locale.q_Limit q' = limit) by (rewrite Hf; reflexivity).
  assert (Ho : Locale.q_Offset q' = Locale.q_Offset q)
    by (rewrite Hf; reflexivity).
  assert (Hloc : Locale.q_Locale q' = Locale.q_Locale q)
    by (rewrite Hf; reflexivity).
  split; [lia |]. split; [lia |].
  split; [rewrite Hl; exact Hf |].
  destruct (Locale_QueryParams_Validate_spec config q') as (Hf' & Hs').
  assert (Hnz : (Locale.q_Limit q' =? 0) = false)
    by (apply Z.eqb_neq; lia).
  rewrite Hnz in Hf', Hs'.
  apply injective_projections.
  - rewrite Hf'. destruct q'; reflexivity.
  - rewrite Hs', Hl, Er, Ho.
    assert (Eo' : (Locale.q_Offset q <? 0) = false) by (apply Z.ltb_ge; lia).
    rewrite Eo', Hloc. simpl. exact (eq_sym Hs).
Qed.

(** X8. When [QueryParams.Validate] succeeds the limit it leaves lies in
    [1, MaxPaginationLimit], the offset is not negative, the filters are
    those submitted, and validating the result again returns it unchanged
    without error; in the variant without locales the bounds are 1 and
    100. *)
Theorem X8_query_params_validated
        (config : Locale.Config) (q : Locale.QueryParams)
        (sq : Simple.QueryParams) :
  (snd (Locale.QueryParams_Validate config q) = None ->
   let q' := fst (Locale.QueryParams_Validate config q) in
   1 <= Locale.q_Limit q' <= Locale.MaxPaginationLimit config
   /\ 0 <= Locale.q_Offset q'
   /\ q' = Locale.q_set_Limit q (Locale.q_Limit q')
   /\ Locale.QueryParams_Validate config q' = (q', None))
  /\ (snd (Simple.QueryParams_Validate sq) = None ->
      let q' := fst (Simple.QueryParams_Validate sq) in
      1 <= Simple.q_Limit q' <= 100
      /\ 0 <= Simple.q_Offset q'
      /\ q' = Simple.q_set_Limit sq (Simple.q_Limit q')
      /\ Simple.QueryParams_Validate q' = (q', None)).
Proof.
  split.
  - intros H q'.
    destruct (Locale_QueryParams_validated config q H) as (Hl & Ho & Hq & Hid).
    split; [exact Hl |]. split; [exact Ho |]. split; assumption.
  - intros H q'. unfold q'. clear q'.
    destruct sq as [tid tr uid limit offset].
    unfold Simple.QueryParams_Validate in *. simpl in *.
    destruct (limit =? 0) eqn:E0; simpl in *.
    + destruct (offset <? 0) eqn:Eo; simpl in *; [discriminate |].
      rewrite Eo. apply Z.ltb_ge in Eo.
      split; [lia |]. split; [lia |]. split; reflexivity.
    + destruct ((limit <? 1) || (limit >? 100)) eqn:Er; simpl in *;
        [discriminate |].
      destruct (offset <? 0) eqn:Eo; simpl in *; [discriminate |].
      rewrite E0. simpl. rewrite Er. simpl. rewrite Eo.
      apply orb_false_iff in Er. destruct Er as (E1 & E2).
      apply Z.ltb_ge in E1. rewrite Z.gtb_ltb in E2. apply Z.ltb_ge in E2.
      apply Z.ltb_ge in Eo.
      split; [lia |]. split; [lia |]. split; reflexivity.
Qed.

Lemma X8_query_params_validated_witness :
  let q' := fst (Locale.QueryParams_Validate Sample.config
                   (Locale.mkQueryParams None None (Some "fr") None 0 7)) in
  1 <= Locale.q_Limit q' <= 100 /\ 0 <= Locale.q_Offset q'
  /\ Locale.QueryParams_Validate Sample.config q' = (q', None).
Proof.
  destruct (X8_query_params_validated Sample.config
              (Locale.mkQueryParams None None (Some "fr") None 0 7)
              (Simple.mkQueryParams None None None 0 0)) as (H & _).
  destruct (H eq_refl) as (Hl & Ho & _ & Hid).
  intros q'. split; [exact Hl |]. split; [exact Ho | exact Hid].
Defined.

(** *** Statement texts *)

(** X9. The text of every statement depends only on which optional values
    are set, never on the values: two queries with the same filters set
    have the same page and count texts, and an update or delete has one
    text with an owner and one without.  Filter values, content, locale and
    identifiers travel as arguments only. *)
Theorem X9_statement_text_fixed :
  (forall p p',
      same_presence (Locale.q_TranslatableID p) (Locale.q_TranslatableID p') ->
      same_presence (Locale.q_Translatable p) (Locale.q_Translatable p') ->
      same_presence (Locale.q_Locale p) (Locale.q_Locale p') ->
      same_presence (Locale.q_UserID p) (Locale.q_UserID p') ->
      fst (Locale.queryPage p) = fst (Locale.queryPage p')
      /\ fst (Locale.queryCount p) = fst (Locale.queryCount p'))
  /\ (forall p p',
      same_presence (Simple.q_TranslatableID p) (Simple.q_TranslatableID p') ->
      same_presence (Simple.q_Translatable p) (Simple.q_Translatable p') ->
      same_presence (Simple.q_UserID p) (Simple.q_UserID p') ->
      fst (Simple.queryPage p) = fst (Simple.queryPage p'))
  /\ (forall env env' id id' content content' locale locale'
             (u u' : option UUID),
      same_presence u u' ->
      fst (Locale.updateStmt env id content locale u)
      = fst (Locale.updateStmt env' id' content' locale' u')
      /\ fst (Simple.updateStmt env id content u)
         = fst (Simple.updateStmt env' id' content' u')
      /\ fst (Locale.deleteStmt id u) = fst (Locale.deleteStmt id' u')
      /\ fst (Simple.deleteStmt id u) = fst (Simple.deleteStmt id' u')).
Proof.
  split.
  { intros [[a |] [b |] [c |] [d |] l o] [[a' |] [b' |] [c' |] [d' |] l' o'];
      simpl; intros H1 H2 H3 H4; try contradiction; split; reflexivity. }
  split.
  { intros [[a |] [b |] [d |] l o] [[a' |] [b' |] [d' |] l' o'];
      simpl; intros H1 H2 H3; try contradiction; reflexivity. }
  intros env env' id id' content content' locale locale' [u |] [u' |] H;
    simpl in H; try contradiction; repeat split.
Qed.

Lemma X9_statement_text_fixed_witness :
  fst (Locale.queryPage
         (Locale.mkQueryParams None (Some "posts") None None 20 0))
  = fst (Locale.queryPage
           (Locale.mkQueryParams None (Some "x' OR 1=1 --") None None 5 40)).
Proof.
  destruct X9_statement_text_fixed as (H & _).
  apply (H (Locale.mkQueryParams None (Some "posts") None None 20 0)
           (Locale.mkQueryParams None (Some "x' OR 1=1 --") None None 5 40));
    exact I.
Defined.

(** *** What the list handler asks of the database *)

Lemma Locale_QueryParams_locale_ok (config : Locale.Config)
      (q : Locale.QueryParams) :
  snd (Locale.QueryParams_Validate config q) = None ->
  match Locale.q_Locale (fst (Locale.QueryParams_Validate config q)) with
  | Some l => Locale.IsSupportedLocale config l = true
  | None => True
  end.
Proof.
  intros H.
  destruct (Locale_QueryParams_Validate_spec config q) as (Hf & Hs).
  rewrite H in Hs. rewrite Hf. simpl.
  destruct ((_ <? 1) || _); [discriminate |].
  destruct (Locale.q_Offset q <? 0); [discriminate |].
  destruct (Locale.q_Locale q) as [l |]; [| exact I].
  destruct (Locale.IsSupportedLocale config l); [reflexivity | discriminate].
Qed.

(** X10. Whatever the request, the list handler of the locale-aware variant
    touches the database only after the query parameters passed validation:
    it runs the count statement first and the page statement only if the
    count succeeded (answering 500 otherwise), both built from the same
    parameters, whose limit lies in [1, MaxPaginationLimit], whose offset
    is not negative and whose locale filter, if any, is a supported
    locale. *)
Theorem X10_list_queries_validated
        (uuid_Parse : string -> error + UUID) (St : Type)
        (db : Database St Locale.Translatable) (config : Locale.Config)
        (c : Locale.Ctx) (st : St) :
  let run := Locale.Query uuid_Parse _ (logged db) config c (st, []) in
  let l := snd (snd run) in
  l = [] \/
  exists params,
    1 <= Locale.q_Limit params <= Locale.MaxPaginationLimit config
    /\ 0 <= Locale.q_Offset params
    /\ match Locale.q_Locale params with
       | Some loc => Locale.IsSupportedLocale config loc = true
       | None => True
       end
    /\ ((l = [CallQueryRow (fst (Locale.queryCount params))
                           (snd (Locale.queryCount params))]
         /\ Locale.Status (fst run) = 500)
        \/ l = [CallQueryRow (fst (Locale.queryCount params))
                             (snd (Locale.queryCount params));
                CallQuery (fst (Locale.queryPage params))
                          (snd (Locale.queryPage params))]).
Proof.
  intros run l. unfold l, run, Locale.Query. clear l run.
  destruct (Locale.parseQueryParams uuid_Parse config c) as [resp | params0];
    [left; reflexivity |].
  destruct (snd (Locale.QueryParams_Validate config params0)) as [e |] eqn:Hv.
  { destruct (Locale.QueryParams_Validate config params0) as [p o].
    simpl in Hv. subst o. left. reflexivity. }
  pose proof (Locale_QueryParams_validated config params0 Hv) as Hb.
  pose proof (Locale_QueryParams_locale_ok config params0 Hv) as Hl.
  destruct (Locale.QueryParams_Validate config params0) as [params o].
  simpl in Hv, Hb, Hl. subst o.
  destruct Hb as (H1 & H2 & _ & _).
  right. exists params. split; [exact H1 |]. split; [exact H2 |].
  split; [exact Hl |].
  unfold Locale.queryFromDB.
  destruct (Locale.queryCount params) as [cq cargs].
  destruct (Locale.queryPage params) as [pq pargs].
  simpl.
  destruct (QueryRowScanInt db cq cargs st) as [[e | total] st1]; simpl.
  - left. split; reflexivity.
  - destruct (Query db pq pargs st1) as [[e | rows] st2]; simpl.
    + right. reflexivity.
    + destruct (scanAll (rows_scans rows) []) as [e | results]; simpl.
      * right. reflexivity.
      * destruct (rows_Err rows); right; reflexivity.
Qed.

(** *** An explicit limit of zero *)

Lemma Locale_zero_limit_default (config : Locale.Config)
      (q : Locale.QueryParams) :
  Locale.QueryParams_Validate config (Locale.q_set_Limit q 0)
  = Locale.QueryParams_Validate config
      (Locale.q_set_Limit q (Locale.PaginationLimit config)).
Proof.
  apply injective_projections.
  - rewrite (proj1 (Locale_QueryParams_Validate_spec config _)),
      (proj1 (Locale_QueryParams_Validate_spec config _)).
    simpl. destruct (Locale.PaginationLimit config =? 0); reflexivity.
  - rewrite (proj2 (Locale_QueryParams_Validate_spec config _)),
      (proj2 (Locale_QueryParams_Validate_spec config _)).
    simpl. destruct (Locale.PaginationLimit config =? 0); reflexivity.
Qed.

(** X11. A [limit] query parameter that reads as zero is handled exactly as
    a missing one: the handler answers as if the parameter were absent,
    with the configured default in the locale-aware variant and with 20 in
    the other. *)
Theorem X11_zero_limit_as_absent (uuid_Parse : string -> error + UUID) :
  (forall St (db : Database St Locale.Translatable) config c st,
      Go.Atoi (Locale.c_Query c "limit") = Some 0 ->
      Locale.Query uuid_Parse _ db config c st
      = Locale.Query uuid_Parse _ db config (with_query c "limit" "") st)
  /\ (forall St (repo : Simple.Repository St) r st,
      Go.Atoi (Simple.r_URL_Query_Get r "limit") = Some 0 ->
      Simple.Query uuid_Parse _ repo r st
      = Simple.Query uuid_Parse _ repo (with_url_query r "limit" "") st).
Proof.
  split.
  - intros St db config c st H. unfold Locale.Query.
    rewrite !Locale_parseQueryParams_spec.
    cbn [with_query Locale.c_Query String.eqb Ascii.eqb Bool.eqb].
    rewrite (number_or_read _ _ 0 H).
    destruct (id_filter uuid_Parse (Locale.c_Query c "translatable_id"))
      as [e | tid]; [reflexivity |].
    destruct (id_filter uuid_Parse (Locale.c_Query c "user_id"))
      as [e | uid]; [reflexivity |].
    change (number_or (Locale.PaginationLimit config) "")
      with (Locale.PaginationLimit config).
    set (p := Locale.mkQueryParams tid
                (text_filter (Locale.c_Query c "translatable"))
                (text_filter (Locale.c_Query c "locale")) uid 0
                (number_or 0 (Locale.c_Query c "offset"))).
    change (Locale.mkQueryParams tid
              (text_filter (Locale.c_Query c "translatable"))
              (text_filter (Locale.c_Query c "locale")) uid
              (Locale.PaginationLimit config)
              (number_or 0 (Locale.c_Query c "offset")))
      with (Locale.q_set_Limit p (Locale.PaginationLimit config)).
    change p with (Locale.q_set_Limit p 0) at 1.
    rewrite Locale_zero_limit_default. reflexivity.
  - intros St repo r st H. unfold Simple.Query.
    rewrite !Simple_parseQueryParams_spec.
    cbn [with_url_query Simple.r_URL_Query_Get String.eqb Ascii.eqb Bool.eqb].
    rewrite (number_or_read _ _ 0 H).
    destruct (id_filter uuid_Parse (Simple.r_URL_Query_Get r "translatable_id"))
      as [e | tid]; [reflexivity |].
    destruct (id_filter uuid_Parse (Simple.r_URL_Query_Get r "user_id"))
      as [e | uid]; [reflexivity |].
    reflexivity.
Qed.

Lemma X11_zero_limit_as_absent_witness :
  let c := Locale.mkCtx ""
             (fun key => if (key =? "limit")%string then "0" else "")
             CtxNil Sample.no_body Sample.no_body in
  Locale.Query UuidText.Parse _ LocaleMem.db Sample.config c [Sample.stored_row]
  = Locale.Query UuidText.Parse _ LocaleMem.db Sample.config
                 (with_query c "limit" "") [Sample.stored_row].
Proof.
  intros c.
  destruct (X11_zero_limit_as_absent UuidText.Parse) as (H & _).
  apply H. reflexivity.
Defined.

(** *** The answers a handler can give *)

Ltac failure codes_tac :=
  right; split; [simpl; codes_tac | eexists; reflexivity].

Section Answers.

Variable uuid_Parse : string -> error + UUID.
Variable St : Type.

Lemma Locale_Create_answers (db : Database St Locale.Translatable)
      (config : Locale.Config) (env : Env) (c : Locale.Ctx) (st : St) :
  let resp := fst (Locale.Create uuid_Parse _ db config env c st) in
  (exists t, resp = Locale.mkResponse 201 (Locale.J_translatable t))
  \/ Locale_failure [400; 500] resp.
Proof.
  unfold Locale.Create, Locale.respond.
  destruct (Locale.c_BodyParser_create c) as [e | req]; [failure tauto |].
  destruct (Locale.Create_Validate uuid_Parse config req) as [req' [e |]];
    [failure tauto |].
  destruct (Locale.ToTranslatable uuid_Parse env req' _) as [e | t];
    [failure tauto |].
  destruct (Locale.createInDB St db t st) as [[e |] st'];
    [failure tauto |].
  left. exists t. reflexivity.
Qed.

Lemma Locale_GetByID_answers (db : Database St Locale.Translatable)
      (c : Locale.Ctx) (st : St) :
  let resp := fst (Locale.GetByID uuid_Parse _ db c st) in
  (exists t, resp = Locale.mkResponse 200 (Locale.J_translatable t))
  \/ Locale_failure [400; 404; 500] resp.
Proof.
  unfold Locale.GetByID, Locale.respond.
  destruct (uuid_Parse (Locale.c_Params_id c)) as [e | id];
    [failure tauto |].
  destruct (Locale.getByIDFromDB St db id st) as [[e | t] st'].
  - destruct (errors_Is e pgx_ErrNoRows); failure tauto.
  - left. exists t. reflexivity.
Qed.

Lemma Locale_Query_answers (db : Database St Locale.Translatable)
      (config : Locale.Config) (c : Locale.Ctx) (st : St) :
  let resp := fst (Locale.Query uuid_Parse _ db config c st) in
  (exists total rows,
      resp = Locale.mkResponse 200 (Locale.J_collection total rows))
  \/ Locale_failure [400; 500] resp.
Proof.
  unfold Locale.Query, Locale.respond.
  destruct (Locale.parseQueryParams uuid_Parse config c) as [resp | params]
    eqn:Hp.
  { rewrite Locale_parseQueryParams_spec in Hp.
    destruct (id_filter uuid_Parse (Locale.c_Query c "translatable_id"));
      [injection Hp as <-; failure tauto |].
    destruct (id_filter uuid_Parse (Locale.c_Query c "user_id"));
      [injection Hp as <-; failure tauto | discriminate]. }
  destruct (Locale.QueryParams_Validate config params) as [params' [e |]];
    [failure tauto |].
  destruct (Locale.queryFromDB St db params' st) as [[[rows total] [e |]] st'];
    [failure tauto |].
  left. exists total, rows. reflexivity.
Qed.

Lemma Locale_Update_answers (db : Database St Locale.Translatable)
      (config : Locale.Config) (env : Env) (c : Locale.Ctx) (st : St) :
  let resp := fst (Locale.Update uuid_Parse _ db config env c st) in
  (exists t, resp = Locale.mkResponse 200 (Locale.J_translatable t))
  \/ Locale_failure [400; 404; 500] resp.
Proof.
  unfold Locale.Update, Locale.respond.
  destruct (uuid_Parse (Locale.c_Params_id c)) as [e | id];
    [failure tauto |].
  destruct (Locale.c_BodyParser_update c) as [e | req]; [failure tauto |].
  destruct (Locale.Update_Validate config req) as [req' [e |]];
    [failure tauto |].
  destruct (Locale.updateInDB St db env id _ _ _ st) as [[e |] st'].
  - destruct ((Error e =? "translation not found")%string || _);
      failure tauto.
  - destruct (Locale.getByIDFromDB St db id st') as [[e | t] st''];
      [failure tauto |].
    left. exists t. reflexivity.
Qed.

Lemma Locale_Delete_answers (db : Database St Locale.Translatable)
      (c : Locale.Ctx) (st : St) :
  let resp := fst (Locale.Delete uuid_Parse _ db c st) in
  resp = Locale.mkResponse 200
           (Locale.J_message "Translation deleted successfully")
  \/ Locale_failure [400; 404; 500] resp.
Proof.
  unfold Locale.Delete, Locale.respond.
  destruct (uuid_Parse (Locale.c_Params_id c)) as [e | id];
    [failure tauto |].
  destruct (Locale.deleteFromDB St db id _ st) as [[e |] st'].
  - destruct ((Error e =? "translation not found")%string || _);
      failure tauto.
  - left. reflexivity.
Qed.

Lemma Simple_Create_answers (repo : Simple.Repository St)
      (config : Simple.Config) (env : Env) (r : Simple.Request) (st : St) :
  let resp := fst (Simple.Create uuid_Parse _ repo config env r st) in
  (exists t, resp = Simple.mkResponse 201 (Simple.J_translatable t))
  \/ Simple_failure [400; 500] resp.
Proof.
  unfold Simple.Create, Simple.respondError, Simple.respondJSON.
  destruct (Simple.r_Decode_create r) as [e | req]; [failure tauto |].
  destruct (Simple.Create_Validate uuid_Parse config req) as [req' [e |]];
    [failure tauto |].
  destruct (Simple.ToTranslatable uuid_Parse env req' _) as [e | t];
    [failure tauto |].
  destruct (Simple.repo_Create _ repo t st) as [[e |] st'];
    [failure tauto |].
  left. exists t. reflexivity.
Qed.

Lemma Simple_GetByID_answers (repo : Simple.Repository St)
      (r : Simple.Request) (st : St) :
  let resp := fst (Simple.GetByID uuid_Parse _ repo r st) in
  (exists t, resp = Simple.mkResponse 200 (Simple.J_translatable t))
  \/ Simple_failure [400; 404; 500] resp.
Proof.
  unfold Simple.GetByID, Simple.respondError, Simple.respondJSON.
  destruct (uuid_Parse (Simple.idStr r)) as [e | id]; [failure tauto |].
  destruct (Simple.repo_GetByID _ repo id st) as [[e | t] st'].
  - destruct (Error e =? "translatable not found")%string; failure tauto.
  - left. exists t. reflexivity.
Qed.

Lemma Simple_Query_answers (repo : Simple.Repository St)
      (r : Simple.Request) (st : St) :
  let resp := fst (Simple.Query uuid_Parse _ repo r st) in
  (exists rows limit offset,
      resp = Simple.mkResponse 200 (Simple.J_page rows limit offset))
  \/ Simple_failure [400; 500] resp.
Proof.
  unfold Simple.Query, Simple.respondError, Simple.respondJSON.
  destruct (Simple.parseQueryParams uuid_Parse r) as [resp | params] eqn:Hp.
  { rewrite Simple_parseQueryParams_spec in Hp.
    destruct (id_filter uuid_Parse
                (Simple.r_URL_Query_Get r "translatable_id"));
      [injection Hp as <-; failure tauto |].
    destruct (id_filter uuid_Parse (Simple.r_URL_Query_Get r "user_id"));
      [injection Hp as <-; failure tauto | discriminate]. }
  destruct (Simple.QueryParams_Validate params) as [params' [e |]];
    [failure tauto |].
  destruct (Simple.repo_Query _ repo params' st) as [[e | rows] st'];
    [failure tauto |].
  left. exists rows, (Simple.q_Limit params'), (Simple.q_Offset params').
  reflexivity.
Qed.

Lemma Simple_Update_answers (repo : Simple.Repository St)
      (config : Simple.Config) (env : Env) (r : Simple.Request) (st : St) :
  let resp := fst (Simple.Update uuid_Parse _ repo config env r st) in
  (exists t, resp = Simple.mkResponse 200 (Simple.J_translatable t))
  \/ Simple_failure [400; 404; 500] resp.
Proof.
  unfold Simple.Update, Simple.respondError, Simple.respondJSON.
  destruct (uuid_Parse (Simple.idStr r)) as [e | id]; [failure tauto |].
  destruct (Simple.r_Decode_update r) as [e | req]; [failure tauto |].
  destruct (Simple.Update_Validate config req) as [req' [e |]];
    [failure tauto |].
  destruct (Simple.repo_Update _ repo env id _ _ st) as [[e |] st'].
  - destruct ((Error e =? "translatable not found")%string || _);
      failure tauto.
  - destruct (Simple.repo_GetByID _ repo id st') as [[e | t] st''];
      [failure tauto |].
    left. exists t. reflexivity.
Qed.

Lemma Simple_Delete_answers (repo : Simple.Repository St)
      (r : Simple.Request) (st : St) :
  let resp := fst (Simple.Delete uuid_Parse _ repo r st) in
  resp = Simple.mkResponse 200
           (Simple.J_message "Translatable deleted successfully")
  \/ Simple_failure [400; 404; 500] resp.
Proof.
  unfold Simple.Delete, Simple.respondError, Simple.respondJSON.
  destruct (uuid_Parse (Simple.idStr r)) as [e | id]; [failure tauto |].
  destruct (Simple.repo_Delete _ repo id _ st) as [[e |] st'].
  - destruct ((Error e =? "translatable not found")%string || _);
      failure tauto.
  - left. reflexivity.
Qed.

End Answers.

(** X12. Whatever the request and whatever the database or repository
    does, a handler gives one of a few answers.  [Create] answers 201 with
    the new row, or an error under 400 or 500; [Query] answers 200 with a
    page, or an error under 400 or 500; [GetByID] and [Update] answer 200
    with a row and [Delete] 200 with its fixed message, or an error under
    400, 404 or 500.  No handler of either variant answers 401 or 403, and
    none sends an error payload under a success status or data under an
    error status. *)
Theorem X12_handler_answers (uuid_Parse : string -> error + UUID) (St : Type)
        (db : Database St Locale.Translatable) (repo : Simple.Repository St)
        (config : Locale.Config) (sconfig : Simple.Config) (env : Env)
        (c : Locale.Ctx) (r : Simple.Request) (st : St) :
  ((exists t, fst (Locale.Create uuid_Parse _ db config env c st)
              = Locale.mkResponse 201 (Locale.J_translatable t))
   \/ Locale_failure [400; 500]
        (fst (Locale.Create uuid_Parse _ db config env c st)))
  /\ ((exists t, fst (Locale.GetByID uuid_Parse _ db c st)
                 = Locale.mkResponse 200 (Locale.J_translatable t))
      \/ Locale_failure [400; 404; 500]
           (fst (Locale.GetByID uuid_Parse _ db c st)))
  /\ ((exists total rows,
         fst (Locale.Query uuid_Parse _ db config c st)
         = Locale.mkResponse 200 (Locale.J_collection total rows))
      \/ Locale_failure [400; 500]
           (fst (Locale.Query uuid_Parse _ db config c st)))
  /\ ((exists t, fst (Locale.Update uuid_Parse _ db config env c st)
                 = Locale.mkResponse 200 (Locale.J_translatable t))
      \/ Locale_failure [400; 404; 500]
           (fst (Locale.Update uuid_Parse _ db config env c st)))
  /\ (fst (Locale.Delete uuid_Parse _ db c st)
      = Locale.mkResponse 200
          (Locale.J_message "Translation deleted successfully")
      \/ Locale_failure [400; 404; 500]
           (fst (Locale.Delete uuid_Parse _ db c st)))
  /\ ((exists t, fst (Simple.Create uuid_Parse _ repo sconfig env r st)
                 = Simple.mkResponse 201 (Simple.J_translatable t))
      \/ Simple_failure [400; 500]
           (fst (Simple.Create uuid_Parse _ repo sconfig env r st)))
  /\ ((exists t, fst (Simple.GetByID uuid_Parse _ repo r st)
                 = Simple.mkResponse 200 (Simple.J_translatable t))
      \/ Simple_failure [400; 404; 500]
           (fst (Simple.GetByID uuid_Parse _ repo r st)))
  /\ ((exists rows limit offset,
         fst (Simple.Query uuid_Parse _ repo r st)
         = Simple.mkResponse 200 (Simple.J_page rows limit offset))
      \/ Simple_failure [400; 500]
           (fst (Simple.Query uuid_Parse _ repo r st)))
  /\ ((exists t, fst (Simple.Update uuid_Parse _ repo sconfig env r st)
                 = Simple.mkResponse 200 (Simple.J_translatable t))
      \/ Simple_failure [400; 404; 500]
           (fst (Simple.Update uuid_Parse _ repo sconfig env r st)))
  /\ (fst (Simple.Delete uuid_Parse _ repo r st)
      = Simple.mkResponse 200
          (Simple.J_message "Translatable deleted successfully")
      \/ Simple_failure [400; 404; 500]
           (fst (Simple.Delete uuid_Parse _ repo r st))).
Proof.
  split; [apply Locale_Create_answers |].
  split; [apply Locale_GetByID_answers |].
  split; [apply Locale_Query_answers |].
  split; [apply Locale_Update_answers |].
  split; [apply Locale_Delete_answers |].
  split; [apply Simple_Create_answers |].
  split; [apply Simple_GetByID_answers |].
  split; [apply Simple_Query_answers |].
  split; [apply Simple_Update_answers |].
  apply Simple_Delete_answers.
Qed.

(** *** Requests refused before the database is reached *)

Lemma logged_QueryRowScanInt {St Row : Type} (db : Database St Row)
      (q : string) (args : list Arg) (st : St) (log : list Call) :
  QueryRowScanInt (logged db) q args (st, log) =
  (fst (QueryRowScanInt db q args st),
   (snd (QueryRowScanInt db q args st), (log ++ [CallQueryRow q args])%list)).
Proof.
  simpl. destruct (QueryRowScanInt db q args st); reflexivity.
Qed.

Lemma logged_Query {St Row : Type} (db : Database St Row)
      (q : string) (args : list Arg) (st : St) (log : list Call) :
  Query (logged db) q args (st, log) =
  (fst (Query db q args st),
   (snd (Query db q args st), (log ++ [CallQuery q args])%list)).
Proof.
  simpl. destruct (Query db q args st); reflexivity.
Qed.

Ltac unseen :=
  cbn; repeat split; intros H; try discriminate H; reflexivity.

Section Unseen.

Variable uuid_Parse : string -> error + UUID.
Variable St : Type.

Lemma Locale_Create_unseen (db : Database St Locale.Translatable)
      (config : Locale.Config) (env : Env) (c : Locale.Ctx) (st : St) :
  rejects_unseen Locale.Status
    (Locale.Create uuid_Parse _ (logged db) config env c) st.
Proof.
  unfold rejects_unseen, calls, Locale.Create, Locale.respond.
  destruct (Locale.c_BodyParser_create c) as [e | req]; [unseen |].
  destruct (Locale.Create_Validate uuid_Parse config req) as [req' [e |]];
    [unseen |].
  destruct (Locale.ToTranslatable uuid_Parse env req' _) as [e | t];
    [unseen |].
  unfold Locale.createInDB. rewrite logged_Exec.
  destruct (Exec db _ _ st) as [[e | res] st']; unseen.
Qed.

Lemma Locale_GetByID_unseen (db : Database St Locale.Translatable)
      (c : Locale.Ctx) (st : St) :
  rejects_unseen Locale.Status (Locale.GetByID uuid_Parse _ (logged db) c) st.
Proof.
  unfold rejects_unseen, calls, Locale.GetByID, Locale.respond.
  destruct (uuid_Parse (Locale.c_Params_id c)) as [e | id]; [unseen |].
  unfold Locale.getByIDFromDB. rewrite logged_QueryRowScan.
  destruct (QueryRowScan db _ _ st) as [[e | t] st']; [| unseen].
  cbn [fst snd]. destruct (errors_Is e pgx_ErrNoRows); unseen.
Qed.

Lemma Locale_Query_unseen (db : Database St Locale.Translatable)
      (config : Locale.Config) (c : Locale.Ctx) (st : St) :
  rejects_unseen Locale.Status
    (Locale.Query uuid_Parse _ (logged db) config c) st.
Proof.
  unfold rejects_unseen, calls, Locale.Query, Locale.respond.
  destruct (Locale.parseQueryParams uuid_Parse config c) as [resp | params]
    eqn:Hp.
  { rewrite Locale_parseQueryParams_spec in Hp.
    destruct (id_filter uuid_Parse (Locale.c_Query c "translatable_id"));
      [injection Hp as <-; unseen |].
    destruct (id_filter uuid_Parse (Locale.c_Query c "user_id"));
      [injection Hp as <-; unseen | discriminate]. }
  destruct (Locale.QueryParams_Validate config params) as [params' [e |]];
    [unseen |].
  unfold Locale.queryFromDB.
  destruct (Locale.queryCount params') as [cq cargs].
  destruct (Locale.queryPage params') as [pq pargs].
  rewrite logged_QueryRowScanInt.
  destruct (QueryRowScanInt db cq cargs st) as [[e | total] st']; [unseen |].
  cbn [fst snd]. rewrite logged_Query.
  destruct (Query db pq pargs st') as [[e | rows] st'']; [unseen |].
  cbn [fst snd].
  destruct (scanAll (rows_scans rows) []) as [e | results]; [unseen |].
  destruct (rows_Err rows); unseen.
Qed.

Lemma Locale_Update_unseen (db : Database St Locale.Translatable)
      (config : Locale.Config) (env : Env) (c : Locale.Ctx) (st : St) :
  rejects_unseen Locale.Status
    (Locale.Update uuid_Parse _ (logged db) config env c) st.
Proof.
  unfold rejects_unseen, calls, Locale.Update, Locale.respond.
  destruct (uuid_Parse (Locale.c_Params_id c)) as [e | id]; [unseen |].
  destruct (Locale.c_BodyParser_update c) as [e | req]; [unseen |].
  destruct (Locale.Update_Validate config req) as [req' [e |]]; [unseen |].
  unfold Locale.updateInDB, Locale.getByIDFromDB.
  destruct (Locale.updateStmt env id _ _ _) as [q args].
  rewrite logged_Exec.
  destruct (Exec db q args st) as [[e | [e | n]] st']; cbn [fst snd].
  - destruct ((Error e =? "translation not found")%string || _); unseen.
  - destruct ((Error e =? "translation not found")%string || _); unseen.
  - destruct (n =? 0).
    + destruct (Locale.getUserIDFromFiberContext uuid_Parse c); unseen.
    + rewrite logged_QueryRowScan.
      destruct (QueryRowScan db _ _ st') as [[e | t] st'']; unseen.
Qed.

Lemma Locale_Delete_unseen (db : Database St Locale.Translatable)
      (c : Locale.Ctx) (st : St) :
  rejects_unseen Locale.Status (Locale.Delete uuid_Parse _ (logged db) c) st.
Proof.
  unfold rejects_unseen, calls, Locale.Delete, Locale.respond.
  destruct (uuid_Parse (Locale.c_Params_id c)) as [e | id]; [unseen |].
  unfold Locale.deleteFromDB.
  destruct (Locale.deleteStmt id _) as [q args].
  rewrite logged_Exec.
  destruct (Exec db q args st) as [[e | [e | n]] st']; cbn [fst snd].
  - destruct ((Error e =? "translation not found")%string || _); unseen.
  - destruct ((Error e =? "translation not found")%string || _); unseen.
  - destruct (n =? 0); [| unseen].
    destruct (Locale.getUserIDFromFiberContext uuid_Parse c); unseen.
Qed.

Lemma Simple_Create_unseen (db : Database St Simple.Translatable)
      (config : Simple.Config) (env : Env) (r : Simple.Request) (st : St) :
  rejects_unseen Simple.Status
    (Simple.Create uuid_Parse _ (Simple.NewRepository (logged db)) config env
                   r) st.
Proof.
  unfold rejects_unseen, calls, Simple.Create, Simple.respondError,
    Simple.respondJSON.
  destruct (Simple.r_Decode_create r) as [e | req]; [unseen |].
  destruct (Simple.Create_Validate uuid_Parse config req) as [req' [e |]];
    [unseen |].
  destruct (Simple.ToTranslatable uuid_Parse env req' _) as [e | t];
    [unseen |].
  cbn [Simple.repo_Create Simple.NewRepository].
  unfold Simple.repository_Create. rewrite logged_Exec.
  destruct (Exec db _ _ st) as [[e | res] st']; unseen.
Qed.

Lemma Simple_GetByID_unseen (db : Database St Simple.Translatable)
      (r : Simple.Request) (st : St) :
  rejects_unseen Simple.Status
    (Simple.GetByID uuid_Parse _ (Simple.NewRepository (logged db)) r) st.
Proof.
  unfold rejects_unseen, calls, Simple.GetByID, Simple.respondError,
    Simple.respondJSON.
  destruct (uuid_Parse (Simple.idStr r)) as [e | id]; [unseen |].
  cbn [Simple.repo_GetByID Simple.NewRepository].
  unfold Simple.repository_GetByID. rewrite logged_QueryRowScan.
  destruct (QueryRowScan db _ _ st) as [[e | t] st']; [| unseen].
  cbn [fst snd]. destruct (errors_Is e sql_ErrNoRows); [unseen |].
  destruct (Error _ =? "translatable not found")%string; unseen.
Qed.

Lemma Simple_Query_unseen (db : Database St Simple.Translatable)
      (r : Simple.Request) (st : St) :
  rejects_unseen Simple.Status
    (Simple.Query uuid_Parse _ (Simple.NewRepository (logged db)) r) st.
Proof.
  unfold rejects_unseen, calls, Simple.Query, Simple.respondError,
    Simple.respondJSON.
  destruct (Simple.parseQueryParams uuid_Parse r) as [resp | params] eqn:Hp.
  { rewrite Simple_parseQueryParams_spec in Hp.
    destruct (id_filter uuid_Parse
                (Simple.r_URL_Query_Get r "translatable_id"));
      [injection Hp as <-; unseen |].
    destruct (id_filter uuid_Parse (Simple.r_URL_Query_Get r "user_id"));
      [injection Hp as <-; unseen | discriminate]. }
  destruct (Simple.QueryParams_Validate params) as [params' [e |]];
    [unseen |].
  cbn [Simple.repo_Query Simple.NewRepository].
  unfold Simple.repository_Query.
  destruct (Simple.queryPage params') as [pq pargs].
  rewrite logged_Query.
  destruct (Query db pq pargs st) as [[e | rows] st']; [unseen |].
  cbn [fst snd].
  destruct (scanAll (rows_scans rows) []) as [e | results]; [unseen |].
  destruct (rows_Err rows); unseen.
Qed.

Lemma Simple_Update_unseen (db : Database St Simple.Translatable)
      (config : Simple.Config) (env : Env) (r : Simple.Request) (st : St) :
  rejects_unseen Simple.Status
    (Simple.Update uuid_Parse _ (Simple.NewRepository (logged db)) config env
                   r) st.
Proof.
  unfold rejects_unseen, calls, Simple.Update, Simple.respondError,
    Simple.respondJSON.
  destruct (uuid_Parse (Simple.idStr r)) as [e | id]; [unseen |].
  destruct (Simple.r_Decode_update r) as [e | req]; [unseen |].
  destruct (Simple.Update_Validate config req) as [req' [e |]]; [unseen |].
  cbn [Simple.repo_Update Simple.repo_GetByID Simple.NewRepository].
  unfold Simple.repository_Update, Simple.repository_GetByID.
  destruct (Simple.updateStmt env id _ _) as [q args].
  rewrite logged_Exec.
  destruct (Exec db q args st) as [[e | [e | n]] st']; cbn [fst snd].
  - destruct ((Error _ =? "translatable not found")%string || _); unseen.
  - destruct ((Error _ =? "translatable not found")%string || _); unseen.
  - destruct (n =? 0).
    + destruct (Simple.getUserIDFromContext uuid_Parse r); unseen.
    + rewrite logged_QueryRowScan.
      destruct (QueryRowScan db _ _ st') as [[e | t] st'']; [| unseen].
      cbn [fst snd]. destruct (errors_Is e sql_ErrNoRows); unseen.
Qed.

Lemma Simple_Delete_unseen (db : Database St Simple.Translatable)
      (r : Simple.Request) (st : St) :
  rejects_unseen Simple.Status
    (Simple.Delete uuid_Parse _ (Simple.NewRepository (logged db)) r) st.
Proof.
  unfold rejects_unseen, calls, Simple.Delete, Simple.respondError,
    Simple.respondJSON.
  destruct (uuid_Parse (Simple.idStr r)) as [e | id]; [unseen |].
  cbn [Simple.repo_Delete Simple.NewRepository].
  unfold Simple.repository_Delete.
  destruct (Simple.deleteStmt id _) as [q args].
  rewrite logged_Exec.
  destruct (Exec db q args st) as [[e | [e | n]] st']; cbn [fst snd].
  - destruct ((Error _ =? "translatable not found")%string || _); unseen.
  - destruct ((Error _ =? "translatable not found")%string || _); unseen.
  - destruct (n =? 0); [| unseen].
    destruct (Simple.getUserIDFromContext uuid_Parse r); unseen.
Qed.

End Unseen.

(** X13. A handler answers 400 exactly when it made no call on the
    database: every 400 is decided on the request alone, before the
    persistence layer is reached, and every request that passes parsing and
    validation reaches it.  A run without a call hands the database state
    back unchanged.  This holds for the five handlers of the locale-aware
    variant and for the five handlers of the other variant over its SQL
    repository, whatever the database answers. *)
Theorem X13_bad_request_iff_no_call
        (uuid_Parse : string -> error + UUID) (St : Type)
        (db : Database St Locale.Translatable)
        (sdb : Database St Simple.Translatable)
        (config : Locale.Config) (sconfig : Simple.Config) (env : Env)
        (c : Locale.Ctx) (r : Simple.Request) (st : St) :
  rejects_unseen Locale.Status
    (Locale.Create uuid_Parse _ (logged db) config env c) st
  /\ rejects_unseen Locale.Status
       (Locale.GetByID uuid_Parse _ (logged db) c) st
  /\ rejects_unseen Locale.Status
       (Locale.Query uuid_Parse _ (logged db) config c) st
  /\ rejects_unseen Locale.Status
       (Locale.Update uuid_Parse _ (logged db) config env c) st
  /\ rejects_unseen Locale.Status
       (Locale.Delete uuid_Parse _ (logged db) c) st
  /\ rejects_unseen Simple.Status
       (Simple.Create uuid_Parse _ (Simple.NewRepository (logged sdb))
                      sconfig env r) st
  /\ rejects_unseen Simple.Status
       (Simple.GetByID uuid_Parse _ (Simple.NewRepository (logged sdb)) r) st
  /\ rejects_unseen Simple.Status
       (Simple.Query uuid_Parse _ (Simple.NewRepository (logged sdb)) r) st
  /\ rejects_unseen Simple.Status
       (Simple.Update uuid_Parse _ (Simple.NewRepository (logged sdb))
                      sconfig env r) st
  /\ rejects_unseen Simple.Status
       (Simple.Delete uuid_Parse _ (Simple.NewRepository (logged sdb)) r) st.
Proof.
  split; [apply Locale_Create_unseen |].
  split; [apply Locale_GetByID_unseen |].
  split; [apply Locale_Query_unseen |].
  split; [apply Locale_Update_unseen |].
  split; [apply Locale_Delete_unseen |].
  split; [apply Simple_Create_unseen |].
  split; [apply Simple_GetByID_unseen |].
  split; [apply Simple_Query_unseen |].
  split; [apply Simple_Update_unseen |].
  apply Simple_Delete_unseen.
Qed.

(** *** Database failures, over the SQL repository *)

Section RepositoryFailures.

Variable uuid_Parse : string -> error + UUID.
Variable St : Type.
Variable db : Database St Simple.Translatable.

Lemma Simple_Create_500 (config : Simple.Config) (env : Env)
      (r : Simple.Request) (st st' : St)
      (req : Simple.CreateTranslatableRequest) (t : Simple.Translatable)
      (err : error) :
  Simple.r_Decode_create r = inr req ->
  snd (Simple.Create_Validate uuid_Parse config req) = None ->
  Simple.ToTranslatable uuid_Parse env
    (fst (Simple.Create_Validate uuid_Parse config req))
    (Simple.getUserIDFromContext uuid_Parse r) = inr t ->
  Exec db Simple.createQuery (Simple.createArgs t) st = (inl err, st') ->
  Simple.Create uuid_Parse _ (Simple.NewRepository db) config env r st
  = (Simple.mkResponse 500 (Simple.J_error "Failed to create translatable"),
     st').
Proof.
  intros Hb Hv Ht He. unfold Simple.Create. rewrite Hb.
  destruct (Simple.Create_Validate uuid_Parse config req) as [req' o].
  simpl in Hv, Ht. subst o. rewrite Ht.
  cbn [Simple.repo_Create Simple.NewRepository].
  unfold Simple.repository_Create. rewrite He. reflexivity.
Qed.

Lemma Simple_GetByID_failure (r : Simple.Request) (st st' : St) (id : UUID)
      (err : error) :
  uuid_Parse (Simple.idStr r) = inr id ->
  QueryRowScan db Simple.getByIDQuery [AUUID id] st = (inl err, st') ->
  Simple.GetByID uuid_Parse _ (Simple.NewRepository db) r st
  = (if errors_Is err sql_ErrNoRows
     then Simple.mkResponse 404 (Simple.J_error "translatable not found")
     else Simple.mkResponse 500 (Simple.J_error "Failed to get translatable"),
     st').
Proof.
  intros Hp He. unfold Simple.GetByID. rewrite Hp.
  cbn [Simple.repo_GetByID Simple.NewRepository].
  unfold Simple.repository_GetByID. rewrite He.
  destruct (errors_Is err sql_ErrNoRows); reflexivity.
Qed.

Lemma Simple_Update_500 (config : Simple.Config) (env : Env)
      (r : Simple.Request) (st st' : St) (id : UUID)
      (req : Simple.UpdateTranslatableRequest) (res : error + Result)
      (err : error) :
  uuid_Parse (Simple.idStr r) = inr id ->
  Simple.r_Decode_update r = inr req ->
  snd (Simple.Update_Validate config req) = None ->
  let stmt := Simple.updateStmt env id
                (Go.EscapeString (Go.TrimSpace (Simple.ur_Content req)))
                (Simple.getUserIDFromContext uuid_Parse r) in
  Exec db (fst stmt) (snd stmt) st = (res, st') ->
  exec_error res = Some err ->
  Simple.Update uuid_Parse _ (Simple.NewRepository db) config env r st
  = (Simple.mkResponse 500 (Simple.J_error "Failed to update translatable"),
     st').
Proof.
  intros Hp Hb Hv stmt He Hr. unfold Simple.Update. rewrite Hp, Hb.
  rewrite (Simple_Update_Validate_ok config req Hv).
  cbn [Simple.ur_Content Simple.repo_Update Simple.NewRepository].
  unfold Simple.repository_Update. fold stmt.
  destruct stmt as [q args]. cbn [fst snd] in He. rewrite He.
  destruct res as [e | [e | n]]; [reflexivity | reflexivity | discriminate].
Qed.

Lemma Simple_Update_read_back (config : Simple.Config) (env : Env)
      (r : Simple.Request) (st st' st'' : St) (id : UUID)
      (req : Simple.UpdateTranslatableRequest) (n : Z)
      (row : error + Simple.Translatable) :
  uuid_Parse (Simple.idStr r) = inr id ->
  Simple.r_Decode_update r = inr req ->
  snd (Simple.Update_Validate config req) = None ->
  let stmt := Simple.updateStmt env id
                (Go.EscapeString (Go.TrimSpace (Simple.ur_Content req)))
                (Simple.getUserIDFromContext uuid_Parse r) in
  Exec db (fst stmt) (snd stmt) st = (inr (inr n), st') ->
  n <> 0 ->
  QueryRowScan db Simple.getByIDQuery [AUUID id] st' = (row, st'') ->
  Simple.Update uuid_Parse _ (Simple.NewRepository db) config env r st
  = (match row with
     | inl _ =>
         Simple.mkResponse 500
           (Simple.J_error "Failed to get updated translatable")
     | inr t => Simple.mkResponse 200 (Simple.J_translatable t)
     end, st'').
Proof.
  intros Hp Hb Hv stmt He Hn Hq. unfold Simple.Update. rewrite Hp, Hb.
  rewrite (Simple_Update_Validate_ok config req Hv).
  cbn [Simple.ur_Content Simple.repo_Update Simple.repo_GetByID
       Simple.NewRepository].
  unfold Simple.repository_Update, Simple.repository_GetByID. fold stmt.
  destruct stmt as [q args]. cbn [fst snd] in He. rewrite He.
  apply Z.eqb_neq in Hn. rewrite Hn, Hq.
  destruct row as [e | t]; [| reflexivity].
  destruct (errors_Is e sql_ErrNoRows); reflexivity.
Qed.

Lemma Simple_Delete_500 (r : Simple.Request) (st st' : St) (id : UUID)
      (res : error + Result) (err : error) :
  uuid_Parse (Simple.idStr r) = inr id ->
  let stmt := Simple.deleteStmt id
                (Simple.getUserIDFromContext uuid_Parse r) in
  Exec db (fst stmt) (snd stmt) st = (res, st') ->
  exec_error res = Some err ->
  Simple.Delete uuid_Parse _ (Simple.NewRepository db) r st
  = (Simple.mkResponse 500 (Simple.J_error "Failed to delete translatable"),
     st').
Proof.
  intros Hp stmt He Hr. unfold Simple.Delete. rewrite Hp.
  cbn [Simple.repo_Delete Simple.NewRepository].
  unfold Simple.repository_Delete. fold stmt.
  destruct stmt as [q args]. cbn [fst snd] in He. rewrite He.
  destruct res as [e | [e | n]]; [reflexivity | reflexivity | discriminate].
Qed.

End RepositoryFailures.

(** X14. Over the SQL repository of the variant without locales, the text
    of a database error never decides the status and never reaches the
    client.  A failed INSERT is answered 500; an UPDATE or DELETE that
    yields no row count (the statement failed, or [RowsAffected] did) is
    answered 500 with the handler's fixed message, whatever the error says;
    a failed select-by-id is answered 404 exactly when the error is
    [sql.ErrNoRows] (through any [%w] wrapping) and 500 otherwise; and after
    an UPDATE that changed rows, a failed read-back is answered 500, also
    when it found no row.  The database state is the one the last call
    left. *)
Theorem X14_repository_failures (uuid_Parse : string -> error + UUID)
        (St : Type) (db : Database St Simple.Translatable) :
  (forall config env r st st' req t err,
      Simple.r_Decode_create r = inr req ->
      snd (Simple.Create_Validate uuid_Parse config req) = None ->
      Simple.ToTranslatable uuid_Parse env
        (fst (Simple.Create_Validate uuid_Parse config req))
        (Simple.getUserIDFromContext uuid_Parse r) = inr t ->
      Exec db Simple.createQuery (Simple.createArgs t) st = (inl err, st') ->
      Simple.Create uuid_Parse _ (Simple.NewRepository db) config env r st
      = (Simple.mkResponse 500
           (Simple.J_error "Failed to create translatable"), st'))
  /\ (forall r st st' id err,
      uuid_Parse (Simple.idStr r) = inr id ->
      QueryRowScan db Simple.getByIDQuery [AUUID id] st = (inl err, st') ->
      Simple.GetByID uuid_Parse _ (Simple.NewRepository db) r st
      = (if errors_Is err sql_ErrNoRows
         then Simple.mkResponse 404 (Simple.J_error "translatable not found")
         else Simple.mkResponse 500
                (Simple.J_error "Failed to get translatable"),
         st'))
  /\ (forall config env r st st' id req res err,
      uuid_Parse (Simple.idStr r) = inr id ->
      Simple.r_Decode_update r = inr req ->
      snd (Simple.Update_Validate config req) = None ->
      let stmt := Simple.updateStmt env id
                    (Go.EscapeString (Go.TrimSpace (Simple.ur_Content req)))
                    (Simple.getUserIDFromContext uuid_Parse r) in
      Exec db (fst stmt) (snd stmt) st = (res, st') ->
      exec_error res = Some err ->
      Simple.Update uuid_Parse _ (Simple.NewRepository db) config env r st
      = (Simple.mkResponse 500
           (Simple.J_error "Failed to update translatable"), st'))
  /\ (forall config env r st st' st'' id req n row,
      uuid_Parse (Simple.idStr r) = inr id ->
      Simple.r_Decode_update r = inr req ->
      snd (Simple.Update_Validate config req) = None ->
      let stmt := Simple.updateStmt env id
                    (Go.EscapeString (Go.TrimSpace (Simple.ur_Content req)))
                    (Simple.getUserIDFromContext uuid_Parse r) in
      Exec db (fst stmt) (snd stmt) st = (inr (inr n), st') ->
      n <> 0 ->
      QueryRowScan db Simple.getByIDQuery [AUUID id] st' = (row, st'') ->
      Simple.Update uuid_Parse _ (Simple.NewRepository db) config env r st
      = (match row with
         | inl _ =>
             Simple.mkResponse 500
               (Simple.J_error "Failed to get updated translatable")
         | inr t => Simple.mkResponse 200 (Simple.J_translatable t)
         end, st''))
  /\ (forall r st st' id res err,
      uuid_Parse (Simple.idStr r) = inr id ->
      let stmt := Simple.deleteStmt id
                    (Simple.getUserIDFromContext uuid_Parse r) in
      Exec db (fst stmt) (snd stmt) st = (res, st') ->
      exec_error res = Some err ->
      Simple.Delete uuid_Parse _ (Simple.NewRepository db) r st
      = (Simple.mkResponse 500
           (Simple.J_error "Failed to delete translatable"), st')).
Proof.
  split; [intros; eapply Simple_Create_500; eassumption |].
  split; [intros; eapply Simple_GetByID_failure; eassumption |].
  split; [intros; eapply Simple_Update_500; eassumption |].
  split; [intros; eapply Simple_Update_read_back; eassumption |].
  intros; eapply Simple_Delete_500; eassumption.
Qed.

Lemma X14_repository_failures_witness :
  let r := Simple.mkRequest Sample.no_query Sample.row_id_text CtxNil
             Sample.no_body (inr (Simple.mkUpdate "Changed")) in
  Simple.Update UuidText.Parse _
    (Simple.NewRepository (broken (errors_New "translatable not found")))
    Simple.DefaultConfig Sample.env r tt
  = (Simple.mkResponse 500 (Simple.J_error "Failed to update translatable"),
     tt).
Proof.
  intros r.
  destruct (X14_repository_failures UuidText.Parse unit
              (broken (errors_New "translatable not found")))
    as (_ & _ & H & _).
  apply (H Simple.DefaultConfig Sample.env r tt tt Sample.row_id
           (Simple.mkUpdate "Changed")
           (inl (errors_New "translatable not found"))
           (errors_New "translatable not found")).
  - reflexivity.
  - reflexivity.
  - reflexivity.
  - reflexivity.
  - reflexivity.
Defined.

(** *** Database failures, in the locale-aware variant *)

Section ResourceFailures.

Variable uuid_Parse : string -> error + UUID.
Variable St : Type.
Variable db : Database St Locale.Translatable.

Lemma Locale_GetByID_failure (c : Locale.Ctx) (st st' : St) (id : UUID)
      (err : error) :
  uuid_Parse (Locale.c_Params_id c) = inr id ->
  QueryRowScan db Locale.getByIDQuery [AUUID id] st = (inl err, st') ->
  Locale.GetByID uuid_Parse _ db c st
  = (if errors_Is err pgx_ErrNoRows
     then Locale.mkResponse 404 (Locale.J_error "Translation not found")
     else Locale.mkResponse 500 (Locale.J_error "Failed to get translation"),
     st').
Proof.
  intros Hp He. unfold Locale.GetByID, Locale.getByIDFromDB.
  rewrite Hp, He. destruct (errors_Is err pgx_ErrNoRows); reflexivity.
Qed.

Lemma Locale_Update_failure (config : Locale.Config) (env : Env)
      (c : Locale.Ctx) (st st' : St) (id : UUID)
      (req : Locale.UpdateTranslatableRequest) (res : error + Result)
      (err : error) :
  uuid_Parse (Locale.c_Params_id c) = inr id ->
  Locale.c_BodyParser_update c = inr req ->
  snd (Locale.Update_Validate config req) = None ->
  let stmt := Locale.updateStmt env id
                (Go.EscapeString (Go.TrimSpace (Locale.ur_Content req)))
                (Locale.ur_Locale req)
                (Locale.getUserIDFromFiberContext uuid_Parse c) in
  Exec db (fst stmt) (snd stmt) st = (res, st') ->
  exec_error res = Some err ->
  Locale.Update uuid_Parse _ db config env c st
  = (if (Error err =? "translation not found")%string
        || (Error err =?
            "translation not found or you don't have permission to update it")%string
     then Locale.mkResponse 404 (Locale.J_error (Error err))
     else Locale.mkResponse 500
            (Locale.J_error "Failed to update translation"),
     st').
Proof.
  intros Hp Hb Hv stmt He Hr. unfold Locale.Update. rewrite Hp, Hb.
  rewrite (Locale_Update_Validate_ok config req Hv).
  cbn [Locale.ur_Content Locale.ur_Locale Locale.ur_set_Content].
  unfold Locale.updateInDB. fold stmt.
  destruct stmt as [q args]. cbn [fst snd] in He. rewrite He.
  destruct res as [e | [e | n]]; [| | discriminate];
    injection Hr as ->;
    destruct ((Error err =? "translation not found")%string || _);
    reflexivity.
Qed.

Lemma Locale_Update_read_back (config : Locale.Config) (env : Env)
      (c : Locale.Ctx) (st st' st'' : St) (id : UUID)
      (req : Locale.UpdateTranslatableRequest) (n : Z)
      (row : error + Locale.Translatable) :
  uuid_Parse (Locale.c_Params_id c) = inr id ->
  Locale.c_BodyParser_update c = inr req ->
  snd (Locale.Update_Validate config req) = None ->
  let stmt := Locale.updateStmt env id
                (Go.EscapeString (Go.TrimSpace (Locale.ur_Content req)))
                (Locale.ur_Locale req)
                (Locale.getUserIDFromFiberContext uuid_Parse c) in
  Exec db (fst stmt) (snd stmt) st = (inr (inr n), st') ->
  n <> 0 ->
  QueryRowScan db Locale.getByIDQuery [AUUID id] st' = (row, st'') ->
  Locale.Update uuid_Parse _ db config env c st
  = (match row with
     | inl _ =>
         Locale.mkResponse 500
           (Locale.J_error "Failed to get updated translation")
     | inr t => Locale.mkResponse 200 (Locale.J_translatable t)
     end, st'').
Proof.
  intros Hp Hb Hv stmt He Hn Hq. unfold Locale.Update. rewrite Hp, Hb.
  rewrite (Locale_Update_Validate_ok config req Hv).
  cbn [Locale.ur_Content Locale.ur_Locale Locale.ur_set_Content].
  unfold Locale.updateInDB, Locale.getByIDFromDB. fold stmt.
  destruct stmt as [q args]. cbn [fst snd] in He. rewrite He.
  apply Z.eqb_neq in Hn. rewrite Hn, Hq.
  destruct row as [e | t]; reflexivity.
Qed.

Lemma Locale_Delete_failure (c : Locale.Ctx) (st st' : St) (id : UUID)
      (res : error + Result) (err : error) :
  uuid_Parse (Locale.c_Params_id c) = inr id ->
  let stmt := Locale.deleteStmt id
                (Locale.getUserIDFromFiberContext uuid_Parse c) in
  Exec db (fst stmt) (snd stmt) st = (res, st') ->
  exec_error res = Some err ->
  Locale.Delete uuid_Parse _ db c st
  = (if (Error err =? "translation not found")%string
        || (Error err =?
            "translation not found or you don't have permission to delete it")%string
     then Locale.mkResponse 404 (Locale.J_error (Error err))
     else Locale.mkResponse 500
            (Locale.J_error "Failed to delete translation"),
     st').
Proof.
  intros Hp stmt He Hr. unfold Locale.Delete. rewrite Hp.
  unfold Locale.deleteFromDB. fold stmt.
  destruct stmt as [q args]. cbn [fst snd] in He. rewrite He.
  destruct res as [e | [e | n]]; [| | discriminate];
    injection Hr as ->;
    destruct ((Error err =? "translation not found")%string || _);
    reflexivity.
Qed.

End ResourceFailures.

(** X15. In the locale-aware variant the database methods hand the
    driver's error on unwrapped, and [Update] and [Delete] classify it by
    its text: an UPDATE or DELETE that yields no row count is answered 404,
    echoing the error text, when that text equals one of the two not-found
    messages, and 500 with the fixed message otherwise.  [GetByID] goes by
    the identity of the error instead: 404 exactly for [pgx.ErrNoRows],
    through any [%w] wrapping.  After an UPDATE that changed rows the row
    is read back by its id alone, and a failed read-back is answered 500,
    also when it found no row. *)
Theorem X15_resource_failures (uuid_Parse : string -> error + UUID)
        (St : Type) (db : Database St Locale.Translatable) :
  (forall c st st' id err,
      uuid_Parse (Locale.c_Params_id c) = inr id ->
      QueryRowScan db Locale.getByIDQuery [AUUID id] st = (inl err, st') ->
      Locale.GetByID uuid_Parse _ db c st
      = (if errors_Is err pgx_ErrNoRows
         then Locale.mkResponse 404 (Locale.J_error "Translation not found")
         else Locale.mkResponse 500
                (Locale.J_error "Failed to get translation"),
         st'))
  /\ (forall config env c st st' id req res err,
      uuid_Parse (Locale.c_Params_id c) = inr id ->
      Locale.c_BodyParser_update c = inr req ->
      snd (Locale.Update_Validate config req) = None ->
      let stmt := Locale.updateStmt env id
                    (Go.EscapeString (Go.TrimSpace (Locale.ur_Content req)))
                    (Locale.ur_Locale req)
                    (Locale.getUserIDFromFiberContext uuid_Parse c) in
      Exec db (fst stmt) (snd stmt) st = (res, st') ->
      exec_error res = Some err ->
      Locale.Update uuid_Parse _ db config env c st
      = (if (Error err =? "translation not found")%string
            || (Error err =?
                "translation not found or you don't have permission to update it")%string
         then Locale.mkResponse 404 (Locale.J_error (Error err))
         else Locale.mkResponse 500
                (Locale.J_error "Failed to update translation"),
         st'))
  /\ (forall config env c st st' st'' id req n row,
      uuid_Parse (Locale.c_Params_id c) = inr id ->
      Locale.c_BodyParser_update c = inr req ->
      snd (Locale.Update_Validate config req) = None ->
      let stmt := Locale.updateStmt env id
                    (Go.EscapeString (Go.TrimSpace (Locale.ur_Content req)))
                    (Locale.ur_Locale req)
                    (Locale.getUserIDFromFiberContext uuid_Parse c) in
      Exec db (fst stmt) (snd stmt) st = (inr (inr n), st') ->
      n <> 0 ->
      QueryRowScan db Locale.getByIDQuery [AUUID id] st' = (row, st'') ->
      Locale.Update uuid_Parse _ db config env c st
      = (match row with
         | inl _ =>
             Locale.mkResponse 500
               (Locale.J_error "Failed to get updated translation")
         | inr t => Locale.mkResponse 200 (Locale.J_translatable t)
         end, st''))
  /\ (forall c st st' id res err,
      uuid_Parse (Locale.c_Params_id c) = inr id ->
      let stmt := Locale.deleteStmt id
                    (Locale.getUserIDFromFiberContext uuid_Parse c) in
      Exec db (fst stmt) (snd stmt) st = (res, st') ->
      exec_error res = Some err ->
      Locale.Delete uuid_Parse _ db c st
      = (if (Error err =? "translation not found")%string
            || (Error err =?
                "translation not found or you don't have permission to delete it")%string
         then Locale.mkResponse 404 (Locale.J_error (Error err))
         else Locale.mkResponse 500
                (Locale.J_error "Failed to delete translation"),
         st')).
Proof.
  split; [intros; eapply Locale_GetByID_failure; eassumption |].
  split; [intros; eapply Locale_Update_failure; eassumption |].
  split; [intros; eapply Locale_Update_read_back; eassumption |].
  intros; eapply Locale_Delete_failure; eassumption.
Qed.

Lemma X15_resource_failures_witness :
  let c := Locale.mkCtx Sample.row_id_text Sample.no_query CtxNil
             Sample.no_body (inr (Locale.mkUpdate "en" "Changed")) in
  Locale.Update UuidText.Parse _
    (broken (errors_New "translation not found")) Sample.config Sample.env
    c tt
  = (Locale.mkResponse 404 (Locale.J_error "translation not found"), tt).
Proof.
  intros c.
  destruct (X15_resource_failures UuidText.Parse unit
              (broken (errors_New "translation not found")))
    as (_ & H & _).
  apply (H Sample.config Sample.env c tt tt Sample.row_id
           (Locale.mkUpdate "en" "Changed")
           (inl (errors_New "translation not found"))
           (errors_New "translation not found")).
  - reflexivity.
  - reflexivity.
  - reflexivity.
  - reflexivity.
  - reflexivity.
Defined.

(** *** Listings are complete or fail *)

Lemma scanAll_rows {Row : Type} (l acc : list Row) :
  scanAll (map inr l) acc = inr (acc ++ l)%list.
Proof.
  revert acc. induction l as [| t l IH]; intros acc; simpl.
  - rewrite app_nil_r. reflexivity.
  - rewrite IH, <- app_assoc. reflexivity.
Qed.

Lemma scanAll_inr {Row : Type} (scans : list (error + Row))
      (acc res : list Row) :
  scanAll scans acc = inr res ->
  exists l, scans = map inr l /\ res = (acc ++ l)%list.
Proof.
  revert acc. induction scans as [| [e | t] scans IH]; intros acc H;
    simpl in H.
  - exists []. injection H as <-. rewrite app_nil_r. split; reflexivity.
  - discriminate H.
  - destruct (IH _ H) as (l & Hl & Hr). exists (t :: l). split.
    + simpl. rewrite Hl. reflexivity.
    + rewrite Hr, <- app_assoc. reflexivity.
Qed.

Section Listings.

Variable uuid_Parse : string -> error + UUID.
Variable St : Type.

Lemma Locale_Query_listing (db : Database St Locale.Translatable)
      (config : Locale.Config) (c : Locale.Ctx) (st st1 st2 : St)
      (params0 params : Locale.QueryParams) (total : Z)
      (rows : Rows Locale.Translatable) :
  Locale.parseQueryParams uuid_Parse config c = inr params0 ->
  Locale.QueryParams_Validate config params0 = (params, None) ->
  QueryRowScanInt db (fst (Locale.queryCount params))
                  (snd (Locale.queryCount params)) st = (inr total, st1) ->
  Query db (fst (Locale.queryPage params)) (snd (Locale.queryPage params)) st1
  = (inr rows, st2) ->
  (forall l, rows_scans rows = map inr l -> rows_Err rows = None ->
             Locale.Query uuid_Parse _ db config c st
             = (Locale.mkResponse 200 (Locale.J_collection total l), st2))
  /\ ((forall l, rows_scans rows <> map inr l) \/ rows_Err rows <> None ->
      Locale.Query uuid_Parse _ db config c st
      = (Locale.mkResponse 500
           (Locale.J_error "Failed to query translations"), st2)).
Proof.
  intros Hp Hv Hc Hq. unfold Locale.Query, Locale.queryFromDB.
  rewrite Hp, Hv.
  destruct (Locale.queryCount params) as [cq cargs].
  destruct (Locale.queryPage params) as [pq pargs].
  cbn [fst snd] in Hc, Hq. rewrite Hc, Hq. split.
  - intros l Hl He. rewrite Hl, scanAll_rows, He. reflexivity.
  - intros H.
    destruct (scanAll (rows_scans rows) []) as [e | res] eqn:Hs;
      [reflexivity |].
    destruct (scanAll_inr _ _ _ Hs) as (l & Hl & _).
    destruct (rows_Err rows) as [e |]; [reflexivity |].
    destruct H as [H | H]; [destruct (H l Hl) | destruct (H eq_refl)].
Qed.

Lemma Simple_Query_listing (db : Database St Simple.Translatable)
      (r : Simple.Request) (st st1 : St)
      (params0 params : Simple.QueryParams)
      (rows : Rows Simple.Translatable) :
  Simple.parseQueryParams uuid_Parse r = inr params0 ->
  Simple.QueryParams_Validate params0 = (params, None) ->
  Query db (fst (Simple.queryPage params)) (snd (Simple.queryPage params)) st
  = (inr rows, st1) ->
  (forall l, rows_scans rows = map inr l -> rows_Err rows = None ->
             Simple.Query uuid_Parse _ (Simple.NewRepository db) r st
             = (Simple.mkResponse 200
                  (Simple.J_page l (Simple.q_Limit params)
                                 (Simple.q_Offset params)), st1))
  /\ ((forall l, rows_scans rows <> map inr l) \/ rows_Err rows <> None ->
      Simple.Query uuid_Parse _ (Simple.NewRepository db) r st
      = (Simple.mkResponse 500
           (Simple.J_error "Failed to query translatable"), st1)).
Proof.
  intros Hp Hv Hq. unfold Simple.Query. rewrite Hp, Hv.
  cbn [Simple.repo_Query Simple.NewRepository].
  unfold Simple.repository_Query.
  destruct (Simple.queryPage params) as [pq pargs].
  cbn [fst snd] in Hq. rewrite Hq. split.
  - intros l Hl He. rewrite Hl, scanAll_rows, He. reflexivity.
  - intros H.
    destruct (scanAll (rows_scans rows) []) as [e | res] eqn:Hs;
      [reflexivity |].
    destruct (scanAll_inr _ _ _ Hs) as (l & Hl & _).
    destruct (rows_Err rows) as [e |]; [reflexivity |].
    destruct H as [H | H]; [destruct (H l Hl) | destruct (H eq_refl)].
Qed.

End Listings.

(** X16. A listing is complete or it fails.  Once the request passed
    parsing and validation and the statements ran, the list handler answers
    200 with one row for each row the database yielded, in the database's
    order (and, in the locale-aware variant, the total the count statement
    gave, which the page does not bound), provided every row scanned and
    the iteration ended without error; if a single scan fails or the
    iteration ends with an error, the answer is 500 and carries no row. *)
Theorem X16_listing_complete_or_fails (uuid_Parse : string -> error + UUID)
        (St : Type) :
  (forall (db : Database St Locale.Translatable) config c st st1 st2
          params0 params total rows,
      Locale.parseQueryParams uuid_Parse config c = inr params0 ->
      Locale.QueryParams_Validate config params0 = (params, None) ->
      QueryRowScanInt db (fst (Locale.queryCount params))
                      (snd (Locale.queryCount params)) st
      = (inr total, st1) ->
      Query db (fst (Locale.queryPage params)) (snd (Locale.queryPage params))
            st1
      = (inr rows, st2) ->
      (forall l, rows_scans rows = map inr l -> rows_Err rows = None ->
                 Locale.Query uuid_Parse _ db config c st
                 = (Locale.mkResponse 200 (Locale.J_collection total l), st2))
      /\ ((forall l, rows_scans rows <> map inr l) \/ rows_Err rows <> None ->
          Locale.Query uuid_Parse _ db config c st
          = (Locale.mkResponse 500
               (Locale.J_error "Failed to query translations"), st2)))
  /\ (forall (db : Database St Simple.Translatable) r st st1 params0 params
             rows,
      Simple.parseQueryParams uuid_Parse r = inr params0 ->
      Simple.QueryParams_Validate params0 = (params, None) ->
      Query db (fst (Simple.queryPage params)) (snd (Simple.queryPage params))
            st
      = (inr rows, st1) ->
      (forall l, rows_scans rows = map inr l -> rows_Err rows = None ->
                 Simple.Query uuid_Parse _ (Simple.NewRepository db) r st
                 = (Simple.mkResponse 200
                      (Simple.J_page l (Simple.q_Limit params)
                                     (Simple.q_Offset params)), st1))
      /\ ((forall l, rows_scans rows <> map inr l) \/ rows_Err rows <> None ->
          Simple.Query uuid_Parse _ (Simple.NewRepository db) r st
          = (Simple.mkResponse 500
               (Simple.J_error "Failed to query translatable"), st1))).
Proof.
  split.
  - intros. eapply Locale_Query_listing; eassumption.
  - intros. eapply Simple_Query_listing; eassumption.
Qed.

Lemma X16_listing_complete_or_fails_witness :
  let c := Locale.mkCtx "" Sample.no_query CtxNil Sample.no_body
                        Sample.no_body in
  Locale.Query UuidText.Parse _ LocaleMem.db Sample.config c
               [Sample.stored_row]
  = (Locale.mkResponse 200 (Locale.J_collection 1 [Sample.stored_row]),
     [Sample.stored_row]).
Proof.
  intros c.
  destruct (X16_listing_complete_or_fails UuidText.Parse LocaleMem.Table)
    as (H & _).
  destruct (H LocaleMem.db Sample.config c [Sample.stored_row]
              [Sample.stored_row] [Sample.stored_row]
              (Locale.mkQueryParams None None None None 20 0)
              (Locale.mkQueryParams None None None None 20 0)
              1 (mkRows [inr Sample.stored_row] None)) as (H1 & _).
  - reflexivity.
  - reflexivity.
  - vm_compute. reflexivity.
  - vm_compute. reflexivity.
  - apply (H1 [Sample.stored_row]); reflexivity.
Defined.

(** *** Updating, deleting and reading a row, on the table in memory *)

Lemma LocaleMem_Exec_update (env : Env) (id : UUID) (content locale : string)
      (userID : option UUID) (tbl : LocaleMem.Table) :
  Exec LocaleMem.db
       (fst (Locale.updateStmt env id content locale userID))
       (snd (Locale.updateStmt env id content locale userID)) tbl
  = (inr (inr (LocaleMem.count_rows id userID tbl)),
     LocaleMem.update_rows id userID content locale (time_Now env) tbl).
Proof. destruct userID; reflexivity. Qed.

Lemma LocaleMem_Exec_delete (id : UUID) (userID : option UUID)
      (tbl : LocaleMem.Table) :
  Exec LocaleMem.db (fst (Locale.deleteStmt id userID))
       (snd (Locale.deleteStmt id userID)) tbl
  = (inr (inr (LocaleMem.count_rows id userID tbl)),
     LocaleMem.delete_rows id userID tbl).
Proof. destruct userID; reflexivity. Qed.

Lemma LocaleMem_QueryRowScan (id : UUID) (tbl : LocaleMem.Table) :
  QueryRowScan LocaleMem.db Locale.getByIDQuery [AUUID id] tbl
  = (match find (fun t => UUID_eqb (Locale.t_ID t) id) tbl with
     | Some t => inr t
     | None => inl pgx_ErrNoRows
     end, tbl).
Proof.
  change (QueryRowScan LocaleMem.db) with LocaleMem.mem_QueryRowScan.
  unfold LocaleMem.mem_QueryRowScan. rewrite String.eqb_refl.
  destruct (find _ tbl); reflexivity.
Qed.

Lemma find_map_same {A : Type} (f : A -> bool) (g : A -> A) (l : list A) :
  (forall x, f (g x) = f x) ->
  find f (map g l) = option_map g (find f l).
Proof.
  intros H. induction l as [| x l IH]; simpl; [reflexivity |].
  rewrite H. destruct (f x); [reflexivity | exact IH].
Qed.

Lemma filter_length_pos {A : Type} (f : A -> bool) (l : list A) (x : A) :
  In x l -> f x = true -> (0 < List.length (filter f l))%nat.
Proof.
  intros Hin Hx.
  assert (Hf : In x (filter f l)) by (apply filter_In; now split).
  destruct (filter f l); [destruct Hf | simpl; lia].
Qed.

Lemma find_unique {A B : Type} (key : A -> B) (f : A -> bool) (l : list A)
      (x y : A) :
  NoDup (map key l) ->
  (forall a b, f a = true -> f b = true -> key a = key b) ->
  find f l = Some x -> In y l -> f y = true -> y = x.
Proof.
  intros Hn Hk. induction l as [| a l IH]; simpl; intros Hf Hin Hy;
    [destruct Hin |].
  inversion Hn as [| ? ? Ha Hl]; subst.
  destruct (f a) eqn:Ea.
  - injection Hf as <-. destruct Hin as [E | Hin]; [now symmetry |].
    exfalso. apply Ha. rewrite (Hk a y Ea Hy). now apply in_map.
  - destruct Hin as [E | Hin]; [subst; congruence |].
    now apply IH.
Qed.

Section OnTheTable.

Variable uuid_Parse : string -> error + UUID.

Lemma Locale_hit_found (id : UUID) (userID : option UUID)
      (tbl : LocaleMem.Table) (row : Locale.Translatable) :
  find (fun t => UUID_eqb (Locale.t_ID t) id) tbl = Some row ->
  LocaleMem.owned userID row = true ->
  In row tbl /\ Locale.t_ID row = id /\ LocaleMem.hit id userID row = true
  /\ (LocaleMem.count_rows id userID tbl =? 0) = false.
Proof.
  intros Hf Ho. apply find_some in Hf. destruct Hf as (Hin & Hid).
  assert (Hh : LocaleMem.hit id userID row = true)
    by (unfold LocaleMem.hit; rewrite Hid, Ho; reflexivity).
  split; [exact Hin |]. split; [now apply UUID_eqb_eq |].
  split; [exact Hh |].
  apply Z.eqb_neq. unfold LocaleMem.count_rows.
  pose proof (filter_length_pos _ tbl row Hin Hh). lia.
Qed.

Lemma Locale_Update_on_table (config : Locale.Config) (env : Env)
      (c : Locale.Ctx) (tbl : LocaleMem.Table) (id : UUID)
      (req : Locale.UpdateTranslatableRequest) (row : Locale.Translatable) :
  uuid_Parse (Locale.c_Params_id c) = inr id ->
  Locale.c_BodyParser_update c = inr req ->
  snd (Locale.Update_Validate config req) = None ->
  find (fun t => UUID_eqb (Locale.t_ID t) id) tbl = Some row ->
  LocaleMem.owned (Locale.getUserIDFromFiberContext uuid_Parse c) row = true ->
  Locale.Update uuid_Parse _ LocaleMem.db config env c tbl
  = (Locale.mkResponse 200
       (Locale.J_translatable
          (LocaleMem.set_row
             (Go.EscapeString (Go.TrimSpace (Locale.ur_Content req)))
             (Locale.ur_Locale req) (time_Now env) row)),
     LocaleMem.update_rows id
       (Locale.getUserIDFromFiberContext uuid_Parse c)
       (Go.EscapeString (Go.TrimSpace (Locale.ur_Content req)))
       (Locale.ur_Locale req) (time_Now env) tbl).
Proof.
  intros Hp Hb Hv Hf Ho.
  destruct (Locale_hit_found id _ tbl row Hf Ho) as (Hin & Hid & Hh & Hc).
  unfold Locale.Update. rewrite Hp, Hb.
  rewrite (Locale_Update_Validate_ok config req Hv).
  cbn [Locale.ur_Content Locale.ur_Locale Locale.ur_set_Content].
  unfold Locale.updateInDB, Locale.getByIDFromDB.
  pose proof (LocaleMem_Exec_update env id
                (Go.EscapeString (Go.TrimSpace (Locale.ur_Content req)))
                (Locale.ur_Locale req)
                (Locale.getUserIDFromFiberContext uuid_Parse c) tbl) as He.
  destruct (Locale.updateStmt env id _ _ _) as [q args].
  cbn [fst snd] in He. rewrite He, Hc, LocaleMem_QueryRowScan.
  unfold LocaleMem.update_rows at 1.
  rewrite find_map_same.
  - rewrite Hf. cbn [option_map]. rewrite Hh. reflexivity.
  - intros x. destruct (LocaleMem.hit id _ x); reflexivity.
Qed.

Lemma Locale_GetByID_on_table (c : Locale.Ctx) (tbl : LocaleMem.Table)
      (id : UUID) :
  uuid_Parse (Locale.c_Params_id c) = inr id ->
  Locale.GetByID uuid_Parse _ LocaleMem.db c tbl
  = (match find (fun t => UUID_eqb (Locale.t_ID t) id) tbl with
     | Some t => Locale.mkResponse 200 (Locale.J_translatable t)
     | None =>
         Locale.mkResponse 404 (Locale.J_error "Translation not found")
     end, tbl).
Proof.
  intros Hp. unfold Locale.GetByID, Locale.getByIDFromDB.
  rewrite Hp, LocaleMem_QueryRowScan.
  destruct (find _ tbl); reflexivity.
Qed.

Lemma Locale_Delete_on_table (c : Locale.Ctx) (tbl : LocaleMem.Table)
      (id : UUID) (row : Locale.Translatable) :
  uuid_Parse (Locale.c_Params_id c) = inr id ->
  find (fun t => UUID_eqb (Locale.t_ID t) id) tbl = Some row ->
  LocaleMem.owned (Locale.getUserIDFromFiberContext uuid_Parse c) row = true ->
  Locale.Delete uuid_Parse _ LocaleMem.db c tbl
  = (Locale.mkResponse 200
       (Locale.J_message "Translation deleted successfully"),
     LocaleMem.delete_rows id
       (Locale.getUserIDFromFiberContext uuid_Parse c) tbl).
Proof.
  intros Hp Hf Ho.
  destruct (Locale_hit_found id _ tbl row Hf Ho) as (Hin & Hid & Hh & Hc).
  unfold Locale.Delete. rewrite Hp. unfold Locale.deleteFromDB.
  pose proof (LocaleMem_Exec_delete id
                (Locale.getUserIDFromFiberContext uuid_Parse c) tbl) as He.
  destruct (Locale.deleteStmt id _) as [q args].
  cbn [fst snd] in He. rewrite He, Hc. reflexivity.
Qed.

Lemma Locale_deleted_gone (id : UUID) (userID : option UUID)
      (tbl : LocaleMem.Table) (row : Locale.Translatable) :
  NoDup (map Locale.t_ID tbl) ->
  find (fun t => UUID_eqb (Locale.t_ID t) id) tbl = Some row ->
  LocaleMem.owned userID row = true ->
  find (fun t => UUID_eqb (Locale.t_ID t) id)
       (LocaleMem.delete_rows id userID tbl) = None.
Proof.
  intros Hn Hf Ho.
  destruct (Locale_hit_found id _ tbl row Hf Ho) as (Hin & Hid & Hh & Hc).
  destruct (find _ (LocaleMem.delete_rows id userID tbl)) as [y |] eqn:Hy;
    [| reflexivity].
  exfalso. apply find_some in Hy. destruct Hy as (Hy & Hyid).
  unfold LocaleMem.delete_rows in Hy. apply filter_In in Hy.
  destruct Hy as (Hy & Hnh).
  assert (E : y = row).
  { apply (find_unique Locale.t_ID
             (fun t => UUID_eqb (Locale.t_ID t) id) tbl row y Hn);
      try assumption.
    intros a b Ha Hb. apply UUID_eqb_eq in Ha, Hb. congruence. }
  subst y. rewrite Hh in Hnh. discriminate Hnh.
Qed.

Lemma Locale_find_updated (id : UUID) (userID : option UUID)
      (content locale : string) (now : Time) (tbl : LocaleMem.Table)
      (row : Locale.Translatable) :
  find (fun t => UUID_eqb (Locale.t_ID t) id) tbl = Some row ->
  LocaleMem.owned userID row = true ->
  find (fun t => UUID_eqb (Locale.t_ID t) id)
       (LocaleMem.update_rows id userID content locale now tbl)
  = Some (LocaleMem.set_row content locale now row).
Proof.
  intros Hf Ho.
  destruct (Locale_hit_found id _ tbl row Hf Ho) as (Hin & Hid & Hh & Hc).
  unfold LocaleMem.update_rows. rewrite find_map_same.
  - rewrite Hf. cbn [option_map]. rewrite Hh. reflexivity.
  - intros x. destruct (LocaleMem.hit id _ x); reflexivity.
Qed.

Lemma Locale_others_kept (id : UUID) (userID : option UUID)
      (content locale : string) (now : Time) (tbl : LocaleMem.Table)
      (x : Locale.Translatable) :
  In x tbl -> Locale.t_ID x <> id ->
  In x (LocaleMem.update_rows id userID content locale now tbl)
  /\ In x (LocaleMem.delete_rows id userID tbl).
Proof.
  intros Hin Hne.
  assert (Hh : LocaleMem.hit id userID x = false).
  { unfold LocaleMem.hit.
    destruct (UUID_eqb (Locale.t_ID x) id) eqn:E; [| reflexivity].
    apply UUID_eqb_eq in E. contradiction. }
  split.
  - unfold LocaleMem.update_rows. apply in_map_iff. exists x.
    rewrite Hh. now split.
  - unfold LocaleMem.delete_rows. apply filter_In. rewrite Hh. now split.
Qed.

Lemma SimpleMem_Exec_update (env : Env) (id : UUID) (content : string)
      (userID : option UUID) (tbl : SimpleMem.Table) :
  Exec SimpleMem.db
       (fst (Simple.updateStmt env id content userID))
       (snd (Simple.updateStmt env id content userID)) tbl
  = (inr (inr (SimpleMem.count_rows id userID tbl)),
     SimpleMem.update_rows id userID content (time_Now env) tbl).
Proof. destruct userID; reflexivity. Qed.

Lemma SimpleMem_Exec_delete (id : UUID) (userID : option UUID)
      (tbl : SimpleMem.Table) :
  Exec SimpleMem.db (fst (Simple.deleteStmt id userID))
       (snd (Simple.deleteStmt id userID)) tbl
  = (inr (inr (SimpleMem.count_rows id userID tbl)),
     SimpleMem.delete_rows id userID tbl).
Proof. destruct userID; reflexivity. Qed.

Lemma SimpleMem_QueryRowScan (id : UUID) (tbl : SimpleMem.Table) :
  QueryRowScan SimpleMem.db Simple.getByIDQuery [AUUID id] tbl
  = (match find (fun t => UUID_eqb (Simple.t_ID t) id) tbl with
     | Some t => inr t
     | None => inl sql_ErrNoRows
     end, tbl).
Proof.
  change (QueryRowScan SimpleMem.db) with SimpleMem.mem_QueryRowScan.
  unfold SimpleMem.mem_QueryRowScan. rewrite String.eqb_refl.
  destruct (find _ tbl); reflexivity.
Qed.

Lemma Simple_hit_found (id : UUID) (userID : option UUID)
      (tbl : SimpleMem.Table) (row : Simple.Translatable) :
  find (fun t => UUID_eqb (Simple.t_ID t) id) tbl = Some row ->
  SimpleMem.owned userID row = true ->
  In row tbl /\ Simple.t_ID row = id /\ SimpleMem.hit id userID row = true
  /\ (SimpleMem.count_rows id userID tbl =? 0) = false.
Proof.
  intros Hf Ho. apply find_some in Hf. destruct Hf as (Hin & Hid).
  assert (Hh : SimpleMem.hit id userID row = true)
    by (unfold SimpleMem.hit; rewrite Hid, Ho; reflexivity).
  split; [exact Hin |]. split; [now apply UUID_eqb_eq |].
  split; [exact Hh |].
  apply Z.eqb_neq. unfold SimpleMem.count_rows.
  pose proof (filter_length_pos _ tbl row Hin Hh). lia.
Qed.

Lemma Simple_find_updated (id : UUID) (userID : option UUID)
      (content : string) (now : Time) (tbl : SimpleMem.Table)
      (row : Simple.Translatable) :
  find (fun t => UUID_eqb (Simple.t_ID t) id) tbl = Some row ->
  SimpleMem.owned userID row = true ->
  find (fun t => UUID_eqb (Simple.t_ID t) id)
       (SimpleMem.update_rows id userID content now tbl)
  = Some (SimpleMem.set_row content now row).
Proof.
  intros Hf Ho.
  destruct (Simple_hit_found id _ tbl row Hf Ho) as (Hin & Hid & Hh & Hc).
  unfold SimpleMem.update_rows. rewrite find_map_same.
  - rewrite Hf. cbn [option_map]. rewrite Hh. reflexivity.
  - intros x. destruct (SimpleMem.hit id _ x); reflexivity.
Qed.

Lemma Simple_others_kept (id : UUID) (userID : option UUID)
      (content : string) (now : Time) (tbl : SimpleMem.Table)
      (x : Simple.Translatable) :
  In x tbl -> Simple.t_ID x <> id ->
  In x (SimpleMem.update_rows id userID content now tbl)
  /\ In x (SimpleMem.delete_rows id userID tbl).
Proof.
  intros Hin Hne.
  assert (Hh : SimpleMem.hit id userID x = false).
  { unfold SimpleMem.hit.
    destruct (UUID_eqb (Simple.t_ID x) id) eqn:E; [| reflexivity].
    apply UUID_eqb_eq in E. contradiction. }
  split.
  - unfold SimpleMem.update_rows. apply in_map_iff. exists x.
    rewrite Hh. now split.
  - unfold SimpleMem.delete_rows. apply filter_In. rewrite Hh. now split.
Qed.

Lemma Simple_GetByID_on_table (r : Simple.Request) (tbl : SimpleMem.Table)
      (id : UUID) :
  uuid_Parse (Simple.idStr r) = inr id ->
  Simple.GetByID uuid_Parse _ (Simple.NewRepository SimpleMem.db) r tbl
  = (match find (fun t => UUID_eqb (Simple.t_ID t) id) tbl with
     | Some t => Simple.mkResponse 200 (Simple.J_translatable t)
     | None =>
         Simple.mkResponse 404 (Simple.J_error "translatable not found")
     end, tbl).
Proof.
  intros Hp. unfold Simple.GetByID. rewrite Hp.
  cbn [Simple.repo_GetByID Simple.NewRepository].
  unfold Simple.repository_GetByID. rewrite SimpleMem_QueryRowScan.
  destruct (find _ tbl); reflexivity.
Qed.

Lemma Simple_Update_on_table (config : Simple.Config) (env : Env)
      (r : Simple.Request) (tbl : SimpleMem.Table) (id : UUID)
      (req : Simple.UpdateTranslatableRequest) (row : Simple.Translatable) :
  uuid_Parse (Simple.idStr r) = inr id ->
  Simple.r_Decode_update r = inr req ->
  snd (Simple.Update_Validate config req) = None ->
  find (fun t => UUID_eqb (Simple.t_ID t) id) tbl = Some row ->
  SimpleMem.owned (Simple.getUserIDFromContext uuid_Parse r) row = true ->
  Simple.Update uuid_Parse _ (Simple.NewRepository SimpleMem.db) config env
                r tbl
  = (Simple.mkResponse 200
       (Simple.J_translatable
          (SimpleMem.set_row
             (Go.EscapeString (Go.TrimSpace (Simple.ur_Content req)))
             (time_Now env) row)),
     SimpleMem.update_rows id (Simple.getUserIDFromContext uuid_Parse r)
       (Go.EscapeString (Go.TrimSpace (Simple.ur_Content req)))
       (time_Now env) tbl).
Proof.
  intros Hp Hb Hv Hf Ho.
  destruct (Simple_hit_found id _ tbl row Hf Ho) as (Hin & Hid & Hh & Hc).
  unfold Simple.Update. rewrite Hp, Hb.
  rewrite (Simple_Update_Validate_ok config req Hv).
  cbn [Simple.ur_Content Simple.repo_Update Simple.repo_GetByID
       Simple.NewRepository].
  unfold Simple.repository_Update, Simple.repository_GetByID.
  pose proof (SimpleMem_Exec_update env id
                (Go.EscapeString (Go.TrimSpace (Simple.ur_Content req)))
                (Simple.getUserIDFromContext uuid_Parse r) tbl) as He.
  destruct (Simple.updateStmt env id _ _) as [q args].
  cbn [fst snd] in He. rewrite He, Hc, SimpleMem_QueryRowScan.
  rewrite (Simple_find_updated id _ _ _ tbl row Hf Ho). reflexivity.
Qed.

Lemma Simple_Delete_on_table (r : Simple.Request) (tbl : SimpleMem.Table)
      (id : UUID) (row : Simple.Translatable) :
  uuid_Parse (Simple.idStr r) = inr id ->
  find (fun t => UUID_eqb (Simple.t_ID t) id) tbl = Some row ->
  SimpleMem.owned (Simple.getUserIDFromContext uuid_Parse r) row = true ->
  Simple.Delete uuid_Parse _ (Simple.NewRepository SimpleMem.db) r tbl
  = (Simple.mkResponse 200
       (Simple.J_message "Translatable deleted successfully"),
     SimpleMem.delete_rows id (Simple.getUserIDFromContext uuid_Parse r) tbl).
Proof.
  intros Hp Hf Ho.
  destruct (Simple_hit_found id _ tbl row Hf Ho) as (Hin & Hid & Hh & Hc).
  unfold Simple.Delete. rewrite Hp.
  cbn [Simple.repo_Delete Simple.NewRepository].
  unfold Simple.repository_Delete.
  pose proof (SimpleMem_Exec_delete id
                (Simple.getUserIDFromContext uuid_Parse r) tbl) as He.
  destruct (Simple.deleteStmt id _) as [q args].
  cbn [fst snd] in He. rewrite He, Hc. reflexivity.
Qed.

Lemma Simple_deleted_gone (id : UUID) (userID : option UUID)
      (tbl : SimpleMem.Table) (row : Simple.Translatable) :
  NoDup (map Simple.t_ID tbl) ->
  find (fun t => UUID_eqb (Simple.t_ID t) id) tbl = Some row ->
  SimpleMem.owned userID row = true ->
  find (fun t => UUID_eqb (Simple.t_ID t) id)
       (SimpleMem.delete_rows id userID tbl) = None.
Proof.
  intros Hn Hf Ho.
  destruct (Simple_hit_found id _ tbl row Hf Ho) as (Hin & Hid & Hh & Hc).
  destruct (find _ (SimpleMem.delete_rows id userID tbl)) as [y |] eqn:Hy;
    [| reflexivity].
  exfalso. apply find_some in Hy. destruct Hy as (Hy & Hyid).
  unfold SimpleMem.delete_rows in Hy. apply filter_In in Hy.
  destruct Hy as (Hy & Hnh).
  assert (E : y = row).
  { apply (find_unique Simple.t_ID
             (fun t => UUID_eqb (Simple.t_ID t) id) tbl row y Hn);
      try assumption.
    intros a b Ha Hb. apply UUID_eqb_eq in Ha, Hb. congruence. }
  subst y. rewrite Hh in Hnh. discriminate Hnh.
Qed.

End OnTheTable.

Lemma Locale_count_absent (id : UUID) (userID : option UUID)
      (tbl : LocaleMem.Table) :
  find (fun t => UUID_eqb (Locale.t_ID t) id) tbl = None ->
  LocaleMem.count_rows id userID tbl = 0.
Proof.
  intros Hf. unfold LocaleMem.count_rows. rewrite filter_none; [reflexivity |].
  intros x Hx. unfold LocaleMem.hit.
  rewrite (find_none _ _ Hf x Hx). reflexivity.
Qed.

Lemma Simple_count_absent (id : UUID) (userID : option UUID)
      (tbl : SimpleMem.Table) :
  find (fun t => UUID_eqb (Simple.t_ID t) id) tbl = None ->
  SimpleMem.count_rows id userID tbl = 0.
Proof.
  intros Hf. unfold SimpleMem.count_rows. rewrite filter_none; [reflexivity |].
  intros x Hx. unfold SimpleMem.hit.
  rewrite (find_none _ _ Hf x Hx). reflexivity.
Qed.

(** X17. Updating a stored row, on the table in memory.  When the table
    holds a row under the requested id and the caller owns it (or gives no
    identity), a valid update is answered 200 with that row as it now
    stands: the new locale, the trimmed and escaped content and the update
    time are set, while id, owner, host id, host type and creation time are
    those of the stored row.  The table keeps its size, rows under other
    ids are untouched, and reading the id again returns the same row.  This
    holds in both variants (without the locale in the second). *)
Theorem X17_update_on_table (uuid_Parse : string -> error + UUID) :
  (forall config env c tbl id req row,
      uuid_Parse (Locale.c_Params_id c) = inr id ->
      Locale.c_BodyParser_update c = inr req ->
      snd (Locale.Update_Validate config req) = None ->
      find (fun t => UUID_eqb (Locale.t_ID t) id) tbl = Some row ->
      LocaleMem.owned (Locale.getUserIDFromFiberContext uuid_Parse c) row
      = true ->
      let t := Locale.mkTranslatable id (Locale.t_UserID row)
                 (Locale.t_TranslatableID row) (Locale.t_Translatable row)
                 (Locale.ur_Locale req)
                 (Go.EscapeString (Go.TrimSpace (Locale.ur_Content req)))
                 (Some (time_Now env)) (Locale.t_CreatedAt row) in
      let run := Locale.Update uuid_Parse _ LocaleMem.db config env c tbl in
      fst run = Locale.mkResponse 200 (Locale.J_translatable t)
      /\ List.length (snd run) = List.length tbl
      /\ (forall x, In x tbl -> Locale.t_ID x <> id -> In x (snd run))
      /\ Locale.GetByID uuid_Parse _ LocaleMem.db c (snd run)
         = (Locale.mkResponse 200 (Locale.J_translatable t), snd run))
  /\ (forall config env r tbl id req row,
      uuid_Parse (Simple.idStr r) = inr id ->
      Simple.r_Decode_update r = inr req ->
      snd (Simple.Update_Validate config req) = None ->
      find (fun t => UUID_eqb (Simple.t_ID t) id) tbl = Some row ->
      SimpleMem.owned (Simple.getUserIDFromContext uuid_Parse r) row = true ->
      let t := Simple.mkTranslatable id (Simple.t_UserID row)
                 (Simple.t_TranslatableID row) (Simple.t_Translatable row)
                 (Go.EscapeString (Go.TrimSpace (Simple.ur_Content req)))
                 (Some (time_Now env)) (Simple.t_CreatedAt row) in
      let run := Simple.Update uuid_Parse _ (Simple.NewRepository SimpleMem.db)
                               config env r tbl in
      fst run = Simple.mkResponse 200 (Simple.J_translatable t)
      /\ List.length (snd run) = List.length tbl
      /\ (forall x, In x tbl -> Simple.t_ID x <> id -> In x (snd run))
      /\ Simple.GetByID uuid_Parse _ (Simple.NewRepository SimpleMem.db) r
                        (snd run)
         = (Simple.mkResponse 200 (Simple.J_translatable t), snd run)).
Proof.
  split.
  - intros config env c tbl id req row Hp Hb Hv Hf Ho t run.
    destruct (Locale_hit_found id _ tbl row Hf Ho) as (_ & Hid & _ & _).
    unfold run.
    rewrite (Locale_Update_on_table uuid_Parse config env c tbl id req row
               Hp Hb Hv Hf Ho).
    cbn [fst snd]. unfold LocaleMem.set_row. rewrite Hid. fold t.
    split; [reflexivity |].
    split; [unfold LocaleMem.update_rows; apply length_map |].
    split; [intros x Hx Hne; now apply Locale_others_kept |].
    rewrite (Locale_GetByID_on_table uuid_Parse c _ id Hp).
    rewrite (Locale_find_updated id _ _ _ _ tbl row Hf Ho).
    unfold LocaleMem.set_row. rewrite Hid. reflexivity.
  - intros config env r tbl id req row Hp Hb Hv Hf Ho t run.
    destruct (Simple_hit_found id _ tbl row Hf Ho) as (_ & Hid & _ & _).
    unfold run.
    rewrite (Simple_Update_on_table uuid_Parse config env r tbl id req row
               Hp Hb Hv Hf Ho).
    cbn [fst snd]. unfold SimpleMem.set_row. rewrite Hid. fold t.
    split; [reflexivity |].
    split; [unfold SimpleMem.update_rows; apply length_map |].
    split; [intros x Hx Hne; now apply Simple_others_kept |].
    rewrite (Simple_GetByID_on_table uuid_Parse r _ id Hp).
    rewrite (Simple_find_updated id _ _ _ tbl row Hf Ho).
    unfold SimpleMem.set_row. rewrite Hid. reflexivity.
Qed.

Lemma X17_update_on_table_witness :
  let c := Locale.mkCtx Sample.row_id_text Sample.no_query
             (CtxUUID Sample.owner) Sample.no_body
             (inr (Locale.mkUpdate "fr" " <b>Bonjour</b> ")) in
  fst (Locale.Update UuidText.Parse _ LocaleMem.db Sample.config Sample.env c
                     [Sample.stored_row])
  = Locale.mkResponse 200
      (Locale.J_translatable
         (Locale.mkTranslatable Sample.row_id (Some Sample.owner)
            (Sample.uuid_of Sample.host_id_text) "posts" "fr"
            "&lt;b&gt;Bonjour&lt;/b&gt;" (Some 1700000000) 1600000000)).
Proof.
  intros c.
  destruct (X17_update_on_table UuidText.Parse) as (H & _).
  destruct (H Sample.config Sample.env c [Sample.stored_row] Sample.row_id
              (Locale.mkUpdate "fr" " <b>Bonjour</b> ") Sample.stored_row)
    as (H1 & _).
  - reflexivity.
  - reflexivity.
  - reflexivity.
  - reflexivity.
  - reflexivity.
  - exact H1.
Defined.

(** X18. Deleting a stored row, on the table in memory.  When the table
    holds a row under the requested id and the caller owns it (or gives no
    identity), the delete is answered 200 with the fixed message; the row
    is gone, no row is added, and rows under other ids stay.  If ids are
    unique in the table, reading the id afterwards is answered 404 and so
    is deleting it a second time.  Reading never changes the table: it
    answers 200 with the first row under the id, or 404 if there is none.
    This holds in both variants. *)
Theorem X18_delete_on_table (uuid_Parse : string -> error + UUID) :
  (forall c tbl id row,
      uuid_Parse (Locale.c_Params_id c) = inr id ->
      find (fun t => UUID_eqb (Locale.t_ID t) id) tbl = Some row ->
      LocaleMem.owned (Locale.getUserIDFromFiberContext uuid_Parse c) row
      = true ->
      let run := Locale.Delete uuid_Parse _ LocaleMem.db c tbl in
      fst run = Locale.mkResponse 200
                  (Locale.J_message "Translation deleted successfully")
      /\ ~ In row (snd run)
      /\ (forall x, In x (snd run) -> In x tbl)
      /\ (forall x, In x tbl -> Locale.t_ID x <> id -> In x (snd run))
      /\ (NoDup (map Locale.t_ID tbl) ->
          Locale.GetByID uuid_Parse _ LocaleMem.db c (snd run)
          = (Locale.mkResponse 404 (Locale.J_error "Translation not found"),
             snd run)
          /\ fst (Locale.Delete uuid_Parse _ LocaleMem.db c (snd run))
             = Locale.mkResponse 404
                 (Locale.J_error
                    (not_found_text "translation" "delete"
                       (Locale.getUserIDFromFiberContext uuid_Parse c)))))
  /\ (forall c tbl id,
      uuid_Parse (Locale.c_Params_id c) = inr id ->
      Locale.GetByID uuid_Parse _ LocaleMem.db c tbl
      = (match find (fun t => UUID_eqb (Locale.t_ID t) id) tbl with
         | Some t => Locale.mkResponse 200 (Locale.J_translatable t)
         | None =>
             Locale.mkResponse 404 (Locale.J_error "Translation not found")
         end, tbl))
  /\ (forall r tbl id row,
      uuid_Parse (Simple.idStr r) = inr id ->
      find (fun t => UUID_eqb (Simple.t_ID t) id) tbl = Some row ->
      SimpleMem.owned (Simple.getUserIDFromContext uuid_Parse r) row = true ->
      let run := Simple.Delete uuid_Parse _ (Simple.NewRepository SimpleMem.db)
                               r tbl in
      fst run = Simple.mkResponse 200
                  (Simple.J_message "Translatable deleted successfully")
      /\ ~ In row (snd run)
      /\ (forall x, In x (snd run) -> In x tbl)
      /\ (forall x, In x tbl -> Simple.t_ID x <> id -> In x (snd run))
      /\ (NoDup (map Simple.t_ID tbl) ->
          Simple.GetByID uuid_Parse _ (Simple.NewRepository SimpleMem.db) r
                         (snd run)
          = (Simple.mkResponse 404 (Simple.J_error "translatable not found"),
             snd run)
          /\ fst (Simple.Delete uuid_Parse _
                    (Simple.NewRepository SimpleMem.db) r (snd run))
             = Simple.mkResponse 404
                 (Simple.J_error
                    (not_found_text "translatable" "delete"
                       (Simple.getUserIDFromContext uuid_Parse r)))))
  /\ (forall r tbl id,
      uuid_Parse (Simple.idStr r) = inr id ->
      Simple.GetByID uuid_Parse _ (Simple.NewRepository SimpleMem.db) r tbl
      = (match find (fun t => UUID_eqb (Simple.t_ID t) id) tbl with
         | Some t => Simple.mkResponse 200 (Simple.J_translatable t)
         | None =>
             Simple.mkResponse 404 (Simple.J_error "translatable not found")
         end, tbl)).
Proof.
  split; [| split; [| split]].
  - intros c tbl id row Hp Hf Ho run.
    destruct (Locale_hit_found id _ tbl row Hf Ho) as (Hin & Hid & Hh & _).
    unfold run.
    rewrite (Locale_Delete_on_table uuid_Parse c tbl id row Hp Hf Ho).
    cbn [fst snd].
    split; [reflexivity |].
    split.
    { unfold LocaleMem.delete_rows. intros K. apply filter_In in K.
      destruct K as (_ & K). rewrite Hh in K. discriminate K. }
    split.
    { unfold LocaleMem.delete_rows. intros x K. apply filter_In in K.
      exact (proj1 K). }
    split;
      [intros x Hx Hne;
       exact (proj2 (Locale_others_kept id _ EmptyString EmptyString 0 tbl
                       x Hx Hne)) |].
    intros Hn.
    pose proof (Locale_deleted_gone id _ tbl row Hn Hf Ho) as Hg.
    split.
    + rewrite (Locale_GetByID_on_table uuid_Parse c _ id Hp), Hg.
      reflexivity.
    + pose proof (LocaleMem_Exec_delete id
                    (Locale.getUserIDFromFiberContext uuid_Parse c)
                    (LocaleMem.delete_rows id
                       (Locale.getUserIDFromFiberContext uuid_Parse c) tbl))
        as He.
      rewrite (Locale_count_absent id _ _ Hg) in He.
      rewrite (Locale_Delete_404 uuid_Parse _ LocaleMem.db c _ _ id Hp He).
      cbn [fst].
      destruct (Locale.getUserIDFromFiberContext uuid_Parse c); reflexivity.
  - intros c tbl id Hp. now apply Locale_GetByID_on_table.
  - intros r tbl id row Hp Hf Ho run.
    destruct (Simple_hit_found id _ tbl row Hf Ho) as (Hin & Hid & Hh & _).
    unfold run.
    rewrite (Simple_Delete_on_table uuid_Parse r tbl id row Hp Hf Ho).
    cbn [fst snd].
    split; [reflexivity |].
    split.
    { unfold SimpleMem.delete_rows. intros K. apply filter_In in K.
      destruct K as (_ & K). rewrite Hh in K. discriminate K. }
    split.
    { unfold SimpleMem.delete_rows. intros x K. apply filter_In in K.
      exact (proj1 K). }
    split;
      [intros x Hx Hne;
       exact (proj2 (Simple_others_kept id _ EmptyString 0 tbl x Hx Hne)) |].
    intros Hn.
    pose proof (Simple_deleted_gone id _ tbl row Hn Hf Ho) as Hg.
    split.
    + rewrite (Simple_GetByID_on_table uuid_Parse r _ id Hp), Hg.
      reflexivity.
    + pose proof (SimpleMem_Exec_delete id
                    (Simple.getUserIDFromContext uuid_Parse r)
                    (SimpleMem.delete_rows id
                       (Simple.getUserIDFromContext uuid_Parse r) tbl))
        as He.
      rewrite (Simple_count_absent id _ _ Hg) in He.
      rewrite (Simple_Delete_404 uuid_Parse _ SimpleMem.db r _ _ id Hp He).
      cbn [fst].
      destruct (Simple.getUserIDFromContext uuid_Parse r); reflexivity.
  - intros r tbl id Hp. now apply Simple_GetByID_on_table.
Qed.

Lemma X18_delete_on_table_witness :
  let c := Locale.mkCtx Sample.row_id_text Sample.no_query
             (CtxUUID Sample.owner) Sample.no_body Sample.no_body in
  Locale.Delete UuidText.Parse _ LocaleMem.db c [Sample.stored_row]
  = (Locale.mkResponse 200
       (Locale.J_message "Translation deleted successfully"), [])
  /\ Locale.GetByID UuidText.Parse _ LocaleMem.db c []
     = (Locale.mkResponse 404 (Locale.J_error "Translation not found"), []).
Proof.
  intros c.
  destruct (X18_delete_on_table UuidText.Parse) as (H & _).
  destruct (H c [Sample.stored_row] Sample.row_id Sample.stored_row)
    as (H1 & _ & _ & _ & H5).
  - reflexivity.
  - reflexivity.
  - reflexivity.
  - split; [apply injective_projections; [exact H1 | reflexivity] |].
    apply H5. repeat constructor. intros [].
Defined.

(** *** Which id the handlers over net/http act on *)

Lemma idStr_query (r : Simple.Request) :
  Simple.r_URL_Query_Get r "id" <> "" ->
  forall p, Simple.idStr (with_path_id r p) = Simple.r_URL_Query_Get r "id".
Proof.
  intros H p. unfold Simple.idStr, with_path_id. cbn.
  apply String.eqb_neq in H. rewrite H. reflexivity.
Qed.

Lemma idStr_self (r : Simple.Request) :
  Simple.r_URL_Query_Get r "id" <> "" ->
  Simple.idStr r = Simple.r_URL_Query_Get r "id".
Proof.
  intros H. unfold Simple.idStr. apply String.eqb_neq in H.
  rewrite H. reflexivity.
Qed.

Lemma idStr_replaced (r : Simple.Request) (v : string) :
  v <> "" ->
  Simple.idStr (with_url_query r "id" v) = v
  /\ Simple.idStr (with_url_query (with_path_id r v) "id" "") = v.
Proof.
  intros H. unfold Simple.idStr, with_url_query, with_path_id. cbn.
  apply String.eqb_neq in H. rewrite H. split; reflexivity.
Qed.

(** X19. The handlers over net/http take the id from the [id] query
    parameter when it is not empty and from the path only otherwise.  With
    a non-empty [id] parameter the path id is ignored altogether: the
    answer of [GetByID], [Update] and [Delete] is the same whatever the
    path holds, and it is the answer to the request that carries the
    parameter's value in the path and no [id] parameter. *)
Theorem X19_query_id_over_path (uuid_Parse : string -> error + UUID)
        (St : Type) (repo : Simple.Repository St) (config : Simple.Config)
        (env : Env) (r : Simple.Request) (st : St) :
  (Simple.r_URL_Query_Get r "id" <> "" ->
   forall p,
     Simple.GetByID uuid_Parse _ repo (with_path_id r p) st
     = Simple.GetByID uuid_Parse _ repo r st
     /\ Simple.Update uuid_Parse _ repo config env (with_path_id r p) st
        = Simple.Update uuid_Parse _ repo config env r st
     /\ Simple.Delete uuid_Parse _ repo (with_path_id r p) st
        = Simple.Delete uuid_Parse _ repo r st)
  /\ (forall v, v <> "" ->
      Simple.GetByID uuid_Parse _ repo (with_url_query r "id" v) st
      = Simple.GetByID uuid_Parse _ repo
          (with_url_query (with_path_id r v) "id" "") st
      /\ Simple.Update uuid_Parse _ repo config env
           (with_url_query r "id" v) st
         = Simple.Update uuid_Parse _ repo config env
             (with_url_query (with_path_id r v) "id" "") st
      /\ Simple.Delete uuid_Parse _ repo (with_url_query r "id" v) st
         = Simple.Delete uuid_Parse _ repo
             (with_url_query (with_path_id r v) "id" "") st).
Proof.
  split.
  - intros H p.
    unfold Simple.GetByID, Simple.Update, Simple.Delete.
    rewrite (idStr_query r H p), (idStr_self r H).
    repeat split; reflexivity.
  - intros v H. destruct (idStr_replaced r v H) as (H1 & H2).
    unfold Simple.GetByID, Simple.Update, Simple.Delete.
    rewrite H1, H2. repeat split; reflexivity.
Qed.

Lemma X19_query_id_over_path_witness :
  let r := Simple.mkRequest
             (fun key => if (key =? "id")%string then Sample.row_id_text
                         else "")
             "not-a-uuid" CtxNil Sample.no_body Sample.no_body in
  Simple.GetByID UuidText.Parse _ (Simple.NewRepository SimpleMem.db)
                 (with_path_id r Sample.host_id_text) [Sample.simple_row]
  = Simple.GetByID UuidText.Parse _ (Simple.NewRepository SimpleMem.db) r
                   [Sample.simple_row].
Proof.
  intros r.
  destruct (X19_query_id_over_path UuidText.Parse _
              (Simple.NewRepository SimpleMem.db) Simple.DefaultConfig
              Sample.env r [Sample.simple_row]) as (H & _).
  apply H. discriminate.
Defined.

(** *** The mock rows and the mock database *)

Lemma Mocks_iterate_spec (fuel : nat) (m : Mocks.MockRows) :
  Mocks.maxNext m <= Go.maxInt ->
  (Z.to_nat (Mocks.maxNext m - Mocks.nextCount m) < fuel)%nat ->
  Mocks.iterate fuel m
  = (repeat (Mocks.Scan m)
            (Z.to_nat (Mocks.maxNext m - Mocks.nextCount m)),
     Mocks.mkMockRows (Mocks.closed m) (Mocks.closeErr m) (Mocks.scanErr m)
       (Z.max (Mocks.nextCount m) (Mocks.maxNext m)) (Mocks.maxNext m)).
Proof.
  revert m. induction fuel as [| fuel IH]; intros m Hmax Hf; [lia |].
  destruct m as [cl ce se n mx]. cbn [Mocks.maxNext Mocks.nextCount] in *.
  cbn [Mocks.iterate]. unfold Mocks.Next.
  cbn [Mocks.maxNext Mocks.nextCount Mocks.closed Mocks.closeErr
       Mocks.scanErr].
  destruct (Z.ltb_spec n mx) as [Hlt | Hge].
  - unfold Mocks.incr. destruct (Z.eqb_spec n Go.maxInt) as [E | _]; [lia |].
    rewrite IH; cbn [Mocks.maxNext Mocks.nextCount Mocks.closed
                     Mocks.closeErr Mocks.scanErr]; [| lia | lia].
    replace (Z.to_nat (mx - n)) with (S (Z.to_nat (mx - (n + 1)))) by lia.
    replace (Z.max (n + 1) mx) with (Z.max n mx) by lia.
    reflexivity.
  - replace (Z.to_nat (mx - n)) with 0%nat by lia.
    replace (Z.max n mx) with n by lia. reflexivity.
Qed.

(** X20. The mock rows form a counter.  A loop over [Next] that is not
    left early makes exactly [maxNext - nextCount] rounds (none if that is
    not positive), and ends by itself: any larger bound on the rounds
    gives the same run.  Every [Scan] in it returns [scanErr], [Next] is
    false afterwards and stays false, and the run changes nothing but the
    counter, which ends at [maxNext].  So [NewMockRows(k)] yields [k] rows
    whose scans succeed, and the zero value yields none. *)
Theorem X20_mock_rows_counter (m : Mocks.MockRows) (fuel : nat) :
  Mocks.maxNext m <= Go.maxInt ->
  (Z.to_nat (Mocks.maxNext m - Mocks.nextCount m) < fuel)%nat ->
  let rounds := Z.to_nat (Mocks.maxNext m - Mocks.nextCount m) in
  let finished := snd (Mocks.iterate fuel m) in
  fst (Mocks.iterate fuel m) = repeat (Mocks.scanErr m) rounds
  /\ Mocks.Next finished = (false, finished)
  /\ Mocks.iterate fuel finished = ([], finished)
  /\ Mocks.nextCount finished = Z.max (Mocks.nextCount m) (Mocks.maxNext m)
  /\ (Mocks.closed finished, Mocks.closeErr finished, Mocks.scanErr finished,
      Mocks.maxNext finished)
     = (Mocks.closed m, Mocks.closeErr m, Mocks.scanErr m, Mocks.maxNext m)
  /\ (forall k, 0 <= k <= Go.maxInt ->
      fst (Mocks.iterate (S (Z.to_nat k)) (Mocks.NewMockRows k))
      = repeat None (Z.to_nat k)).
Proof.
  intros Hmax Hf rounds finished. unfold finished, rounds.
  rewrite (Mocks_iterate_spec fuel m Hmax Hf). cbn [fst snd].
  assert (Hn : Mocks.Next
                 (Mocks.mkMockRows (Mocks.closed m) (Mocks.closeErr m)
                    (Mocks.scanErr m)
                    (Z.max (Mocks.nextCount m) (Mocks.maxNext m))
                    (Mocks.maxNext m))
               = (false,
                  Mocks.mkMockRows (Mocks.closed m) (Mocks.closeErr m)
                    (Mocks.scanErr m)
                    (Z.max (Mocks.nextCount m) (Mocks.maxNext m))
                    (Mocks.maxNext m))).
  { unfold Mocks.Next. cbn [Mocks.maxNext Mocks.nextCount].
    destruct (Z.ltb_spec (Z.max (Mocks.nextCount m) (Mocks.maxNext m))
                         (Mocks.maxNext m)); [lia | reflexivity]. }
  split.
  { unfold Mocks.Scan. destruct (Mocks.scanErr m); reflexivity. }
  split; [exact Hn |].
  split.
  { destruct fuel as [| fuel]; [reflexivity |].
    cbn [Mocks.iterate]. rewrite Hn. reflexivity. }
  split; [reflexivity |].
  split; [reflexivity |].
  intros k Hk.
  rewrite Mocks_iterate_spec;
    cbn [Mocks.NewMockRows Mocks.maxNext Mocks.nextCount]; [| lia | lia].
  cbn [fst]. replace (k - 0) with k by lia. reflexivity.
Qed.

Lemma X20_mock_rows_counter_witness :
  fst (Mocks.iterate 5 (Mocks.NewMockRows 2)) = [None; None]
  /\ Mocks.Next (snd (Mocks.iterate 5 (Mocks.NewMockRows 2)))
     = (false, snd (Mocks.iterate 5 (Mocks.NewMockRows 2))).
Proof.
  destruct (X20_mock_rows_counter (Mocks.NewMockRows 2) 5)
    as (H1 & H2 & _).
  - vm_compute. discriminate.
  - vm_compute. lia.
  - split; [exact H1 | exact H2].
Defined.

Section OverTheMock.

Variable uuid_Parse : string -> error + UUID.
Variable zero : Locale.Translatable.

Lemma Mock_Create (config : Locale.Config) (env : Env) (c : Locale.Ctx)
      (req : Locale.CreateTranslatableRequest) (t : Locale.Translatable) :
  Locale.c_BodyParser_create c = inr req ->
  snd (Locale.Create_Validate uuid_Parse config req) = None ->
  Locale.ToTranslatable uuid_Parse env
    (fst (Locale.Create_Validate uuid_Parse config req))
    (Locale.getUserIDFromFiberContext uuid_Parse c) = inr t ->
  Locale.Create uuid_Parse _ (Mocks.as_Database _ zero mock_unset) config env c tt
  = (Locale.mkResponse 201 (Locale.J_translatable t), tt).
Proof.
  intros Hb Hv Ht. unfold Locale.Create. rewrite Hb.
  destruct (Locale.Create_Validate uuid_Parse config req) as [req' o].
  cbn [fst snd] in Hv, Ht. subst o. rewrite Ht. reflexivity.
Qed.

Lemma Mock_GetByID (c : Locale.Ctx) (id : UUID) :
  uuid_Parse (Locale.c_Params_id c) = inr id ->
  Locale.GetByID uuid_Parse _ (Mocks.as_Database _ zero mock_unset) c tt
  = (Locale.mkResponse 500 (Locale.J_error "Failed to get translation"), tt).
Proof.
  intros Hp.
  rewrite (Locale_GetByID_failure uuid_Parse _ (Mocks.as_Database _ zero mock_unset) c tt tt id
             (errors_New "no rows") Hp eq_refl).
  reflexivity.
Qed.

Lemma Mock_Update (config : Locale.Config) (env : Env) (c : Locale.Ctx)
      (id : UUID) (req : Locale.UpdateTranslatableRequest) :
  uuid_Parse (Locale.c_Params_id c) = inr id ->
  Locale.c_BodyParser_update c = inr req ->
  snd (Locale.Update_Validate config req) = None ->
  Locale.Update uuid_Parse _ (Mocks.as_Database _ zero mock_unset) config env c tt
  = (Locale.mkResponse 500
       (Locale.J_error "Failed to get updated translation"), tt).
Proof.
  intros Hp Hb Hv.
  rewrite (Locale_Update_read_back uuid_Parse _ (Mocks.as_Database _ zero mock_unset) config env c tt tt tt id
             req 1 (inl (errors_New "no rows")) Hp Hb Hv);
    [reflexivity | | discriminate | reflexivity].
  destruct (Locale.getUserIDFromFiberContext uuid_Parse c); reflexivity.
Qed.

Lemma Mock_Delete (c : Locale.Ctx) (id : UUID) :
  uuid_Parse (Locale.c_Params_id c) = inr id ->
  Locale.Delete uuid_Parse _ (Mocks.as_Database _ zero mock_unset) c tt
  = (Locale.mkResponse 200
       (Locale.J_message "Translation deleted successfully"), tt).
Proof.
  intros Hp. unfold Locale.Delete. rewrite Hp.
  destruct (Locale.getUserIDFromFiberContext uuid_Parse c); reflexivity.
Qed.

Lemma Mock_Query (config : Locale.Config) (c : Locale.Ctx)
      (params0 : Locale.QueryParams) :
  Locale.parseQueryParams uuid_Parse config c = inr params0 ->
  snd (Locale.QueryParams_Validate config params0) = None ->
  Locale.Query uuid_Parse _ (Mocks.as_Database _ zero mock_unset) config c tt
  = (Locale.mkResponse 500 (Locale.J_error "Failed to query translations"),
     tt).
Proof.
  intros Hp Hv. unfold Locale.Query. rewrite Hp.
  destruct (Locale.QueryParams_Validate config params0) as [params o].
  cbn [snd] in Hv. subst o. unfold Locale.queryFromDB.
  destruct (Locale.queryCount params) as [cq cargs].
  destruct (Locale.queryPage params) as [pq pargs]. reflexivity.
Qed.

Lemma Mock_Query_rows (config : Locale.Config) (c : Locale.Ctx)
      (params0 : Locale.QueryParams) (total k : Z) (e : error) :
  Locale.parseQueryParams uuid_Parse config c = inr params0 ->
  snd (Locale.QueryParams_Validate config params0) = None ->
  0 <= k <= Go.maxInt ->
  Locale.Query uuid_Parse _
    (Mocks.as_Database _ zero (mock_listing total k e)) config c tt
  = (Locale.mkResponse 200
       (Locale.J_collection total (repeat zero (Z.to_nat k))), tt).
Proof.
  intros Hp Hv Hk.
  destruct (Locale.QueryParams_Validate config params0) as [params o] eqn:Hq.
  cbn [snd] in Hv. subst o.
  destruct (Locale_Query_listing uuid_Parse unit
              (Mocks.as_Database _ zero (mock_listing total k e)) config c tt tt
              tt params0
              params total
              (Mocks.to_Rows Locale.Translatable zero (Mocks.NewMockRows k))
              Hp Hq eq_refl eq_refl) as (H & _).
  apply H; [| reflexivity].
  unfold Mocks.to_Rows. cbn [rows_scans].
  rewrite Mocks_iterate_spec;
    cbn [Mocks.NewMockRows Mocks.maxNext Mocks.nextCount]; [| lia | lia].
  cbn [fst]. replace (k - 0) with k by lia.
  unfold Mocks.Scan. cbn [Mocks.scanErr Mocks.NewMockRows].
  induction (Z.to_nat k) as [| n IH]; [reflexivity |].
  cbn [repeat map]. rewrite IH. reflexivity.
Qed.

End OverTheMock.

(** X21. The handlers over the mock database.  With no function set, the
    mock reports one affected row for every statement, an empty listing,
    and a failed scan with the text "no rows" for every single-row query.
    So a valid create is answered 201 and a delete 200 for any id, while
    every read fails with 500: [GetByID] (the mock's error is not the
    driver's no-rows error, so the answer is not 404), the read-back of
    [Update], and the count of [Query].  With a count of [total] and a
    listing of [NewMockRows(k)], [Query] answers 200 with that total and
    [k] rows that are all the zero value, since the mock's [Scan] writes
    nothing. *)
Theorem X21_handlers_over_mock (uuid_Parse : string -> error + UUID)
        (zero : Locale.Translatable) :
  (forall config env c req t,
      Locale.c_BodyParser_create c = inr req ->
      snd (Locale.Create_Validate uuid_Parse config req) = None ->
      Locale.ToTranslatable uuid_Parse env
        (fst (Locale.Create_Validate uuid_Parse config req))
        (Locale.getUserIDFromFiberContext uuid_Parse c) = inr t ->
      Locale.Create uuid_Parse _ (Mocks.as_Database _ zero mock_unset) config
                    env c tt
      = (Locale.mkResponse 201 (Locale.J_translatable t), tt))
  /\ (forall c id,
      uuid_Parse (Locale.c_Params_id c) = inr id ->
      Locale.GetByID uuid_Parse _ (Mocks.as_Database _ zero mock_unset) c tt
      = (Locale.mkResponse 500 (Locale.J_error "Failed to get translation"),
         tt)
      /\ Locale.Delete uuid_Parse _ (Mocks.as_Database _ zero mock_unset) c
                       tt
         = (Locale.mkResponse 200
              (Locale.J_message "Translation deleted successfully"), tt))
  /\ (forall config env c id req,
      uuid_Parse (Locale.c_Params_id c) = inr id ->
      Locale.c_BodyParser_update c = inr req ->
      snd (Locale.Update_Validate config req) = None ->
      Locale.Update uuid_Parse _ (Mocks.as_Database _ zero mock_unset) config
                    env c tt
      = (Locale.mkResponse 500
           (Locale.J_error "Failed to get updated translation"), tt))
  /\ (forall config c params0,
      Locale.parseQueryParams uuid_Parse config c = inr params0 ->
      snd (Locale.QueryParams_Validate config params0) = None ->
      Locale.Query uuid_Parse _ (Mocks.as_Database _ zero mock_unset) config
                   c tt
      = (Locale.mkResponse 500
           (Locale.J_error "Failed to query translations"), tt))
  /\ (forall config c params0 total k e,
      Locale.parseQueryParams uuid_Parse config c = inr params0 ->
      snd (Locale.QueryParams_Validate config params0) = None ->
      0 <= k <= Go.maxInt ->
      Locale.Query uuid_Parse _
        (Mocks.as_Database _ zero (mock_listing total k e)) config c tt
      = (Locale.mkResponse 200
           (Locale.J_collection total (repeat zero (Z.to_nat k))), tt)).
Proof.
  split; [intros; eapply Mock_Create; eassumption |].
  split.
  { intros c id Hp. split;
      [eapply Mock_GetByID | eapply Mock_Delete]; eassumption. }
  split; [intros; eapply Mock_Update; eassumption |].
  split; [intros; eapply Mock_Query; eassumption |].
  intros; eapply Mock_Query_rows; eassumption.
Qed.

Lemma X21_handlers_over_mock_witness :
  Locale.Query UuidText.Parse _
    (Mocks.as_Database _ zero_row
       (mock_listing 5 2 (errors_New "not a row")))
    Sample.config
    (Locale.mkCtx "" Sample.no_query CtxNil Sample.no_body Sample.no_body) tt
  = (Locale.mkResponse 200
       (Locale.J_collection 5 [zero_row; zero_row]), tt).
Proof.
  destruct (X21_handlers_over_mock UuidText.Parse zero_row)
    as (_ & _ & _ & _ & H).
  apply (H Sample.config
           (Locale.mkCtx "" Sample.no_query CtxNil Sample.no_body
                         Sample.no_body)
           (Locale.mkQueryParams None None None None 20 0) 5 2
           (errors_New "not a row")).
  - reflexivity.
  - reflexivity.
  - vm_compute. split; discriminate.
Defined.

(** *** Listing, on the table in memory *)

Lemma LocaleMem_decode_count (p : Locale.QueryParams) :
  LocaleMem.decode_count (fst (Locale.queryCount p))
                         (snd (Locale.queryCount p))
  = Some (Locale.mkQueryParams (Locale.q_TranslatableID p)
            (Locale.q_Translatable p) (Locale.q_Locale p)
            (Locale.q_UserID p) 0 0).
Proof.
  destruct p as [[a |] [b |] [c |] [d |] l o]; lazy; reflexivity.
Qed.

Lemma LocaleMem_decode_page (p : Locale.QueryParams) :
  LocaleMem.decode_page (fst (Locale.queryPage p)) (snd (Locale.queryPage p))
  = Some p.
Proof.
  destruct p as [[a |] [b |] [c |] [d |] l o]; lazy; reflexivity.
Qed.
